(** * TF-TRT node conversion: a shallow embedding of [convert_nodes.cc]

    The development follows
    [tensorflow/contrib/tensorrt/convert/convert_nodes.cc].  C++ [int]
    values are [Z]; a [nvinfer1::Dims] is its rank together with its
    array of extents; [Status] is an error code with its message; the
    converter's symbol table is a [gmap string _]; code that can stop
    the process ([CHECK], [LOG(FATAL)], a null dereference, an
    out-of-range [at]) returns a [Crash]. *)

From Stdlib Require Import ZArith List Lia Bool Ascii String.
From stdpp Require Import gmap strings list fin_maps pretty.

Local Open Scope Z_scope.
Local Open Scope string_scope.
Local Open Scope list_scope.

(** ** Status values ([tensorflow::Status], [tensorflow::errors]) *)

Module error.
Inductive Code :=
| OK | InvalidArgument | Unimplemented | NotFound | AlreadyExists
| Internal | OutOfRange | FailedPrecondition.

#[global] Instance Code_eq_dec : EqDecision Code.
Proof. solve_decision. Defined.
End error.

Record Status := mkStatus { code : error.Code; error_message : string }.

#[global] Instance Status_eq_dec : EqDecision Status.
Proof. solve_decision. Defined.

Definition Status_OK : Status := mkStatus error.OK "".

Definition ok (s : Status) : bool := bool_decide (code s = error.OK).

Module errors.
Definition InvalidArgument (msg : string) := mkStatus error.InvalidArgument msg.
Definition Unimplemented (msg : string) := mkStatus error.Unimplemented msg.
Definition NotFound (msg : string) := mkStatus error.NotFound msg.
Definition AlreadyExists (msg : string) := mkStatus error.AlreadyExists msg.
Definition Internal (msg : string) := mkStatus error.Internal msg.
Definition OutOfRange (msg : string) := mkStatus error.OutOfRange msg.
Definition FailedPrecondition (msg : string) :=
  mkStatus error.FailedPrecondition msg.
End errors.

(** [StrCat] of a list of pieces; integers are printed in decimal. *)
Definition StrCat (pieces : list string) : string := foldr String.append "" pieces.

(** ** Outcomes: a returned value or a process abort *)

Inductive Fault :=
| NullConverter      (* [params->converter] dereferenced while null *)
| NullOutputs        (* [params->outputs] dereferenced while null *)
| NullTensor         (* a null or dangling tensor pointer dereferenced *)
| NullLayer          (* a null layer pointer dereferenced *)
| NullNode           (* a null graph node pointer dereferenced *)
| CheckFailed        (* [CHECK], [CHECK_EQ], [TF_CHECK_OK], [LOG(FATAL)] *)
| OutOfBounds.       (* [at] past the end, or an index outside an array *)

Inductive Outcome (A : Type) :=
| Done (a : A)
| Crash (f : Fault).
Arguments Done {A} a.
Arguments Crash {A} f.

(** ** Machine integers *)

(** Conversion of a 64-bit value to [int], and signed 64-bit wrap-around. *)
Definition wrap (bits : Z) (x : Z) : Z :=
  (x + 2 ^ (bits - 1)) mod 2 ^ bits - 2 ^ (bits - 1).
Definition to_int (x : Z) : Z := wrap 32 x.
Definition to_int64 (x : Z) : Z := wrap 64 x.


(** Conversion to [size_t]. *)
Definition to_size_t (x : Z) : Z := x mod 2 ^ 64.

(** ** [nvinfer1::Dims] *)

Definition MAX_DIMS : Z := 8.

(** [nbDims] is the rank, [d] the array of extents.  Entries of [d] at or
    past [nbDims] carry no meaning; the batch dimension is not part of a
    tensor's [Dims]. *)
Record Dims := mkDims { nbDims : Z; d : list Z }.

#[global] Instance Dims_eq_dec : EqDecision Dims.
Proof. solve_decision. Defined.

(** Array read [a[i]]; the model reads 0 outside the array. *)
Definition idx (a : list Z) (i : Z) : Z :=
  if decide (0 <= i) then nth (Z.to_nat i) a 0 else 0.

(** Array write [a[i] = v]; the model leaves the array as it is when [i]
    is outside of it. *)
Definition upd (a : list Z) (i : Z) (v : Z) : list Z :=
  if decide (0 <= i) then <[Z.to_nat i := v]> a else a.

(** A [Dims] as the C++ code may receive it: a rank within the array and
    an array that holds at least that many extents. *)
Definition Dims_wf (dm : Dims) : Prop :=
  0 <= nbDims dm <= MAX_DIMS /\ (Z.to_nat (nbDims dm) <= length (d dm))%nat.

(** The meaningful extents of a [Dims]. *)
Definition extents (dm : Dims) : list Z := take (Z.to_nat (nbDims dm)) (d dm).

(** A freshly declared [nvinfer1::Dims]. *)
Definition Dims_fresh : Dims := mkDims 0 (replicate (Z.to_nat MAX_DIMS) 0).

(** [Dims] with the given extents, the slots of the array behind them
    holding 0. *)
Definition Dims_of (l : list Z) : Dims :=
  mkDims (Z.of_nat (length l))
         (l ++ replicate (Z.to_nat MAX_DIMS - length l) 0).

(** [std::memcpy(dst + off, src, n * sizeof(int))] on [int] arrays. *)
Definition memcpy (dst : list Z) (off : Z) (src : list Z) (n : Z) : list Z :=
  take (Z.to_nat off) dst ++ take (Z.to_nat n) src
    ++ drop (Z.to_nat off + Z.to_nat n) dst.

(** ** Buffers

    A weight buffer is its sequence of bytes; the typed pointers the code
    casts it to read and write little-endian elements of 1, 2, 4 or 8
    bytes.  Reads outside the buffer yield 0 in the model. *)

Fixpoint load_le (buf : list Z) (pos : Z) (size : nat) : Z :=
  match size with
  | O => 0
  | S k => idx buf pos + 256 * load_le buf (pos + 1) k
  end.

Fixpoint store_le (buf : list Z) (pos : Z) (size : nat) (v : Z) : list Z :=
  match size with
  | O => buf
  | S k => store_le (upd buf pos (v mod 256)) (pos + 1) k (v / 256)
  end.

(** Element [i] of the buffer seen as an array of an unsigned, and of a
    signed, element type of [size] bytes. *)
Definition load_unsigned (size : nat) (buf : list Z) (i : Z) : Z :=
  load_le buf (i * Z.of_nat size) size.

Definition load_signed (size : nat) (buf : list Z) (i : Z) : Z :=
  wrap (8 * Z.of_nat size) (load_unsigned size buf i).

(** Assignment to element [i] of the buffer seen as such an array. *)
Definition store_elem (size : nat) (buf : list Z) (i : Z) (v : Z) : list Z :=
  store_le buf (i * Z.of_nat size) size (v mod 2 ^ (8 * Z.of_nat size)).

(** [for (i = 0; i < n; i++) dst[i] = f(src[i])] with elements of
    [src_size] and [dst_size] bytes. *)
Definition transform (src_size dst_size : nat) (f : Z -> Z)
    (src dst : list Z) (n : Z) : list Z :=
  foldl (fun acc i =>
           store_elem dst_size acc (Z.of_nat i)
                      (f (load_unsigned src_size src (Z.of_nat i))))
        dst (seq 0 (Z.to_nat n)).

(** ** Shape utilities *)

(** [max_nb_dims = nvinfer1::Dims::MAX_DIMS + 1] *)
Definition max_nb_dims : Z := MAX_DIMS + 1.

(** The loop [for (i = max_d - 1; i >= 0; i--)] of the feasibility check,
    as a scan over the indices [n-1, ..., 0]: [true] when the loop runs to
    its end. *)
Fixpoint broadcast_feasible (l_s r_s : list Z) (n : nat) : bool :=
  match n with
  | O => true
  | S i =>
      if bool_decide (idx l_s (Z.of_nat i) <> idx r_s (Z.of_nat i))
         && bool_decide (idx l_s (Z.of_nat i) <> 1)
         && bool_decide (idx r_s (Z.of_nat i) <> 1)
      then false
      else broadcast_feasible l_s r_s i
  end.

(** The two work arrays [l_s], [r_s] after the fill and the two
    [memcpy]s, before the batch slot is set. *)
Definition filled (operand : Dims) (max_d : Z) : list Z :=
  memcpy (replicate (Z.to_nat max_nb_dims) 1) (max_d - nbDims operand)
         (d operand) (nbDims operand).

(** [TensorRTGetBroadcastShape]; the last two arguments are the previous
    contents of the output parameters, returned unchanged when the
    function returns [false].  The definition is for operands with a
    combined rank of at least 1: for two weights of rank 0 the code
    asks [memcpy] for a negative number of bytes. *)
Definition TensorRTGetBroadcastShape
    (operand_l : Dims) (operand_l_is_tensor : bool)
    (operand_r : Dims) (operand_r_is_tensor : bool)
    (operand_l_new_shape operand_r_new_shape : Dims) : bool * Dims * Dims :=
  let l_d := if operand_l_is_tensor then nbDims operand_l + 1 else nbDims operand_l in
  let r_d := if operand_r_is_tensor then nbDims operand_r + 1 else nbDims operand_r in
  let max_d := Z.max l_d r_d in
  let l_s := filled operand_l max_d in
  let r_s := filled operand_r max_d in
  if operand_l_is_tensor && negb (bool_decide (max_d = l_d)) then
    (false, operand_l_new_shape, operand_r_new_shape)
  else
    let l_s := if operand_l_is_tensor then upd l_s 0 (-1) else l_s in
    if operand_r_is_tensor && negb (bool_decide (max_d = r_d)) then
      (false, operand_l_new_shape, operand_r_new_shape)
    else
      let r_s := if operand_r_is_tensor then upd r_s 0 (-1) else r_s in
      if broadcast_feasible l_s r_s (Z.to_nat max_d) then
        (true,
         mkDims (max_d - 1)
                (memcpy (d operand_l_new_shape) 0 (drop 1 l_s) (max_d - 1)),
         mkDims (max_d - 1)
                (memcpy (d operand_r_new_shape) 0 (drop 1 r_s) (max_d - 1)))
      else (false, operand_l_new_shape, operand_r_new_shape).

(** [DimsEqual] *)
Fixpoint DimsEqual_from (dl dr : list Z) (i : Z) (n : nat) : bool :=
  match n with
  | O => true
  | S n' =>
      if bool_decide (idx dl i <> idx dr i) then false
      else DimsEqual_from dl dr (i + 1) n'
  end.

Definition DimsEqual (dim_l dim_r : Dims) : bool :=
  if bool_decide (nbDims dim_l <> nbDims dim_r) then false
  else DimsEqual_from (d dim_l) (d dim_r) 0 (Z.to_nat (nbDims dim_l)).

(** [HasStaticShape] *)
Fixpoint HasStaticShape_from (a : list Z) (i : Z) (n : nat) : bool :=
  match n with
  | O => true
  | S n' =>
      if bool_decide (idx a i < 0) then false
      else HasStaticShape_from a (i + 1) n'
  end.

Definition HasStaticShape (dims : Dims) : bool :=
  if bool_decide (nbDims dims < 0) then false
  else HasStaticShape_from (d dims) 0 (Z.to_nat (nbDims dims)).

(** [TrtDimsNumElements]: the running product is an [int64_t]. *)
Fixpoint TrtDimsNumElements_from (a : list Z) (i : Z) (n : nat) (count : Z) : Z :=
  match n with
  | O => count
  | S n' => TrtDimsNumElements_from a (i + 1) n' (to_int64 (count * idx a i))
  end.

Definition TrtDimsNumElements (dims : Dims) : Z :=
  if bool_decide (nbDims dims = 0) then 0
  else TrtDimsNumElements_from (d dims) 0 (Z.to_nat (nbDims dims)) 1.




(** [GetCommonNameScope] *)
Fixpoint common_scope_length (a b : string) (i last_scope_separator : nat) : nat :=
  match a, b with
  | String ca a', String cb b' =>
      if bool_decide (ca <> cb) then last_scope_separator
      else common_scope_length a' b' (S i)
             (if bool_decide (ca = "/"%char) then S i else last_scope_separator)
  | _, _ => last_scope_separator
  end.

Definition GetCommonNameScope (op_name_a op_name_b : string) : string :=
  substring 0 (common_scope_length op_name_a op_name_b 0 0) op_name_a.

(** ** Element types *)

Inductive DataType :=
| DT_INVALID | DT_FLOAT | DT_DOUBLE | DT_INT32 | DT_UINT8 | DT_INT16
| DT_INT8 | DT_STRING | DT_INT64 | DT_BOOL | DT_HALF.

#[global] Instance DataType_eq_dec : EqDecision DataType.
Proof. solve_decision. Defined.

Module nvinfer1.
Inductive DataType := kFLOAT | kHALF | kINT8 | kINT32.

#[global] Instance DataType_eq_dec : EqDecision DataType.
Proof. solve_decision. Defined.

Inductive ScaleMode := kUNIFORM | kCHANNEL | kELEMENTWISE.

#[global] Instance ScaleMode_eq_dec : EqDecision ScaleMode.
Proof. solve_decision. Defined.

Inductive UnaryOperation := kEXP | kLOG | kSQRT | kRECIP | kABS | kNEG.

Inductive ElementWiseOperation :=
| kSUM | kPROD | kMAX | kMIN | kSUB | kDIV | kPOW.

#[global] Instance UnaryOperation_eq_dec : EqDecision UnaryOperation.
Proof. solve_decision. Defined.

#[global] Instance ElementWiseOperation_eq_dec : EqDecision ElementWiseOperation.
Proof. solve_decision. Defined.

(** [nvinfer1::Weights]: element type, the bytes behind [values],
    count. *)
Record Weights := mkWeights {
  type : DataType; values : list Z; count : Z }.

#[global] Instance Weights_eq_dec : EqDecision Weights.
Proof. solve_decision. Defined.

(** An [ITensor*]: [None] is [nullptr], [Some i] the [i]-th tensor
    object of the network. *)
Definition ITensorPtr := option nat.

(** The layers the modelled converters create, with the settings the
    code gives them ([setFirstTranspose], [setReshapeDimensions]). *)
Inductive Layer :=
| IShuffleLayer (input : nat) (first_transpose : option (list Z))
                (reshape_dimensions : option Dims)
| IConstantLayer (dimensions : Dims) (weights : Weights)
| IUnaryLayer (input : nat) (operation : UnaryOperation)
| IScaleLayer (input : nat) (mode : ScaleMode) (shift scale power : Weights)
| IElementWiseLayer (input1 input2 : nat) (op : ElementWiseOperation)
| IFullyConnectedLayer (input : nat) (nbOutputs : Z) (kernel bias : Weights).

#[global] Instance Layer_eq_dec : EqDecision Layer.
Proof. solve_decision. Defined.

(** The network under construction: the names of its tensor objects
    (a tensor is identified by its position), the layers with the
    position of their output tensor, the declared inputs and the
    tensors marked as outputs. *)
Record INetworkDefinition := mkNetwork {
  tensor_names : list string;
  layers : list (Layer * nat);
  network_inputs : list (nat * DataType * Dims);
  marked_outputs : list nat }.

Definition empty_network : INetworkDefinition := mkNetwork [] [] [] [].
End nvinfer1.

(** The accelerator library is an external collaborator.  What the code
    asks of it is collected in an interface: whether a layer constructor
    returns [nullptr], the name a new tensor starts with, and the
    dimensions and element type the library reports for a tensor. *)
Class TensorRT := {
  add_returns_null : nvinfer1.INetworkDefinition -> nvinfer1.Layer -> bool;
  addInput_returns_null :
    nvinfer1.INetworkDefinition -> string -> nvinfer1.DataType -> Dims -> bool;
  initial_name : nvinfer1.INetworkDefinition -> nvinfer1.Layer -> string;
  getDimensions : nvinfer1.INetworkDefinition -> nat -> Dims;
  getType : nvinfer1.INetworkDefinition -> nat -> nvinfer1.DataType
}.

(** Scalar arithmetic on the raw encoding of weight elements
    ([Eigen::half_impl::float_to_half_rtne], the lambdas of
    [LambdaFactory::unary]). *)
Class ScalarOps := {
  float_to_half_rtne : Z -> Z;
  rsqrt : DataType -> Z -> Z;
  negate : DataType -> Z -> Z;
  reciprocal : DataType -> Z -> Z
}.

(** [ConvertDType]: the second argument is the previous content of the
    output parameter. *)
Definition DataTypeString (t : DataType) : string :=
  match t with
  | DT_INVALID => "INVALID" | DT_FLOAT => "float" | DT_DOUBLE => "double"
  | DT_INT32 => "int32" | DT_UINT8 => "uint8" | DT_INT16 => "int16"
  | DT_INT8 => "int8" | DT_STRING => "string" | DT_INT64 => "int64"
  | DT_BOOL => "bool" | DT_HALF => "half"
  end.

(** [tensorflow::DataTypeSize] *)
Definition DataTypeSize (t : DataType) : Z :=
  match t with
  | DT_FLOAT => 4 | DT_DOUBLE => 8 | DT_INT32 => 4 | DT_UINT8 => 1
  | DT_INT16 => 2 | DT_INT8 => 1 | DT_INT64 => 8 | DT_BOOL => 1
  | DT_HALF => 2 | DT_STRING => 0 | DT_INVALID => 0
  end.

Definition ConvertDType (tf_dtype : DataType) (trt_dtype : nvinfer1.DataType)
    : Status * nvinfer1.DataType :=
  match tf_dtype with
  | DT_FLOAT => (Status_OK, nvinfer1.kFLOAT)
  | DT_INT8 => (Status_OK, nvinfer1.kINT8)
  | DT_HALF => (Status_OK, nvinfer1.kHALF)
  | DT_INT32 => (Status_OK, nvinfer1.kINT32)
  | _ => (errors.InvalidArgument
            (StrCat ["Unsupported data type "; DataTypeString tf_dtype]),
          trt_dtype)
  end.

(** ** [TRT_ShapedWeights] *)

Module TRT_ShapedWeights.
(** [values] is the buffer of the backing tensor, byte by byte. *)
Record t := mk { shape_ : Dims; type_ : DataType; values : list Z }.

#[global] Instance eq_dec : EqDecision t.
Proof. solve_decision. Defined.

(** [TRT_ShapedWeights(DataType type)] *)
Definition of_type (type : DataType) : t :=
  mk (mkDims 0 (d Dims_fresh)) type [].

Definition count (w : t) : Z := TrtDimsNumElements (shape_ w).

(** [GetTrtWeights]; [TF_CHECK_OK] aborts on an unsupported type. *)
Definition GetTrtWeights (w : t) : Outcome nvinfer1.Weights :=
  let '(status, trt_type) := ConvertDType (type_ w) nvinfer1.kFLOAT in
  if ok status then Done (nvinfer1.mkWeights trt_type (values w) (count w))
  else Crash CheckFailed.

(** [static_cast<int*>(weights.GetValues())[i]] *)
Definition weights_ptr (w : t) (i : Z) : Z := load_signed 4 (values w) i.

(** [size_bytes] *)
Definition size_bytes (w : t) : Z :=
  to_size_t (count w * DataTypeSize (type_ w)).
End TRT_ShapedWeights.

(** ** [TRT_TensorOrWeights] *)

Module TRT_TensorOrWeights.
Record t := mk {
  tensor_ : nvinfer1.ITensorPtr;
  batch_size_ : Z;
  weights_ : TRT_ShapedWeights.t;
  initialized_ : bool;
  is_tensor_ : bool }.

#[global] Instance eq_dec : EqDecision t.
Proof. solve_decision. Defined.

(** Modelled from the spec: the class declaration (its default member
    values and inline accessors) is in the header, which is not part of
    the translated source.  The batch size of a value that was given
    none is the "unknown" negative sentinel. *)
Definition unknown_batch_size : Z := -1.

(** [TRT_TensorOrWeights(nvinfer1::ITensor* tensor, int batch_size)] *)
Definition of_tensor (tensor : nvinfer1.ITensorPtr) (batch_size : Z) : t :=
  mk tensor batch_size (TRT_ShapedWeights.of_type DT_FLOAT) true true.

(** [TRT_TensorOrWeights(const TRT_ShapedWeights& weights)] *)
Definition of_weights (weights : TRT_ShapedWeights.t) : t :=
  mk None unknown_batch_size weights true false.

(** Modelled from the spec: [is_tensor] and [is_weights] are mutually
    exclusive and total; querying the variant that is not active is a
    usage error. *)
Definition is_tensor (x : t) : bool := is_tensor_ x.
Definition is_weights (x : t) : bool := negb (is_tensor_ x).

Definition tensor (x : t) : Outcome nvinfer1.ITensorPtr :=
  if is_tensor x then Done (tensor_ x) else Crash CheckFailed.

Definition weights (x : t) : Outcome TRT_ShapedWeights.t :=
  if is_weights x then Done (weights_ x) else Crash CheckFailed.

Definition batch_size (x : t) : Z := batch_size_ x.

Definition set_batch_size (x : t) (batch_size : Z) : t :=
  mk (tensor_ x) batch_size (weights_ x) (initialized_ x) (is_tensor_ x).
End TRT_TensorOrWeights.

(** ** [TrtWeightStore] *)

Module TrtWeightStore.
(** The store keeps the allocated tensors alive; the model records the
    type and shape of each and lets the [TRT_ShapedWeights] view carry
    the bytes. *)
Record t := mk { store_ : list (DataType * list Z) }.

Definition empty : t := mk [].

(** [GetTempWeights(type, dims)]: [TF_CHECK_OK(MakeShape(...))] aborts
    on a negative extent; the buffer holds one element of [type] per
    element of the tensor shape. *)
Definition GetTempWeights (type : DataType) (dims : Dims) (s : t)
    : Outcome (TRT_ShapedWeights.t * t) :=
  if bool_decide (Forall (fun x => 0 <= x) (extents dims)) then
    let n := foldr Z.mul 1 (extents dims) in
    Done (TRT_ShapedWeights.mk dims type
            (replicate (Z.to_nat (n * DataTypeSize type)) 0),
          mk (store_ s ++ [(type, extents dims)]))
  else Crash CheckFailed.

(** [GetTempWeights(const TRT_ShapedWeights& weights)] *)
Definition GetTempWeights_like (weights : TRT_ShapedWeights.t) (s : t) :=
  GetTempWeights (TRT_ShapedWeights.type_ weights)
                 (TRT_ShapedWeights.shape_ weights) s.
End TrtWeightStore.

(** ** Node definitions *)

(** [PartialTensorShape]: [None] is a shape of unknown rank. *)
Definition PartialTensorShape := option (list Z).

(** [TensorProto]: [float_val] and [half_val] hold raw encodings,
    [tensor_content] bytes. *)
Record TensorProto := mkTensorProto {
  dtype : DataType;
  tensor_shape : list Z;
  float_val : list Z;
  int_val : list Z;
  half_val : list Z;
  tensor_content : list Z }.

Inductive AttrValue :=
| attr_s (s : string)
| attr_i (i : Z)
| attr_f (f : Z)
| attr_b (b : bool)
| attr_type (type : DataType)
| attr_shape (shape : PartialTensorShape)
| attr_tensor (tensor : TensorProto)
| attr_list_i (l : list Z)
| attr_list_f (l : list Z)
| attr_unset.

Record NodeDef := mkNodeDef {
  name : string;
  op : string;
  input : list string;
  attr : gmap string AttrValue }.

(** [TFAttrs]: [at] aborts ([LOG(FATAL)]) on a missing key; a typed
    accessor of an attribute holding another kind yields the default. *)
Module TFAttrs.
Definition at_ (node_def : NodeDef) (key : string) : Outcome AttrValue :=
  match attr node_def !! key with
  | Some v => Done v
  | None => Crash CheckFailed
  end.

Definition get_DataType (node_def : NodeDef) (key : string) : Outcome DataType :=
  match at_ node_def key with
  | Done (attr_type ty) => Done ty
  | Done _ => Done DT_INVALID
  | Crash f => Crash f
  end.

Definition get_bool (node_def : NodeDef) (key : string) : Outcome bool :=
  match at_ node_def key with
  | Done (attr_b b) => Done b
  | Done _ => Done false
  | Crash f => Crash f
  end.

(** [get<nvinfer1::DataType>]: [TF_CHECK_OK(ConvertDType(...))] *)
Definition get_trt_DataType (node_def : NodeDef) (key : string)
    : Outcome nvinfer1.DataType :=
  match get_DataType node_def key with
  | Done ty =>
      let '(status, trt_dtype) := ConvertDType ty nvinfer1.kFLOAT in
      if ok status then Done trt_dtype else Crash CheckFailed
  | Crash f => Crash f
  end.
End TFAttrs.

(** ** State passing *)

(** A computation over a state [S] that returns a value or aborts. *)
Definition ST (S A : Type) : Type := S -> Outcome (A * S).

#[global] Instance ST_ret {S} : MRet (ST S) := fun A a s => Done (a, s).

#[global] Instance ST_bind {S} : MBind (ST S) := fun A B f m s =>
  match m s with
  | Done (a, s') => f a s'
  | Crash e => Crash e
  end.

Definition crash {S A} (f : Fault) : ST S A := fun _ => Crash f.

Definition lift {S A} (o : Outcome A) : ST S A := fun s =>
  match o with
  | Done a => Done (a, s)
  | Crash f => Crash f
  end.

Definition get_state {S} : ST S S := fun s => Done (s, s).
Definition put_state {S} (s : S) : ST S unit := fun _ => Done (tt, s).

(** [TF_RETURN_IF_ERROR(e); k] for a call that only returns a status, and
    for a call that also writes an output parameter. *)
Definition TF_RETURN_IF_ERROR {S} (e : ST S Status) (k : ST S Status)
    : ST S Status :=
  status ← e; if ok status then k else mret status.

Definition TF_RETURN_IF_ERROR_out {S A} (e : ST S (Status * A))
    (k : A -> ST S Status) : ST S Status :=
  r ← e; if ok r.1 then k r.2 else mret r.1.

(** [TFTRT_INTERNAL_ERROR_AT_NODE(node)] inside [function] *)
Definition TFTRT_INTERNAL_ERROR_AT_NODE (function node : string) : Status :=
  errors.Internal (StrCat ["TFTRT::"; function; "failed to add TRT layer, at: "; node]).

(** ** Calls into the network *)

Section Network.
Context `{TensorRT}.

Definition NetM := ST nvinfer1.INetworkDefinition.

(** The network once a layer is added: the layer comes last, and so
    does its output tensor, under the name the library gives it. *)
Definition with_layer (net : nvinfer1.INetworkDefinition) (l : nvinfer1.Layer)
    : nvinfer1.INetworkDefinition :=
  nvinfer1.mkNetwork
    (nvinfer1.tensor_names net ++ [initial_name net l])
    (nvinfer1.layers net ++ [(l, length (nvinfer1.tensor_names net))])
    (nvinfer1.network_inputs net)
    (nvinfer1.marked_outputs net).

(** The network once tensor [i] is renamed. *)
Definition with_name (net : nvinfer1.INetworkDefinition) (i : nat)
    (new_name : string) : nvinfer1.INetworkDefinition :=
  nvinfer1.mkNetwork
    (<[i := new_name]> (nvinfer1.tensor_names net))
    (nvinfer1.layers net)
    (nvinfer1.network_inputs net)
    (nvinfer1.marked_outputs net).

(** A layer constructor ([addShuffle], [addScale], ...): [nullptr], or
    the position of the new layer, whose output tensor is created with
    it. *)
Definition addLayer (l : nvinfer1.Layer) : NetM (option nat) := fun net =>
  if add_returns_null net l then Done (None, net)
  else Done (Some (length (nvinfer1.layers net)), with_layer net l).

(** A setter of the layer at position [i]. *)
Definition setLayer (i : nat) (f : nvinfer1.Layer -> nvinfer1.Layer)
    : NetM unit := fun net =>
  match nvinfer1.layers net !! i with
  | Some (l, out) =>
      Done (tt, nvinfer1.mkNetwork
                  (nvinfer1.tensor_names net)
                  (<[i := (f l, out)]> (nvinfer1.layers net))
                  (nvinfer1.network_inputs net)
                  (nvinfer1.marked_outputs net))
  | None => Crash NullLayer
  end.

(** [layer->getOutput(0)] *)
Definition getOutput (i : nat) : NetM nvinfer1.ITensorPtr := fun net =>
  match nvinfer1.layers net !! i with
  | Some (_, out) => Done (Some out, net)
  | None => Crash NullLayer
  end.

(** Dereference of an [ITensor*]. *)
Definition deref (tensor : nvinfer1.ITensorPtr) : NetM nat := fun net =>
  match tensor with
  | Some i =>
      if bool_decide (i < length (nvinfer1.tensor_names net))%nat
      then Done (i, net) else Crash NullTensor
  | None => Crash NullTensor
  end.

(** [tensor->getDimensions()], [tensor->getType()] *)
Definition tensor_getDimensions (tensor : nvinfer1.ITensorPtr) : NetM Dims :=
  i ← deref tensor; net ← get_state; mret (getDimensions net i).

Definition tensor_getType (tensor : nvinfer1.ITensorPtr)
    : NetM nvinfer1.DataType :=
  i ← deref tensor; net ← get_state; mret (getType net i).

(** [tensor->getName()], [tensor->setName(name)] *)
Definition tensor_getName (tensor : nvinfer1.ITensorPtr) : NetM string :=
  i ← deref tensor; net ← get_state;
  mret (default "" (nvinfer1.tensor_names net !! i)).

Definition tensor_setName (tensor : nvinfer1.ITensorPtr) (new_name : string)
    : NetM unit :=
  i ← deref tensor; net ← get_state; put_state (with_name net i new_name).

(** [network->addInput(name, dtype, dims)] *)
Definition addInput (input_name : string) (dtype : nvinfer1.DataType)
    (dims : Dims) : NetM nvinfer1.ITensorPtr := fun net =>
  if addInput_returns_null net input_name dtype dims then Done (None, net)
  else
    let i := length (nvinfer1.tensor_names net) in
    Done (Some i,
          nvinfer1.mkNetwork
            (nvinfer1.tensor_names net ++ [input_name])
            (nvinfer1.layers net)
            (nvinfer1.network_inputs net ++ [(i, dtype, dims)])
            (nvinfer1.marked_outputs net)).

(** [network->markOutput] *)
Definition markOutput (tensor : nvinfer1.ITensorPtr) : NetM unit :=
  i ← deref tensor; net ← get_state;
  put_state (nvinfer1.mkNetwork
               (nvinfer1.tensor_names net)
               (nvinfer1.layers net)
               (nvinfer1.network_inputs net)
               (nvinfer1.marked_outputs net ++ [i])).

(** [TRT_TensorOrWeights::GetTrtDims] *)
Definition GetTrtDims (x : TRT_TensorOrWeights.t) : NetM Dims :=
  if TRT_TensorOrWeights.is_tensor x then
    tensor ← lift (TRT_TensorOrWeights.tensor x);
    tensor_getDimensions tensor
  else
    w ← lift (TRT_TensorOrWeights.weights x);
    mret (TRT_ShapedWeights.shape_ w).
End Network.

(** ** The converter *)

(** The members of [Converter] other than the registry; [trt_network_]
    points at the network the state-passing functions below thread. *)
Record Converter := mkConverter {
  is_fp16_ : bool;
  batch_size_ : Z;
  trt_tensors_ : gmap string TRT_TensorOrWeights.t;
  weight_store_ : TrtWeightStore.t }.

(** [Converter::MaybeUpdateBatchSize] *)
Definition MaybeUpdateBatchSize (batch_size : Z) : ST Converter Status :=
  fun this =>
  if bool_decide (batch_size_ this < 0) || bool_decide (batch_size < 0)
     || bool_decide (batch_size_ this = batch_size)
  then
    if bool_decide (batch_size_ this < 0) && bool_decide (batch_size >= 0)
    then Done (Status_OK,
               mkConverter (is_fp16_ this) batch_size (trt_tensors_ this)
                           (weight_store_ this))
    else Done (Status_OK, this)
  else
    Done (errors.InvalidArgument
            (StrCat ["Provided batch size does not match converter batch size: ";
                     pretty batch_size; " vs "; pretty (batch_size_ this)]),
          this).

(** [Converter::AddTensorOrWeights]: [insert] leaves the map as it is
    when the key is already present. *)
Definition AddTensorOrWeights (tensor_name : string)
    (input : TRT_TensorOrWeights.t) : ST Converter Status := fun this =>
  let input :=
    if TRT_TensorOrWeights.is_tensor input
    then TRT_TensorOrWeights.set_batch_size input (batch_size_ this)
    else input in
  match trt_tensors_ this !! tensor_name with
  | None =>
      Done (Status_OK,
            mkConverter (is_fp16_ this) (batch_size_ this)
                        (<[tensor_name := input]> (trt_tensors_ this))
                        (weight_store_ this))
  | Some _ =>
      Done (errors.AlreadyExists
              (StrCat ["tensor/weights "; tensor_name; " already exist."]),
            this)
  end.

(** [Converter::GetTensorOrWeights]; [output] is the previous content of
    the output parameter. *)
Definition GetTensorOrWeights (tensor_name : string)
    (output : TRT_TensorOrWeights.t)
    : ST Converter (Status * TRT_TensorOrWeights.t) := fun this =>
  match trt_tensors_ this !! tensor_name with
  | None =>
      Done ((errors.NotFound
               (StrCat ["Tensor or weights with name "; tensor_name;
                        " could not be found."]),
             output), this)
  | Some v => Done ((Status_OK, v), this)
  end.

(** [std::string::find_last_of(c)] *)
Fixpoint find_last_of (c : ascii) (s : string) : option nat :=
  match s with
  | EmptyString => None
  | String a rest =>
      match find_last_of c rest with
      | Some i => Some (S i)
      | None => if bool_decide (a = c) then Some O else None
      end
  end.

(** The name under which [GetInputs] looks an input up: a trailing [:0]
    is erased. *)
Definition normalized_input_name (input_name : string) : string :=
  match find_last_of ":"%char input_name with
  | Some last =>
      if bool_decide (last + 2 = String.length input_name)%nat
         && bool_decide (String.get (last + 1) input_name = Some "0"%char)
      then substring 0 last input_name
      else input_name
  | None => input_name
  end.

(** [Converter::GetInputs]; [inputs] is the vector behind the output
    parameter. *)
Fixpoint GetInputs_loop (this : Converter) (node_name : string)
    (names : list string) (inputs : list TRT_TensorOrWeights.t)
    : Status * list TRT_TensorOrWeights.t :=
  match names with
  | [] => (Status_OK, inputs)
  | input_name :: rest =>
      if bool_decide (String.get 0 input_name = Some "^"%char) then
        GetInputs_loop this node_name rest inputs
      else
        let tensor_name := normalized_input_name input_name in
        match trt_tensors_ this !! tensor_name with
        | Some input => GetInputs_loop this node_name rest (inputs ++ [input])
        | None =>
            (errors.InvalidArgument
               (StrCat ["Node "; node_name; " should have an input named '";
                        tensor_name; "' but it is not available"]),
             inputs)
        end
  end.

Definition GetInputs (node_def : NodeDef) (inputs : list TRT_TensorOrWeights.t)
    : ST Converter (Status * list TRT_TensorOrWeights.t) := fun this =>
  Done (GetInputs_loop this (name node_def) (input node_def) inputs, this).

Section ConverterNetwork.
Context `{TensorRT}.

(** [permutation.order[i] = order_with_batch_dim[i + 1] - 1] for
    [i < nbDims] *)
Definition batch_adjusted_order (order_with_batch_dim : list Z) (n : Z)
    : list Z :=
  map (fun i => idx order_with_batch_dim (Z.of_nat i + 1) - 1)
      (seq 0 (Z.to_nat n)).

(** [reshape_dims] of [TransposeTensor]: the rank of the input, every
    extent 0. *)
Definition zero_reshape_dims (n : Z) : Dims :=
  mkDims n (foldl (fun a i => upd a (Z.of_nat i) 0) (d Dims_fresh)
                  (seq 0 (Z.to_nat n))).

(** [Converter::TransposeTensor]; [output_tensor] is the previous
    content of the output parameter. *)
Definition TransposeTensor (input_tensor : nvinfer1.ITensorPtr)
    (order_with_batch_dim : list Z) (output_tensor : nvinfer1.ITensorPtr)
    : NetM (Status * nvinfer1.ITensorPtr) :=
  dims ← tensor_getDimensions input_tensor;
  if bool_decide (to_size_t (Z.of_nat (length order_with_batch_dim) - 1)
                  <> to_size_t (nbDims dims)) then
    mret (errors.InvalidArgument
            "Rank of perm for transpose does not match with that of the input.",
          output_tensor)
  else
    match order_with_batch_dim with
    | [] => crash OutOfBounds
    | first :: _ =>
        if bool_decide (first <> 0) then
          mret (errors.Unimplemented
                  "Transpose at batch dimension is not supported.",
                output_tensor)
        else
          input ← deref input_tensor;
          layer ← addLayer (nvinfer1.IShuffleLayer input None None);
          match layer with
          | None =>
              mret (TFTRT_INTERNAL_ERROR_AT_NODE "TransposeTensor"
                      "TF-TRT Internal Transpose", output_tensor)
          | Some layer =>
              let permutation :=
                batch_adjusted_order order_with_batch_dim (nbDims dims) in
              setLayer layer (fun _ =>
                nvinfer1.IShuffleLayer input (Some permutation) None);;
              setLayer layer (fun _ =>
                nvinfer1.IShuffleLayer input (Some permutation)
                  (Some (zero_reshape_dims (nbDims dims))));;
              out ← getOutput layer;
              mret (Status_OK, out)
          end
    end.

(** The scan for a [-1] extent at the head of [PrepareTensorForShape]. *)
Fixpoint can_check_shapes_from (a : list Z) (i : Z) (n : nat) : bool :=
  match n with
  | O => true
  | S n' =>
      if bool_decide (idx a i = -1) then false
      else can_check_shapes_from a (i + 1) n'
  end.

(** [Converter::PrepareTensorForShape]; [tensor] is the previous content
    of the output parameter. *)
Definition PrepareTensorForShape (input : TRT_TensorOrWeights.t)
    (dims : Dims) (tensor : nvinfer1.ITensorPtr)
    : NetM (Status * nvinfer1.ITensorPtr) :=
  let can_check_shapes :=
    can_check_shapes_from (d dims) 0 (Z.to_nat (nbDims dims)) in
  mismatch ←
    (if can_check_shapes then
       input_dims ← GetTrtDims input;
       mret (bool_decide (TrtDimsNumElements input_dims
                          <> TrtDimsNumElements dims))
     else mret false);
  if (mismatch : bool) then
    mret (errors.InvalidArgument "Reshape shapes are not compatible.", tensor)
  else if TRT_TensorOrWeights.is_tensor input then
    input_dims ← GetTrtDims input;
    if DimsEqual input_dims dims then
      t ← lift (TRT_TensorOrWeights.tensor input);
      mret (Status_OK, t)
    else
      t ← lift (TRT_TensorOrWeights.tensor input);
      i ← deref t;
      layer ← addLayer (nvinfer1.IShuffleLayer i None None);
      match layer with
      | None =>
          mret (TFTRT_INTERNAL_ERROR_AT_NODE "PrepareTensorForShape"
                  "TF-TRT Internal Reshape", tensor)
      | Some layer =>
          setLayer layer (fun _ => nvinfer1.IShuffleLayer i None (Some dims));;
          out ← getOutput layer;
          mret (Status_OK, out)
      end
  else
    w ← lift (TRT_TensorOrWeights.weights input);
    trt_weights ← lift (TRT_ShapedWeights.GetTrtWeights w);
    layer ← addLayer (nvinfer1.IConstantLayer dims trt_weights);
    match layer with
    | None =>
        mret (TFTRT_INTERNAL_ERROR_AT_NODE "PrepareTensorForShape"
                "TF-TRT Internal Reshape", tensor)
    | Some layer =>
        out ← getOutput layer;
        mret (Status_OK, out)
    end.
End ConverterNetwork.

(** What the code asks of the host framework beyond plain data:
    [Tensor::FromProto], which yields the shape of the parsed tensor or
    fails, and the plugin factory's [IsPlugin]. *)
Class TensorFlow := {
  Tensor_FromProto : TensorProto -> option (list Z);
  IsPlugin : string -> bool;
  (** [ParseTensorName]: the node name and the output index of an input
      reference; the index of a control input is [Graph::kControlSlot] *)
  ParseTensorName : string -> string * Z
}.

(** ** Converter functions *)

(** [OpConverterParams]; [converter] and [outputs] are [None] when the
    pointer is null, and otherwise hold the object pointed at. *)
Record OpConverterParams := mkParams {
  converter : option Converter;
  node_def : NodeDef;
  inputs : list TRT_TensorOrWeights.t;
  outputs : option (list TRT_TensorOrWeights.t);
  validation_only : bool;
  weight_store : TrtWeightStore.t }.

(** What a converter function can reach: its parameter bundle and the
    tensor and layer objects of the accelerator library. *)
Record World := mkWorld {
  params : OpConverterParams;
  network : nvinfer1.INetworkDefinition }.

Definition M := ST World.

(** [OpConverter]: [Status (OpConverterParams* params)] *)
Definition OpConverter := M Status.

Definition the_params : M OpConverterParams :=
  w ← get_state; mret (params w).

(** A call on tensor or layer objects that does not go through the
    converter. *)
Definition in_network {A} (a : ST nvinfer1.INetworkDefinition A) : M A :=
  fun w =>
  match a (network w) with
  | Done (x, net) => Done (x, mkWorld (params w) net)
  | Crash f => Crash f
  end.

(** [params->converter->...]: a method of the converter, or a call on
    [params->converter->network()]. *)
Definition via_converter {A} (a : ST nvinfer1.INetworkDefinition A) : M A :=
  p ← the_params;
  match converter p with
  | Some _ => in_network a
  | None => crash NullConverter
  end.

(** The null check behind every [params->converter->network()->...]. *)
Definition require_converter : M unit :=
  p ← the_params;
  match converter p with
  | Some _ => mret tt
  | None => crash NullConverter
  end.

(** [params->converter->is_fp16()] *)
Definition converter_is_fp16 : M bool :=
  p ← the_params;
  match converter p with
  | Some c => mret (is_fp16_ c)
  | None => crash NullConverter
  end.

(** [params->outputs->push_back(x)] *)
Definition outputs_push_back (x : TRT_TensorOrWeights.t) : M unit := fun w =>
  let p := params w in
  match outputs p with
  | Some l =>
      Done (tt, mkWorld (mkParams (converter p) (node_def p) (inputs p)
                                  (Some (l ++ [x])) (validation_only p)
                                  (weight_store p))
                        (network w))
  | None => Crash NullOutputs
  end.

(** A call on [params->weight_store]. *)
Definition in_weight_store {A}
    (a : TrtWeightStore.t -> Outcome (A * TrtWeightStore.t)) : M A := fun w =>
  let p := params w in
  match a (weight_store p) with
  | Done (x, store) =>
      Done (x, mkWorld (mkParams (converter p) (node_def p) (inputs p)
                                 (outputs p) (validation_only p) store)
                       (network w))
  | Crash f => Crash f
  end.

(** [inputs.at(i)] *)
Definition inputs_at (l : list TRT_TensorOrWeights.t) (i : nat)
    : M TRT_TensorOrWeights.t :=
  match l !! i with
  | Some x => mret x
  | None => crash OutOfBounds
  end.

(** [LambdaFactory::OP_CATEGORY] *)
Module LambdaFactory.
Inductive OP_CATEGORY := RSQRT | NEG | ADD | MUL | SUB | RECIP.
End LambdaFactory.

Section Converters.
Context `{TensorRT} `{ScalarOps}.

(** [ConvertFP32ToFP16] *)
Definition ConvertFP32ToFP16 (weights_src : TRT_ShapedWeights.t)
    : M TRT_ShapedWeights.t :=
  weights ← in_weight_store
    (TrtWeightStore.GetTempWeights DT_HALF (TRT_ShapedWeights.shape_ weights_src));
  mret (TRT_ShapedWeights.mk
          (TRT_ShapedWeights.shape_ weights) (TRT_ShapedWeights.type_ weights)
          (transform 4 2 float_to_half_rtne
             (TRT_ShapedWeights.values weights_src)
             (TRT_ShapedWeights.values weights)
             (TRT_ShapedWeights.count weights_src))).

(** [LambdaFactory::unary<T>()]: [None] is the empty function object. *)
Definition unary (type : DataType) (op : LambdaFactory.OP_CATEGORY)
    : option (Z -> Z) :=
  match op, type with
  | LambdaFactory.RSQRT, _ => Some (rsqrt type)
  | LambdaFactory.NEG, _ => Some (negate type)
  | LambdaFactory.RECIP, DT_HALF => None
  | LambdaFactory.RECIP, _ => Some (reciprocal type)
  | _, _ => None
  end.

(** [UnaryCompute]: returns the status and the new content of
    [oweights]; calling the empty function object aborts. *)
Definition UnaryCompute (iweights oweights : TRT_ShapedWeights.t)
    (unary_op : LambdaFactory.OP_CATEGORY)
    : Outcome (Status * TRT_ShapedWeights.t) :=
  if bool_decide (TRT_ShapedWeights.type_ iweights
                  <> TRT_ShapedWeights.type_ oweights) then Crash CheckFailed
  else
    let run (size : nat) :=
      match unary (TRT_ShapedWeights.type_ iweights) unary_op with
      | Some f =>
          Done (Status_OK,
                TRT_ShapedWeights.mk
                  (TRT_ShapedWeights.shape_ oweights)
                  (TRT_ShapedWeights.type_ oweights)
                  (transform size size f
                     (TRT_ShapedWeights.values iweights)
                     (TRT_ShapedWeights.values oweights)
                     (TRT_ShapedWeights.count iweights)))
      | None =>
          if bool_decide (TRT_ShapedWeights.count iweights > 0)
          then Crash CheckFailed else Done (Status_OK, oweights)
      end in
    match TRT_ShapedWeights.type_ iweights with
    | DT_FLOAT => run 4%nat
    | DT_HALF => run 2%nat
    | other =>
        Done (errors.Unimplemented
                ("Data type not supported: " +:+ DataTypeString other),
              oweights)
    end.

(** The shift [dims_w.d[i - 1] = dims_w.d[i]] that drops a leading 1. *)
Definition drop_leading (dims_w : Dims) : Dims :=
  mkDims (nbDims dims_w - 1)
         (foldl (fun a i => upd a (Z.of_nat i - 1) (idx a (Z.of_nat i)))
                (d dims_w) (seq 1 (Z.to_nat (nbDims dims_w) - 1))).

(** The scans [for (i = 1; i < dims_w.nbDims; i++)] of the scale-mode
    check: some extent of the weights differs from the tensor's, some
    extent of the weights is not 1. *)
Definition differs_after_first (dims_w dims_t : Dims) : bool :=
  existsb (fun i => bool_decide (idx (d dims_w) (Z.of_nat i)
                                 <> idx (d dims_t) (Z.of_nat i)))
          (seq 1 (Z.to_nat (nbDims dims_w) - 1)).

Definition not_one_after_first (dims_w : Dims) : bool :=
  existsb (fun i => bool_decide (idx (d dims_w) (Z.of_nat i) <> 1))
          (seq 1 (Z.to_nat (nbDims dims_w) - 1)).

(** The "check scale mode" block of [BinaryTensorOpWeight]: the status
    it returns with, or the scale mode and the permutation flag. *)
Definition check_scale_mode (node_name : string)
    (weights : TRT_ShapedWeights.t) (dims_t : Dims)
    : Status + nvinfer1.ScaleMode * bool :=
  let dims_w := TRT_ShapedWeights.shape_ weights in
  if bool_decide (TRT_ShapedWeights.count weights = 1) then
    inr (nvinfer1.kUNIFORM, false)
  else
    let shifted : Status + Dims :=
      if bool_decide (nbDims dims_w = nbDims dims_t + 1) then
        if bool_decide (idx (d dims_w) 0 = 1) then inr (drop_leading dims_w)
        else inl (errors.InvalidArgument
                    ("Binary op cannot operate on batch, " +:+ node_name))
      else inr dims_w in
    match shifted with
    | inl status => inl status
    | inr dims_w =>
        if bool_decide (nbDims dims_w = nbDims dims_t)
           && bool_decide (idx (d dims_w) 0 = idx (d dims_t) 0) then
          if differs_after_first dims_w dims_t then
            if not_one_after_first dims_w then
              inl (errors.InvalidArgument
                     ("Weight shape not compatible at, " +:+ node_name))
            else inr (nvinfer1.kCHANNEL, false)
          else inr (nvinfer1.kELEMENTWISE, false)
        else if bool_decide (nbDims dims_w = 1)
                && bool_decide (idx (d dims_w) 0
                                = idx (d dims_t) (nbDims dims_t - 1)) then
          inr (nvinfer1.kCHANNEL, true)
        else
          inl (errors.InvalidArgument
                 ("Weight shape not compatible at, " +:+ node_name))
    end.

(** The permutation that swaps the last dimension into the channel
    position. *)
Definition channel_permutation (n : Z) : list Z :=
  upd (upd (map Z.of_nat (seq 0 (Z.to_nat (n + 1)))) 1 n) n 1.

(** [BinaryTensorOpWeight] *)
Definition BinaryTensorOpWeight (tensor : nvinfer1.ITensorPtr)
    (weights : TRT_ShapedWeights.t) (swapped_inputs : bool) : M Status :=
  p ← the_params;
  let node_def := node_def p in
  if bool_decide (op node_def <> "Sub") && bool_decide (op node_def <> "Add")
     && bool_decide (op node_def <> "Mul") && bool_decide (op node_def <> "Div")
     && bool_decide (op node_def <> "RealDiv") then
    mret (errors.Unimplemented
            ("op not supported: " +:+ op node_def +:+ ", at: " +:+ name node_def))
  else
  TF_RETURN_IF_ERROR
    (mret (ConvertDType (TRT_ShapedWeights.type_ weights) nvinfer1.kFLOAT).1) (
  dims_t ← in_network (tensor_getDimensions tensor);
  if bool_decide (nbDims dims_t <> 3) then
    mret (errors.InvalidArgument
            ("addScale requires tensor with rank 3, " +:+ name node_def))
  else
  match check_scale_mode (name node_def) weights dims_t with
  | inl status => mret status
  | inr (scale_mode, permutation_flag) =>
  let permutation := channel_permutation (nbDims dims_t) in
  TF_RETURN_IF_ERROR_out
    (if permutation_flag then
       if bool_decide (scale_mode = nvinfer1.kCHANNEL)
          && bool_decide (nbDims dims_t > 1) then
         via_converter (TransposeTensor tensor permutation tensor)
       else
         mret (errors.InvalidArgument
                 ("Transpose cannot be applied, " +:+ name node_def), tensor)
     else mret (Status_OK, tensor)) (fun tensor =>
  is_fp16 ← converter_is_fp16;
  weights ← (if (is_fp16 : bool) then ConvertFP32ToFP16 weights else mret weights);
  let shift_weights := TRT_ShapedWeights.of_type (TRT_ShapedWeights.type_ weights) in
  let scale_weights := TRT_ShapedWeights.of_type (TRT_ShapedWeights.type_ weights) in
  let power_weights := TRT_ShapedWeights.of_type (TRT_ShapedWeights.type_ weights) in
  (** the operator cases: a status to return with, or the tensor and
      the shift and scale weights *)
  prepared ←
    (if bool_decide (op node_def = "Sub") then
       if swapped_inputs then
         require_converter;;
         input ← in_network (deref tensor);
         layer ← via_converter
           (addLayer (nvinfer1.IUnaryLayer input nvinfer1.kNEG));
         match layer with
         | None =>
             mret (inl (TFTRT_INTERNAL_ERROR_AT_NODE "BinaryTensorOpWeight"
                          (name node_def)))
         | Some layer =>
             out ← in_network (getOutput layer);
             mret (inr (out, weights, scale_weights))
         end
       else
         neg_weights ← in_weight_store (TrtWeightStore.GetTempWeights_like weights);
         r ← lift (UnaryCompute weights neg_weights LambdaFactory.NEG);
         if ok r.1 then mret (inr (tensor, r.2, scale_weights))
         else mret (inl r.1)
     else if bool_decide (op node_def = "Div")
             || bool_decide (op node_def = "RealDiv") then
       if swapped_inputs then
         require_converter;;
         input ← in_network (deref tensor);
         layer ← via_converter
           (addLayer (nvinfer1.IUnaryLayer input nvinfer1.kRECIP));
         match layer with
         | None =>
             mret (inl (TFTRT_INTERNAL_ERROR_AT_NODE "BinaryTensorOpWeight"
                          (name node_def)))
         | Some layer =>
             out ← in_network (getOutput layer);
             mret (inr (out, shift_weights, weights))
         end
       else
         recip_weights ← in_weight_store (TrtWeightStore.GetTempWeights_like weights);
         r ← lift (UnaryCompute weights recip_weights LambdaFactory.RECIP);
         if ok r.1 then mret (inr (tensor, shift_weights, r.2))
         else mret (inl r.1)
     else if bool_decide (op node_def = "Mul") then
       mret (inr (tensor, shift_weights, weights))
     else if bool_decide (op node_def = "Add") then
       mret (inr (tensor, weights, scale_weights))
     else
       mret (inl (errors.Unimplemented
                    ("Binary op not supported: " +:+ op node_def))));
  match prepared with
  | inl status => mret status
  | inr (tensor, shift_weights, scale_weights) =>
      require_converter;;
      input ← in_network (deref tensor);
      shift ← lift (TRT_ShapedWeights.GetTrtWeights shift_weights);
      scale ← lift (TRT_ShapedWeights.GetTrtWeights scale_weights);
      power ← lift (TRT_ShapedWeights.GetTrtWeights power_weights);
      layer ← via_converter
        (addLayer (nvinfer1.IScaleLayer input scale_mode shift scale power));
      match layer with
      | None =>
          mret (TFTRT_INTERNAL_ERROR_AT_NODE "BinaryTensorOpWeight"
                  (name node_def))
      | Some layer =>
          output_tensor ← in_network (getOutput layer);
          TF_RETURN_IF_ERROR_out
            (if permutation_flag then
               via_converter
                 (TransposeTensor output_tensor permutation output_tensor)
             else mret (Status_OK, output_tensor)) (fun output_tensor =>
          outputs_push_back
            (TRT_TensorOrWeights.of_tensor output_tensor
               TRT_TensorOrWeights.unknown_batch_size);;
          mret Status_OK)
      end
  end)
  end).

(** The operator table of [BinaryTensorOpTensor]. *)
Definition binary_ops (op_name : string)
    : option nvinfer1.ElementWiseOperation :=
  if bool_decide (op_name = "Add") then Some nvinfer1.kSUM
  else if bool_decide (op_name = "Mul") then Some nvinfer1.kPROD
  else if bool_decide (op_name = "Sub") then Some nvinfer1.kSUB
  else if bool_decide (op_name = "Div") then Some nvinfer1.kDIV
  else if bool_decide (op_name = "RealDiv") then Some nvinfer1.kDIV
  else if bool_decide (op_name = "Minimum") then Some nvinfer1.kMIN
  else if bool_decide (op_name = "Maximum") then Some nvinfer1.kMAX
  else None.

(** [BinaryTensorOpTensor] *)
Definition BinaryTensorOpTensor (operand_l operand_r : TRT_TensorOrWeights.t)
    : M Status :=
  p ← the_params;
  let node_def := node_def p in
  dims_l ← in_network (GetTrtDims operand_l);
  dims_r ← in_network (GetTrtDims operand_r);
  let '(feasible, dim_l, dim_r) :=
    TensorRTGetBroadcastShape
      dims_l (TRT_TensorOrWeights.is_tensor operand_l)
      dims_r (TRT_TensorOrWeights.is_tensor operand_r)
      Dims_fresh Dims_fresh in
  if negb feasible then
    mret (errors.InvalidArgument
            ("Binary op broadcast scheme not supported by TensorRT op: "
             +:+ op node_def +:+ ", at: " +:+ name node_def))
  else
  TF_RETURN_IF_ERROR_out
    (via_converter (PrepareTensorForShape operand_l dim_l None)) (fun tensor_l =>
  TF_RETURN_IF_ERROR_out
    (via_converter (PrepareTensorForShape operand_r dim_r None)) (fun tensor_r =>
  dtype ← lift (TFAttrs.get_trt_DataType node_def "T");
  type_l ← in_network (tensor_getType tensor_l);
  if bool_decide (type_l <> dtype) then crash CheckFailed else
  type_r ← in_network (tensor_getType tensor_r);
  if bool_decide (type_r <> dtype) then crash CheckFailed else
  match binary_ops (op node_def) with
  | None =>
      mret (errors.Unimplemented
              (StrCat ["binary op: "; op node_def; " not supported at: ";
                       name node_def]))
  | Some operation =>
      require_converter;;
      l ← in_network (deref tensor_l);
      r ← in_network (deref tensor_r);
      layer ← via_converter
        (addLayer (nvinfer1.IElementWiseLayer l r operation));
      match layer with
      | None =>
          mret (TFTRT_INTERNAL_ERROR_AT_NODE "BinaryTensorOpTensor"
                  (name node_def))
      | Some layer =>
          output_tensor ← in_network (getOutput layer);
          outputs_push_back
            (TRT_TensorOrWeights.of_tensor output_tensor
               TRT_TensorOrWeights.unknown_batch_size);;
          mret Status_OK
      end
  end)).

(** [ConvertIdentity] *)
Definition ConvertIdentity : OpConverter :=
  p ← the_params;
  x ← inputs_at (inputs p) 0;
  outputs_push_back x;;
  mret Status_OK.

(** [ConvertBinary] *)
Definition ConvertBinary : OpConverter :=
  p ← the_params;
  let inputs := inputs p in
  let node_def := node_def p in
  if bool_decide (length inputs <> 2%nat) then
    mret (errors.FailedPrecondition
            (StrCat ["Binary ops require two tensor input, at "; name node_def]))
  else
  input0 ← inputs_at inputs 0;
  input1 ← inputs_at inputs 1;
  if TRT_TensorOrWeights.is_weights input0
     && TRT_TensorOrWeights.is_weights input1 then
    mret (errors.Unimplemented
            (StrCat ["Constant folding is falled back to TensorFlow, binary op received both input as constant at: ";
                     name node_def]))
  else
  status ←
    (if TRT_TensorOrWeights.is_tensor input0
        && TRT_TensorOrWeights.is_weights input1 then
       tensor ← lift (TRT_TensorOrWeights.tensor input0);
       weights ← lift (TRT_TensorOrWeights.weights input1);
       BinaryTensorOpWeight tensor weights false
     else if TRT_TensorOrWeights.is_weights input0
             && TRT_TensorOrWeights.is_tensor input1 then
       tensor ← lift (TRT_TensorOrWeights.tensor input1);
       weights ← lift (TRT_TensorOrWeights.weights input0);
       BinaryTensorOpWeight tensor weights true
     else mret Status_OK);
  if (TRT_TensorOrWeights.is_tensor input0
      && TRT_TensorOrWeights.is_tensor input1) || negb (ok status) then
    BinaryTensorOpTensor input0 input1
  else mret status.

(** [ConvertTranspose] *)
Definition ConvertTranspose : OpConverter :=
  p ← the_params;
  let inputs := inputs p in
  let bad_inputs :=
    errors.InvalidArgument
      (StrCat ["Input expects tensor and weights, at "; name (node_def p)]) in
  if bool_decide (length inputs <> 2%nat) then mret bad_inputs else
  input0 ← inputs_at inputs 0;
  if negb (TRT_TensorOrWeights.is_tensor input0) then mret bad_inputs else
  input1 ← inputs_at inputs 1;
  if negb (TRT_TensorOrWeights.is_weights input1) then mret bad_inputs else
  weights ← lift (TRT_TensorOrWeights.weights input1);
  let perm :=
    map (fun i => TRT_ShapedWeights.weights_ptr weights (Z.of_nat i))
        (seq 0 (Z.to_nat (TRT_ShapedWeights.count weights))) in
  input_tensor ← lift (TRT_TensorOrWeights.tensor input0);
  dims ← in_network (tensor_getDimensions input_tensor);
  if bool_decide (to_size_t (Z.of_nat (length perm) - 1)
                  <> to_size_t (nbDims dims)) then
    mret (errors.InvalidArgument
            "Rank of perm for transpose does not match with that of the input.")
  else
  match perm with
  | [] => crash OutOfBounds
  | first :: _ =>
      if bool_decide (first <> 0) then
        mret (errors.Unimplemented
                "Transpose at batch dimension is not supported.")
      else if validation_only p then mret Status_OK
      else
        TF_RETURN_IF_ERROR_out
          (via_converter (TransposeTensor input_tensor perm None))
          (fun output_tensor =>
        outputs_push_back
          (TRT_TensorOrWeights.of_tensor output_tensor
             TRT_TensorOrWeights.unknown_batch_size);;
        mret Status_OK)
  end.

(** The decision of [ConvertReshape] on whether the reshape may change
    the batch dimension. *)
Definition reshape_may_change_batch_dim
    (input_batch_dim reshape_batch_dim : Z) (input_dims reshape_dims : Dims)
    : bool :=
  if bool_decide (input_batch_dim > 0) then
    if bool_decide (reshape_batch_dim = -1) then
      if negb (HasStaticShape input_dims)
         || bool_decide (TrtDimsNumElements reshape_dims
                         <> TrtDimsNumElements input_dims)
      then true else false
    else if bool_decide (reshape_batch_dim <> input_batch_dim) then true
    else false
  else if HasStaticShape input_dims then
    if negb (HasStaticShape reshape_dims)
       || bool_decide (TrtDimsNumElements reshape_dims
                       <> TrtDimsNumElements input_dims)
    then true else false
  else true.

(** [reshape_dims] of [ConvertReshape]: every value of the shape
    constant but the first. *)
Definition reshape_dims_of (weights : TRT_ShapedWeights.t) : Dims :=
  mkDims (to_int (TRT_ShapedWeights.count weights - 1))
         (foldl (fun a i =>
                   upd a (Z.of_nat i - 1)
                       (TRT_ShapedWeights.weights_ptr weights (Z.of_nat i)))
                (d Dims_fresh)
                (seq 1 (Z.to_nat (TRT_ShapedWeights.count weights) - 1))).

(** [ConvertReshape] *)
Definition ConvertReshape : OpConverter :=
  p ← the_params;
  let inputs := inputs p in
  let node_def := node_def p in
  let bad_inputs :=
    errors.InvalidArgument
      (StrCat ["Input expects weights for shape, at "; name node_def]) in
  if bool_decide (length inputs <> 2%nat) then mret bad_inputs else
  input1 ← inputs_at inputs 1;
  if negb (TRT_TensorOrWeights.is_weights input1) then mret bad_inputs else
  input_tensor ← inputs_at inputs 0;
  weights ← lift (TRT_TensorOrWeights.weights input1);
  if bool_decide (TRT_ShapedWeights.count weights = 0) then
    mret (errors.Unimplemented
            (StrCat ["Reshape to shape=[] is not supported, at "; name node_def]))
  else
  let input_batch_dim := TRT_TensorOrWeights.batch_size input_tensor in
  let reshape_batch_dim := TRT_ShapedWeights.weights_ptr weights 0 in
  input_dims ← in_network (GetTrtDims input_tensor);
  let reshape_dims := reshape_dims_of weights in
  if reshape_may_change_batch_dim input_batch_dim reshape_batch_dim
       input_dims reshape_dims then
    mret (errors.Unimplemented
            (StrCat ["Reshape on batch dimension is not supported, at ";
                     name node_def]))
  else if validation_only p then mret Status_OK
  else
    TF_RETURN_IF_ERROR_out
      (via_converter (PrepareTensorForShape input_tensor reshape_dims None))
      (fun output_tensor =>
    outputs_push_back
      (TRT_TensorOrWeights.of_tensor output_tensor
         TRT_TensorOrWeights.unknown_batch_size);;
    mret Status_OK).

(** [Reorder2] on elements of [size] bytes: [shape], [istrides] and
    [ostrides] are given as (h, w). *)
Definition Reorder2 (size : nat) (shape : Z * Z) (idata : list Z)
    (istrides : Z * Z) (odata : list Z) (ostrides : Z * Z) : list Z :=
  foldl (fun acc h =>
    foldl (fun acc w =>
             store_elem size acc
               (Z.of_nat h * ostrides.1 + Z.of_nat w * ostrides.2)
               (load_unsigned size idata
                  (Z.of_nat h * istrides.1 + Z.of_nat w * istrides.2)))
          acc (seq 0 (Z.to_nat shape.2)))
    odata (seq 0 (Z.to_nat shape.1)).

(** [ReorderCKtoKC]: the new content of [oweights]; a type other than
    fp32 and fp16 aborts. *)
Definition ReorderCKtoKC (iweights oweights : TRT_ShapedWeights.t)
    : Outcome TRT_ShapedWeights.t :=
  let c := idx (d (TRT_ShapedWeights.shape_ iweights)) 0 in
  let k := idx (d (TRT_ShapedWeights.shape_ iweights)) 1 in
  let oshape :=
    mkDims (nbDims (TRT_ShapedWeights.shape_ oweights))
           (upd (upd (d (TRT_ShapedWeights.shape_ oweights)) 0 k) 1 c) in
  let istrides := (1, k) in
  let ostrides := (c, 1) in
  let run (size : nat) :=
    Done (TRT_ShapedWeights.mk oshape (TRT_ShapedWeights.type_ oweights)
            (Reorder2 size (k, c) (TRT_ShapedWeights.values iweights) istrides
                      (TRT_ShapedWeights.values oweights) ostrides)) in
  match TRT_ShapedWeights.type_ iweights with
  | DT_FLOAT => run 4%nat
  | DT_HALF => run 2%nat
  | _ => Crash CheckFailed
  end.

(** [while (input_dim.nbDims != 3) input_dim.d[input_dim.nbDims++] = 1]:
    the loop ends for a rank of at most 3; for a larger rank it runs
    past the array. *)
Definition pad_to_rank_3 (input_dim : Dims) : Outcome Dims :=
  if bool_decide (0 <= nbDims input_dim <= 3) then
    Done (mkDims 3
            (foldl (fun a i => upd a (nbDims input_dim + Z.of_nat i) 1)
                   (d input_dim)
                   (seq 0 (Z.to_nat (3 - nbDims input_dim)))))
  else Crash OutOfBounds.

(** [ConvertMatMulHelper] *)
Definition ConvertMatMulHelper (tensor_input : TRT_TensorOrWeights.t)
    (weights_raw : TRT_ShapedWeights.t) (transpose_weight : bool)
    (node_name : string) : M Status :=
  if negb (TRT_TensorOrWeights.is_tensor tensor_input) then
    mret (errors.InvalidArgument "Input 0 expects tensor")
  else
  tensor ← lift (TRT_TensorOrWeights.tensor tensor_input);
  weights ←
    (if transpose_weight then mret weights_raw
     else
       w ← in_weight_store (TrtWeightStore.GetTempWeights_like weights_raw);
       lift (ReorderCKtoKC weights_raw w));
  let biases := TRT_ShapedWeights.of_type (TRT_ShapedWeights.type_ weights) in
  let noutput := idx (d (TRT_ShapedWeights.shape_ weights)) 0 in
  input_dim ← in_network (tensor_getDimensions tensor);
  input_dim ← lift (pad_to_rank_3 input_dim);
  TF_RETURN_IF_ERROR_out
    (via_converter (PrepareTensorForShape tensor_input input_dim tensor))
    (fun tensor =>
  require_converter;;
  input ← in_network (deref tensor);
  kernel ← lift (TRT_ShapedWeights.GetTrtWeights weights);
  bias ← lift (TRT_ShapedWeights.GetTrtWeights biases);
  layer ← via_converter
    (addLayer (nvinfer1.IFullyConnectedLayer input noutput kernel bias));
  match layer with
  | None =>
      mret (TFTRT_INTERNAL_ERROR_AT_NODE "ConvertMatMulHelper" node_name)
  | Some layer =>
      output_tensor ← in_network (getOutput layer);
      output_dim ← in_network (tensor_getDimensions output_tensor);
      let output_dim := mkDims 1 (d output_dim) in
      TF_RETURN_IF_ERROR_out
        (via_converter
           (PrepareTensorForShape
              (TRT_TensorOrWeights.of_tensor output_tensor
                 TRT_TensorOrWeights.unknown_batch_size)
              output_dim None))
        (fun temp_tensor =>
      outputs_push_back
        (TRT_TensorOrWeights.of_tensor temp_tensor
           TRT_TensorOrWeights.unknown_batch_size);;
      mret Status_OK)
  end).

(** [ConvertMatMul] *)
Definition ConvertMatMul : OpConverter :=
  p ← the_params;
  let inputs := inputs p in
  let node_def := node_def p in
  let bad_inputs :=
    errors.InvalidArgument
      (StrCat ["Input expects tensor and weights, at "; name node_def]) in
  if bool_decide (length inputs <> 2%nat) then mret bad_inputs else
  input0 ← inputs_at inputs 0;
  if negb (TRT_TensorOrWeights.is_tensor input0) then mret bad_inputs else
  input1 ← inputs_at inputs 1;
  if negb (TRT_TensorOrWeights.is_weights input1) then mret bad_inputs else
  tf_dtype ← lift (TFAttrs.get_DataType node_def "T");
  if bool_decide (tf_dtype <> DT_FLOAT) && bool_decide (tf_dtype <> DT_HALF) then
    mret (errors.Unimplemented
            ("data type is not supported, for node " +:+ name node_def
             +:+ " got " +:+ DataTypeString tf_dtype))
  else
  transpose_a ← lift (TFAttrs.get_bool node_def "transpose_a");
  transpose_b ← lift (TFAttrs.get_bool node_def "transpose_b");
  if (transpose_a : bool) then
    mret (errors.Internal
            ("Transpose_a is not supported for TensorRT FullyConnected (op: "
             +:+ op node_def +:+ "), at: " +:+ name node_def))
  else
    weights ← lift (TRT_TensorOrWeights.weights input1);
    ConvertMatMulHelper input0 weights transpose_b (name node_def).

Context `{TensorFlow}.

(** The bytes of an array of 4-byte elements. *)
Definition bytes_of_words (l : list Z) : list Z :=
  flat_map (fun v => store_elem 4 [0; 0; 0; 0] 0 v) l.

(** [GetTrtDimsForTensor], from the shape of the tensor. *)
Definition GetTrtDimsForTensor (shape : list Z) : Dims :=
  mkDims (Z.of_nat (length shape))
         (foldl (fun a i => upd a (Z.of_nat i) (to_int (nth i shape 0)))
                (d Dims_fresh) (seq 0 (length shape))).

(** [GetTensorDimsWithProtoShape]; [dims] is the previous content of the
    output parameter. *)
Definition GetTensorDimsWithProtoShape (shape : list Z)
    (tensor_proto_array_len : Z) (dims : Dims) : Status * Dims :=
  if bool_decide (Z.of_nat (length shape) > 0) then
    let dims := GetTrtDimsForTensor shape in
    if bool_decide (TrtDimsNumElements dims <> tensor_proto_array_len)
       && bool_decide (tensor_proto_array_len <> 1) then
      (errors.InvalidArgument
         "Broadcast on weights only supports kCHANNEL and kUNIFORM", dims)
    else (Status_OK, dims)
  else
    (Status_OK,
     mkDims 1
       (foldl (fun a i => upd a (Z.of_nat i) 0)
              (upd (d dims) 0 tensor_proto_array_len)
              (seq 1 (Z.to_nat MAX_DIMS - 1)))).

(** [TfTensorToTrtWeights] for a 4-byte [CType]; [weights] is the
    previous content of the output parameter. *)
Definition TfTensorToTrtWeights (weights_dtype : DataType) (shape : list Z)
    (tensor_proto_array : list Z) (tensor_proto_array_len : Z)
    (weights : TRT_ShapedWeights.t) : M (Status * TRT_ShapedWeights.t) :=
  let '(status, weight_dims) :=
    GetTensorDimsWithProtoShape shape tensor_proto_array_len Dims_fresh in
  if negb (ok status) then mret (status, weights) else
  weights ← in_weight_store (TrtWeightStore.GetTempWeights weights_dtype weight_dims);
  let dst := TRT_ShapedWeights.values weights in
  let dst :=
    if bool_decide (tensor_proto_array_len = 1) then
      foldl (fun acc i => store_elem 4 acc (Z.of_nat i) (idx tensor_proto_array 0))
            dst (seq 0 (Z.to_nat (TrtDimsNumElements weight_dims)))
    else
      memcpy dst 0 (bytes_of_words tensor_proto_array)
             (TRT_ShapedWeights.size_bytes weights) in
  mret (Status_OK,
        TRT_ShapedWeights.mk (TRT_ShapedWeights.shape_ weights)
                             (TRT_ShapedWeights.type_ weights) dst).

(** The [tensor] field of an attribute value; the default message when
    the attribute holds another kind. *)
Definition attr_value_tensor (a : AttrValue) : TensorProto :=
  match a with
  | attr_tensor t => t
  | _ => mkTensorProto DT_INVALID [] [] [] [] []
  end.

(** [ConvertConst] *)
Definition ConvertConst : OpConverter :=
  p ← the_params;
  let node_def := node_def p in
  if negb (bool_decide (inputs p = [])) then
    mret (errors.InvalidArgument
            (StrCat ["Constant node is expected to have empty input list: ";
                     name node_def]))
  else
  dtype ← lift (TFAttrs.get_DataType node_def "dtype");
  let converted_dtype :=
    if bool_decide (dtype = DT_INT16) || bool_decide (dtype = DT_INT8)
       || bool_decide (dtype = DT_UINT8)
    then DT_INT32 else dtype in
  TF_RETURN_IF_ERROR (mret (ConvertDType converted_dtype nvinfer1.kFLOAT).1) (
  value ← lift (TFAttrs.at_ node_def "value");
  let tensor_proto := attr_value_tensor value in
  match Tensor_FromProto tensor_proto with
  | None =>
      mret (errors.Internal
              (StrCat ["Cannot parse weight tensor proto: "; name node_def]))
  | Some shape =>
  let NumElements := to_int64 (foldr Z.mul 1 shape) in
  let weights := TRT_ShapedWeights.of_type converted_dtype in
  TF_RETURN_IF_ERROR_out
    (if bool_decide (NumElements = 0) then mret (Status_OK, weights)
     else if negb (bool_decide (float_val tensor_proto = [])) then
       TfTensorToTrtWeights converted_dtype shape (float_val tensor_proto)
         (Z.of_nat (length (float_val tensor_proto))) weights
     else if negb (bool_decide (int_val tensor_proto = [])) then
       TfTensorToTrtWeights converted_dtype shape
         (map (fun v => v mod 2 ^ 32) (int_val tensor_proto))
         (Z.of_nat (length (int_val tensor_proto))) weights
     else if negb (bool_decide (half_val tensor_proto = [])) then
       mret (errors.Unimplemented "fp16 constant is not supported yet.", weights)
     else if negb (bool_decide (tensor_content tensor_proto = [])) then
       let content := tensor_content tensor_proto in
       let content_size := Z.of_nat (length content) in
       let dtype_size := DataTypeSize dtype in
       if bool_decide (content_size mod dtype_size <> 0) then
         mret (errors.FailedPrecondition
                 (StrCat ["Tensor content size "; pretty content_size;
                          " is not a multiple of "; pretty dtype_size]),
               weights)
       else
       let '(status, weights_dim) :=
         GetTensorDimsWithProtoShape shape
           (to_int (content_size / dtype_size)) Dims_fresh in
       if negb (ok status) then mret (status, weights) else
       let size_bytes := to_int64 (TrtDimsNumElements weights_dim * dtype_size) in
       if bool_decide (content_size <> to_size_t size_bytes) then
         mret (errors.FailedPrecondition
                 (StrCat ["Tensor size and TensorProto content size mismatch: ";
                          pretty size_bytes; " vs "; pretty content_size]),
               weights)
       else if bool_decide (to_size_t NumElements <> content_size / dtype_size) then
         mret (errors.FailedPrecondition
                 (StrCat ["Tensor elements count and TensorProto content size mismatch: ";
                          pretty NumElements; " vs ";
                          pretty (content_size / dtype_size)]),
               weights)
       else
       weights ← in_weight_store
         (TrtWeightStore.GetTempWeights converted_dtype weights_dim);
       let with_values v :=
         TRT_ShapedWeights.mk (TRT_ShapedWeights.shape_ weights)
                              (TRT_ShapedWeights.type_ weights) v in
       let dst := TRT_ShapedWeights.values weights in
       if bool_decide (dtype_size = DataTypeSize converted_dtype) then
         mret (Status_OK, with_values (memcpy dst 0 content content_size))
       else if bool_decide (dtype = DT_INT16) then
         mret (Status_OK,
               with_values (transform 2 4 (wrap 16) content dst NumElements))
       else if bool_decide (dtype = DT_INT8) then
         mret (Status_OK,
               with_values (transform 1 4 (wrap 8) content dst NumElements))
       else if bool_decide (dtype = DT_UINT8) then
         mret (Status_OK,
               with_values (transform 1 4 (fun v => v) content dst NumElements))
       else
         mret (errors.FailedPrecondition
                 (StrCat ["Unexpected data type: "; DataTypeString dtype;
                          " at: "; name node_def]),
               weights)
     else
       mret (errors.Unimplemented
               (StrCat ["Not supported constant type, at "; name node_def]),
             weights))
    (fun weights =>
  if negb (validation_only p) then
    outputs_push_back (TRT_TensorOrWeights.of_weights weights);;
    mret Status_OK
  else mret Status_OK)
  end).
End Converters.

(** ** The operator registries *)

(** The converter functions of the file, by name. *)
Module fn.
Inductive t :=
| ConvertConv2D | ConvertConv2DDepthwise | ConvertActivation | ConvertPool
| ConvertScale | ConvertConst | ConvertIdentity | ConvertBinary | ConvertPad
| ConvertConcat | ConvertFusedBatchNorm | ConvertUnary | ConvertTranspose
| ConvertReshape | ConvertReduce | ConvertSoftmax | ConvertMatMul
| ConvertBatchMatMul | ConvertTopK | ConvertPlugin.

#[global] Instance eq_dec : EqDecision t.
Proof. solve_decision. Defined.
End fn.

(** The converter functions this development does not translate are
    taken as given. *)
Class OtherConverters := { untranslated : fn.t -> OpConverter }.

(** [TrtNodeValidator::RegisterOpValidators] *)
Definition RegisterOpValidators : gmap string fn.t :=
  <["MatMul" := fn.ConvertMatMul]>
  (<["Reshape" := fn.ConvertReshape]>
  (<["Transpose" := fn.ConvertTranspose]>
  (<["Const" := fn.ConvertConst]> ∅))).

(** [Converter::RegisterOpConverters] *)
Definition RegisterOpConverters : gmap string fn.t :=
  list_to_map (reverse [
    ("Conv2D", fn.ConvertConv2D);
    ("DepthwiseConv2dNative", fn.ConvertConv2DDepthwise);
    ("Relu", fn.ConvertActivation);
    ("MaxPool", fn.ConvertPool);
    ("AvgPool", fn.ConvertPool);
    ("BiasAdd", fn.ConvertScale);
    ("Const", fn.ConvertConst);
    ("Identity", fn.ConvertIdentity);
    ("Snapshot", fn.ConvertIdentity);
    ("Add", fn.ConvertBinary);
    ("Mul", fn.ConvertBinary);
    ("Sub", fn.ConvertBinary);
    ("Pad", fn.ConvertPad);
    ("ConcatV2", fn.ConvertConcat);
    ("FusedBatchNorm", fn.ConvertFusedBatchNorm);
    ("FusedBatchNormV2", fn.ConvertFusedBatchNorm);
    ("Div", fn.ConvertBinary);
    ("RealDiv", fn.ConvertBinary);
    ("Rsqrt", fn.ConvertUnary);
    ("Reciprocal", fn.ConvertUnary);
    ("Exp", fn.ConvertUnary);
    ("Log", fn.ConvertUnary);
    ("Sqrt", fn.ConvertUnary);
    ("Abs", fn.ConvertUnary);
    ("Neg", fn.ConvertUnary);
    ("Transpose", fn.ConvertTranspose);
    ("Reshape", fn.ConvertReshape);
    ("Sum", fn.ConvertReduce);
    ("Prod", fn.ConvertReduce);
    ("Max", fn.ConvertReduce);
    ("Min", fn.ConvertReduce);
    ("Mean", fn.ConvertReduce);
    ("Maximum", fn.ConvertBinary);
    ("Minimum", fn.ConvertBinary);
    ("Softmax", fn.ConvertSoftmax);
    ("MatMul", fn.ConvertMatMul);
    ("BatchMatMul", fn.ConvertBatchMatMul);
    ("TopKV2", fn.ConvertTopK)]).

(** [TrtNodeValidator]: its registry and its own weight store. *)
Record TrtNodeValidator := mkValidator {
  op_validators_ : gmap string fn.t;
  validator_weight_store_ : TrtWeightStore.t }.

Section Driver.
Context `{TensorRT} `{ScalarOps} `{TensorFlow} `{OtherConverters}.

(** The function a registry entry stands for. *)
Definition call (f : fn.t) : OpConverter :=
  match f with
  | fn.ConvertConst => ConvertConst
  | fn.ConvertIdentity => ConvertIdentity
  | fn.ConvertBinary => ConvertBinary
  | fn.ConvertTranspose => ConvertTranspose
  | fn.ConvertReshape => ConvertReshape
  | fn.ConvertMatMul => ConvertMatMul
  | other => untranslated other
  end.

(** [TrtNodeValidator::ValidateNode]: the parameter bundle has a null
    converter, null outputs, validation-only mode and the validator's
    weight store. *)
Definition ValidateNode (node_def : NodeDef)
    (inputs : list TRT_TensorOrWeights.t)
    : ST (TrtNodeValidator * nvinfer1.INetworkDefinition) Status :=
  fun '(this, net) =>
  match op_validators_ this !! op node_def with
  | None => Done (Status_OK, (this, net))
  | Some validator =>
      let bundle :=
        mkParams None node_def inputs None true (validator_weight_store_ this) in
      match call validator (mkWorld bundle net) with
      | Done (status, w) =>
          Done (status,
                (mkValidator (op_validators_ this) (weight_store (params w)),
                 network w))
      | Crash f => Crash f
      end
  end.

(** State of the methods of [Converter] that build the network. *)
Definition CM := ST (Converter * nvinfer1.INetworkDefinition).

Definition on_converter {A} (a : ST Converter A) : CM A := fun '(this, net) =>
  match a this with
  | Done (x, this) => Done (x, (this, net))
  | Crash f => Crash f
  end.

Definition on_network {A} (a : ST nvinfer1.INetworkDefinition A) : CM A :=
  fun '(this, net) =>
  match a net with
  | Done (x, net) => Done (x, (this, net))
  | Crash f => Crash f
  end.

(** The loop of [ConvertNode] over the outputs of the converter
    function, from output [i] on. *)
Fixpoint add_outputs (node_name : string) (i : nat)
    (outputs : list TRT_TensorOrWeights.t) : CM Status :=
  match outputs with
  | [] => mret Status_OK
  | output :: rest =>
      let output_name :=
        if bool_decide (i <> 0%nat) then StrCat [node_name; ":"; pretty i]
        else node_name in
      (if TRT_TensorOrWeights.is_tensor output then
         tensor ← lift (TRT_TensorOrWeights.tensor output);
         tensor_name ← on_network (tensor_getName tensor);
         if bool_decide (tensor_name = "") then
           on_network (tensor_setName tensor output_name)
         else mret tt
       else mret tt);;
      status ← on_converter (AddTensorOrWeights output_name output);
      if negb (ok status) then
        mret (mkStatus (code status)
                (StrCat ["Failed to add output for node "; node_name; ": ";
                         error_message status]))
      else add_outputs node_name (S i) rest
  end.

(** The call of a converter function from [ConvertNode]: the bundle
    points at this converter, at the local [outputs] vector and at the
    converter's weight store; the converter and its store are read back
    from the bundle afterwards. *)
Definition call_op_converter (f : fn.t) (node_def : NodeDef)
    (inputs : list TRT_TensorOrWeights.t)
    : CM (Status * list TRT_TensorOrWeights.t) := fun '(this, net) =>
  let bundle :=
    mkParams (Some this) node_def inputs (Some []) false (weight_store_ this) in
  match call f (mkWorld bundle net) with
  | Done (status, w) =>
      let p := params w in
      let this' := default this (converter p) in
      Done ((status, default [] (outputs p)),
            (mkConverter (is_fp16_ this') (batch_size_ this')
                         (trt_tensors_ this') (weight_store p),
             network w))
  | Crash f => Crash f
  end.

(** [Converter::ConvertNode] *)
Definition ConvertNode (node_def : NodeDef) : CM Status :=
  r ← on_converter (GetInputs node_def []);
  if negb (ok r.1) then mret r.1 else
  let inputs := r.2 in
  let op_name := op node_def in
  converted ←
    (if IsPlugin op_name then
       call_op_converter fn.ConvertPlugin node_def inputs
     else
       match RegisterOpConverters !! op_name with
       | None =>
           mret (errors.Unimplemented
                   ("No converter registered for op: " +:+ op_name), [])
       | Some op_converter => call_op_converter op_converter node_def inputs
       end);
  if negb (ok converted.1) then mret converted.1
  else add_outputs (name node_def) 0 converted.2.

(** [Converter::AddInputTensor] *)
Definition AddInputTensor (tensor_name : string) (dtype : nvinfer1.DataType)
    (dims : Dims) (batch_size : Z) : CM Status :=
  status ← on_converter (MaybeUpdateBatchSize batch_size);
  if negb (ok status) then
    mret (mkStatus (code status)
            (StrCat ["Batch size doesn't match for tensor "; tensor_name; ": ";
                     error_message status]))
  else
  tensor ← on_network (addInput tensor_name dtype dims);
  match tensor with
  | None =>
      mret (errors.InvalidArgument
              (StrCat ["Failed to create Input layer tensor "; tensor_name;
                       " rank="; pretty (nbDims dims)]))
  | Some _ =>
      status ← on_converter
        (AddTensorOrWeights tensor_name
           (TRT_TensorOrWeights.of_tensor tensor
              TRT_TensorOrWeights.unknown_batch_size));
      if negb (ok status) then
        mret (mkStatus (code status)
                (StrCat ["Failed to add input tensor "; tensor_name; ": ";
                         error_message status]))
      else mret Status_OK
  end.
End Driver.

(** ** Graph segment extraction *)

Definition kInputPHName : string := "TensorRTInputPH_".
Definition kOutputPHName : string := "TensorRTOutputPH_".

(** [Graph::kControlSlot] *)
Definition kControlSlot : Z := -1.

(** [str_util::StartsWith(s, prefix)] *)
Fixpoint StartsWith (s prefix : string) {struct prefix} : bool :=
  match prefix, s with
  | EmptyString, _ => true
  | String p prefix', String c s' =>
      if bool_decide (c = p) then StartsWith s' prefix' else false
  | String _ _, EmptyString => false
  end.

(** [EngineConnection].

    Modelled from the spec: the structure is declared in a header that is
    not part of the translated source; the spec lists its fields, among
    them whether the connection is a control edge. *)
Record EngineConnection := mkConnection {
  outside_node_name : string;
  outside_id : Z;
  outside_port : Z;
  outside_shape : PartialTensorShape;
  inside_node_name : string;
  inside_id : Z;
  inside_port : Z;
  inside_shape : PartialTensorShape;
  connection_type : DataType;
  is_input_edge : bool;
  is_control_edge : bool;
  port_number : Z }.

(** A node of the host graph: its definition and the types of its
    outputs and inputs. *)
Record Node := mkNode {
  def : NodeDef;
  output_types : list DataType;
  input_types : list DataType }.

(** The host graph, as far as the extraction reads it. *)
Record Graph := mkGraph { FindNodeId : Z -> option Node }.

(** [grappler::GraphProperties]: the inferred type and shape of the
    outputs and of the inputs of the nodes it has information about. *)
Record GraphProperties := mkGraphProperties {
  output_properties : gmap string (list (DataType * PartialTensorShape));
  input_properties : gmap string (list (DataType * PartialTensorShape)) }.

(** [GetOutputProperties] and [GetInputProperties]; [shape] and [dtype]
    are the previous contents of the output parameters; [at] and the
    type accessors abort past the end. *)
Definition GetOutputProperties (graph_properties : GraphProperties)
    (node : Node) (out_port : Z) (shape : PartialTensorShape) (dtype : DataType)
    : Outcome (PartialTensorShape * DataType) :=
  match output_properties graph_properties !! name (def node) with
  | Some output_params =>
      if bool_decide (0 <= out_port) then
        match output_params !! Z.to_nat out_port with
        | Some out_shape => Done (out_shape.2, out_shape.1)
        | None => Crash OutOfBounds
        end
      else Crash OutOfBounds
  | None =>
      if bool_decide (0 <= out_port) then
        match output_types node !! Z.to_nat out_port with
        | Some ty => Done (shape, ty)
        | None => Crash OutOfBounds
        end
      else Crash OutOfBounds
  end.

Definition GetInputProperties (graph_properties : GraphProperties)
    (node : Node) (in_port : Z) (shape : PartialTensorShape) (dtype : DataType)
    : Outcome (PartialTensorShape * DataType) :=
  match input_properties graph_properties !! name (def node) with
  | Some input_params =>
      if bool_decide (0 <= in_port) then
        match input_params !! Z.to_nat in_port with
        | Some in_shape => Done (in_shape.2, in_shape.1)
        | None => Crash OutOfBounds
        end
      else Crash OutOfBounds
  | None =>
      if bool_decide (0 <= in_port) then
        match input_types node !! Z.to_nat in_port with
        | Some ty => Done (shape, ty)
        | None => Crash OutOfBounds
        end
      else Crash OutOfBounds
  end.

(** The nodes [NodeDefBuilder] writes for the two marker operators, both
    registered operators of the host framework: a [Placeholder] with its
    shape and type, an [Identity] fed by output 0 of the inside node. *)
Definition placeholder_node (node_name : string) (shape : PartialTensorShape)
    (dtype : DataType) : NodeDef :=
  mkNodeDef node_name "Placeholder" []
            (<["dtype" := attr_type dtype]> (<["shape" := attr_shape shape]> ∅)).

Definition identity_node (node_name inside_name : string) (dtype : DataType)
    : NodeDef :=
  mkNodeDef node_name "Identity" [inside_name] (<["T" := attr_type dtype]> ∅).

(** State of the first loop of [ConvertSegmentToGraphDef]: the marker
    names seen, the connections already visited (updated in place), the
    segment so far. *)
Record MarkerState := mkMarkerState {
  marker_nodes : gset string;
  visited : list EngineConnection;
  segment : list NodeDef }.

(** The connection with the shape and type found for its outside end. *)
Definition with_properties (connection : EngineConnection)
    (partial_shape : PartialTensorShape) (dtype : DataType) : EngineConnection :=
  mkConnection
    (outside_node_name connection) (outside_id connection)
    (outside_port connection)
    (if is_input_edge connection then partial_shape
     else outside_shape connection)
    (inside_node_name connection) (inside_id connection)
    (inside_port connection)
    (if is_input_edge connection then inside_shape connection
     else partial_shape)
    dtype (is_input_edge connection) (is_control_edge connection)
    (port_number connection).

(** The name of the marker node of a connection. *)
Definition marker_name (connection : EngineConnection) : string :=
  StrCat [if is_input_edge connection then kInputPHName else kOutputPHName;
          pretty (port_number connection)].

(** The first loop, over the connections not yet visited.  The loop
    leaves early with a status that is not OK; the connections and the
    segment are then as they were at that point. *)
Fixpoint add_markers (graph : Graph) (graph_properties : GraphProperties)
    (st : MarkerState) (connections : list EngineConnection)
    : Outcome (Status * MarkerState) :=
  match connections with
  | [] => Done (Status_OK, st)
  | connection :: rest =>
      if is_control_edge connection then
        add_markers graph graph_properties
          (mkMarkerState (marker_nodes st) (visited st ++ [connection])
                         (segment st))
          rest
      else
        match FindNodeId graph (outside_id connection) with
        | None =>
            Done (errors.NotFound
                    (StrCat ["Cannot find node with id ";
                             pretty (outside_id connection); " in the graph."]),
                  mkMarkerState (marker_nodes st)
                                (visited st ++ connection :: rest) (segment st))
        | Some outside_node =>
            match
              (if is_input_edge connection
               then GetOutputProperties graph_properties outside_node
                      (outside_port connection) None DT_INVALID
               else GetInputProperties graph_properties outside_node
                      (outside_port connection) None DT_INVALID)
            with
            | Crash f => Crash f
            | Done (partial_shape, dtype) =>
                let connection := with_properties connection partial_shape dtype in
                let node_name := marker_name connection in
                if bool_decide (node_name ∈ marker_nodes st) then
                  add_markers graph graph_properties
                    (mkMarkerState (marker_nodes st)
                                   (visited st ++ [connection]) (segment st))
                    rest
                else
                  add_markers graph graph_properties
                    (mkMarkerState
                       ({[node_name]} ∪ marker_nodes st)
                       (visited st ++ [connection])
                       (segment st ++
                          [if is_input_edge connection
                           then placeholder_node node_name partial_shape dtype
                           else identity_node node_name
                                  (inside_node_name connection) dtype]))
                    rest
            end
        end
  end.

(** The second loop: copy the nodes of the segment, record where each
    went, narrow the common scope. *)
Fixpoint copy_nodes (graph : Graph) (node_ids : list Z)
    (local_scope : string) (old_to_new_id_map : gmap Z nat)
    (segment_def : list NodeDef)
    : Outcome (string * gmap Z nat * list NodeDef) :=
  match node_ids with
  | [] => Done (local_scope, old_to_new_id_map, segment_def)
  | node_id :: rest =>
      match FindNodeId graph node_id with
      | None => Crash NullNode
      | Some node =>
          copy_nodes graph rest
            (GetCommonNameScope local_scope (name (def node)))
            (<[node_id := length segment_def]> old_to_new_id_map)
            (segment_def ++ [def node])
      end
  end.

(** [snode->set_input(i, value)] *)
Definition set_input (snode : NodeDef) (i : Z) (value : string)
    : Outcome NodeDef :=
  if bool_decide (0 <= i < Z.of_nat (length (input snode))) then
    Done (mkNodeDef (name snode) (op snode)
                    (<[Z.to_nat i := value]> (input snode)) (attr snode))
  else Crash OutOfBounds.

(** The third loop: point the inputs fed from outside at the
    placeholders. *)
Fixpoint rewire_inputs (connections : list EngineConnection)
    (old_to_new_id_map : gmap Z nat) (segment_def : list NodeDef)
    : Outcome (list NodeDef) :=
  match connections with
  | [] => Done segment_def
  | connection :: rest =>
      if is_control_edge connection || negb (is_input_edge connection) then
        rewire_inputs rest old_to_new_id_map segment_def
      else
        let i := default 0%nat (old_to_new_id_map !! inside_id connection) in
        match segment_def !! i with
        | None => Crash OutOfBounds
        | Some snode =>
            match set_input snode (inside_port connection)
                    (StrCat [kInputPHName; pretty (port_number connection)]) with
            | Crash f => Crash f
            | Done snode' =>
                rewire_inputs rest old_to_new_id_map (<[i := snode']> segment_def)
            end
        end
  end.

Section Segment.
Context `{TensorFlow}.

(** An input reference that points neither into the segment nor at an
    input placeholder. *)
Definition outside_segment (subgraph_node_names : gset string)
    (input_name : string) : bool :=
  negb (bool_decide ((ParseTensorName input_name).1 ∈ subgraph_node_names))
  && negb (StartsWith (ParseTensorName input_name).1 kInputPHName).

(** The compaction loop over the inputs of one node: [original] is the
    input list on entry, [kept] the inputs moved to the front so far,
    [todo] those not yet looked at.  [inl] is the early return, with
    the input list as it is then. *)
Fixpoint strip_inputs (subgraph_node_names : gset string) (node_name : string)
    (original kept todo : list string) : Status * list string + list string :=
  match todo with
  | [] => inr kept
  | input_name :: rest =>
      if outside_segment subgraph_node_names input_name then
        if bool_decide ((ParseTensorName input_name).2 = kControlSlot) then
          strip_inputs subgraph_node_names node_name original kept rest
        else
          inl (errors.InvalidArgument
                 (StrCat ["Found non control input outside the segment that is not an engine connection to ";
                          node_name; ": "; (ParseTensorName input_name).1]),
               kept ++ drop (length kept) original)
      else
        strip_inputs subgraph_node_names node_name original
          (kept ++ [input_name]) rest
  end.

(** The fourth loop, over the nodes of the segment: [treated] are the
    nodes already compacted. *)
Fixpoint strip_nodes (subgraph_node_names : gset string)
    (treated todo : list NodeDef) : Status * list NodeDef :=
  match todo with
  | [] => (Status_OK, treated)
  | snode :: rest =>
      match strip_inputs subgraph_node_names (name snode) (input snode) []
              (input snode) with
      | inl (status, partial) =>
          (status,
           treated ++ mkNodeDef (name snode) (op snode) partial (attr snode)
             :: rest)
      | inr kept =>
          strip_nodes subgraph_node_names
            (treated ++ [mkNodeDef (name snode) (op snode) kept (attr snode)])
            rest
      end
  end.

(** [ConvertSegmentToGraphDef]: the status, and the contents of
    [connections], [segment_def] and [common_scope] on return. *)
Definition ConvertSegmentToGraphDef (graph : Graph)
    (graph_properties : GraphProperties)
    (subgraph_node_names : gset string) (subgraph_node_ids : list Z)
    (connections : list EngineConnection) (segment_def : list NodeDef)
    (common_scope : string)
    : Outcome (Status * list EngineConnection * list NodeDef * string) :=
  match add_markers graph graph_properties
          (mkMarkerState ∅ [] segment_def) connections with
  | Crash f => Crash f
  | Done (status, st) =>
      if negb (ok status) then
        Done (status, visited st, segment st, common_scope)
      else
      match subgraph_node_ids with
      | [] => Crash OutOfBounds
      | first :: _ =>
          match FindNodeId graph first with
          | None => Crash NullNode
          | Some first_node =>
              match copy_nodes graph subgraph_node_ids
                      (name (def first_node)) ∅ (segment st) with
              | Crash f => Crash f
              | Done (local_scope, old_to_new_id_map, segment_def) =>
                  match rewire_inputs (visited st) old_to_new_id_map
                          segment_def with
                  | Crash f => Crash f
                  | Done segment_def =>
                      let '(status, segment_def) :=
                        strip_nodes subgraph_node_names [] segment_def in
                      if ok status then
                        Done (status, visited st, segment_def, local_scope)
                      else
                        Done (status, visited st, segment_def, common_scope)
                  end
              end
          end
      end
  end.
End Segment.

(** * Further functions of the file *)

(** ** [ConvertUnary] *)

Section UnaryConverter.
Context `{TensorRT}.

(** The operator table of [ConvertUnary]. *)
Definition unary_ops (op_name : string) : option nvinfer1.UnaryOperation :=
  if bool_decide (op_name = "Neg") then Some nvinfer1.kNEG
  else if bool_decide (op_name = "Exp") then Some nvinfer1.kEXP
  else if bool_decide (op_name = "Log") then Some nvinfer1.kLOG
  else if bool_decide (op_name = "Sqrt") then Some nvinfer1.kSQRT
  else if bool_decide (op_name = "Abs") then Some nvinfer1.kABS
  else if bool_decide (op_name = "Reciprocal") then Some nvinfer1.kRECIP
  else None.

(** [params->converter->network()->addUnary] on the tensor pointed at. *)
Definition addUnary (tensor : nvinfer1.ITensorPtr)
    (operation : nvinfer1.UnaryOperation) : M (option nat) :=
  require_converter;;
  input ← in_network (deref tensor);
  via_converter (addLayer (nvinfer1.IUnaryLayer input operation)).

(** [ConvertUnary]: the layer is chosen by the operator of the node, a
    status to return with or the layer pointer. *)
Definition ConvertUnary : OpConverter :=
  p ← the_params;
  let inputs := inputs p in
  let node_def := node_def p in
  if bool_decide (length inputs <> 1%nat) then
    mret (errors.FailedPrecondition
            (StrCat ["Unary ops require single tensor input, at ";
                     name node_def]))
  else
  input0 ← inputs_at inputs 0;
  dims ← in_network (GetTrtDims input0);
  TF_RETURN_IF_ERROR_out
    (via_converter (PrepareTensorForShape input0 dims None)) (fun tensor =>
  chosen ←
    (if bool_decide (op node_def = "Rsqrt") then
       layer ← addUnary tensor nvinfer1.kSQRT;
       match layer with
       | None =>
           mret (inl (TFTRT_INTERNAL_ERROR_AT_NODE "ConvertUnary"
                        (name node_def)))
       | Some layer =>
           tensor ← in_network (getOutput layer);
           layer ← addUnary tensor nvinfer1.kRECIP;
           mret (inr layer)
       end
     else
       match unary_ops (op node_def) with
       | Some operation =>
           layer ← addUnary tensor operation;
           mret (inr layer)
       | None =>
           mret (inl (errors.InvalidArgument
                        (StrCat ["Binary op: "; op node_def;
                                 " not supported, at "; name node_def])))
       end);
  match chosen with
  | inl status => mret status
  | inr None =>
      mret (TFTRT_INTERNAL_ERROR_AT_NODE "ConvertUnary" (name node_def))
  | inr (Some layer) =>
      output_tensor ← in_network (getOutput layer);
      outputs_push_back
        (TRT_TensorOrWeights.of_tensor output_tensor
           TRT_TensorOrWeights.unknown_batch_size);;
      mret Status_OK
  end).

End UnaryConverter.

(** ** [Converter::RenameAndMarkOutputTensors] *)

(** Modelled from the spec: the default constructor of
    [TRT_TensorOrWeights] is in the header, which is not part of the
    translated source; a default-constructed value is the empty variant,
    neither initialised nor a tensor. *)
Definition TRT_TensorOrWeights_default : TRT_TensorOrWeights.t :=
  TRT_TensorOrWeights.mk None TRT_TensorOrWeights.unknown_batch_size
    (TRT_ShapedWeights.of_type DT_FLOAT) false false.

Section OutputTensors.
Context `{TensorRT}.

Fixpoint RenameAndMarkOutputTensors (output_tensors : list (string * string))
    : CM Status :=
  match output_tensors with
  | [] => mret Status_OK
  | output :: rest =>
      r ← on_converter
            (GetTensorOrWeights output.1 TRT_TensorOrWeights_default);
      if negb (ok r.1) then mret r.1 else
      let tensor_or_weights := r.2 in
      if negb (TRT_TensorOrWeights.is_tensor tensor_or_weights) then
        mret (errors.InvalidArgument
                (StrCat ["Output "; output.1; " is weights not tensor"]))
      else
      tensor ← lift (TRT_TensorOrWeights.tensor tensor_or_weights);
      match tensor with
      | None =>
          mret (errors.NotFound
                  (StrCat ["Output tensor not found: "; output.1]))
      | Some _ =>
          on_network (tensor_setName tensor output.2);;
          on_network (markOutput tensor);;
          RenameAndMarkOutputTensors rest
      end
  end.

End OutputTensors.

(** ** Validation of the inputs of an engine *)

(** What the code asks of the host framework's text utilities:
    [PartialTensorShape::DebugString] and [strings::safe_strto32]
    ([None] when the text is not a 32-bit number). *)
Class HostText := {
  PartialTensorShape_DebugString : PartialTensorShape -> string;
  safe_strto32 : string -> option Z;
  safe_strto32_range :
    forall s n, safe_strto32 s = Some n -> - 2 ^ 31 <= n < 2 ^ 31
}.

(** [shape.dims()] is -1 for a shape of unknown rank; [shape.dim_size(d)],
    which the code calls within the rank only, is -1 for an unknown
    extent. *)
Definition PartialTensorShape_dims (shape : PartialTensorShape) : Z :=
  match shape with
  | None => -1
  | Some extents => Z.of_nat (length extents)
  end.

Definition PartialTensorShape_dim_size (shape : PartialTensorShape) (i : Z)
    : Z :=
  idx (default [] shape) i.

Section InputValidation.
Context `{HostText}.

(** The loop [for (d = 1; d < shape.dims(); ++d)] of
    [ValidateInputProperties]: the first non-batch dimension with an
    unknown extent. *)
Fixpoint first_unknown_dim (shape : PartialTensorShape) (i : Z) (n : nat)
    : option Z :=
  match n with
  | O => None
  | S n' =>
      if bool_decide (PartialTensorShape_dim_size shape i < 0) then Some i
      else first_unknown_dim shape (i + 1) n'
  end.

(** [ValidateInputProperties]; [trt_dtype] is the previous content of
    the output parameter. *)
Definition ValidateInputProperties (shape : PartialTensorShape)
    (dtype : DataType) (trt_dtype : nvinfer1.DataType)
    : Status * nvinfer1.DataType :=
  let '(status, trt_dtype) := ConvertDType dtype trt_dtype in
  if negb (ok status) then (status, trt_dtype)
  else if bool_decide (PartialTensorShape_dims shape < 0) then
    (errors.InvalidArgument "Input tensor rank is unknown.", trt_dtype)
  else if bool_decide (PartialTensorShape_dims shape > 9) then
    (errors.OutOfRange "Input tensor rank is greater than 8.", trt_dtype)
  else
    match first_unknown_dim shape 1
            (Z.to_nat (PartialTensorShape_dims shape) - 1) with
    | Some dim =>
        (errors.InvalidArgument
           (StrCat ["Input tensor with shape ";
                    PartialTensorShape_DebugString shape;
                    " has an unknown non-batch dimemension at dim ";
                    pretty dim]),
         trt_dtype)
    | None => (Status_OK, trt_dtype)
    end.

(** An edge of the host graph, as far as the edge validators read it. *)
Record Edge := mkEdge {
  IsControlEdge : bool;
  src : Node;
  src_output : Z;
  dst : Node;
  dst_input : Z }.

(** [InputEdgeValidator::operator()]; the validator holds the graph
    properties.  A freshly declared [PartialTensorShape] is of unknown
    rank; the content [ValidateInputProperties] leaves in [trt_dtype] is
    not read. *)
Definition InputEdgeValidator (graph_properties_ : GraphProperties)
    (in_edge : Edge) : Outcome bool :=
  if IsControlEdge in_edge then Done true
  else
    match GetOutputProperties graph_properties_ (src in_edge)
            (src_output in_edge) None DT_INVALID with
    | Crash f => Crash f
    | Done (shape, dtype) =>
        let status := (ValidateInputProperties shape dtype nvinfer1.kFLOAT).1 in
        if negb (ok status) then Done false
        else if bool_decide (op (def (src in_edge)) <> "Const")
                && bool_decide (PartialTensorShape_dims shape < 2)
        then Done false
        else Done true
    end.

(** [OutputEdgeValidator::operator()] *)
Definition OutputEdgeValidator (out_edge : Edge) : bool :=
  if IsControlEdge out_edge then true
  else if bool_decide (op (def (src out_edge)) = "Const") then false
  else true.

End InputValidation.

(** ** [ConvertGraphDefToEngine] *)

(** [nvinfer1::IBuilder], as far as the code configures it; the
    allocator and the calibrator are handles the code passes on. *)
Record IBuilder := mkBuilder {
  maxBatchSize : Z;
  maxWorkspaceSize : Z;
  gpuAllocator : Z;
  half2Mode : bool;
  int8Mode : bool;
  int8Calibrator : Z }.

(** [nvinfer1::ICudaEngine]: an engine is known by the builder and the
    network it was built from. *)
Record ICudaEngine := mkEngine {
  engine_builder : IBuilder;
  engine_network : nvinfer1.INetworkDefinition }.

(** What the code asks of the builder of the library, and the two
    precision constants of the header it compares with. *)
Class EngineBuilder := {
  FP16MODE : Z;
  INT8MODE : Z;
  createNetwork_returns_null : IBuilder -> bool;
  buildCudaEngine_returns_null :
    IBuilder -> nvinfer1.INetworkDefinition -> bool
}.

(** Modelled from the spec: the initialisers of the members of
    [Converter] are in the header, which is not part of the translated
    source; the batch size is initially unknown (a negative sentinel),
    the symbol table and the weight store are empty. *)
Definition Converter_new (is_fp16 : bool) : Converter :=
  mkConverter is_fp16 (-1) ∅ TrtWeightStore.empty.

(** [s.c_str() + n] for [n] within the string. *)
Definition c_str_from (s : string) (n : nat) : string :=
  substring n (String.length s - n) s.

(** [std::vector::at] with an [int] index, which is converted to
    [size_t]. *)
Definition vector_at {A} (v : list A) (i : Z) : Outcome A :=
  match v !! Z.to_nat (to_size_t i) with
  | Some x => Done x
  | None => Crash OutOfBounds
  end.

(** [std::vector::resize(n)]: new elements are value-initialised; a
    request past the largest size a vector can have, which is below
    2^63 elements, throws. *)
Definition vector_resize {A} (v : list A) (n : Z) (fresh : A)
    : Outcome (list A) :=
  if bool_decide (2 ^ 63 <= n) then Crash OutOfBounds
  else Done (take (Z.to_nat n) v
             ++ replicate (Z.to_nat n - length v) fresh).

Section EngineConversion.
Context `{TensorRT} `{ScalarOps} `{TensorFlow} `{OtherConverters}
        `{HostText} `{EngineBuilder}.

(** The branch of the loop for an input placeholder.  A shape of rank 0
    passes the validation, and [shape.dim_size(0)] is then outside of
    the rank ([DCHECK_LT(d, dims())]). *)
Definition convert_input_placeholder (input_shapes : list PartialTensorShape)
    (node_def : NodeDef) : CM Status :=
  let node_name := name node_def in
  match safe_strto32 (c_str_from node_name (String.length kInputPHName)) with
  | None =>
      mret (errors.InvalidArgument
              (StrCat ["Failed to parse slot number from "; node_name]))
  | Some slot_number =>
      shape ← lift (vector_at input_shapes slot_number);
      tf_dtype ← lift (match attr node_def !! "dtype" with
                       | Some (attr_type ty) => Done ty
                       | Some _ => Done DT_INVALID
                       | None => Crash CheckFailed
                       end);
      let '(status, dtype) :=
        ValidateInputProperties shape tf_dtype nvinfer1.kFLOAT in
      if negb (ok status) then
        mret (mkStatus (code status)
                (StrCat ["Validation failed for "; node_name;
                         " and input slot "; pretty slot_number; ": ";
                         error_message status]))
      else
      let input_dim :=
        mkDims (PartialTensorShape_dims shape - 1)
          (foldl (fun a i =>
                    upd a (Z.of_nat i - 1)
                        (to_int (PartialTensorShape_dim_size shape (Z.of_nat i))))
                 (d Dims_fresh)
                 (seq 1 (Z.to_nat (PartialTensorShape_dims shape) - 1))) in
      if bool_decide (PartialTensorShape_dims shape = 0) then crash CheckFailed
      else
      AddInputTensor node_name dtype input_dim
        (to_int (PartialTensorShape_dim_size shape 0))
  end.

(** The branch of the loop for an output placeholder: [slot_number] is
    an [int], compared with the size as a [size_t]; [input(0)] of a node
    without inputs reads outside of the list. *)
Definition record_output_placeholder (node_def : NodeDef)
    (output_tensors : list (string * string))
    : Outcome (Status * list (string * string)) :=
  let node_name := name node_def in
  match safe_strto32 (c_str_from node_name (String.length kOutputPHName)) with
  | None =>
      Done (errors.InvalidArgument
              (StrCat ["Failed to parse slot number from "; node_name]),
            output_tensors)
  | Some slot_number =>
      match (if bool_decide (Z.of_nat (length output_tensors)
                             <= to_size_t slot_number)
             then vector_resize output_tensors
                    (to_size_t (to_int (slot_number + 1))) ("", "")
             else Done output_tensors) with
      | Crash f => Crash f
      | Done output_tensors =>
          match input node_def with
          | [] => Crash OutOfBounds
          | input0 :: _ =>
              match vector_at output_tensors slot_number with
              | Crash f => Crash f
              | Done _ =>
                  Done (Status_OK,
                        <[Z.to_nat (to_size_t slot_number) :=
                            (input0, node_name)]> output_tensors)
              end
          end
      end
  end.

(** The body of the loop over the nodes of the graph: the status to
    return with, if it is not OK, and the list of outputs. *)
Definition convert_graph_node (input_shapes : list PartialTensorShape)
    (node_def : NodeDef) (output_tensors : list (string * string))
    : CM (Status * list (string * string)) :=
  let node_name := name node_def in
  if StartsWith node_name kInputPHName
     && bool_decide (op node_def = "Placeholder") then
    status ← convert_input_placeholder input_shapes node_def;
    mret (status, output_tensors)
  else if StartsWith node_name kOutputPHName
          && bool_decide (op node_def = "Identity") then
    lift (record_output_placeholder node_def output_tensors)
  else
    status ← ConvertNode node_def;
    mret (status, output_tensors).

Fixpoint convert_graph_nodes (input_shapes : list PartialTensorShape)
    (nodes : list NodeDef) (output_tensors : list (string * string))
    : CM (Status * list (string * string)) :=
  match nodes with
  | [] => mret (Status_OK, output_tensors)
  | node_def :: rest =>
      r ← convert_graph_node input_shapes node_def output_tensors;
      if negb (ok r.1) then mret r
      else convert_graph_nodes input_shapes rest r.2
  end.

(** The builder once it is configured. *)
Definition configured_builder (builder : IBuilder)
    (precision_mode max_batch_size max_workspace_size_bytes : Z)
    (allocator calibrator : Z) : IBuilder :=
  let builder :=
    mkBuilder max_batch_size max_workspace_size_bytes allocator
              (half2Mode builder) (int8Mode builder) (int8Calibrator builder) in
  if bool_decide (precision_mode = FP16MODE) then
    mkBuilder (maxBatchSize builder) (maxWorkspaceSize builder)
              (gpuAllocator builder) true (int8Mode builder)
              (int8Calibrator builder)
  else if bool_decide (precision_mode = INT8MODE) then
    mkBuilder (maxBatchSize builder) (maxWorkspaceSize builder)
              (gpuAllocator builder) (half2Mode builder) true calibrator
  else builder.

(** [ConvertGraphDefToEngine]: [gdef] is the list of the nodes of the
    graph, [builder] the builder [createInferBuilder] hands out, which
    the code uses unchecked, and [convert_successfully] the content of
    the flag, [None] for a null pointer.  The result is the status, the
    content of [engine] and that of the flag. *)
Definition ConvertGraphDefToEngine (gdef : list NodeDef)
    (precision_mode max_batch_size max_workspace_size_bytes : Z)
    (input_shapes : list PartialTensorShape)
    (allocator calibrator : Z) (builder : IBuilder)
    (convert_successfully : option bool)
    : Outcome (Status * option ICudaEngine * option bool) :=
  let convert_successfully := (fun _ => false) <$> convert_successfully in
  let builder :=
    configured_builder builder precision_mode max_batch_size
      max_workspace_size_bytes allocator calibrator in
  if createNetwork_returns_null builder then
    Done (errors.Internal "Failed to create TensorRT network object",
          None, convert_successfully)
  else
  let converter := Converter_new (bool_decide (precision_mode = FP16MODE)) in
  match convert_graph_nodes input_shapes gdef []
          (converter, nvinfer1.empty_network) with
  | Crash f => Crash f
  | Done ((status, output_tensors), built) =>
      if negb (ok status) then Done (status, None, convert_successfully)
      else
      match RenameAndMarkOutputTensors output_tensors built with
      | Crash f => Crash f
      | Done (status, (converter, network)) =>
          if negb (ok status) then Done (status, None, convert_successfully)
          else
          let convert_successfully := (fun _ => true) <$> convert_successfully in
          if buildCudaEngine_returns_null builder network then
            Done (errors.Internal "Failed to build TensorRT engine",
                  None, convert_successfully)
          else
            Done (Status_OK, Some (mkEngine builder network),
                  convert_successfully)
      end
  end.

End EngineConversion.

Section OutputSlots.
Context `{HostText}.

(** A node the loop of [ConvertGraphDefToEngine] takes for an output
    placeholder, and the slot number its name ends in. *)
Definition is_output_placeholder (node_def : NodeDef) : bool :=
  StartsWith (name node_def) kOutputPHName
  && bool_decide (op node_def = "Identity").

Definition output_slot (node_def : NodeDef) : option Z :=
  safe_strto32 (c_str_from (name node_def) (String.length kOutputPHName)).

(** The slot [slot] of the list of outputs after the nodes [nodes]:
    empty when no output placeholder of [nodes] has this slot number, and
    otherwise written by the last one that has it. *)
Definition slot_unused (nodes : list NodeDef) (slot : nat) : Prop :=
  forall n, n ∈ nodes -> is_output_placeholder n = true ->
            output_slot n <> Some (Z.of_nat slot).

Definition slot_written (nodes : list NodeDef) (slot : nat)
    (entry : string * string) : Prop :=
  exists pre n post input0 rest,
    nodes = pre ++ n :: post
    /\ is_output_placeholder n = true
    /\ output_slot n = Some (Z.of_nat slot)
    /\ input n = input0 :: rest
    /\ entry = (input0, name n)
    /\ slot_unused post slot.

Definition output_bindings (nodes : list NodeDef)
    (output_tensors : list (string * string)) : Prop :=
  (Z.of_nat (length output_tensors) <= 2 ^ 31)
  /\ (forall n slot, n ∈ nodes -> is_output_placeholder n = true ->
        output_slot n = Some slot ->
        0 <= slot < Z.of_nat (length output_tensors))
  /\ (forall slot entry, output_tensors !! slot = Some entry ->
        (entry = ("", "") /\ slot_unused nodes slot)
        \/ slot_written nodes slot entry).

End OutputSlots.

(** ** Networks with a new layer *)

Section ConfiguredLayers.
Context `{TensorRT}.

(** The network after a layer was added and then set up. *)
Definition with_configured_layer (net : nvinfer1.INetworkDefinition)
    (added configured : nvinfer1.Layer) : nvinfer1.INetworkDefinition :=
  nvinfer1.mkNetwork
    (nvinfer1.tensor_names net ++ [initial_name net added])
    (nvinfer1.layers net
       ++ [(configured, length (nvinfer1.tensor_names net))])
    (nvinfer1.network_inputs net)
    (nvinfer1.marked_outputs net).

End ConfiguredLayers.

(** The world once a converter function has added its output. *)
Definition with_output (p : OpConverterParams)
    (outs : list TRT_TensorOrWeights.t) (x : TRT_TensorOrWeights.t)
    (net : nvinfer1.INetworkDefinition) : World :=
  mkWorld (mkParams (converter p) (node_def p) (inputs p) (Some (outs ++ [x]))
                    (validation_only p) (weight_store p))
          net.

(** The network once the tensors [renamed], given with their new names,
    are renamed and marked as outputs, in this order. *)
Definition with_outputs (net : nvinfer1.INetworkDefinition)
    (renamed : list (nat * string)) : nvinfer1.INetworkDefinition :=
  nvinfer1.mkNetwork
    (foldl (fun names r => <[r.1 := r.2]> names)
           (nvinfer1.tensor_names net) renamed)
    (nvinfer1.layers net)
    (nvinfer1.network_inputs net)
    (nvinfer1.marked_outputs net ++ renamed.*1).

(** An entry of the output list that [RenameAndMarkOutputTensors]
    accepts: its internal name is bound to a live tensor. *)
Definition output_resolves (this : Converter)
    (net : nvinfer1.INetworkDefinition) (output : string * string)
    (renamed : nat * string) : Prop :=
  exists v,
    trt_tensors_ this !! output.1 = Some v
    /\ TRT_TensorOrWeights.is_tensor v = true
    /\ TRT_TensorOrWeights.tensor_ v = Some renamed.1
    /\ (renamed.1 < length (nvinfer1.tensor_names net))%nat
    /\ renamed.2 = output.2.

Section ScalePath.
Context `{TensorRT}.

(** The conditions under which [BinaryTensorOpWeight] gives up before
    it has touched anything. *)
Definition scale_path_closed (w : World) (t : nat)
    (weights : TRT_ShapedWeights.t) : Prop :=
  op (node_def (params w)) ∉ ["Sub"; "Add"; "Mul"; "Div"; "RealDiv"]
  \/ TRT_ShapedWeights.type_ weights ∉ [DT_FLOAT; DT_INT8; DT_HALF; DT_INT32]
  \/ nbDims (getDimensions (network w) t) <> 3.

End ScalePath.


(** Two runs of a converter function side by side, [wv] in
    validation-only mode and [wc] in construction mode: a step that reads
    the same value in both and changes neither, or aborts in both; and a
    pair of computations of which the second returns every status that is
    not OK that the first returns, with nothing changed. *)
Definition reads_alike (wv wc : World) {A} (m : M A) : Prop :=
  match m wv, m wc with
  | Done (a1, w1), Done (a2, w2) => a1 = a2 /\ w1 = wv /\ w2 = wc
  | Crash _, Crash _ => True
  | _, _ => False
  end.

Definition rejects_alike (wv wc : World) (m1 m2 : M Status) : Prop :=
  forall status w',
  m1 wv = Done (status, w') -> ok status = false -> m2 wc = Done (status, wc).

(** ** Writes into a buffer *)

(** The assignments [buf[i] = v] of a list of (index, value) pairs, in
    the order of the list, on elements of [size] bytes. *)
Definition apply_writes (size : nat) (buf : list Z) (writes : list (Z * Z))
    : list Z :=
  foldl (fun acc w => store_elem size acc w.1 w.2) buf writes.

(** The permutation [ConvertTranspose] reads from the weights that are
    its second input. *)
Definition transpose_perm (weights : TRT_ShapedWeights.t) : list Z :=
  map (fun i => TRT_ShapedWeights.weights_ptr weights (Z.of_nat i))
      (seq 0 (Z.to_nat (TRT_ShapedWeights.count weights))).

(** * A small environment for the examples

    An accelerator that accepts every layer and every input, gives a new
    tensor the empty name, and reports for a declared input the type and
    dimensions it was declared with (rank 0 and fp32 for any other
    tensor); scalar operations that leave the encoding as it is; a host
    framework without plugins, whose tensor parser takes the declared
    shape and whose name parser strips the control marker. *)

Definition example_TensorRT : TensorRT := {|
  add_returns_null := fun _ _ => false;
  addInput_returns_null := fun _ _ _ _ => false;
  initial_name := fun _ _ => "";
  getDimensions := fun net i =>
    match list_find (fun x => x.1.1 = i) (nvinfer1.network_inputs net) with
    | Some (_, (_, _, dims)) => dims
    | None => mkDims 0 (d Dims_fresh)
    end;
  getType := fun net i =>
    match list_find (fun x => x.1.1 = i) (nvinfer1.network_inputs net) with
    | Some (_, (_, dtype, _)) => dtype
    | None => nvinfer1.kFLOAT
    end
|}.

Definition example_ScalarOps : ScalarOps := {|
  float_to_half_rtne := fun v => v;
  rsqrt := fun _ v => v;
  negate := fun _ v => v;
  reciprocal := fun _ v => v
|}.

Definition example_TensorFlow : TensorFlow := {|
  Tensor_FromProto := fun proto => Some (tensor_shape proto);
  IsPlugin := fun _ => false;
  ParseTensorName := fun s =>
    match s with
    | String "^" rest => (rest, kControlSlot)
    | _ => (s, 0)
    end
|}.

Definition example_OtherConverters : OtherConverters := {|
  untranslated := fun _ => mret (errors.Unimplemented "not translated")
|}.

(** A network with two declared inputs of type fp32: tensor 0, named
    [x], of dimensions [3, 4, 4], and tensor 1, named [y], of dimensions
    [5]. *)
Definition example_network : nvinfer1.INetworkDefinition :=
  nvinfer1.mkNetwork ["x"; "y"] []
    [(0%nat, nvinfer1.kFLOAT, Dims_of [3; 4; 4]);
     (1%nat, nvinfer1.kFLOAT, Dims_of [5])] [].

(** The tensors [x] and [y] with batch size 4, and weights holding 32-bit
    values. *)
Definition example_tensor : TRT_TensorOrWeights.t :=
  TRT_TensorOrWeights.of_tensor (Some 0%nat) 4.

Definition example_matrix : TRT_TensorOrWeights.t :=
  TRT_TensorOrWeights.of_tensor (Some 1%nat) 4.

Definition example_weights (type : DataType) (shape values : list Z)
    : TRT_ShapedWeights.t :=
  TRT_ShapedWeights.mk (Dims_of shape) type (bytes_of_words (map (fun v => v mod 2 ^ 32) values)).

(** A host graph of five nodes: [feed] and [init] in front of a segment
    of two nodes, [seg/b] and [seg/c], and [sink] behind it.  [seg/b]
    reads [feed] and waits for [init]; [seg/c] reads [seg/b] and [feed],
    and has [extra] as its third input. *)
Definition example_graph (extra : string) : Graph :=
  mkGraph (fun id =>
    match id with
    | 1 => Some (mkNode (mkNodeDef "feed" "Const" [] ∅) [DT_FLOAT] [])
    | 2 => Some (mkNode (mkNodeDef "seg/b" "Relu" ["feed"; "^init"] ∅)
                        [DT_FLOAT] [DT_FLOAT])
    | 3 => Some (mkNode (mkNodeDef "seg/c" "AddN" ["seg/b"; "feed"; extra] ∅)
                        [DT_FLOAT] [DT_FLOAT; DT_FLOAT; DT_FLOAT])
    | 4 => Some (mkNode (mkNodeDef "init" "NoOp" [] ∅) [] [])
    | 5 => Some (mkNode (mkNodeDef "sink" "Relu" ["seg/c"] ∅)
                        [DT_FLOAT] [DT_FLOAT])
    | _ => None
    end).

(** The boundary of the segment: two data edges from [feed] that share
    input port 0, the control edge from [init], and the edge to [sink] on
    output port 0.  Nothing is known of the shapes. *)
Definition example_connections : list EngineConnection :=
  [mkConnection "feed" 1 0 None "seg/b" 2 0 None DT_INVALID true false 0;
   mkConnection "init" 4 kControlSlot None "seg/b" 2 kControlSlot None
                DT_INVALID true true kControlSlot;
   mkConnection "feed" 1 0 None "seg/c" 3 1 None DT_INVALID true false 0;
   mkConnection "sink" 5 0 None "seg/c" 3 0 None DT_INVALID false false 0].

Definition example_properties : GraphProperties := mkGraphProperties ∅ ∅.

Definition example_segment : gset string := {["seg/b"; "seg/c"]}.

(** A host whose number parser knows [0], [1] and [2], and a builder
    that creates every network and builds every engine, with the
    precision constants 1 for fp16 and 2 for int8. *)
Definition example_HostText : HostText.
Proof.
  refine {| PartialTensorShape_DebugString := fun _ => "?";
            safe_strto32 := fun s =>
              if decide (s = "0") then Some 0
              else if decide (s = "1") then Some 1
              else if decide (s = "2") then Some 2
              else None |}.
  intros s n. repeat case_decide; intros [= <-]; lia.
Defined.

Definition example_EngineBuilder : EngineBuilder := {|
  FP16MODE := 1;
  INT8MODE := 2;
  createNetwork_returns_null := fun _ => false;
  buildCudaEngine_returns_null := fun _ _ => false
|}.

(** * Specification-level definitions

    Definitions that follow the words of the specification, to be
    compared with the translated code. *)

(** The rank an operand takes in the aligned buffers: a tensor counts its
    implicit batch dimension. *)
Definition rank_with_batch (operand : Dims) (is_tensor : bool) : Z :=
  if is_tensor then nbDims operand + 1 else nbDims operand.

(** An operand right-aligned to [max_d] slots and padded with 1s on the
    left, the batch slot forced to -1 for a tensor. *)
Definition aligned (operand : Dims) (is_tensor : bool) (max_d : Z) : list Z :=
  let padded :=
    replicate (Z.to_nat (max_d - nbDims operand)) 1 ++ extents operand in
  if is_tensor then upd padded 0 (-1) else padded.

(** Some aligned axis pair differs with neither side equal to 1. *)
Definition incompatible_axis (l_al r_al : list Z) (max_d : Z) : Prop :=
  exists i, 0 <= i < max_d
            /\ idx l_al i <> idx r_al i /\ idx l_al i <> 1 /\ idx r_al i <> 1.

Section SegmentSpecification.
Context `{TensorFlow}.

(** A node with every input reference that points outside of the segment
    removed, the other references as they are and in their order. *)
Definition without_outside_references (subgraph_node_names : gset string)
    (snode : NodeDef) : NodeDef :=
  mkNodeDef (name snode) (op snode)
            (filter (fun r => outside_segment subgraph_node_names r = false)
                    (input snode))
            (attr snode).

(** A non-control input reference that points outside of the segment. *)
Definition stray_reference (subgraph_node_names : gset string)
    (input_name : string) : Prop :=
  outside_segment subgraph_node_names input_name = true
  /\ (ParseTensorName input_name).2 <> kControlSlot.

End SegmentSpecification.

(** A run of a converter function that stays off the converter object and
    the accelerator: when it returns, the network is as it was; when it
    aborts, it is not on a null converter or a null output list. *)
Definition offline_at {A} (m : M A) (w : World) : Prop :=
  match m w with
  | Done (_, w') => network w' = network w
  | Crash f => f <> NullConverter /\ f <> NullOutputs
  end.

(** The name and operator of each node of a fragment. *)
Definition heads (fragment : list NodeDef) : list (string * string) :=
  map (fun n => (name n, op n)) fragment.

(** * Properties *)

(** ** Machine integers *)

Lemma wrap_small bits x :
  0 < bits -> - 2 ^ (bits - 1) <= x < 2 ^ (bits - 1) -> wrap bits x = x.
Proof.
  intros Hb Hx. unfold wrap.
  assert (H2 : 2 ^ bits = 2 * 2 ^ (bits - 1)).
  { rewrite <- Z.pow_succ_r by lia. f_equal. lia. }
  rewrite Z.mod_small; lia.
Qed.

Lemma to_int_small x : - 2 ^ 31 <= x < 2 ^ 31 -> to_int x = x.
Proof. intros Hx. apply wrap_small; [lia | exact Hx]. Qed.

Lemma to_int64_small x : - 2 ^ 63 <= x < 2 ^ 63 -> to_int64 x = x.
Proof. intros Hx. apply wrap_small; [lia | exact Hx]. Qed.

(** ** Same-style padding *)




Lemma idx_lookup (a : list Z) (i : nat) (x : Z) :
  a !! i = Some x -> idx a (Z.of_nat i) = x.
Proof.
  intros Hx. unfold idx. rewrite decide_True by lia. rewrite Nat2Z.id.
  by apply nth_lookup_Some with (d := 0) in Hx.
Qed.



(** ** The converter's batch size and symbol table *)

Lemma MaybeUpdateBatchSize_accepts (this : Converter) (batch_size : Z) :
  batch_size_ this < 0 \/ batch_size < 0 \/ batch_size_ this = batch_size ->
  MaybeUpdateBatchSize batch_size this =
    Done (Status_OK,
          if bool_decide (batch_size_ this < 0) && bool_decide (batch_size >= 0)
          then mkConverter (is_fp16_ this) batch_size (trt_tensors_ this)
                           (weight_store_ this)
          else this).
Proof.
  intros Hacc. unfold MaybeUpdateBatchSize.
  assert (Hc : bool_decide (batch_size_ this < 0) || bool_decide (batch_size < 0)
               || bool_decide (batch_size_ this = batch_size) = true).
  { destruct Hacc as [Hu | [Hu | Hu]];
      rewrite (bool_decide_eq_true_2 _ Hu); by rewrite ?orb_true_r. }
  rewrite Hc. by destruct (_ && _).
Qed.

Lemma MaybeUpdateBatchSize_rejects (this : Converter) (batch_size : Z) :
  0 <= batch_size_ this -> 0 <= batch_size -> batch_size_ this <> batch_size ->
  exists msg,
    MaybeUpdateBatchSize batch_size this = Done (errors.InvalidArgument msg, this).
Proof.
  intros H1 H2 H3. unfold MaybeUpdateBatchSize.
  rewrite !bool_decide_eq_false_2 by lia. simpl. eauto.
Qed.

Lemma MaybeUpdateBatchSize_unknown_candidate (this : Converter) (batch_size : Z) :
  batch_size < 0 -> MaybeUpdateBatchSize batch_size this = Done (Status_OK, this).
Proof.
  intros Hb. rewrite MaybeUpdateBatchSize_accepts by lia.
  by rewrite (bool_decide_eq_false_2 (batch_size >= 0)), andb_false_r by lia.
Qed.

Lemma MaybeUpdateBatchSize_adopts (this : Converter) (batch_size : Z) :
  batch_size_ this < 0 -> 0 <= batch_size ->
  MaybeUpdateBatchSize batch_size this =
    Done (Status_OK,
          mkConverter (is_fp16_ this) batch_size (trt_tensors_ this)
                      (weight_store_ this)).
Proof.
  intros Hs Hb. rewrite MaybeUpdateBatchSize_accepts by lia.
  by rewrite !bool_decide_eq_true_2 by lia.
Qed.

Lemma MaybeUpdateBatchSize_same (this : Converter) (batch_size : Z) :
  0 <= batch_size_ this -> batch_size_ this = batch_size ->
  MaybeUpdateBatchSize batch_size this = Done (Status_OK, this).
Proof.
  intros Hs Hb. rewrite MaybeUpdateBatchSize_accepts by lia.
  by rewrite (bool_decide_eq_false_2 (batch_size_ this < 0)) by lia.
Qed.

(** C3: a call of [MaybeUpdateBatchSize] succeeds exactly when the stored
    batch size is unknown (negative), the candidate is unknown, or the two
    are equal, and fails with InvalidArgument otherwise, leaving the
    converter as it was; a known candidate replaces an unknown stored
    value, and in every other case nothing is stored.  From an unknown
    stored value, the calls with -1, 4, 5, 4 return OK, OK,
    InvalidArgument, OK, the stored value being 4 from the second call
    on. *)
Theorem MaybeUpdateBatchSize_spec (this : Converter) (batch_size : Z) :
  (exists status this',
     MaybeUpdateBatchSize batch_size this = Done (status, this')
     /\ (code status = error.OK <->
         batch_size_ this < 0 \/ batch_size < 0 \/ batch_size_ this = batch_size)
     /\ (code status <> error.OK ->
         code status = error.InvalidArgument /\ this' = this)
     /\ (code status = error.OK -> batch_size_ this < 0 -> 0 <= batch_size ->
         this' = mkConverter (is_fp16_ this) batch_size (trt_tensors_ this)
                             (weight_store_ this))
     /\ (code status = error.OK -> 0 <= batch_size_ this \/ batch_size < 0 ->
         this' = this))
  /\ (batch_size_ this < 0 ->
      exists mismatch,
        (s1 ← MaybeUpdateBatchSize (-1);
         s2 ← MaybeUpdateBatchSize 4;
         s3 ← MaybeUpdateBatchSize 5;
         s4 ← MaybeUpdateBatchSize 4;
         mret [s1; s2; s3; s4]) this
        = Done ([Status_OK; Status_OK; errors.InvalidArgument mismatch; Status_OK],
                mkConverter (is_fp16_ this) 4 (trt_tensors_ this)
                            (weight_store_ this))
        /\ (s1 ← MaybeUpdateBatchSize (-1); MaybeUpdateBatchSize 4) this
           = Done (Status_OK,
                   mkConverter (is_fp16_ this) 4 (trt_tensors_ this)
                               (weight_store_ this))).
Proof.
  split.
  - destruct (decide (batch_size_ this < 0 \/ batch_size < 0
                      \/ batch_size_ this = batch_size)) as [Hacc | Hrej].
    + eexists _, _. split; [apply (MaybeUpdateBatchSize_accepts _ _ Hacc)|].
      split; [done|]. split; [done|]. split.
      * intros _ H1 H2. by rewrite !bool_decide_eq_true_2 by lia.
      * intros _ [H1 | H1]; [rewrite (bool_decide_eq_false_2 (_ < 0)) by lia
                            | rewrite (bool_decide_eq_false_2 (_ >= 0)) by lia];
          by rewrite ?andb_false_r.
    + destruct (MaybeUpdateBatchSize_rejects this batch_size) as [msg Hmsg];
        [lia..|].
      eexists _, _. split; [exact Hmsg|]. simpl.
      split; [split; [done | intros; tauto]|]. split; [done|].
      split; done.
  - intros Hunk.
    set (fixed := mkConverter (is_fp16_ this) 4 (trt_tensors_ this)
                              (weight_store_ this)).
    destruct (MaybeUpdateBatchSize_rejects fixed 5) as [mismatch Hmismatch];
      [simpl; lia..|].
    exists mismatch. unfold mbind, ST_bind.
    rewrite (MaybeUpdateBatchSize_unknown_candidate this (-1)) by lia.
    rewrite (MaybeUpdateBatchSize_adopts this 4) by lia. fold fixed.
    rewrite Hmismatch.
    rewrite (MaybeUpdateBatchSize_same fixed 4) by (simpl; lia).
    split; reflexivity.
Qed.

Lemma MaybeUpdateBatchSize_spec_witness :
  let this := mkConverter false (-1) ∅ TrtWeightStore.empty in
  -1 < 0 /\
  exists mismatch,
    (s1 ← MaybeUpdateBatchSize (-1);
     s2 ← MaybeUpdateBatchSize 4;
     s3 ← MaybeUpdateBatchSize 5;
     s4 ← MaybeUpdateBatchSize 4;
     mret [s1; s2; s3; s4]) this
    = Done ([Status_OK; Status_OK; errors.InvalidArgument mismatch; Status_OK],
            mkConverter false 4 ∅ TrtWeightStore.empty)
    /\ (s1 ← MaybeUpdateBatchSize (-1); MaybeUpdateBatchSize 4) this
       = Done (Status_OK, mkConverter false 4 ∅ TrtWeightStore.empty).
Proof.
  split; [lia|].
  apply (proj2 (MaybeUpdateBatchSize_spec
                  (mkConverter false (-1) ∅ TrtWeightStore.empty) 0)).
  simpl. lia.
Defined.

(** C6: [AddTensorOrWeights] fails with AlreadyExists and leaves the
    converter unchanged when the name is bound; otherwise it binds the
    name to a stored value and changes nothing else.  For a tensor-typed
    value the stored value has the batch size of the converter, whatever
    batch size the value came with, and the tensor, the weights and the
    flags of the value; a value that is not tensor-typed is stored as it
    is.  [GetTensorOrWeights] fails with NotFound exactly when the name
    is unbound, and otherwise yields the bound value. *)
Theorem symbol_table_spec (this : Converter) (tensor_name : string)
    (value previous : TRT_TensorOrWeights.t) :
  (forall bound, trt_tensors_ this !! tensor_name = Some bound ->
     exists msg,
       AddTensorOrWeights tensor_name value this
       = Done (errors.AlreadyExists msg, this))
  /\ (trt_tensors_ this !! tensor_name = None ->
      exists stored,
        AddTensorOrWeights tensor_name value this
        = Done (Status_OK,
                mkConverter (is_fp16_ this) (batch_size_ this)
                  (<[tensor_name := stored]> (trt_tensors_ this))
                  (weight_store_ this))
        /\ (TRT_TensorOrWeights.is_tensor value = true ->
            TRT_TensorOrWeights.batch_size stored = batch_size_ this
            /\ stored
               = TRT_TensorOrWeights.mk
                   (TRT_TensorOrWeights.tensor_ value)
                   (batch_size_ this)
                   (TRT_TensorOrWeights.weights_ value)
                   (TRT_TensorOrWeights.initialized_ value)
                   true)
        /\ (TRT_TensorOrWeights.is_tensor value = false -> stored = value))
  /\ (exists status output,
        GetTensorOrWeights tensor_name previous this = Done ((status, output), this)
        /\ (code status = error.NotFound <-> trt_tensors_ this !! tensor_name = None)
        /\ (forall bound, trt_tensors_ this !! tensor_name = Some bound ->
            status = Status_OK /\ output = bound)).
Proof.
  unfold AddTensorOrWeights, GetTensorOrWeights.
  destruct (trt_tensors_ this !! tensor_name) as [bound|] eqn:Hlookup.
  - split; [intros ? _; eauto|]. split; [done|].
    eexists _, _. split; [done|]. split; [done|].
    intros ? [= <-]. done.
  - split; [done|]. split.
    + intros _. eexists. split; [reflexivity|].
      unfold TRT_TensorOrWeights.is_tensor.
      split; intros Hkind; rewrite Hkind; [|done].
      split; [done|].
      unfold TRT_TensorOrWeights.set_batch_size. by rewrite Hkind.
    + eexists _, _. split; [done|]. split; done.
Qed.

Lemma symbol_table_spec_witness :
  let x := TRT_TensorOrWeights.of_tensor (Some 0%nat) (-1) in
  let this := mkConverter false 4 {["a" := x]} TrtWeightStore.empty in
  TRT_TensorOrWeights.batch_size x = -1
  /\ (exists msg,
        AddTensorOrWeights "a" x this = Done (errors.AlreadyExists msg, this))
  /\ AddTensorOrWeights "b" x this
     = Done (Status_OK,
             mkConverter false 4
               (<["b" := TRT_TensorOrWeights.of_tensor (Some 0%nat) 4]>
                  {["a" := x]})
               TrtWeightStore.empty)
  /\ TRT_TensorOrWeights.batch_size
       (TRT_TensorOrWeights.of_tensor (Some 0%nat) 4) = 4.
Proof.
  intros x this.
  destruct (symbol_table_spec this "a" x x) as [Hbound _].
  destruct (symbol_table_spec this "b" x x) as (_ & Hfree & _).
  destruct (Hfree eq_refl) as (stored & Hadd & Htensor & _).
  destruct (Htensor eq_refl) as [_ ->].
  split; [reflexivity|]. split; [by apply (Hbound x)|].
  split; [exact Hadd | reflexivity].
Defined.


(** ** The broadcast resolver *)

Lemma filled_aligned (operand : Dims) (max_d : Z) :
  Dims_wf operand -> nbDims operand <= max_d <= max_nb_dims ->
  filled operand max_d =
    replicate (Z.to_nat (max_d - nbDims operand)) 1 ++ extents operand
      ++ replicate (Z.to_nat (max_nb_dims - max_d)) 1.
Proof.
  intros [Hn Hlen] Hmax. unfold filled, memcpy, extents, max_nb_dims, MAX_DIMS in *.
  rewrite take_replicate, drop_replicate. f_equal; [f_equal; lia|].
  f_equal. f_equal. lia.
Qed.

Lemma idx_app_l (a b : list Z) (i : Z) :
  0 <= i < Z.of_nat (length a) -> idx (a ++ b) i = idx a i.
Proof.
  intros Hi. unfold idx. destruct (decide (0 <= i)); [|lia].
  by rewrite app_nth1 by lia.
Qed.

Lemma upd_app_l (a b : list Z) (i v : Z) :
  0 <= i < Z.of_nat (length a) -> upd (a ++ b) i v = upd a i v ++ b.
Proof.
  intros Hi. unfold upd. destruct (decide (0 <= i)); [|lia].
  by rewrite insert_app_l by lia.
Qed.

Lemma length_upd (a : list Z) (i v : Z) : length (upd a i v) = length a.
Proof. unfold upd. case_decide; [apply length_insert | done]. Qed.

Lemma length_aligned (operand : Dims) (is_tensor : bool) (max_d : Z) :
  Dims_wf operand -> nbDims operand <= max_d ->
  length (aligned operand is_tensor max_d) = Z.to_nat max_d.
Proof.
  intros [Hn Hlen] Hmax. unfold aligned, extents.
  destruct is_tensor; rewrite ?length_upd, length_app, length_replicate, length_take;
    lia.
Qed.

(** The work array of an operand, once its batch slot is set, is the
    aligned operand followed by the unused slots. *)
Lemma work_array_aligned (operand : Dims) (is_tensor : bool) (max_d : Z) :
  Dims_wf operand -> nbDims operand <= max_d <= max_nb_dims -> 1 <= max_d ->
  (if is_tensor then upd (filled operand max_d) 0 (-1) else filled operand max_d)
  = aligned operand is_tensor max_d
      ++ replicate (Z.to_nat (max_nb_dims - max_d)) 1.
Proof.
  intros Hwf Hmax H1. rewrite filled_aligned by done. unfold aligned.
  destruct is_tensor; [|by rewrite <- app_assoc].
  rewrite app_assoc. apply upd_app_l.
  pose proof (length_aligned operand false max_d Hwf ltac:(lia)) as Hlen.
  unfold aligned in Hlen. rewrite Hlen. lia.
Qed.

Lemma broadcast_feasible_false (l_s r_s : list Z) (n : nat) :
  broadcast_feasible l_s r_s n = false <->
  exists i, 0 <= i < Z.of_nat n
            /\ idx l_s i <> idx r_s i /\ idx l_s i <> 1 /\ idx r_s i <> 1.
Proof.
  induction n as [|n IH]; simpl.
  - split; [done | intros (i & Hi & _); lia].
  - destruct (bool_decide (idx l_s (Z.of_nat n) <> idx r_s (Z.of_nat n))
              && bool_decide (idx l_s (Z.of_nat n) <> 1)
              && bool_decide (idx r_s (Z.of_nat n) <> 1)) eqn:Hhere.
    + split; [intros _ | done].
      apply andb_true_iff in Hhere as [Hhere H3].
      apply andb_true_iff in Hhere as [H1 H2].
      apply bool_decide_eq_true_1 in H1, H2, H3.
      exists (Z.of_nat n). repeat split; [lia | lia | done..].
    + rewrite IH. split.
      * intros (i & Hi & Hbad). exists i. split; [lia | done].
      * intros (i & Hi & H1 & H2 & H3).
        destruct (decide (i = Z.of_nat n)) as [-> | Hne].
        -- rewrite !bool_decide_eq_true_2 in Hhere by done. done.
        -- exists i. split; [lia | done].
Qed.

Lemma broadcast_feasible_aligned (l_al r_al tail_l tail_r : list Z) (max_d : Z) :
  length l_al = Z.to_nat max_d -> length r_al = Z.to_nat max_d -> 0 <= max_d ->
  broadcast_feasible (l_al ++ tail_l) (r_al ++ tail_r) (Z.to_nat max_d) = false
  <-> incompatible_axis l_al r_al max_d.
Proof.
  intros Hl Hr H0. rewrite broadcast_feasible_false. unfold incompatible_axis.
  rewrite Z2Nat.id by done.
  split; intros (i & Hi & Hbad); exists i; (split; [done|]).
  - by rewrite !idx_app_l in Hbad by lia.
  - by rewrite !idx_app_l by lia.
Qed.

Lemma stripped_extents (al tail out : list Z) (max_d : Z) :
  length al = Z.to_nat max_d -> 1 <= max_d ->
  extents (mkDims (max_d - 1) (memcpy out 0 (drop 1 (al ++ tail)) (max_d - 1)))
  = drop 1 al.
Proof.
  intros Hl H1. unfold extents, memcpy. simpl.
  assert (Hlen : length (drop 1 al) = Z.to_nat (max_d - 1))
    by (rewrite length_drop; lia).
  rewrite drop_app_le by lia.
  rewrite (take_app_le (drop 1 al)) by lia.
  rewrite (take_ge (drop 1 al)) by lia.
  rewrite take_app_le by lia.
  apply take_ge. lia.
Qed.

(** C1: for well-formed operand shapes, [TensorRTGetBroadcastShape]
    works on both shapes right-aligned within an array of
    [MAX_DIMS + 1] slots filled with 1s, with the batch slot -1 for a
    tensor operand; it fails exactly when a tensor operand's rank plus one
    is not the maximum combined rank, or some aligned axis pair differs
    with neither side equal to 1, leaving its outputs untouched; on
    success both outputs have the combined rank minus one and hold the
    aligned shapes without the batch slot.  For the tensor [3] (batch
    excluded) and the weight [1, 3], both outputs are [3]. *)
Theorem TensorRTGetBroadcastShape_spec
    (operand_l : Dims) (l_is_tensor : bool)
    (operand_r : Dims) (r_is_tensor : bool) (out_l out_r : Dims) :
  Dims_wf operand_l -> Dims_wf operand_r ->
  1 <= Z.max (rank_with_batch operand_l l_is_tensor)
             (rank_with_batch operand_r r_is_tensor) ->
  let l_d := rank_with_batch operand_l l_is_tensor in
  let r_d := rank_with_batch operand_r r_is_tensor in
  let max_d := Z.max l_d r_d in
  let l_al := aligned operand_l l_is_tensor max_d in
  let r_al := aligned operand_r r_is_tensor max_d in
  exists feasible new_l new_r,
    TensorRTGetBroadcastShape operand_l l_is_tensor operand_r r_is_tensor
                              out_l out_r
    = (feasible, new_l, new_r)
    /\ filled operand_l max_d
       = replicate (Z.to_nat (max_d - nbDims operand_l)) 1 ++ extents operand_l
           ++ replicate (Z.to_nat (max_nb_dims - max_d)) 1
    /\ filled operand_r max_d
       = replicate (Z.to_nat (max_d - nbDims operand_r)) 1 ++ extents operand_r
           ++ replicate (Z.to_nat (max_nb_dims - max_d)) 1
    /\ (feasible = false <->
        (l_is_tensor = true /\ l_d <> max_d)
        \/ (r_is_tensor = true /\ r_d <> max_d)
        \/ incompatible_axis l_al r_al max_d)
    /\ (feasible = false -> new_l = out_l /\ new_r = out_r)
    /\ (feasible = true ->
        nbDims new_l = max_d - 1 /\ extents new_l = drop 1 l_al
        /\ nbDims new_r = max_d - 1 /\ extents new_r = drop 1 r_al)
    /\ (let '(ok, shape_l, shape_r) :=
          TensorRTGetBroadcastShape (mkDims 1 [3]) true (mkDims 2 [1; 3]) false
                                    Dims_fresh Dims_fresh in
        ok = true /\ nbDims shape_l = 1 /\ extents shape_l = [3]
        /\ nbDims shape_r = 1 /\ extents shape_r = [3]).
Proof.
  intros Hwl Hwr H1 l_d r_d max_d l_al r_al.
  assert (Hmax : max_d <= max_nb_dims).
  { destruct Hwl as [Hl _], Hwr as [Hr _].
    unfold max_d, l_d, r_d, rank_with_batch, max_nb_dims, MAX_DIMS in *.
    destruct l_is_tensor, r_is_tensor; lia. }
  assert (Hnl : nbDims operand_l <= max_d).
  { unfold max_d, l_d, rank_with_batch. destruct l_is_tensor; lia. }
  assert (Hnr : nbDims operand_r <= max_d).
  { unfold max_d, r_d, rank_with_batch. destruct r_is_tensor; lia. }
  pose proof (work_array_aligned operand_l l_is_tensor max_d Hwl
                ltac:(done) H1) as Hworkl.
  pose proof (work_array_aligned operand_r r_is_tensor max_d Hwr
                ltac:(done) H1) as Hworkr.
  pose proof (length_aligned operand_l l_is_tensor max_d Hwl Hnl) as Hlenl.
  pose proof (length_aligned operand_r r_is_tensor max_d Hwr Hnr) as Hlenr.
  fold l_al in Hworkl, Hlenl. fold r_al in Hworkr, Hlenr.
  unfold TensorRTGetBroadcastShape.
  change (if l_is_tensor then nbDims operand_l + 1 else nbDims operand_l)
    with l_d.
  change (if r_is_tensor then nbDims operand_r + 1 else nbDims operand_r)
    with r_d.
  fold max_d.
  assert (Hfill : forall operand, Dims_wf operand -> nbDims operand <= max_d ->
            filled operand max_d
            = replicate (Z.to_nat (max_d - nbDims operand)) 1 ++ extents operand
                ++ replicate (Z.to_nat (max_nb_dims - max_d)) 1).
  { intros. by apply filled_aligned. }
  destruct (l_is_tensor && negb (bool_decide (max_d = l_d))) eqn:Hrankl.
  { apply andb_true_iff in Hrankl as [-> Hne].
    apply negb_true_iff, bool_decide_eq_false_1 in Hne.
    eexists _, _, _. split; [done|]. split; [by apply Hfill|].
    split; [by apply Hfill|]. split; [split; [intros _; left; done | done]|].
    split; [done|]. split; [done|]. vm_compute. done. }
  destruct (r_is_tensor && negb (bool_decide (max_d = r_d))) eqn:Hrankr.
  { apply andb_true_iff in Hrankr as [-> Hne].
    apply negb_true_iff, bool_decide_eq_false_1 in Hne.
    eexists _, _, _. split; [done|]. split; [by apply Hfill|].
    split; [by apply Hfill|].
    split; [split; [intros _; right; left; done | done]|].
    split; [done|]. split; [done|]. vm_compute. done. }
  rewrite Hworkl, Hworkr.
  assert (Hnol : ~ (l_is_tensor = true /\ l_d <> max_d)).
  { intros [-> Hne]. simpl in Hrankl.
    apply negb_false_iff, bool_decide_eq_true_1 in Hrankl. done. }
  assert (Hnor : ~ (r_is_tensor = true /\ r_d <> max_d)).
  { intros [-> Hne]. simpl in Hrankr.
    apply negb_false_iff, bool_decide_eq_true_1 in Hrankr. done. }
  pose proof (broadcast_feasible_aligned l_al r_al
                (replicate (Z.to_nat (max_nb_dims - max_d)) 1)
                (replicate (Z.to_nat (max_nb_dims - max_d)) 1)
                max_d Hlenl Hlenr ltac:(lia)) as Hfeas.
  destruct (broadcast_feasible _ _ _) eqn:Hloop.
  - eexists _, _, _. split; [done|]. split; [by apply Hfill|].
    split; [by apply Hfill|].
    split.
    { split; [done|]. intros [? | [? | Hbad]]; [done..|].
      by apply Hfeas in Hbad. }
    split; [done|].
    split; [|vm_compute; done].
    intros _. simpl. by rewrite !stripped_extents by done.
  - eexists _, _, _. split; [done|]. split; [by apply Hfill|].
    split; [by apply Hfill|].
    split; [split; [intros _; right; right; by apply Hfeas | done]|].
    split; [done|]. split; [done|]. vm_compute. done.
Qed.

Lemma TensorRTGetBroadcastShape_spec_witness :
  Dims_wf (mkDims 1 [3]) /\ Dims_wf (mkDims 2 [1; 3])
  /\ exists feasible new_l new_r,
       TensorRTGetBroadcastShape (mkDims 1 [3]) true (mkDims 2 [1; 3]) false
                                 Dims_fresh Dims_fresh
       = (feasible, new_l, new_r)
       /\ feasible = true
       /\ nbDims new_l = 1 /\ extents new_l = [3]
       /\ nbDims new_r = 1 /\ extents new_r = [3].
Proof.
  assert (Hl : Dims_wf (mkDims 1 [3])) by (unfold Dims_wf, MAX_DIMS; simpl; lia).
  assert (Hr : Dims_wf (mkDims 2 [1; 3])) by (unfold Dims_wf, MAX_DIMS; simpl; lia).
  split; [exact Hl|]. split; [exact Hr|].
  destruct (TensorRTGetBroadcastShape_spec (mkDims 1 [3]) true (mkDims 2 [1; 3])
              false Dims_fresh Dims_fresh Hl Hr ltac:(simpl; lia))
    as (feasible & new_l & new_r & Hrun & _ & _ & _ & _ & _ & Hexample).
  exists feasible, new_l, new_r. split; [exact Hrun|].
  rewrite Hrun in Hexample. exact Hexample.
Defined.

(** ** Reshape *)

Section ReshapeProperties.
Context `{TensorRT} `{ScalarOps}.


(** C10: a Reshape node whose shape input is a weight without elements is
    rejected with Unimplemented, in validation-only mode and in
    construction mode alike; the rejection comes before the input tensor
    is looked at (it holds for any first input, valid or not) and leaves
    the network, the outputs and the weight store as they were. *)
Theorem ConvertReshape_empty_shape (w : World)
    (input_tensor shape_input : TRT_TensorOrWeights.t)
    (weights : TRT_ShapedWeights.t) :
  inputs (params w) = [input_tensor; shape_input] ->
  TRT_TensorOrWeights.weights shape_input = Done weights ->
  TRT_ShapedWeights.count weights = 0 ->
  ConvertReshape w =
    Done (errors.Unimplemented
            (StrCat ["Reshape to shape=[] is not supported, at ";
                     name (node_def (params w))]), w).
Proof.
  intros Hin Hw Hcount.
  assert (Hisw : TRT_TensorOrWeights.is_weights shape_input = true).
  { unfold TRT_TensorOrWeights.weights in Hw.
    by destruct (TRT_TensorOrWeights.is_weights shape_input). }
  destruct w as [p net]. simpl in *.
  unfold ConvertReshape, the_params, mbind, ST_bind, get_state, mret, ST_ret,
    inputs_at, lift; simpl.
  rewrite Hin; simpl. rewrite Hisw; simpl. rewrite Hw.
  by rewrite bool_decide_eq_true_2 by done.
Qed.

End ReshapeProperties.

(** ** Binary dispatch *)

Section BinaryProperties.
Context `{TensorRT} `{ScalarOps}.

(** A tensor on the left and a weight on the right: the scale-layer
    attempt first, the elementwise path when it fails. *)
Lemma ConvertBinary_tensor_weights (w : World)
    (input0 input1 : TRT_TensorOrWeights.t) :
  inputs (params w) = [input0; input1] ->
  TRT_TensorOrWeights.is_tensor input0 = true ->
  TRT_TensorOrWeights.is_weights input1 = true ->
  ConvertBinary w =
    (status ← BinaryTensorOpWeight
                (TRT_TensorOrWeights.tensor_ input0)
                (TRT_TensorOrWeights.weights_ input1) false;
     if ok status then mret status
     else BinaryTensorOpTensor input0 input1) w.
Proof.
  intros Hin. destruct w as [p net]. simpl in *.
  unfold ConvertBinary, the_params, inputs_at, TRT_TensorOrWeights.tensor,
    TRT_TensorOrWeights.weights, TRT_TensorOrWeights.is_weights,
    TRT_TensorOrWeights.is_tensor.
  unfold mbind, ST_bind, get_state, mret, ST_ret, lift; simpl.
  rewrite Hin; simpl. intros -> Hweights.
  apply negb_true_iff in Hweights. rewrite Hweights. simpl.
  destruct (BinaryTensorOpWeight _ _ false _) as [[status w']|]; [|done].
  by destruct (ok status).
Qed.

(** C5: for a binary node with exactly two inputs, [ConvertBinary]
    returns Unimplemented when both are weights; when exactly one is a
    weight it first runs [BinaryTensorOpWeight] (with the swapped flag
    when the weight is on the left) and, whenever that returns a status
    that is not OK, returns the status of [BinaryTensorOpTensor] run from
    the state the attempt left; when both are tensors it runs
    [BinaryTensorOpTensor] only. *)
Theorem ConvertBinary_dispatch (w : World)
    (input0 input1 : TRT_TensorOrWeights.t) :
  inputs (params w) = [input0; input1] ->
  (TRT_TensorOrWeights.is_weights input0 = true ->
   TRT_TensorOrWeights.is_weights input1 = true ->
   exists msg, ConvertBinary w = Done (errors.Unimplemented msg, w))
  /\ (TRT_TensorOrWeights.is_tensor input0 = true ->
      TRT_TensorOrWeights.is_weights input1 = true ->
      ConvertBinary w =
        (status ← BinaryTensorOpWeight
                    (TRT_TensorOrWeights.tensor_ input0)
                    (TRT_TensorOrWeights.weights_ input1) false;
         if ok status then mret status
         else BinaryTensorOpTensor input0 input1) w)
  /\ (TRT_TensorOrWeights.is_weights input0 = true ->
      TRT_TensorOrWeights.is_tensor input1 = true ->
      ConvertBinary w =
        (status ← BinaryTensorOpWeight
                    (TRT_TensorOrWeights.tensor_ input1)
                    (TRT_TensorOrWeights.weights_ input0) true;
         if ok status then mret status
         else BinaryTensorOpTensor input0 input1) w)
  /\ (TRT_TensorOrWeights.is_tensor input0 = true ->
      TRT_TensorOrWeights.is_tensor input1 = true ->
      ConvertBinary w = BinaryTensorOpTensor input0 input1 w).
Proof.
  intros Hin. destruct w as [p net]. simpl in *.
  unfold ConvertBinary, the_params, inputs_at, TRT_TensorOrWeights.tensor,
    TRT_TensorOrWeights.weights, TRT_TensorOrWeights.is_weights,
    TRT_TensorOrWeights.is_tensor.
  unfold mbind, ST_bind, get_state, mret, ST_ret, lift; simpl.
  rewrite Hin; simpl.
  destruct (TRT_TensorOrWeights.is_tensor_ input0),
           (TRT_TensorOrWeights.is_tensor_ input1); simpl.
  - (* tensor, tensor *) repeat split; intros; done.
  - (* tensor, weights *)
    split; [done|]. split; [|split; done]. intros _ _.
    destruct (BinaryTensorOpWeight _ _ false _) as [[status w']|]; [|done].
    by destruct (ok status).
  - (* weights, tensor *)
    split; [done|]. split; [done|]. split; [|done]. intros _ _.
    destruct (BinaryTensorOpWeight _ _ true _) as [[status w']|]; [|done].
    by destruct (ok status).
  - (* weights, weights *)
    split; [eauto|]. repeat split; intros; done.
Qed.

End BinaryProperties.

(** ** Conversion of a node *)

Lemma ST_bind_Done {S A B} (m : ST S A) (f : A -> ST S B) (s s' : S) (a : A) :
  m s = Done (a, s') -> (m ≫= f) s = f a s'.
Proof. intros Hm. unfold mbind, ST_bind. by rewrite Hm. Qed.

Section NodeProperties.
Context `{TensorRT} `{ScalarOps} `{TensorFlow} `{OtherConverters}.

Lemma op_registry_Add : RegisterOpConverters !! "Add" = Some fn.ConvertBinary.
Proof. vm_compute. reflexivity. Qed.

Lemma check_scale_mode_uniform (node_name : string)
    (weights : TRT_ShapedWeights.t) (dims_t : Dims) :
  TRT_ShapedWeights.count weights = 1 ->
  check_scale_mode node_name weights dims_t = inr (nvinfer1.kUNIFORM, false).
Proof. intros Hc. unfold check_scale_mode. by rewrite bool_decide_eq_true_2. Qed.

Lemma deref_valid (net : nvinfer1.INetworkDefinition) (t : nat) :
  (t < length (nvinfer1.tensor_names net))%nat ->
  deref (Some t) net = Done (t, net).
Proof. intros Ht. unfold deref. by rewrite bool_decide_eq_true_2. Qed.

Lemma in_network_deref (p : OpConverterParams)
    (net : nvinfer1.INetworkDefinition) (t : nat) :
  (t < length (nvinfer1.tensor_names net))%nat ->
  in_network (deref (Some t)) (mkWorld p net) = Done (t, mkWorld p net).
Proof. intros Ht. unfold in_network. cbn [network params]. by rewrite deref_valid. Qed.

Lemma in_network_getDimensions (p : OpConverterParams)
    (net : nvinfer1.INetworkDefinition) (t : nat) :
  (t < length (nvinfer1.tensor_names net))%nat ->
  in_network (tensor_getDimensions (Some t)) (mkWorld p net)
  = Done (getDimensions net t, mkWorld p net).
Proof.
  intros Ht. unfold in_network, tensor_getDimensions. cbn [network params].
  rewrite (ST_bind_Done _ _ _ _ _ (deref_valid net t Ht)). reflexivity.
Qed.

Lemma require_converter_some (p : OpConverterParams)
    (net : nvinfer1.INetworkDefinition) (c : Converter) :
  converter p = Some c ->
  require_converter (mkWorld p net) = Done (tt, mkWorld p net).
Proof.
  intros Hc. unfold require_converter, the_params, mbind, ST_bind, get_state.
  simpl. by rewrite Hc.
Qed.

Lemma converter_is_fp16_some (p : OpConverterParams)
    (net : nvinfer1.INetworkDefinition) (c : Converter) :
  converter p = Some c ->
  converter_is_fp16 (mkWorld p net) = Done (is_fp16_ c, mkWorld p net).
Proof.
  intros Hc. unfold converter_is_fp16, the_params, mbind, ST_bind, get_state.
  simpl. by rewrite Hc.
Qed.

Lemma via_converter_some {A} (a : ST nvinfer1.INetworkDefinition A)
    (p : OpConverterParams) (net : nvinfer1.INetworkDefinition) (c : Converter) :
  converter p = Some c ->
  via_converter a (mkWorld p net) = in_network a (mkWorld p net).
Proof.
  intros Hc. unfold via_converter, the_params, mbind, ST_bind, get_state.
  simpl. by rewrite Hc.
Qed.

Lemma via_converter_addLayer (p : OpConverterParams)
    (net : nvinfer1.INetworkDefinition) (c : Converter) (l : nvinfer1.Layer) :
  converter p = Some c -> add_returns_null net l = false ->
  via_converter (addLayer l) (mkWorld p net)
  = Done (Some (length (nvinfer1.layers net)), mkWorld p (with_layer net l)).
Proof.
  intros Hc Hadd. rewrite (via_converter_some _ _ _ _ Hc).
  unfold in_network, addLayer. cbn [network params]. by rewrite Hadd.
Qed.

Lemma in_network_getOutput_new (p : OpConverterParams)
    (net : nvinfer1.INetworkDefinition) (l : nvinfer1.Layer) :
  in_network (getOutput (length (nvinfer1.layers net)))
             (mkWorld p (with_layer net l))
  = Done (Some (length (nvinfer1.tensor_names net)),
          mkWorld p (with_layer net l)).
Proof.
  unfold in_network, getOutput. simpl.
  by rewrite lookup_app_r, Nat.sub_diag by lia.
Qed.

Lemma with_layer_valid (net : nvinfer1.INetworkDefinition) (l : nvinfer1.Layer)
    (t : nat) :
  (t < length (nvinfer1.tensor_names net))%nat ->
  (t < length (nvinfer1.tensor_names (with_layer net l)))%nat.
Proof. intros Ht. simpl. rewrite length_app. lia. Qed.

Lemma ST_ret_Done {S A} (a : A) (s : S) : (mret a : ST S A) s = Done (a, s).
Proof. reflexivity. Qed.

Lemma lift_Done {S A} (o : Outcome A) (a : A) (s : S) :
  o = Done a -> lift o s = Done (a, s).
Proof. by intros ->. Qed.

Lemma GetTrtWeights_supported (w : TRT_ShapedWeights.t) :
  ok (ConvertDType (TRT_ShapedWeights.type_ w) nvinfer1.kFLOAT).1 = true ->
  exists trt_weights, TRT_ShapedWeights.GetTrtWeights w = Done trt_weights.
Proof.
  intros Hok. unfold TRT_ShapedWeights.GetTrtWeights.
  destruct (ConvertDType _ _) as [status trt_type]. simpl in Hok.
  rewrite Hok. eauto.
Qed.

Lemma outputs_push_back_some (p : OpConverterParams)
    (net : nvinfer1.INetworkDefinition) (outs : list TRT_TensorOrWeights.t)
    (x : TRT_TensorOrWeights.t) :
  outputs p = Some outs ->
  outputs_push_back x (mkWorld p net)
  = Done (tt, mkWorld (mkParams (converter p) (node_def p) (inputs p)
                                (Some (outs ++ [x])) (validation_only p)
                                (weight_store p)) net).
Proof. intros Ho. unfold outputs_push_back. simpl. by rewrite Ho. Qed.

(** The weights the scale layer is built from: the given ones, or their
    half-precision copy when the converter runs in fp16 mode. *)
Lemma scale_weights_precision (p : OpConverterParams)
    (net : nvinfer1.INetworkDefinition) (fp16 : bool)
    (weights : TRT_ShapedWeights.t) :
  ok (ConvertDType (TRT_ShapedWeights.type_ weights) nvinfer1.kFLOAT).1 = true ->
  Forall (fun x => 0 <= x) (extents (TRT_ShapedWeights.shape_ weights)) ->
  exists weights' store,
    (if fp16 then ConvertFP32ToFP16 weights else mret weights) (mkWorld p net)
    = Done (weights',
            mkWorld (mkParams (converter p) (node_def p) (inputs p) (outputs p)
                              (validation_only p) store) net)
    /\ ok (ConvertDType (TRT_ShapedWeights.type_ weights') nvinfer1.kFLOAT).1
       = true.
Proof.
  intros Htype Hshape. destruct fp16.
  - unfold ConvertFP32ToFP16, in_weight_store, TrtWeightStore.GetTempWeights,
      mbind, ST_bind. cbn [params network].
    rewrite bool_decide_eq_true_2 by done. eexists _, _. split; [reflexivity|].
    reflexivity.
  - exists weights, (weight_store p). split; [|done]. by destruct p.
Qed.

Lemma on_network_getName (this : Converter)
    (net : nvinfer1.INetworkDefinition) (t : nat) :
  (t < length (nvinfer1.tensor_names net))%nat ->
  on_network (tensor_getName (Some t)) (this, net)
  = Done (default "" (nvinfer1.tensor_names net !! t), (this, net)).
Proof.
  intros Ht. unfold on_network, tensor_getName.
  rewrite (ST_bind_Done _ _ _ _ _ (deref_valid net t Ht)). reflexivity.
Qed.

Lemma on_network_setName (this : Converter)
    (net : nvinfer1.INetworkDefinition) (t : nat) (new_name : string) :
  (t < length (nvinfer1.tensor_names net))%nat ->
  on_network (tensor_setName (Some t) new_name) (this, net)
  = Done (tt, (this, with_name net t new_name)).
Proof.
  intros Ht. unfold on_network, tensor_setName.
  rewrite (ST_bind_Done _ _ _ _ _ (deref_valid net t Ht)). reflexivity.
Qed.

Lemma BinaryTensorOpWeight_Add_uniform (p : OpConverterParams)
    (net : nvinfer1.INetworkDefinition) (c : Converter)
    (outs : list TRT_TensorOrWeights.t) (t : nat)
    (weights : TRT_ShapedWeights.t) (swapped : bool) :
  op (node_def p) = "Add" ->
  converter p = Some c ->
  outputs p = Some outs ->
  (t < length (nvinfer1.tensor_names net))%nat ->
  nbDims (getDimensions net t) = 3 ->
  TRT_ShapedWeights.count weights = 1 ->
  ok (ConvertDType (TRT_ShapedWeights.type_ weights) nvinfer1.kFLOAT).1 = true ->
  Forall (fun x => 0 <= x) (extents (TRT_ShapedWeights.shape_ weights)) ->
  (forall shift scale power,
     add_returns_null net
       (nvinfer1.IScaleLayer t nvinfer1.kUNIFORM shift scale power) = false) ->
  exists shift scale power store,
    BinaryTensorOpWeight (Some t) weights swapped (mkWorld p net)
    = Done (Status_OK,
            mkWorld
              (mkParams (converter p) (node_def p) (inputs p)
                 (Some (outs ++
                    [TRT_TensorOrWeights.of_tensor
                       (Some (length (nvinfer1.tensor_names net)))
                       TRT_TensorOrWeights.unknown_batch_size]))
                 (validation_only p) store)
              (with_layer net
                 (nvinfer1.IScaleLayer t nvinfer1.kUNIFORM shift scale power))).
Proof.
  intros Hop Hconv Houts Ht Hrank Hcount Htype Hshape Haccept.
  unfold BinaryTensorOpWeight.
  unfold the_params at 1. unfold mbind at 1, ST_bind at 1, get_state at 1.
  unfold mbind at 1, ST_bind at 1. unfold mret at 1, ST_ret at 1.
  cbn [params network].
  rewrite Hop.
  rewrite (bool_decide_eq_false_2 ("Add" <> "Add")) by (intros Hne; by apply Hne).
  rewrite andb_false_r. cbn [andb].
  unfold TF_RETURN_IF_ERROR at 1.
  unfold mbind at 1, ST_bind at 1. unfold mret at 1, ST_ret at 1.
  rewrite Htype.
  rewrite (ST_bind_Done _ _ _ _ _ (in_network_getDimensions p net t Ht)).
  rewrite (bool_decide_eq_false_2 (_ <> 3)) by (intros Hne; by apply Hne).
  rewrite check_scale_mode_uniform by done.
  cbv iota beta.
  unfold TF_RETURN_IF_ERROR_out at 1.
  unfold mbind at 1, ST_bind at 1. unfold mret at 1, ST_ret at 1.
  cbn [fst snd]. change (ok Status_OK) with true. cbv iota beta.
  rewrite (ST_bind_Done _ _ _ _ _ (converter_is_fp16_some p net c Hconv)).
  destruct (scale_weights_precision p net (is_fp16_ c) weights Htype Hshape)
    as (weights' & store & Hprecision & Htype').
  rewrite (ST_bind_Done _ _ _ _ _ Hprecision).
  rewrite !(bool_decide_eq_false_2 ("Add" = _)) by done.
  rewrite (bool_decide_eq_true_2 ("Add" = "Add")) by done.
  cbn [orb]. cbv iota beta.
  rewrite (ST_bind_Done _ _ _ _ _ (ST_ret_Done _ _)). cbv iota beta.
  set (p' := mkParams _ _ _ _ _ store).
  rewrite (ST_bind_Done _ _ _ _ _ (require_converter_some p' net c Hconv)).
  rewrite (ST_bind_Done _ _ _ _ _ (in_network_deref p' net t Ht)).
  destruct (GetTrtWeights_supported weights' Htype') as [shift Hshift].
  destruct (GetTrtWeights_supported
              (TRT_ShapedWeights.of_type (TRT_ShapedWeights.type_ weights'))
              Htype') as [scale Hscale].
  rewrite (ST_bind_Done _ _ _ _ _ (lift_Done _ _ _ Hshift)).
  rewrite (ST_bind_Done _ _ _ _ _ (lift_Done _ _ _ Hscale)).
  rewrite (ST_bind_Done _ _ _ _ _ (lift_Done _ _ _ Hscale)).
  rewrite (ST_bind_Done _ _ _ _ _
             (via_converter_addLayer p' net c _ Hconv (Haccept shift scale scale))).
  rewrite (ST_bind_Done _ _ _ _ _ (in_network_getOutput_new p' net _)).
  unfold TF_RETURN_IF_ERROR_out.
  rewrite (ST_bind_Done _ _ _ _ _ (ST_ret_Done _ _)).
  cbn [fst snd]. change (ok Status_OK) with true. cbv iota beta.
  rewrite (ST_bind_Done _ _ _ _ _
             (outputs_push_back_some p' _ outs _ Houts)).
  exists shift, scale, scale, store. reflexivity.
Qed.

(** C9: converting an Add node whose inputs resolve to a live tensor of
    three non-batch dimensions (framework shape [N,3,4,4]) and to a weight
    with a single element takes the scale-layer path with the uniform
    scale mode, adds exactly that one scale layer to the network, and
    binds exactly one new entry in the symbol table: the layer's output
    tensor, under the node's bare name, carrying the converter's batch
    size.  The accelerator is assumed to accept the scale layer. *)
Theorem ConvertNode_Add_uniform (this : Converter)
    (net : nvinfer1.INetworkDefinition) (node : NodeDef)
    (input0 input1 : TRT_TensorOrWeights.t) (t : nat) :
  op node = "Add" ->
  IsPlugin "Add" = false ->
  GetInputs node [] this = Done ((Status_OK, [input0; input1]), this) ->
  TRT_TensorOrWeights.is_tensor input0 = true ->
  TRT_TensorOrWeights.tensor_ input0 = Some t ->
  (t < length (nvinfer1.tensor_names net))%nat ->
  nbDims (getDimensions net t) = 3 ->
  TRT_TensorOrWeights.is_weights input1 = true ->
  TRT_ShapedWeights.count (TRT_TensorOrWeights.weights_ input1) = 1 ->
  ok (ConvertDType
        (TRT_ShapedWeights.type_ (TRT_TensorOrWeights.weights_ input1))
        nvinfer1.kFLOAT).1 = true ->
  Forall (fun x => 0 <= x)
         (extents (TRT_ShapedWeights.shape_ (TRT_TensorOrWeights.weights_ input1))) ->
  (forall shift scale power,
     add_returns_null net
       (nvinfer1.IScaleLayer t nvinfer1.kUNIFORM shift scale power) = false) ->
  trt_tensors_ this !! name node = None ->
  check_scale_mode (name node) (TRT_TensorOrWeights.weights_ input1)
                   (getDimensions net t)
  = inr (nvinfer1.kUNIFORM, false)
  /\ exists shift scale power this' net',
       ConvertNode node (this, net) = Done (Status_OK, (this', net'))
       /\ nvinfer1.layers net'
          = nvinfer1.layers net
              ++ [(nvinfer1.IScaleLayer t nvinfer1.kUNIFORM shift scale power,
                   length (nvinfer1.tensor_names net))]
       /\ trt_tensors_ this'
          = <[name node :=
                TRT_TensorOrWeights.of_tensor
                  (Some (length (nvinfer1.tensor_names net)))
                  (batch_size_ this)]> (trt_tensors_ this)
       /\ batch_size_ this' = batch_size_ this.
Proof.
  intros Hop Hplugin Hinputs Htensor Ht Hvalid Hrank Hweights Hcount Htype
    Hshape Haccept Hfresh.
  split; [by apply check_scale_mode_uniform|].
  set (bundle := mkParams (Some this) node [input0; input1] (Some []) false
                          (weight_store_ this)).
  destruct (BinaryTensorOpWeight_Add_uniform bundle net this [] t
              (TRT_TensorOrWeights.weights_ input1) false
              Hop eq_refl eq_refl Hvalid Hrank Hcount Htype Hshape Haccept)
    as (shift & scale & power & store & Hscale).
  set (layer := nvinfer1.IScaleLayer t nvinfer1.kUNIFORM shift scale power) in *.
  set (out := length (nvinfer1.tensor_names net)) in *.
  assert (Hconvert : ConvertBinary (mkWorld bundle net)
            = Done (Status_OK,
                    mkWorld (mkParams (Some this) node [input0; input1]
                               (Some [TRT_TensorOrWeights.of_tensor (Some out)
                                        TRT_TensorOrWeights.unknown_batch_size])
                               false store)
                            (with_layer net layer))).
  { rewrite (ConvertBinary_tensor_weights (mkWorld bundle net) input0 input1
               eq_refl Htensor Hweights), Ht.
    by rewrite (ST_bind_Done _ _ _ _ _ Hscale). }
  exists shift, scale, power.
  unfold ConvertNode.
  assert (Hget : on_converter (GetInputs node []) (this, net)
                 = Done ((Status_OK, [input0; input1]), (this, net))).
  { unfold on_converter. by rewrite Hinputs. }
  rewrite (ST_bind_Done _ _ _ _ _ Hget). cbn [fst snd].
  change (ok Status_OK) with true. cbv iota beta. cbn [negb].
  rewrite Hop, Hplugin, op_registry_Add.
  assert (Hcall : call_op_converter fn.ConvertBinary node [input0; input1]
                    (this, net)
                  = Done ((Status_OK,
                           [TRT_TensorOrWeights.of_tensor (Some out)
                              TRT_TensorOrWeights.unknown_batch_size]),
                          (mkConverter (is_fp16_ this) (batch_size_ this)
                                       (trt_tensors_ this) store,
                           with_layer net layer))).
  { unfold call_op_converter. cbn [call]. fold bundle. by rewrite Hconvert. }
  rewrite (ST_bind_Done _ _ _ _ _ Hcall). cbn [fst snd].
  change (ok Status_OK) with true. cbv iota beta. cbn [negb].
  assert (Hout : (out < length (nvinfer1.tensor_names (with_layer net layer)))%nat).
  { simpl. rewrite length_app. simpl. unfold out. lia. }
  cbn [add_outputs].
  rewrite (bool_decide_eq_false_2 (0%nat <> 0%nat)) by (intros Hne; by apply Hne).
  change (TRT_TensorOrWeights.is_tensor
            (TRT_TensorOrWeights.of_tensor (Some out)
               TRT_TensorOrWeights.unknown_batch_size)) with true.
  cbv iota beta.
  change (TRT_TensorOrWeights.tensor
            (TRT_TensorOrWeights.of_tensor (Some out)
               TRT_TensorOrWeights.unknown_batch_size)) with (Done (Some out)).
  set (this1 := mkConverter _ _ _ store).
  assert (Hname : exists net2,
    (lift (Done (Some out)) ≫= fun tensor =>
       on_network (tensor_getName tensor) ≫= fun tensor_name =>
         if bool_decide (tensor_name = "")
         then on_network (tensor_setName tensor (name node))
         else mret tt) (this1, with_layer net layer)
    = Done (tt, (this1, net2))
    /\ nvinfer1.layers net2 = nvinfer1.layers (with_layer net layer)).
  { set (given := default "" (nvinfer1.tensor_names (with_layer net layer) !! out)).
    exists (if bool_decide (given = "")
            then with_name (with_layer net layer) out (name node)
            else with_layer net layer).
    split; [|by destruct (bool_decide (given = ""))].
    rewrite (ST_bind_Done (S:=Converter * nvinfer1.INetworkDefinition) _ _ _ _ _ (lift_Done _ _ _ eq_refl)).
    rewrite (ST_bind_Done (S:=Converter * nvinfer1.INetworkDefinition) _ _ _ _ _ (on_network_getName this1 _ out Hout)).
    fold given. destruct (bool_decide (given = "")); [|reflexivity].
    by rewrite (on_network_setName this1 _ out _ Hout). }
  destruct Hname as (net2 & Hname & Hlayers).
  rewrite (ST_bind_Done (S:=Converter * nvinfer1.INetworkDefinition) _ _ _ _ _ Hname).
  assert (Hadd :
            on_converter
              (AddTensorOrWeights (name node)
                 (TRT_TensorOrWeights.of_tensor (Some out)
                    TRT_TensorOrWeights.unknown_batch_size)) (this1, net2)
            = Done (Status_OK,
                    (mkConverter (is_fp16_ this) (batch_size_ this)
                       (<[name node :=
                            TRT_TensorOrWeights.of_tensor (Some out)
                              (batch_size_ this)]> (trt_tensors_ this))
                       store, net2))).
  { unfold on_converter, AddTensorOrWeights.
    cbn [trt_tensors_ this1]. by rewrite Hfresh. }
  rewrite (ST_bind_Done (S:=Converter * nvinfer1.INetworkDefinition) _ _ _ _ _ Hadd).
  eexists _, _. split; [reflexivity|]. split; [exact Hlayers|].
  split; reflexivity.
Qed.

End NodeProperties.


(** ** Validation *)

Lemma ST_bind_Crash {S A B} (m : ST S A) (f : A -> ST S B) (s : S) (e : Fault) :
  m s = Crash e -> (m ≫= f) s = Crash e.
Proof. intros Hm. unfold mbind, ST_bind. by rewrite Hm. Qed.

Section ValidationProperties.
Context `{TensorRT} `{ScalarOps} `{TensorFlow} `{OtherConverters}.

Lemma via_converter_null {A} (a : ST nvinfer1.INetworkDefinition A)
    (p : OpConverterParams) (net : nvinfer1.INetworkDefinition) :
  converter p = None -> via_converter a (mkWorld p net) = Crash NullConverter.
Proof.
  intros Hc. unfold via_converter, the_params, mbind, ST_bind, get_state.
  simpl. by rewrite Hc.
Qed.

Lemma op_validators_registered (op_name : string) (f : fn.t) :
  RegisterOpValidators !! op_name = Some f ->
  op_name ∈ ["Const"; "Transpose"; "Reshape"; "MatMul"]
  /\ RegisterOpConverters !! op_name = Some f.
Proof.
  unfold RegisterOpValidators. intros Hf.
  repeat (apply lookup_insert_Some in Hf as [[<- <-] | [_ Hf]];
          [split; [set_solver | by vm_compute]|]).
  by rewrite lookup_empty in Hf.
Qed.

Lemma op_validators_MatMul :
  RegisterOpValidators !! "MatMul" = Some fn.ConvertMatMul.
Proof. by vm_compute. Qed.

(** The weights [ConvertMatMulHelper] hands to the fully connected layer
    are obtained without touching the converter. *)
Lemma matmul_weights_prepared (p : OpConverterParams)
    (net : nvinfer1.INetworkDefinition) (weights_raw : TRT_ShapedWeights.t)
    (transpose_weight : bool) :
  TRT_ShapedWeights.type_ weights_raw = DT_FLOAT ->
  Forall (fun x => 0 <= x) (extents (TRT_ShapedWeights.shape_ weights_raw)) ->
  exists weights store,
    (if transpose_weight then mret weights_raw
     else
       w ← in_weight_store (TrtWeightStore.GetTempWeights_like weights_raw);
       lift (ReorderCKtoKC weights_raw w)) (mkWorld p net)
    = Done (weights,
            mkWorld (mkParams (converter p) (node_def p) (inputs p) (outputs p)
                              (validation_only p) store) net).
Proof.
  intros Htype Hshape. destruct transpose_weight.
  - exists weights_raw, (weight_store p). by destruct p.
  - unfold in_weight_store, TrtWeightStore.GetTempWeights_like,
      TrtWeightStore.GetTempWeights, ReorderCKtoKC, mbind, ST_bind, lift.
    cbn [params network]. rewrite bool_decide_eq_true_2 by done.
    cbn [TRT_ShapedWeights.type_]. rewrite Htype. eauto.
Qed.

Lemma ConvertMatMulHelper_null_converter (p : OpConverterParams)
    (net : nvinfer1.INetworkDefinition) (tensor_input : TRT_TensorOrWeights.t)
    (t : nat) (weights_raw : TRT_ShapedWeights.t) (transpose_weight : bool)
    (node_name : string) :
  converter p = None ->
  TRT_TensorOrWeights.is_tensor tensor_input = true ->
  TRT_TensorOrWeights.tensor_ tensor_input = Some t ->
  (t < length (nvinfer1.tensor_names net))%nat ->
  0 <= nbDims (getDimensions net t) <= 3 ->
  TRT_ShapedWeights.type_ weights_raw = DT_FLOAT ->
  Forall (fun x => 0 <= x) (extents (TRT_ShapedWeights.shape_ weights_raw)) ->
  ConvertMatMulHelper tensor_input weights_raw transpose_weight node_name
    (mkWorld p net) = Crash NullConverter.
Proof.
  intros Hconv Htensor Ht Hvalid Hrank Htype Hshape.
  unfold ConvertMatMulHelper. rewrite Htensor. cbn [negb]. cbv iota.
  unfold TRT_TensorOrWeights.tensor. rewrite Htensor, Ht.
  rewrite (ST_bind_Done _ _ _ _ _ (lift_Done _ _ _ eq_refl)).
  destruct (matmul_weights_prepared p net weights_raw transpose_weight
              Htype Hshape) as (weights & store & Hprepared).
  rewrite (ST_bind_Done _ _ _ _ _ Hprepared).
  set (p' := mkParams _ _ _ _ _ store).
  rewrite (ST_bind_Done _ _ _ _ _ (in_network_getDimensions p' net t Hvalid)).
  unfold pad_to_rank_3. rewrite bool_decide_eq_true_2 by done.
  rewrite (ST_bind_Done _ _ _ _ _ (lift_Done _ _ _ eq_refl)).
  unfold TF_RETURN_IF_ERROR_out.
  apply ST_bind_Crash. by apply via_converter_null.
Qed.

(** C4 (the validator as the code has it): a node whose operator has no
    registered validator passes with the validator and the network
    untouched; every registered validator is the function registered for
    construction under the same operator; but a MatMul node with a tensor
    and a weight input, a supported type and no transposition of the left
    operand is handed on to [ConvertMatMulHelper], which calls into the
    converter: validation, which runs with a null converter, aborts there
    instead of returning a verdict. *)
Theorem ValidateNode_MatMul_null_converter (this : TrtNodeValidator)
    (net : nvinfer1.INetworkDefinition) (node : NodeDef)
    (input0 input1 : TRT_TensorOrWeights.t) (t : nat) (transpose_b : bool) :
  op_validators_ this = RegisterOpValidators ->
  op node = "MatMul" ->
  attr node !! "T" = Some (attr_type DT_FLOAT) ->
  attr node !! "transpose_a" = Some (attr_b false) ->
  attr node !! "transpose_b" = Some (attr_b transpose_b) ->
  TRT_TensorOrWeights.is_tensor input0 = true ->
  TRT_TensorOrWeights.tensor_ input0 = Some t ->
  (t < length (nvinfer1.tensor_names net))%nat ->
  0 <= nbDims (getDimensions net t) <= 3 ->
  TRT_TensorOrWeights.is_weights input1 = true ->
  TRT_ShapedWeights.type_ (TRT_TensorOrWeights.weights_ input1) = DT_FLOAT ->
  Forall (fun x => 0 <= x)
         (extents (TRT_ShapedWeights.shape_ (TRT_TensorOrWeights.weights_ input1))) ->
  ValidateNode node [input0; input1] (this, net) = Crash NullConverter
  /\ (forall other inputs,
        op_validators_ this !! op other = None ->
        ValidateNode other inputs (this, net) = Done (Status_OK, (this, net)))
  /\ (forall op_name f,
        op_validators_ this !! op_name = Some f ->
        op_name ∈ ["Const"; "Transpose"; "Reshape"; "MatMul"]
        /\ RegisterOpConverters !! op_name = Some f).
Proof.
  intros Hreg Hop HT Ha Hb Htensor Ht Hvalid Hrank Hweights Htype Hshape.
  split; [|split].
  - unfold ValidateNode. rewrite Hreg, Hop, op_validators_MatMul.
    cbn [call].
    set (bundle := mkParams None node [input0; input1] None true _).
    assert (Hcrash : ConvertMatMul (mkWorld bundle net) = Crash NullConverter);
      [|by rewrite Hcrash].
    unfold ConvertMatMul, the_params.
    unfold mbind at 1, ST_bind at 1, get_state at 1.
    unfold mbind at 1, ST_bind at 1. unfold mret at 1, ST_ret at 1.
    cbn [params network bundle inputs node_def length].
    rewrite (bool_decide_eq_false_2 (2%nat <> 2%nat)) by (intros Hne; by apply Hne).
    unfold inputs_at. cbn [lookup list_lookup].
    rewrite (ST_bind_Done (S:=World) _ _ _ _ _ (ST_ret_Done _ _)).
    rewrite Htensor. cbn [negb]. cbv iota.
    rewrite (ST_bind_Done (S:=World) _ _ _ _ _ (ST_ret_Done _ _)).
    rewrite Hweights. cbn [negb]. cbv iota.
    unfold TFAttrs.get_DataType, TFAttrs.get_bool, TFAttrs.at_.
    rewrite HT, Ha, Hb.
    rewrite (ST_bind_Done (S:=World) _ _ _ _ _ (lift_Done _ _ _ eq_refl)).
    rewrite (bool_decide_eq_false_2 (DT_FLOAT <> DT_FLOAT))
      by (intros Hne; by apply Hne).
    cbn [andb]. cbv iota.
    rewrite (ST_bind_Done (S:=World) _ _ _ _ _ (lift_Done _ _ _ eq_refl)).
    rewrite (ST_bind_Done (S:=World) _ _ _ _ _ (lift_Done _ _ _ eq_refl)).
    cbv iota.
    unfold TRT_TensorOrWeights.weights. rewrite Hweights.
    rewrite (ST_bind_Done (S:=World) _ _ _ _ _ (lift_Done _ _ _ eq_refl)).
    by apply (ConvertMatMulHelper_null_converter _ _ _ t).
  - intros other inputs Hnone. unfold ValidateNode. by rewrite Hnone.
  - intros op_name f Hf. rewrite Hreg in Hf. by apply op_validators_registered.
Qed.

End ValidationProperties.

(** ** Graph segment extraction *)

Lemma append_empty_r (s : string) : s +:+ "" = s.
Proof.
  induction s as [|c s IH]; [done|].
  change (String c (s +:+ "") = String c s). by rewrite IH.
Qed.

Lemma StrCat_two (a b : string) : StrCat [a; b] = a +:+ b.
Proof. unfold StrCat. cbn [foldr]. by rewrite append_empty_r. Qed.

Lemma StartsWith_app (prefix rest : string) :
  StartsWith (prefix +:+ rest) prefix = true.
Proof.
  induction prefix as [|c prefix IH]; [reflexivity|].
  change (StartsWith (String c (prefix +:+ rest)) (String c prefix) = true).
  cbn [StartsWith]. by rewrite bool_decide_eq_true_2.
Qed.

Lemma input_marker_prefix (port : Z) :
  StartsWith (StrCat [kInputPHName; pretty port]) kInputPHName = true.
Proof. rewrite StrCat_two. apply StartsWith_app. Qed.

Lemma output_marker_prefix (port : Z) :
  StartsWith (StrCat [kOutputPHName; pretty port]) kInputPHName = false.
Proof. rewrite StrCat_two. reflexivity. Qed.

Lemma input_marker_inj (port port' : Z) :
  StrCat [kInputPHName; pretty port] = StrCat [kInputPHName; pretty port'] ->
  port = port'.
Proof.
  rewrite !StrCat_two. unfold kInputPHName. intros Heq.
  apply (inj (String.append "TensorRTInputPH_")) in Heq.
  by apply (inj pretty) in Heq.
Qed.

(** Counting the nodes of a given name on the heads of a fragment. *)
Lemma named_length_heads (x : string) (fragment : list NodeDef) :
  length (filter (fun n => name n = x) fragment)
  = length (filter (fun h : string * string => h.1 = x) (heads fragment)).
Proof.
  induction fragment as [|n rest IH]; [done|].
  unfold heads in *. simpl. rewrite !filter_cons. simpl.
  destruct (decide (name n = x)); simpl; by rewrite IH.
Qed.

Lemma named_absent (x : string) (hs : list (string * string)) :
  x ∉ hs.*1 -> filter (fun h : string * string => h.1 = x) hs = [].
Proof.
  induction hs as [|[a b] rest IH]; [done|]. simpl. intros Hnot.
  apply not_elem_of_cons in Hnot as [Hne Hnot].
  rewrite filter_cons_False by (simpl; congruence). by apply IH.
Qed.

Lemma named_unique (x : string) (hs : list (string * string)) :
  NoDup hs.*1 -> x ∈ hs.*1 ->
  length (filter (fun h : string * string => h.1 = x) hs) = 1%nat.
Proof.
  induction hs as [|[a b] rest IH]; simpl; intros Hnodup Hin.
  - by apply elem_of_nil in Hin.
  - apply NoDup_cons in Hnodup as [Hfresh Hnodup].
    destruct (decide (a = x)) as [-> | Hne].
    + rewrite filter_cons_True by done. simpl. by rewrite named_absent.
    + rewrite filter_cons_False by done.
      apply IH; [done|]. apply elem_of_cons in Hin as [Heq | Hin]; [|done].
      by subst.
Qed.

Lemma heads_app (a b : list NodeDef) : heads (a ++ b) = heads a ++ heads b.
Proof. unfold heads. apply fmap_app. Qed.

(** The first loop keeps the marker names and the markers of the segment
    in step: no two markers share a name, a node named as an input marker
    is a Placeholder, and every connection that is a non-control input
    has its marker in the segment. *)
Lemma add_markers_invariant (graph : Graph) (graph_properties : GraphProperties)
    (connections : list EngineConnection) :
  forall st st',
  add_markers graph graph_properties st connections = Done (Status_OK, st') ->
  NoDup (heads (segment st)).*1 ->
  (forall x, x ∈ marker_nodes st <-> x ∈ (heads (segment st)).*1) ->
  (forall h, h ∈ heads (segment st) ->
             StartsWith h.1 kInputPHName = true -> h.2 = "Placeholder") ->
  NoDup (heads (segment st')).*1
  /\ (forall h, h ∈ heads (segment st') ->
                StartsWith h.1 kInputPHName = true -> h.2 = "Placeholder")
  /\ (forall x, x ∈ (heads (segment st)).*1 -> x ∈ (heads (segment st')).*1)
  /\ (forall c, c ∈ connections ->
                is_control_edge c = false -> is_input_edge c = true ->
                StrCat [kInputPHName; pretty (port_number c)]
                ∈ (heads (segment st')).*1).
Proof.
  induction connections as [|connection rest IH]; intros st st' Hrun Hnodup Hmarks Hops.
  - simpl in Hrun. inversion Hrun; subst. repeat split; try done.
    intros c Hc. by apply elem_of_nil in Hc.
  - cbn [add_markers] in Hrun.
    destruct (is_control_edge connection) eqn:Hcontrol.
    { destruct (IH _ _ Hrun Hnodup Hmarks Hops) as (H1 & H2 & H3 & H4).
      repeat split; try done.
      intros c Hc Hnc Hin. apply elem_of_cons in Hc as [-> | Hc]; [congruence|].
      by apply H4. }
    destruct (FindNodeId graph (outside_id connection)) as [outside_node|];
      [|by inversion Hrun].
    destruct (if is_input_edge connection then _ else _)
      as [[partial_shape dtype]|] eqn:Hprops; [|done].
    set (updated := with_properties connection partial_shape dtype) in *.
    assert (Hname : marker_name updated = marker_name connection) by done.
    destruct (bool_decide (marker_name updated ∈ marker_nodes st)) eqn:Hseen.
    { apply bool_decide_eq_true_1 in Hseen.
      destruct (IH _ _ Hrun Hnodup Hmarks Hops) as (H1 & H2 & H3 & H4).
      repeat split; try done.
      intros c Hc Hnc Hin. apply elem_of_cons in Hc as [-> | Hc]; [|by apply H4].
      apply H3. cbn [segment]. apply Hmarks. rewrite Hname in Hseen.
      unfold marker_name in Hseen. by rewrite Hin in Hseen. }
    apply bool_decide_eq_false_1 in Hseen.
    set (node := if is_input_edge updated then _ else _) in Hrun.
    assert (Hhead : heads [node]
                    = [(marker_name updated,
                        if is_input_edge connection then "Placeholder"
                        else "Identity")]).
    { unfold node. change (is_input_edge updated) with (is_input_edge connection).
      by destruct (is_input_edge connection). }
    apply IH in Hrun; cbn [segment marker_nodes].
    + destruct Hrun as (H1 & H2 & H3 & H4). cbn [segment] in H3.
      rewrite heads_app, Hhead, fmap_app in H3.
      repeat split; try done.
      * intros x Hx. apply H3. apply elem_of_app. by left.
      * intros c Hc Hnc Hin.
        apply elem_of_cons in Hc as [-> | Hc]; [|by apply H4].
        apply H3. apply elem_of_app. right. simpl. apply list_elem_of_singleton.
        rewrite Hname. unfold marker_name. by rewrite Hin.
    + rewrite heads_app, Hhead, fmap_app. simpl.
      apply NoDup_app. split; [done|]. split; [|apply NoDup_singleton].
      intros x Hx Hx'. apply list_elem_of_singleton in Hx'. subst x.
      by apply Hseen, Hmarks.
    + intros x. rewrite heads_app, Hhead, fmap_app. simpl.
      rewrite elem_of_union, elem_of_singleton, elem_of_app,
        list_elem_of_singleton, Hmarks. tauto.
    + intros h. rewrite heads_app, Hhead, elem_of_app, list_elem_of_singleton.
      intros [Hh | ->]; [by apply Hops|]. cbn [fst snd].
      rewrite Hname. unfold marker_name.
      destruct (is_input_edge connection); [done|].
      by rewrite output_marker_prefix.
Qed.

(** The second loop appends the definitions of the nodes of the
    segment. *)
Lemma copy_nodes_appends (graph : Graph) (node_ids : list Z) :
  forall local_scope id_map segment_def local_scope' id_map' segment_def',
  copy_nodes graph node_ids local_scope id_map segment_def
  = Done (local_scope', id_map', segment_def') ->
  exists copied,
    segment_def' = segment_def ++ copied
    /\ forall n, n ∈ copied ->
         exists id node, id ∈ node_ids /\ FindNodeId graph id = Some node
                         /\ n = def node.
Proof.
  induction node_ids as [|node_id rest IH];
    intros local_scope id_map segment_def local_scope' id_map' segment_def' Hrun.
  - simpl in Hrun. inversion Hrun; subst. exists []. split; [by rewrite app_nil_r|].
    intros n Hn. by apply elem_of_nil in Hn.
  - simpl in Hrun. destruct (FindNodeId graph node_id) as [node|] eqn:Hfind; [|done].
    apply IH in Hrun as (copied & -> & Hcopied).
    exists (def node :: copied). split; [by rewrite <- app_assoc|].
    intros n Hn. apply elem_of_cons in Hn as [-> | Hn].
    + exists node_id, node. split; [left|]; done.
    + destruct (Hcopied n Hn) as (id & node' & Hid & Hnode & ->).
      exists id, node'. split; [by right | done].
Qed.

(** The third loop changes inputs only. *)
Lemma rewire_inputs_heads (connections : list EngineConnection)
    (id_map : gmap Z nat) :
  forall segment_def segment_def',
  rewire_inputs connections id_map segment_def = Done segment_def' ->
  heads segment_def' = heads segment_def.
Proof.
  induction connections as [|connection rest IH]; intros segment_def segment_def' Hrun.
  - simpl in Hrun. by inversion Hrun.
  - simpl in Hrun.
    destruct (is_control_edge connection || negb (is_input_edge connection));
      [by apply IH|].
    destruct (segment_def !! _) as [snode|] eqn:Hnode; [|done].
    unfold set_input in Hrun. destruct (bool_decide _); [|done].
    apply IH in Hrun. rewrite Hrun. unfold heads.
    rewrite list_fmap_insert. simpl. apply list_insert_id.
    by rewrite list_lookup_fmap, Hnode.
Qed.

(** The first loop only appends: what the fragment held on entry stays in
    front, and the markers are those of a run from the empty fragment. *)
Lemma add_markers_frame (graph : Graph) (graph_properties : GraphProperties)
    (base : list NodeDef) (connections : list EngineConnection) :
  forall names seen s status st',
  add_markers graph graph_properties (mkMarkerState names seen (base ++ s))
    connections = Done (status, st') ->
  exists s',
    segment st' = base ++ s'
    /\ add_markers graph graph_properties (mkMarkerState names seen s)
         connections
       = Done (status, mkMarkerState (marker_nodes st') (visited st') s').
Proof.
  induction connections as [|connection rest IH];
    intros names seen s status st' Hrun.
  - simpl in Hrun. inversion Hrun; subst. by exists s.
  - cbn [add_markers marker_nodes visited segment] in *.
    destruct (is_control_edge connection); [by apply IH|].
    destruct (FindNodeId graph (outside_id connection)) as [outside_node|].
    2: { inversion Hrun; subst. by exists s. }
    destruct (if is_input_edge connection then _ else _)
      as [[partial_shape dtype]|]; [|done].
    destruct (bool_decide _); [by apply IH|].
    rewrite <- app_assoc in Hrun. by apply IH.
Qed.

Section SegmentProperties.
Context `{TensorFlow}.

(** The compaction of one node's inputs. *)
Lemma strip_inputs_clean (names : gset string) (node_name : string)
    (original : list string) :
  forall todo kept,
  (forall r, r ∈ todo -> ~ stray_reference names r) ->
  strip_inputs names node_name original kept todo
  = inr (kept ++ filter (fun r => outside_segment names r = false) todo).
Proof.
  induction todo as [|r rest IH]; intros kept Hclean; simpl.
  - by rewrite app_nil_r.
  - destruct (outside_segment names r) eqn:Hout.
    + destruct (bool_decide _) eqn:Hslot.
      * rewrite filter_cons_False by (by rewrite Hout).
        apply IH. intros r' Hr'. apply Hclean. by right.
      * apply bool_decide_eq_false_1 in Hslot.
        exfalso. apply (Hclean r); [left | done].
    + rewrite filter_cons_True by done.
      rewrite IH; [by rewrite <- app_assoc|].
      intros r' Hr'. apply Hclean. by right.
Qed.

Lemma strip_inputs_inl (names : gset string) (node_name : string)
    (original : list string) :
  forall todo kept status partial,
  strip_inputs names node_name original kept todo = inl (status, partial) ->
  exists msg, status = errors.InvalidArgument msg.
Proof.
  induction todo as [|r rest IH]; intros kept status partial Hrun; simpl in Hrun.
  - done.
  - destruct (outside_segment names r); [|by eapply IH].
    destruct (bool_decide _); [by eapply IH|].
    inversion Hrun; subst. by eexists.
Qed.

Lemma strip_inputs_stray (names : gset string) (node_name : string)
    (original : list string) :
  forall todo kept,
  (exists r, r ∈ todo /\ stray_reference names r) ->
  exists status partial,
    strip_inputs names node_name original kept todo = inl (status, partial).
Proof.
  induction todo as [|r rest IH]; intros kept (r' & Hr' & Hout & Hslot).
  - by apply elem_of_nil in Hr'.
  - simpl. apply elem_of_cons in Hr' as [<- | Hr'].
    + rewrite Hout, bool_decide_eq_false_2 by done. by eexists _, _.
    + assert (Hrest : exists r, r ∈ rest /\ stray_reference names r)
        by (by exists r').
      destruct (outside_segment names r); [|by apply IH].
      destruct (bool_decide _); [by apply IH | by eexists _, _].
Qed.

(** The fourth loop. *)
Lemma strip_nodes_clean (names : gset string) :
  forall todo treated,
  (forall n r, n ∈ todo -> r ∈ input n -> ~ stray_reference names r) ->
  strip_nodes names treated todo
  = (Status_OK, treated ++ map (without_outside_references names) todo).
Proof.
  induction todo as [|snode rest IH]; intros treated Hclean; simpl.
  - by rewrite app_nil_r.
  - rewrite strip_inputs_clean by (intros r; apply Hclean; left).
    rewrite IH; [by rewrite <- app_assoc|].
    intros n r Hn. apply Hclean. by right.
Qed.

Lemma strip_nodes_stray (names : gset string) :
  forall todo treated,
  (exists n r, n ∈ todo /\ r ∈ input n /\ stray_reference names r) ->
  exists msg partial,
    strip_nodes names treated todo = (errors.InvalidArgument msg, partial).
Proof.
  induction todo as [|snode rest IH]; intros treated (n & r & Hn & Hr & Hstray).
  - by apply elem_of_nil in Hn.
  - simpl.
    destruct (strip_inputs names (name snode) (input snode) [] (input snode))
      as [[status partial]|kept] eqn:Hinputs.
    + apply strip_inputs_inl in Hinputs as [msg ->]. by eexists _, _.
    + apply elem_of_cons in Hn as [-> | Hn].
      * destruct (strip_inputs_stray names (name snode) (input snode)
                    (input snode) []) as (status & partial & Hfail);
          [by exists r|]. congruence.
      * apply IH. by exists n, r.
Qed.

Lemma strip_nodes_heads (names : gset string) :
  forall todo treated,
  heads (strip_nodes names treated todo).2 = heads (treated ++ todo).
Proof.
  induction todo as [|snode rest IH]; intros treated; simpl.
  - by rewrite app_nil_r.
  - destruct (strip_inputs names (name snode) (input snode) [] (input snode))
      as [[status partial]|kept]; simpl.
    + by rewrite !heads_app.
    + rewrite IH, <- app_assoc. by rewrite !heads_app.
Qed.

(** A name of the reserved form that occurs once among the markers, and
    neither before nor after them, names one node of the fragment, a
    Placeholder. *)
Lemma single_marker (x : string) (fragment : list NodeDef)
    (before markers after : list (string * string)) :
  heads fragment = before ++ markers ++ after ->
  x ∉ before.*1 -> x ∉ after.*1 ->
  NoDup markers.*1 -> x ∈ markers.*1 ->
  (forall h, h ∈ markers ->
             StartsWith h.1 kInputPHName = true -> h.2 = "Placeholder") ->
  StartsWith x kInputPHName = true ->
  exists placeholder,
    filter (fun n => name n = x) fragment = [placeholder]
    /\ op placeholder = "Placeholder".
Proof.
  intros Hheads Hbefore Hafter Hnodup Hin Hops Hprefix.
  assert (Hlen : length (filter (fun n => name n = x) fragment) = 1%nat).
  { rewrite named_length_heads, Hheads, !filter_app, !length_app.
    rewrite (named_absent x before), (named_absent x after) by done.
    rewrite named_unique by done. done. }
  destruct (filter (fun n => name n = x) fragment)
    as [|placeholder [|? ?]] eqn:Hfilter; [done| |done].
  exists placeholder. split; [done|].
  assert (Hp : placeholder ∈ filter (fun n => name n = x) fragment)
    by (rewrite Hfilter; left).
  apply list_elem_of_filter in Hp as [Hname Hp].
  assert (Hhead : (name placeholder, op placeholder) ∈ heads fragment).
  { unfold heads. apply list_elem_of_fmap. by exists placeholder. }
  rewrite Hheads, !elem_of_app in Hhead.
  destruct Hhead as [Hhead | [Hhead | Hhead]].
  - exfalso. apply Hbefore. apply list_elem_of_fmap.
    by exists (name placeholder, op placeholder).
  - apply (Hops _ Hhead). cbn [fst]. by rewrite Hname.
  - exfalso. apply Hafter. apply list_elem_of_fmap.
    by exists (name placeholder, op placeholder).
Qed.

Lemma unreserved_absent (x : string) (fragment : list NodeDef) :
  StartsWith x kInputPHName = true ->
  (forall n, n ∈ fragment -> StartsWith (name n) kInputPHName = false) ->
  x ∉ (heads fragment).*1.
Proof.
  intros Hprefix Hfree Hin.
  apply list_elem_of_fmap in Hin as ([a b] & -> & Hin).
  unfold heads in Hin. apply list_elem_of_fmap in Hin as (n & Heq & Hn).
  inversion Heq; subst. cbn [fst] in Hprefix.
  specialize (Hfree n Hn). congruence.
Qed.

(** C8: whenever the first three loops of [ConvertSegmentToGraphDef] run
    to completion, over any list of connections, and the reserved input
    prefix begins the name of no node that the fragment holds on entry and
    of no node of the segment, the extraction returns with the connections
    as the first loop left them, and (1) for every connection of the list
    that is a non-control input connection, the fragment contains exactly
    one node named by the input prefix followed by the port number of the
    connection, however many connections share that port, and that node
    is a Placeholder; (2) when every input reference of the rewired nodes
    that points outside of the segment is a control reference, the status
    is OK and every node is returned without these references, its other
    references unchanged and in their order; (3) when some rewired node
    has a non-control input reference that points outside of the segment
    and is not named as an input placeholder, the status is
    InvalidArgument and the common scope is left as it was. *)
Theorem ConvertSegmentToGraphDef_boundary
    (graph : Graph) (graph_properties : GraphProperties)
    (subgraph_node_names : gset string) (subgraph_node_ids : list Z)
    (connections : list EngineConnection) (segment_def : list NodeDef)
    (common_scope : string)
    (st : MarkerState) (first : Z) (first_node : Node)
    (local_scope : string) (old_to_new_id_map : gmap Z nat)
    (copied rewired : list NodeDef) :
  (forall n, n ∈ segment_def -> StartsWith (name n) kInputPHName = false) ->
  (forall id node, id ∈ subgraph_node_ids -> FindNodeId graph id = Some node ->
                   StartsWith (name (def node)) kInputPHName = false) ->
  add_markers graph graph_properties (mkMarkerState ∅ [] segment_def)
    connections = Done (Status_OK, st) ->
  head subgraph_node_ids = Some first ->
  FindNodeId graph first = Some first_node ->
  copy_nodes graph subgraph_node_ids (name (def first_node)) ∅ (segment st)
  = Done (local_scope, old_to_new_id_map, copied) ->
  rewire_inputs (visited st) old_to_new_id_map copied = Done rewired ->
  exists status fragment scope,
    ConvertSegmentToGraphDef graph graph_properties subgraph_node_names
      subgraph_node_ids connections segment_def common_scope
    = Done (status, visited st, fragment, scope)
    /\ (forall c, c ∈ connections ->
          is_control_edge c = false -> is_input_edge c = true ->
          exists placeholder,
            filter (fun n => name n
                             = StrCat [kInputPHName; pretty (port_number c)])
                   fragment = [placeholder]
            /\ op placeholder = "Placeholder")
    /\ ((forall n r, n ∈ rewired -> r ∈ input n ->
                     ~ stray_reference subgraph_node_names r) ->
        status = Status_OK
        /\ fragment
           = map (without_outside_references subgraph_node_names) rewired
        /\ scope = local_scope)
    /\ ((exists n r, n ∈ rewired /\ r ∈ input n
                     /\ stray_reference subgraph_node_names r) ->
        exists msg, status = errors.InvalidArgument msg
                    /\ scope = common_scope).
Proof.
  intros Hentry Hsegment Hmarkers Hfirst Hnode Hcopy Hrewire.
  unfold ConvertSegmentToGraphDef. rewrite Hmarkers. cbn [ok code Status_OK negb].
  destruct subgraph_node_ids as [|first' others]; [done|].
  simpl in Hfirst. inversion Hfirst; subst first'.
  rewrite Hnode, Hcopy, Hrewire.
  destruct (strip_nodes subgraph_node_names [] rewired)
    as [status fragment] eqn:Hstrip.
  exists status, fragment, (if ok status then local_scope else common_scope).
  split; [by destruct (ok status)|].
  split; [|split].
  - intros c Hc Hcontrol Hinput.
    rewrite <- (app_nil_r segment_def) in Hmarkers.
    apply add_markers_frame in Hmarkers as (markers & Hsegment_st & Hrun).
    apply add_markers_invariant in Hrun
      as (Hnodup & Hops & _ & Hall); cbn [segment marker_nodes];
      [|apply NoDup_nil_2|set_solver|set_solver].
    cbn [segment] in *.
    apply copy_nodes_appends in Hcopy as (nodes & -> & Hnodes).
    apply rewire_inputs_heads in Hrewire.
    pose proof (strip_nodes_heads subgraph_node_names rewired []) as Hheads.
    rewrite Hstrip in Hheads. cbn [snd app] in Hheads.
    rewrite Hrewire, Hsegment_st, !heads_app, <- app_assoc in Hheads.
    apply (single_marker _ _ _ _ _ Hheads);
      [| |exact Hnodup|by apply Hall|exact Hops|apply input_marker_prefix].
    + apply unreserved_absent; [apply input_marker_prefix | done].
    + apply unreserved_absent; [apply input_marker_prefix|].
      intros n Hn. destruct (Hnodes n Hn) as (id & node & Hid & Hfind & ->).
      by eapply Hsegment.
  - intros Hclean.
    rewrite strip_nodes_clean in Hstrip by done.
    inversion Hstrip; subst. done.
  - intros Hstray.
    destruct (strip_nodes_stray subgraph_node_names rewired [] Hstray)
      as (msg & partial & Hfail).
    rewrite Hfail in Hstrip. inversion Hstrip; subst.
    by exists msg.
Qed.

End SegmentProperties.

(** ** Validators that stop at the validation-only check *)

Lemma offline_ret {A} (a : A) (w : World) : offline_at (mret a) w.
Proof. done. Qed.

Lemma offline_crash {A} (f : Fault) (w : World) :
  f <> NullConverter -> f <> NullOutputs -> offline_at (crash (A:=A) f) w.
Proof. by split. Qed.

Lemma offline_bind {A B} (m : M A) (k : A -> M B) (w : World) :
  offline_at m w ->
  (forall a w', m w = Done (a, w') -> offline_at (k a) w') ->
  offline_at (m ≫= k) w.
Proof.
  unfold offline_at, mbind, ST_bind. intros Hm Hk.
  destruct (m w) as [[a w']|f]; [|done].
  specialize (Hk a w' eq_refl).
  destruct (k a w') as [[b w'']|f]; [congruence | done].
Qed.

Lemma offline_the_params {B} (k : OpConverterParams -> M B) (w : World) :
  offline_at (k (params w)) w -> offline_at (the_params ≫= k) w.
Proof.
  intros Hk. apply offline_bind; [done|].
  intros a w' [= <- <-]. done.
Qed.

Lemma offline_lift {A} (o : Outcome A) (w : World) :
  (forall f, o = Crash f -> f = CheckFailed) -> offline_at (lift o) w.
Proof.
  unfold offline_at, lift. destruct o as [a|f]; [done|].
  intros Hf. by rewrite (Hf f eq_refl).
Qed.

Lemma offline_inputs_at (l : list TRT_TensorOrWeights.t) (i : nat) (w : World) :
  offline_at (inputs_at l i) w.
Proof. unfold inputs_at. by destruct (l !! i). Qed.

Lemma offline_in_weight_store {A}
    (a : TrtWeightStore.t -> Outcome (A * TrtWeightStore.t)) (w : World) :
  (forall s f, a s = Crash f -> f = CheckFailed) ->
  offline_at (in_weight_store a) w.
Proof.
  unfold offline_at, in_weight_store. intros Hf.
  destruct (a (weight_store (params w))) as [[x store]|f] eqn:Ha; [done|].
  by rewrite (Hf _ _ Ha).
Qed.

Lemma GetTempWeights_crash (type : DataType) (dims : Dims)
    (s : TrtWeightStore.t) (f : Fault) :
  TrtWeightStore.GetTempWeights type dims s = Crash f -> f = CheckFailed.
Proof.
  unfold TrtWeightStore.GetTempWeights. destruct (bool_decide _); [done|].
  by intros [= <-].
Qed.

Lemma weights_crash (x : TRT_TensorOrWeights.t) (f : Fault) :
  TRT_TensorOrWeights.weights x = Crash f -> f = CheckFailed.
Proof.
  unfold TRT_TensorOrWeights.weights.
  destruct (TRT_TensorOrWeights.is_weights x); [done | by intros [= <-]].
Qed.

Lemma tensor_crash (x : TRT_TensorOrWeights.t) (f : Fault) :
  TRT_TensorOrWeights.tensor x = Crash f -> f = CheckFailed.
Proof.
  unfold TRT_TensorOrWeights.tensor.
  destruct (TRT_TensorOrWeights.is_tensor x); [done | by intros [= <-]].
Qed.

Lemma TFAttrs_at_crash (node_def : NodeDef) (key : string) (f : Fault) :
  TFAttrs.at_ node_def key = Crash f -> f = CheckFailed.
Proof.
  unfold TFAttrs.at_. destruct (attr node_def !! key); [done | by intros [= <-]].
Qed.

Lemma TFAttrs_get_DataType_crash (node_def : NodeDef) (key : string) (f : Fault) :
  TFAttrs.get_DataType node_def key = Crash f -> f = CheckFailed.
Proof.
  unfold TFAttrs.get_DataType.
  destruct (TFAttrs.at_ node_def key) as [[]|f'] eqn:Hat; try done.
  intros [= <-]. by eapply TFAttrs_at_crash.
Qed.

Section OfflineProperties.
Context `{TensorRT} `{ScalarOps} `{TensorFlow}.

Lemma offline_getDimensions (tensor : nvinfer1.ITensorPtr) (w : World) :
  offline_at (in_network (tensor_getDimensions tensor)) w.
Proof.
  unfold offline_at, in_network, tensor_getDimensions, deref, mbind, ST_bind,
    get_state, mret, ST_ret.
  destruct tensor as [i|]; [|done].
  by destruct (bool_decide _).
Qed.

Lemma offline_GetTrtDims (x : TRT_TensorOrWeights.t) (w : World) :
  offline_at (in_network (GetTrtDims x)) w.
Proof.
  unfold offline_at, in_network, GetTrtDims, tensor_getDimensions, deref,
    TRT_TensorOrWeights.tensor, TRT_TensorOrWeights.weights,
    TRT_TensorOrWeights.is_weights, lift, mbind, ST_bind, get_state, mret,
    ST_ret.
  unfold TRT_TensorOrWeights.is_tensor.
  destruct (TRT_TensorOrWeights.is_tensor_ x); simpl; [|done].
  destruct (TRT_TensorOrWeights.tensor_ x) as [i|]; [|done].
  by destruct (bool_decide _).
Qed.

Lemma offline_TfTensorToTrtWeights (weights_dtype : DataType) (shape : list Z)
    (tensor_proto_array : list Z) (tensor_proto_array_len : Z)
    (weights : TRT_ShapedWeights.t) (w : World) :
  offline_at (TfTensorToTrtWeights weights_dtype shape tensor_proto_array
                tensor_proto_array_len weights) w.
Proof.
  unfold TfTensorToTrtWeights.
  destruct (GetTensorDimsWithProtoShape _ _ _) as [status weight_dims].
  destruct (negb (ok status)); [apply offline_ret|].
  apply offline_bind.
  - apply offline_in_weight_store. intros s f. apply GetTempWeights_crash.
  - intros a w' _. apply offline_ret.
Qed.

Ltac offline_step :=
  lazymatch goal with
  | |- offline_at (mret _) _ => apply offline_ret
  | |- offline_at (crash _) _ => by apply offline_crash
  | |- offline_at (inputs_at _ _) _ => apply offline_inputs_at
  | |- offline_at (lift _) _ =>
      apply offline_lift; intros ?;
      first [apply weights_crash | apply tensor_crash
            | apply TFAttrs_at_crash | apply TFAttrs_get_DataType_crash]
  | |- offline_at (in_network (GetTrtDims _)) _ => apply offline_GetTrtDims
  | |- offline_at (in_network (tensor_getDimensions _)) _ =>
      apply offline_getDimensions
  | |- offline_at (TfTensorToTrtWeights _ _ _ _ _) _ =>
      apply offline_TfTensorToTrtWeights
  | |- offline_at (in_weight_store _) _ =>
      apply offline_in_weight_store; intros ? ?; apply GetTempWeights_crash
  | |- offline_at (TF_RETURN_IF_ERROR _ _) _ => unfold TF_RETURN_IF_ERROR
  | |- offline_at (TF_RETURN_IF_ERROR_out _ _) _ =>
      unfold TF_RETURN_IF_ERROR_out
  | |- offline_at (_ ≫= _) _ => apply offline_bind; [|intros ? ? _]
  | |- offline_at (if ?b then _ else _) _ => destruct b
  | |- offline_at (match ?x with _ => _ end) _ => destruct x
  end.

(** In validation-only mode [ConvertConst], [ConvertTranspose] and
    [ConvertReshape] stay off the converter and the accelerator, whatever
    the node and its inputs are: a run that returns leaves the network as
    it was, and a run that aborts does not do so on the null converter or
    the null output list. *)
Theorem validators_stay_offline (w : World) :
  validation_only (params w) = true ->
  offline_at ConvertConst w
  /\ offline_at ConvertTranspose w
  /\ offline_at ConvertReshape w.
Proof.
  intros Hv. split; [|split].
  - unfold ConvertConst. apply offline_the_params. cbv beta zeta.
    rewrite Hv. cbn [negb]. repeat offline_step.
  - unfold ConvertTranspose. apply offline_the_params. cbv beta zeta.
    rewrite Hv. repeat offline_step.
  - unfold ConvertReshape. apply offline_the_params. cbv beta zeta.
    rewrite Hv. repeat offline_step.
Qed.

End OfflineProperties.

(** * Further properties of the translated code *)

(** ** Shape utilities *)

Lemma idx_nat (a : list Z) (j : nat) : idx a (Z.of_nat j) = nth j a 0.
Proof. unfold idx. rewrite decide_True by lia. by rewrite Nat2Z.id. Qed.

Lemma extents_lookup (dims : Dims) (j : nat) :
  (Z.to_nat (nbDims dims) <= length (d dims))%nat ->
  (j < Z.to_nat (nbDims dims))%nat ->
  extents dims !! j = Some (idx (d dims) (Z.of_nat j)).
Proof.
  intros Hlen Hj. unfold extents. rewrite lookup_take_lt by done.
  rewrite idx_nat.
  destruct (nth_lookup_or_length (d dims) j 0) as [Hnth|Hge]; [done | lia].
Qed.

Lemma length_extents (dims : Dims) :
  (Z.to_nat (nbDims dims) <= length (d dims))%nat ->
  length (extents dims) = Z.to_nat (nbDims dims).
Proof. intros Hlen. unfold extents. rewrite length_take. lia. Qed.

Lemma DimsEqual_from_true (dl dr : list Z) (n : nat) :
  forall i : nat,
  DimsEqual_from dl dr (Z.of_nat i) n = true
  <-> forall j, (i <= j < i + n)%nat -> nth j dl 0 = nth j dr 0.
Proof.
  induction n as [|n IH]; intros i; simpl.
  - split; [intros _ j Hj; lia | done].
  - rewrite !idx_nat. case_bool_decide as Hne.
    + split; [done|]. intros Hall. exfalso. apply Hne, Hall. lia.
    + replace (Z.of_nat i + 1) with (Z.of_nat (S i)) by lia. rewrite IH.
      split.
      * intros Hall j Hj. destruct (decide (j = i)) as [->|]; [done|].
        apply Hall. lia.
      * intros Hall j Hj. apply Hall. lia.
Qed.

Lemma DimsEqual_same_extents (dim_l dim_r : Dims) :
  Dims_wf dim_l -> Dims_wf dim_r ->
  DimsEqual dim_l dim_r = true
  <-> nbDims dim_l = nbDims dim_r /\ extents dim_l = extents dim_r.
Proof.
  intros [Hl Hlenl] [Hr Hlenr]. unfold DimsEqual.
  case_bool_decide as Hrank.
  - split; [done | intros [? _]; done].
  - rewrite (DimsEqual_from_true _ _ _ 0%nat).
    split.
    + intros Hall. split; [done|].
      apply list_eq. intros j.
      destruct (decide (j < Z.to_nat (nbDims dim_l))%nat) as [Hj|Hj].
      * rewrite !extents_lookup, !idx_nat by lia. f_equal. apply Hall. lia.
      * rewrite !lookup_ge_None_2; [done|rewrite length_extents; lia..].
    + intros [_ Heq] j Hj.
      assert (Hsome : extents dim_l !! j = extents dim_r !! j) by by rewrite Heq.
      rewrite !extents_lookup, !idx_nat in Hsome by lia. by inversion Hsome.
Qed.

(** [DimsEqual] decides whether two shapes have the same rank and the
    same extents within that rank; what the arrays hold past the rank
    plays no role. *)
Theorem DimsEqual_spec (dim_l dim_r : Dims) :
  Dims_wf dim_l -> Dims_wf dim_r ->
  DimsEqual dim_l dim_r = true
  <-> nbDims dim_l = nbDims dim_r /\ extents dim_l = extents dim_r.
Proof.
  intros Hl Hr. split.
  - intros Heq. by apply DimsEqual_same_extents.
  - intros [Hrank Hextents]. by apply DimsEqual_same_extents.
Qed.

Lemma HasStaticShape_from_true (a : list Z) (n : nat) :
  forall i : nat,
  HasStaticShape_from a (Z.of_nat i) n = true
  <-> forall j, (i <= j < i + n)%nat -> 0 <= nth j a 0.
Proof.
  induction n as [|n IH]; intros i; simpl.
  - split; [intros _ j Hj; lia | done].
  - rewrite idx_nat. case_bool_decide as Hneg.
    + split; [done|]. intros Hall. specialize (Hall i). lia.
    + replace (Z.of_nat i + 1) with (Z.of_nat (S i)) by lia. rewrite IH.
      split.
      * intros Hall j Hj. destruct (decide (j = i)) as [->|]; [lia|].
        apply Hall. lia.
      * intros Hall j Hj. apply Hall. lia.
Qed.

(** [HasStaticShape] holds exactly of the shapes that have a rank and no
    negative extent within it. *)
Theorem HasStaticShape_spec (dims : Dims) :
  (Z.to_nat (nbDims dims) <= length (d dims))%nat ->
  HasStaticShape dims = true
  <-> 0 <= nbDims dims /\ Forall (fun x => 0 <= x) (extents dims).
Proof.
  intros Hlen. unfold HasStaticShape. case_bool_decide as Hrank.
  - split; [done | intros [? _]; lia].
  - rewrite (HasStaticShape_from_true _ _ 0%nat), Forall_lookup.
    split.
    + intros Hall. split; [lia|]. intros j x Hx.
      assert (Hj : (j < Z.to_nat (nbDims dims))%nat).
      { apply lookup_lt_Some in Hx. by rewrite length_extents in Hx. }
      rewrite extents_lookup, idx_nat in Hx by done.
      inversion Hx; subst. apply Hall. lia.
    + intros [_ Hall] j Hj.
      apply (Hall j). rewrite extents_lookup, idx_nat by lia. done.
Qed.

Lemma TrtDimsNumElements_from_foldl (a : list Z) (n : nat) :
  forall (i : nat) (count : Z),
  (i + n <= length a)%nat ->
  TrtDimsNumElements_from a (Z.of_nat i) n count
  = foldl (fun acc x => to_int64 (acc * x)) count (take n (drop i a)).
Proof.
  induction n as [|n IH]; intros i count Hlen; [done|].
  cbn [TrtDimsNumElements_from]. rewrite idx_nat.
  replace (Z.of_nat i + 1) with (Z.of_nat (S i)) by lia.
  rewrite IH by lia.
  destruct (drop i a) as [|x rest] eqn:Hdrop.
  { apply (f_equal length) in Hdrop. rewrite length_drop in Hdrop.
    simpl in Hdrop. lia. }
  assert (Hx : nth i a 0 = x).
  { apply nth_lookup_Some. rewrite <- (Nat.add_0_r i), <- lookup_drop.
    by rewrite Hdrop. }
  assert (Hrest : drop (S i) a = rest).
  { replace (S i) with (i + 1)%nat by lia.
    by rewrite <- drop_drop, Hdrop. }
  by rewrite Hx, Hrest.
Qed.

Lemma running_product_zero (l : list Z) :
  foldl (fun acc x => to_int64 (acc * x)) 0 l = 0.
Proof.
  induction l as [|x l IH]; simpl; [done|].
  rewrite Z.mul_0_l. by rewrite to_int64_small by lia.
Qed.

Lemma running_product_hits_zero (l : list Z) (count : Z) :
  0 ∈ l -> foldl (fun acc x => to_int64 (acc * x)) count l = 0.
Proof.
  revert count. induction l as [|x l IH]; intros count Hin; simpl.
  - by apply elem_of_nil in Hin.
  - apply elem_of_cons in Hin as [<- | Hin]; [|by apply IH].
    rewrite Z.mul_0_r, to_int64_small by lia. apply running_product_zero.
Qed.

Lemma running_product_exact (l : list Z) (count : Z) :
  1 <= count -> Forall (fun x => 1 <= x) l ->
  count * foldr Z.mul 1 l < 2 ^ 63 ->
  foldl (fun acc x => to_int64 (acc * x)) count l = count * foldr Z.mul 1 l.
Proof.
  revert count. induction l as [|x l IH]; intros count Hc Hl Hfit; simpl.
  - lia.
  - apply Forall_cons in Hl as [Hx Hl]. simpl in Hfit.
    assert (Hrest : 1 <= foldr Z.mul 1 l).
    { clear -Hl. induction Hl; simpl; nia. }
    assert (Hstep : count * x <= count * (x * foldr Z.mul 1 l)) by nia.
    rewrite to_int64_small by nia.
    rewrite IH; [lia | nia | done | by rewrite <- Z.mul_assoc].
Qed.

(** [TrtDimsNumElements] is 0 for a shape of rank 0 and for a shape with
    an extent 0, and otherwise, as long as the product fits 64 bits, the
    product of the extents (so, then, not 0). *)
Theorem TrtDimsNumElements_spec (dims : Dims) :
  Dims_wf dims ->
  (nbDims dims = 0 -> TrtDimsNumElements dims = 0)
  /\ (0 ∈ extents dims -> TrtDimsNumElements dims = 0)
  /\ (0 < nbDims dims -> Forall (fun x => 1 <= x) (extents dims) ->
      foldr Z.mul 1 (extents dims) < 2 ^ 63 ->
      TrtDimsNumElements dims = foldr Z.mul 1 (extents dims)
      /\ TrtDimsNumElements dims <> 0).
Proof.
  intros [Hrank Hlen]. unfold TrtDimsNumElements.
  split; [by intros ->|].
  case_bool_decide as Hzero.
  { split; [done|]. intros ?. lia. }
  rewrite (TrtDimsNumElements_from_foldl _ _ 0%nat) by (simpl; lia).
  rewrite drop_0. fold (extents dims).
  split; [apply running_product_hits_zero|].
  intros _ Hpos Hfit.
  rewrite running_product_exact by (done || lia).
  assert (Hge : 1 <= foldr Z.mul 1 (extents dims)).
  { clear -Hpos. induction Hpos; simpl; nia. }
  lia.
Qed.

(** ** The common name scope *)

Lemma append_cons (c : ascii) (s r : string) :
  String c s +:+ r = String c (s +:+ r).
Proof. reflexivity. Qed.

Lemma length_append (s r : string) :
  String.length (s +:+ r) = (String.length s + String.length r)%nat.
Proof.
  induction s as [|c s IH]; [done|].
  rewrite append_cons. simpl. by rewrite IH.
Qed.

Lemma substring_append (s r : string) :
  substring 0 (String.length s) (s +:+ r) = s.
Proof.
  induction s as [|c s IH].
  - by destruct r.
  - rewrite append_cons. simpl. by rewrite IH.
Qed.

Lemma shorter_prefix (s1 s2 r1 r2 : string) :
  s1 +:+ r1 = s2 +:+ r2 -> (String.length s1 <= String.length s2)%nat ->
  exists r, s2 = s1 +:+ r.
Proof.
  revert s2. induction s1 as [|c s1 IH]; intros s2 Heq Hlen.
  - by exists s2.
  - destruct s2 as [|c2 s2]; [simpl in Hlen; lia|].
    rewrite !append_cons in Heq. inversion Heq; subst.
    destruct (IH s2) as [r ->]; [done | simpl in Hlen; lia|].
    by exists r.
Qed.

(** The loop of [GetCommonNameScope], from position [i] on: either the
    strings share no prefix that ends in a separator, and the result is
    the value on entry, or the result is the position behind the longest
    such prefix. *)
Lemma common_scope_length_spec (a : string) :
  forall (b : string) (i last : nat),
  (common_scope_length a b i last = last
   /\ forall p ra rb, a = (p +:+ "/") +:+ ra -> b = (p +:+ "/") +:+ rb -> False)
  \/ (exists p ra rb,
        a = (p +:+ "/") +:+ ra /\ b = (p +:+ "/") +:+ rb
        /\ common_scope_length a b i last = (i + String.length p + 1)%nat
        /\ forall p' ra' rb',
             a = (p' +:+ "/") +:+ ra' -> b = (p' +:+ "/") +:+ rb' ->
             (String.length p' <= String.length p)%nat).
Proof.
  induction a as [|ca a IH]; intros b i last.
  { left. split; [done|]. intros [|c p] ra rb Ha _; discriminate. }
  destruct b as [|cb b].
  { left. split; [done|]. intros [|c p] ra rb _ Hb; discriminate. }
  simpl. case_bool_decide as Hne.
  { left. split; [done|].
    intros [|c p] ra rb Ha Hb; rewrite ?append_cons in Ha, Hb;
      inversion Ha; inversion Hb; subst; by apply Hne. }
  subst cb.
  destruct (IH b (S i) (if bool_decide (ca = "/"%char) then S i else last))
    as [[Hlast Hnone] | (p & ra & rb & -> & -> & Hlen & Hmax)].
  - rewrite Hlast. case_bool_decide as Hslash.
    + right. subst ca. exists "", a, b.
      split; [done|]. split; [done|]. split; [simpl; lia|].
      intros [|c p'] ra' rb' Ha Hb; [simpl; lia|].
      rewrite !append_cons in Ha, Hb. inversion Ha; inversion Hb; subst.
      by destruct (Hnone p' ra' rb').
    + left. split; [done|].
      intros [|c p'] ra' rb' Ha Hb; rewrite ?append_cons in Ha, Hb;
        inversion Ha; inversion Hb; subst; [done|].
      by destruct (Hnone p' ra' rb').
  - right. exists (String ca p), ra, rb.
    split; [done|]. split; [done|]. split; [rewrite Hlen; simpl; lia|].
    intros [|c p'] ra' rb' Ha Hb; [simpl; lia|].
    rewrite !append_cons in Ha, Hb. inversion Ha; inversion Hb; subst.
    simpl. apply le_n_S. by eapply Hmax.
Qed.

Lemma GetCommonNameScope_cases (op_name_a op_name_b : string) :
  (GetCommonNameScope op_name_a op_name_b = ""
   /\ forall p ra rb, op_name_a = (p +:+ "/") +:+ ra ->
                      op_name_b = (p +:+ "/") +:+ rb -> False)
  \/ (exists p ra rb,
        op_name_a = (p +:+ "/") +:+ ra /\ op_name_b = (p +:+ "/") +:+ rb
        /\ GetCommonNameScope op_name_a op_name_b = p +:+ "/"
        /\ forall p' ra' rb',
             op_name_a = (p' +:+ "/") +:+ ra' ->
             op_name_b = (p' +:+ "/") +:+ rb' ->
             (String.length p' <= String.length p)%nat).
Proof.
  unfold GetCommonNameScope.
  destruct (common_scope_length_spec op_name_a op_name_b 0 0)
    as [[-> Hnone] | (p & ra & rb & Ha & Hb & -> & Hmax)].
  - left. split; [by destruct op_name_a | done].
  - right. exists p, ra, rb. split; [done|]. split; [done|]. split; [|done].
    rewrite Ha.
    replace (0 + String.length p + 1)%nat with (String.length (p +:+ "/"))
      by (rewrite length_append; simpl; lia).
    apply substring_append.
Qed.

Lemma GetCommonNameScope_prefix (op_name_a op_name_b : string) :
  (exists rest, op_name_a = GetCommonNameScope op_name_a op_name_b +:+ rest)
  /\ (exists rest, op_name_b = GetCommonNameScope op_name_a op_name_b +:+ rest).
Proof.
  destruct (GetCommonNameScope_cases op_name_a op_name_b)
    as [[-> _] | (p & ra & rb & Ha & Hb & -> & _)].
  - split; [by exists op_name_a | by exists op_name_b].
  - split; [by exists ra | by exists rb].
Qed.

(** [GetCommonNameScope] yields the longest common prefix of the two
    names that is empty or ends in the scope separator: it is a prefix
    of both, it is empty or ends in [/], and every common prefix that
    ends in [/] is a prefix of it. *)
Theorem GetCommonNameScope_spec (op_name_a op_name_b : string) :
  let scope := GetCommonNameScope op_name_a op_name_b in
  (exists rest, op_name_a = scope +:+ rest)
  /\ (exists rest, op_name_b = scope +:+ rest)
  /\ (scope = "" \/ exists p, scope = p +:+ "/")
  /\ (forall p ra rb,
        op_name_a = (p +:+ "/") +:+ ra -> op_name_b = (p +:+ "/") +:+ rb ->
        exists rest, scope = (p +:+ "/") +:+ rest).
Proof.
  intros scope. unfold scope.
  destruct (GetCommonNameScope_prefix op_name_a op_name_b) as [Hpa Hpb].
  split; [done|]. split; [done|].
  destruct (GetCommonNameScope_cases op_name_a op_name_b)
    as [[-> Hnone] | (p & ra & rb & Ha & Hb & -> & Hmax)].
  - split; [by left|]. intros p ra rb Ha Hb. by destruct (Hnone p ra rb).
  - split; [right; by exists p|].
    intros p' ra' rb' Ha' Hb'.
    apply (shorter_prefix (p' +:+ "/") (p +:+ "/") ra' ra).
    + by rewrite <- Ha, <- Ha'.
    + rewrite !length_append. simpl. specialize (Hmax p' ra' rb' Ha' Hb'). lia.
Qed.

(** ** The symbol table and the batch size *)

(** A value added under a fresh name is what a later lookup of that name
    yields, a tensor carrying the converter's batch size whatever batch
    size it came with; lookups of other names and the batch size of the
    converter are not affected. *)
Theorem AddTensorOrWeights_then_Get (this : Converter) (tensor_name : string)
    (value previous : TRT_TensorOrWeights.t) :
  trt_tensors_ this !! tensor_name = None ->
  exists this' bound,
    AddTensorOrWeights tensor_name value this = Done (Status_OK, this')
    /\ GetTensorOrWeights tensor_name previous this'
       = Done ((Status_OK, bound), this')
    /\ (TRT_TensorOrWeights.is_tensor value = true ->
        bound = TRT_TensorOrWeights.set_batch_size value (batch_size_ this))
    /\ (TRT_TensorOrWeights.is_weights value = true -> bound = value)
    /\ batch_size_ this' = batch_size_ this
    /\ (forall other result, other <> tensor_name ->
          GetTensorOrWeights other previous this = Done (result, this) ->
          GetTensorOrWeights other previous this' = Done (result, this')).
Proof.
  intros Hfresh. unfold AddTensorOrWeights. rewrite Hfresh.
  eexists _, _. split; [done|].
  unfold GetTensorOrWeights. cbn [trt_tensors_ batch_size_].
  rewrite lookup_insert_eq. split; [done|].
  unfold TRT_TensorOrWeights.is_weights, TRT_TensorOrWeights.is_tensor.
  split; [by intros ->|]. split; [by intros ->%negb_true_iff|].
  split; [done|]. intros other result Hother.
  rewrite lookup_insert_ne by done.
  destruct (trt_tensors_ this !! other); by intros [= <-].
Qed.

Section InputTensorProperties.
Context `{TensorRT}.

(** [AddInputTensor] always returns.  It never drops or changes a
    binding of the symbol table and never changes a batch size that is
    known.  It succeeds exactly when the batch sizes are compatible, the
    library creates the input and the name is fresh, and then binds the
    name to the new tensor with the converter's batch size.  A batch size
    that does not match is rejected before anything is touched, but a
    name that is already bound is reported only after the input has been
    declared in the network. *)
Theorem AddInputTensor_spec (this : Converter)
    (net : nvinfer1.INetworkDefinition) (tensor_name : string)
    (dtype : nvinfer1.DataType) (dims : Dims) (batch_size : Z) :
  let compatible :=
    batch_size_ this < 0 \/ batch_size < 0 \/ batch_size_ this = batch_size in
  let tensor := length (nvinfer1.tensor_names net) in
  exists status this' net',
    AddInputTensor tensor_name dtype dims batch_size (this, net)
    = Done (status, (this', net'))
    /\ trt_tensors_ this ⊆ trt_tensors_ this'
    /\ (0 <= batch_size_ this -> batch_size_ this' = batch_size_ this)
    /\ (code status = error.OK <->
        compatible
        /\ addInput_returns_null net tensor_name dtype dims = false
        /\ trt_tensors_ this !! tensor_name = None)
    /\ (code status = error.OK ->
        trt_tensors_ this'
        = <[tensor_name :=
              TRT_TensorOrWeights.of_tensor (Some tensor) (batch_size_ this')]>
            (trt_tensors_ this)
        /\ nvinfer1.network_inputs net'
           = nvinfer1.network_inputs net ++ [(tensor, dtype, dims)]
        /\ nvinfer1.tensor_names net'
           = nvinfer1.tensor_names net ++ [tensor_name]
        /\ (batch_size_ this < 0 -> 0 <= batch_size ->
            batch_size_ this' = batch_size))
    /\ (~ compatible ->
        code status = error.InvalidArgument /\ this' = this /\ net' = net)
    /\ (code status = error.AlreadyExists ->
        trt_tensors_ this' = trt_tensors_ this
        /\ nvinfer1.network_inputs net'
           = nvinfer1.network_inputs net ++ [(tensor, dtype, dims)]).
Proof.
  intros compatible tensor. unfold AddInputTensor.
  destruct (decide compatible) as [Hacc | Hrej].
  - rewrite (ST_bind_Done (S:=Converter * nvinfer1.INetworkDefinition)
               _ _ (this, net)
               ((if bool_decide (batch_size_ this < 0)
                    && bool_decide (batch_size >= 0)
                 then mkConverter (is_fp16_ this) batch_size
                        (trt_tensors_ this) (weight_store_ this)
                 else this), net) Status_OK)
      by (unfold on_converter; by rewrite MaybeUpdateBatchSize_accepts).
    set (this1 := if _ && _ then _ else this).
    assert (Htable : trt_tensors_ this1 = trt_tensors_ this)
      by (unfold this1; by destruct (_ && _)).
    assert (Hknown : 0 <= batch_size_ this -> batch_size_ this1 = batch_size_ this).
    { intros Hk. unfold this1.
      by rewrite (bool_decide_eq_false_2 (batch_size_ this < 0)) by lia. }
    assert (Hadopt : batch_size_ this < 0 -> 0 <= batch_size ->
                     batch_size_ this1 = batch_size).
    { intros H1 H2. unfold this1. by rewrite !bool_decide_eq_true_2 by lia. }
    change (negb (ok Status_OK)) with false. cbv iota.
    unfold on_network at 1, addInput, mbind at 1, ST_bind at 1.
    destruct (addInput_returns_null net tensor_name dtype dims) eqn:Hnull.
    { eexists _, _, _. split; [reflexivity|]. rewrite Htable.
      split; [done|]. split; [done|].
      split; [split; [done | by intros (_ & ? & _)]|].
      split; [done|]. split; [done|]. done. }
    unfold on_converter, AddTensorOrWeights, mbind, ST_bind.
    rewrite Htable. cbn [TRT_TensorOrWeights.is_tensor
      TRT_TensorOrWeights.of_tensor TRT_TensorOrWeights.is_tensor_].
    destruct (trt_tensors_ this !! tensor_name) as [bound|] eqn:Hbound.
    + eexists _, _, _. split; [reflexivity|]. rewrite Htable.
      split; [done|]. split; [done|].
      split; [split; [done | by intros (_ & _ & ?)]|].
      split; [done|]. split; [done|]. done.
    + eexists _, _, _. split; [reflexivity|].
      cbn [trt_tensors_ batch_size_ code Status_OK nvinfer1.network_inputs
           nvinfer1.tensor_names].
      split; [by apply insert_subseteq|]. split; [done|].
      split; [done|]. split; [done|]. split; [done|]. done.
  - assert (Hb : 0 <= batch_size_ this /\ 0 <= batch_size
                 /\ batch_size_ this <> batch_size).
    { unfold compatible in Hrej. lia. }
    destruct Hb as (H1 & H2 & H3).
    destruct (MaybeUpdateBatchSize_rejects this batch_size H1 H2 H3)
      as [msg Hmsg].
    rewrite (ST_bind_Done (S:=Converter * nvinfer1.INetworkDefinition)
               _ _ (this, net) (this, net) (errors.InvalidArgument msg))
      by (unfold on_converter; by rewrite Hmsg).
    eexists _, _, _. split; [reflexivity|].
    split; [done|]. split; [done|].
    split; [split; [done | by intros (? & _)]|].
    split; [done|]. split; [done|]. done.
Qed.

End InputTensorProperties.

(** ** Resolution of the inputs of a node *)

Lemma find_last_of_suffix (s : string) :
  find_last_of ":"%char (s +:+ ":0") = Some (String.length s).
Proof.
  induction s as [|c s IH]; [done|].
  rewrite append_cons. simpl. by rewrite IH.
Qed.

Lemma find_last_of_port (s : string) (c : ascii) :
  find_last_of ":"%char (s +:+ String ":" (String c ""))
  = Some (if bool_decide (c = ":"%char) then S (String.length s)
          else String.length s).
Proof.
  induction s as [|a s IH].
  - simpl. by case_bool_decide.
  - rewrite append_cons. simpl. rewrite IH. by case_bool_decide.
Qed.

Lemma get_append_r (s r : string) (k : nat) :
  String.get (String.length s + k) (s +:+ r) = String.get k r.
Proof. induction s as [|c s IH]; [done|]. by rewrite append_cons. Qed.

(** The name [GetInputs] looks an input up under: the suffix [:0] is
    dropped from any name, a name without a colon is kept, and so is a
    name that ends in another single-character port. *)
Theorem normalized_input_name_spec (s : string) :
  normalized_input_name (s +:+ ":0") = s
  /\ (find_last_of ":"%char s = None -> normalized_input_name s = s)
  /\ (forall c, c <> "0"%char ->
        normalized_input_name (s +:+ String ":" (String c ""))
        = s +:+ String ":" (String c "")).
Proof.
  split; [|split].
  - unfold normalized_input_name. rewrite find_last_of_suffix.
    rewrite length_append. simpl String.length.
    rewrite bool_decide_eq_true_2 by lia.
    rewrite get_append_r. simpl String.get.
    rewrite bool_decide_eq_true_2 by done. simpl. apply substring_append.
  - intros Hnone. unfold normalized_input_name. by rewrite Hnone.
  - intros c Hc. unfold normalized_input_name. rewrite find_last_of_port.
    rewrite length_append. simpl String.length.
    destruct (decide (c = ":"%char)) as [->|Hcolon].
    + rewrite (bool_decide_eq_true_2 (":"%char = ":"%char)) by done.
      by rewrite (bool_decide_eq_false_2 (_ = _ :> nat)) by lia.
    + rewrite (bool_decide_eq_false_2 (c = ":"%char)) by done.
      rewrite (bool_decide_eq_true_2 (_ = _ :> nat)) by lia.
      rewrite get_append_r. simpl String.get.
      rewrite bool_decide_eq_false_2; [done|]. by intros [= ->].
Qed.

Lemma GetInputs_loop_found (this : Converter) (node_name : string) :
  forall names inputs values,
  Forall2 (fun n v => trt_tensors_ this !! normalized_input_name n = Some v)
          (filter (fun n => String.get 0 n <> Some "^"%char) names) values ->
  GetInputs_loop this node_name names inputs = (Status_OK, inputs ++ values).
Proof.
  induction names as [|n names IH]; intros inputs values Hall; simpl.
  - inversion Hall; subst. by rewrite app_nil_r.
  - case_bool_decide as Hctl.
    + rewrite filter_cons_False in Hall by (intros Hne; by apply Hne).
      by apply IH.
    + rewrite filter_cons_True in Hall by done.
      inversion Hall as [|? v ? values' Hv Hrest]; subst.
      rewrite Hv, (IH _ values') by done. by rewrite <- app_assoc.
Qed.

Lemma GetInputs_loop_missing (this : Converter) (node_name : string) :
  forall names inputs found missing rest,
  filter (fun n => String.get 0 n <> Some "^"%char) names
  = found ++ missing :: rest ->
  trt_tensors_ this !! normalized_input_name missing = None ->
  forall values,
  Forall2 (fun n v => trt_tensors_ this !! normalized_input_name n = Some v)
          found values ->
  GetInputs_loop this node_name names inputs
  = (errors.InvalidArgument
       (StrCat ["Node "; node_name; " should have an input named '";
                normalized_input_name missing; "' but it is not available"]),
     inputs ++ values).
Proof.
  induction names as [|n names IH];
    intros inputs found missing rest Hdata Hmissing values Hfound; simpl.
  - by destruct found.
  - case_bool_decide as Hctl.
    + rewrite filter_cons_False in Hdata by (intros Hne; by apply Hne).
      by eapply IH.
    + rewrite filter_cons_True in Hdata by done.
      destruct found as [|n' found].
      * simpl in Hdata. injection Hdata as -> Hdata. inversion Hfound; subst.
        by rewrite Hmissing, app_nil_r.
      * simpl in Hdata. injection Hdata as -> Hdata.
        inversion Hfound as [|? v ? values' Hv Hrest]; subst.
        rewrite Hv, (IH _ found missing rest Hdata Hmissing values' Hrest).
        by rewrite <- app_assoc.
Qed.

(** [GetInputs] looks at the inputs that are not control inputs, in
    their order, each under its normalized name.  When all of them are
    bound it yields their values; at the first one that is not bound it
    stops with InvalidArgument, having appended the values of those
    before it.  The converter is left as it was. *)
Theorem GetInputs_spec (this : Converter) (node_def : NodeDef)
    (inputs : list TRT_TensorOrWeights.t) :
  let data :=
    filter (fun n => String.get 0 n <> Some "^"%char) (input node_def) in
  let bound n v := trt_tensors_ this !! normalized_input_name n = Some v in
  (forall values, Forall2 bound data values ->
     GetInputs node_def inputs this
     = Done ((Status_OK, inputs ++ values), this))
  /\ (forall found missing rest values,
        data = found ++ missing :: rest -> Forall2 bound found values ->
        trt_tensors_ this !! normalized_input_name missing = None ->
        exists msg,
          GetInputs node_def inputs this
          = Done ((errors.InvalidArgument msg, inputs ++ values), this)).
Proof.
  intros data bound. unfold GetInputs. split.
  - intros values Hall. by rewrite (GetInputs_loop_found _ _ _ _ values).
  - intros found missing rest values Hdata Hfound Hmissing.
    rewrite (GetInputs_loop_missing _ _ _ _ found missing rest Hdata Hmissing
               values Hfound).
    by eexists.
Qed.

(** ** Validation of the inputs of an engine *)

Section InputValidationProperties.
Context `{HostText}.

Lemma first_unknown_dim_None (extents : list Z) (n : nat) :
  forall i : nat,
  (i + n <= length extents)%nat ->
  first_unknown_dim (Some extents) (Z.of_nat i) n = None
  <-> Forall (fun x => 0 <= x) (take n (drop i extents)).
Proof.
  induction n as [|n IH]; intros i Hlen.
  - simpl. split; [constructor | done].
  - cbn [first_unknown_dim].
    destruct (drop i extents) as [|x rest] eqn:Hdrop.
    { apply (f_equal length) in Hdrop. rewrite length_drop in Hdrop.
      simpl in Hdrop. lia. }
    assert (Hx : PartialTensorShape_dim_size (Some extents) (Z.of_nat i) = x).
    { unfold PartialTensorShape_dim_size. simpl. rewrite idx_nat.
      apply nth_lookup_Some. rewrite <- (Nat.add_0_r i), <- lookup_drop.
      by rewrite Hdrop. }
    assert (Hrest : drop (S i) extents = rest).
    { replace (S i) with (i + 1)%nat by lia.
      by rewrite <- drop_drop, Hdrop. }
    rewrite Hx. replace (Z.of_nat i + 1) with (Z.of_nat (S i)) by lia.
    simpl take. rewrite Forall_cons, <- Hrest, <- IH by lia.
    case_bool_decide; [split; [done | lia] | split; [split; [lia | done] | tauto]].
Qed.

(** [ValidateInputProperties] accepts exactly the inputs of a supported
    element type (fp32, fp16, int8, int32) whose shape has a known rank
    of at most 9, the batch dimension included, and no unknown extent
    past the batch dimension; the batch extent itself may be unknown.  A
    rank above 9 is the one case reported as OutOfRange; every other
    rejection is InvalidArgument. *)
Theorem ValidateInputProperties_spec (shape : PartialTensorShape)
    (dtype : DataType) (trt_dtype : nvinfer1.DataType) :
  let status := (ValidateInputProperties shape dtype trt_dtype).1 in
  let supported := dtype ∈ [DT_FLOAT; DT_INT8; DT_HALF; DT_INT32] in
  (code status = error.OK <->
   supported
   /\ exists extents,
        shape = Some extents /\ (length extents <= 9)%nat
        /\ Forall (fun x => 0 <= x) (drop 1 extents))
  /\ (code status = error.OutOfRange <->
      supported /\ 9 < PartialTensorShape_dims shape)
  /\ (code status = error.OK \/ code status = error.OutOfRange
      \/ code status = error.InvalidArgument)
  /\ (code status = error.OK ->
      ConvertDType dtype trt_dtype
      = (Status_OK, (ValidateInputProperties shape dtype trt_dtype).2)).
Proof.
  intros status supported. unfold status, supported, ValidateInputProperties.
  assert (Hdtype : ok (ConvertDType dtype trt_dtype).1 = true
                   <-> dtype ∈ [DT_FLOAT; DT_INT8; DT_HALF; DT_INT32]).
  { destruct dtype; simpl; split; try done; intros Hin;
      try (by repeat constructor);
      repeat (apply elem_of_cons in Hin as [Hin | Hin]; [done|]);
      by apply elem_of_nil in Hin. }
  destruct (ConvertDType dtype trt_dtype) as [converted new_dtype] eqn:Hconv.
  cbn [fst] in Hdtype.
  destruct (ok converted) eqn:Hok; cbn [negb fst snd].
  2: { assert (Hnot : ~ dtype ∈ [DT_FLOAT; DT_INT8; DT_HALF; DT_INT32])
         by (rewrite <- Hdtype; done).
       assert (Hcode : code converted = error.InvalidArgument).
       { destruct dtype; simpl in Hconv; inversion Hconv; subst; done. }
       rewrite Hcode.
       split; [split; [done | by intros [? _]]|].
       split; [split; [done | by intros [? _]]|].
       split; [auto | done]. }
  assert (Hsup : dtype ∈ [DT_FLOAT; DT_INT8; DT_HALF; DT_INT32])
    by by apply Hdtype.
  assert (Hconverted : converted = Status_OK).
  { destruct dtype; simpl in Hconv; inversion Hconv; subst; done. }
  destruct shape as [extents|]; cbn [PartialTensorShape_dims].
  2: { rewrite bool_decide_eq_true_2 by lia. cbn [fst snd code errors.InvalidArgument].
       split; [split; [done | by intros (_ & ? & ? & _)]|].
       split; [split; [done | intros [_ ?]; lia]|].
       split; [auto | done]. }
  rewrite bool_decide_eq_false_2 by lia.
  case_bool_decide as Hrank; cbn [fst snd code errors.OutOfRange].
  { split; [split; [done | intros (_ & ? & [= <-] & ? & _); lia]|].
    split; [split; [by split; [|lia] | done]|].
    split; [auto | done]. }
  destruct (first_unknown_dim (Some extents) 1 _) as [dim|] eqn:Hscan;
    cbn [fst snd code errors.InvalidArgument Status_OK].
  - assert (Hsome : ~ Forall (fun x => 0 <= x) (drop 1 extents)).
    { intros Hall.
      destruct extents as [|batch extents]; [done|].
      assert (Hnone : first_unknown_dim (Some (batch :: extents)) (Z.of_nat 1)
                        (Z.to_nat (Z.of_nat (length (batch :: extents))) - 1)
                      = None).
      { apply first_unknown_dim_None; [simpl; lia|]. by apply Forall_take. }
      change (Z.of_nat 1) with 1 in Hnone. congruence. }
    split; [split; [done | by intros (_ & ? & [= <-] & _ & ?)]|].
    split; [split; [done | intros [_ ?]; lia]|].
    split; [auto | done].
  - split.
    { split; [|done]. intros _. split; [done|].
      exists extents. split; [done|]. split; [lia|].
      destruct extents as [|batch extents]; [constructor|].
      change 1 with (Z.of_nat 1) in Hscan.
      apply first_unknown_dim_None in Hscan; [|simpl; lia].
      rewrite take_ge in Hscan; [done|]. rewrite length_drop. lia. }
    split; [split; [done | intros [_ ?]; lia]|].
    split; [auto|]. intros _. by rewrite Hconverted.
Qed.

(** The edge validators accept every control edge.  A data edge into a
    segment is accepted exactly when the properties of its source output
    pass [ValidateInputProperties] and the source is a constant or the
    shape has rank 2 at least; when the graph properties hold nothing for
    the source, the shape stays of unknown rank and the edge is never
    accepted.  A data edge out of a segment is accepted exactly when its
    source is not a constant. *)
Theorem edge_validators_spec (graph_properties_ : GraphProperties)
    (edge : Edge) :
  (IsControlEdge edge = true ->
   InputEdgeValidator graph_properties_ edge = Done true
   /\ OutputEdgeValidator edge = true)
  /\ (IsControlEdge edge = false ->
      (InputEdgeValidator graph_properties_ edge = Done true <->
       exists shape dtype,
         GetOutputProperties graph_properties_ (src edge) (src_output edge)
           None DT_INVALID = Done (shape, dtype)
         /\ code (ValidateInputProperties shape dtype nvinfer1.kFLOAT).1
            = error.OK
         /\ (op (def (src edge)) = "Const"
             \/ 2 <= PartialTensorShape_dims shape))
      /\ (output_properties graph_properties_ !! name (def (src edge)) = None ->
          InputEdgeValidator graph_properties_ edge <> Done true)
      /\ (OutputEdgeValidator edge = true <-> op (def (src edge)) <> "Const")).
Proof.
  split.
  - intros Hcontrol. unfold InputEdgeValidator, OutputEdgeValidator.
    by rewrite Hcontrol.
  - intros Hdata.
    assert (Hmain : InputEdgeValidator graph_properties_ edge = Done true <->
       exists shape dtype,
         GetOutputProperties graph_properties_ (src edge) (src_output edge)
           None DT_INVALID = Done (shape, dtype)
         /\ code (ValidateInputProperties shape dtype nvinfer1.kFLOAT).1
            = error.OK
         /\ (op (def (src edge)) = "Const"
             \/ 2 <= PartialTensorShape_dims shape)).
    { unfold InputEdgeValidator. rewrite Hdata.
      destruct (GetOutputProperties _ _ _ _ _) as [[shape dtype]|f].
      2: { split; [done | by intros (? & ? & ? & _)]. }
      unfold ok.
      destruct (decide (code (ValidateInputProperties shape dtype
                                nvinfer1.kFLOAT).1 = error.OK)) as [Hok|Hbad].
      - rewrite (bool_decide_eq_true_2 _ Hok). cbn [negb].
        destruct (decide (op (def (src edge)) = "Const")) as [Hconst|Hconst].
        + rewrite (bool_decide_eq_false_2 (_ <> _))
            by (intros Hne; by apply Hne).
          cbn [andb]. split; [|done]. intros _. exists shape, dtype. auto.
        + rewrite (bool_decide_eq_true_2 (_ <> _)) by done. cbn [andb].
          case_bool_decide as Hrank.
          * split; [done|]. intros (? & ? & [= <- <-] & _ & [? | ?]);
              [done | lia].
          * split; [|done]. intros _. exists shape, dtype.
            split; [done|]. split; [done|]. right. lia.
      - rewrite (bool_decide_eq_false_2 _ Hbad). cbn [negb].
        split; [done|]. by intros (? & ? & [= <- <-] & ? & _). }
    split; [exact Hmain|]. split.
    + intros Hnone Htrue. apply Hmain in Htrue
        as (shape & dtype & Hprops & Hok & _).
      unfold GetOutputProperties in Hprops. rewrite Hnone in Hprops.
      destruct (bool_decide _); [|done].
      destruct (output_types (src edge) !! _) as [ty|]; [|done].
      inversion Hprops; subst.
      unfold ValidateInputProperties in Hok.
      destruct (ConvertDType dtype nvinfer1.kFLOAT) as [converted t].
      destruct (ok converted) eqn:Hconv; cbn [negb fst] in Hok.
      * by rewrite bool_decide_eq_true_2 in Hok by (simpl; lia).
      * unfold ok in Hconv. by rewrite bool_decide_eq_true_2 in Hconv.
    + unfold OutputEdgeValidator. rewrite Hdata.
      case_bool_decide as Hconst; [split; [done | intros Hne; by destruct Hne]|].
      by split.
Qed.

End InputValidationProperties.

(** ** Layers added by the converter *)

Section LayerProperties.
Context `{TensorRT}.

Lemma tensor_getDimensions_valid (net : nvinfer1.INetworkDefinition) (t : nat) :
  (t < length (nvinfer1.tensor_names net))%nat ->
  tensor_getDimensions (Some t) net = Done (getDimensions net t, net).
Proof.
  intros Ht. unfold tensor_getDimensions.
  by rewrite (ST_bind_Done _ _ _ _ _ (deref_valid net t Ht)).
Qed.

Lemma tensor_getDimensions_Done (tensor : nvinfer1.ITensorPtr)
    (net net' : nvinfer1.INetworkDefinition) (dims : Dims) :
  tensor_getDimensions tensor net = Done (dims, net') ->
  exists t, tensor = Some t /\ (t < length (nvinfer1.tensor_names net))%nat
            /\ dims = getDimensions net t /\ net' = net.
Proof.
  unfold tensor_getDimensions, deref, mbind, ST_bind, get_state, mret, ST_ret.
  destruct tensor as [t|]; [|done].
  case_bool_decide as Ht; [|done]. intros [= <- <-]. by exists t.
Qed.

Lemma GetTrtDims_Done (x : TRT_TensorOrWeights.t)
    (net net' : nvinfer1.INetworkDefinition) (dims : Dims) :
  GetTrtDims x net = Done (dims, net') ->
  net' = net
  /\ (TRT_TensorOrWeights.is_tensor x = true ->
      exists t, TRT_TensorOrWeights.tensor_ x = Some t
                /\ (t < length (nvinfer1.tensor_names net))%nat
                /\ dims = getDimensions net t)
  /\ (TRT_TensorOrWeights.is_weights x = true ->
      dims = TRT_ShapedWeights.shape_ (TRT_TensorOrWeights.weights_ x)).
Proof.
  unfold GetTrtDims, TRT_TensorOrWeights.tensor, TRT_TensorOrWeights.weights,
    TRT_TensorOrWeights.is_weights, TRT_TensorOrWeights.is_tensor.
  destruct (TRT_TensorOrWeights.is_tensor_ x); cbn [negb]; cbv iota.
  - rewrite (ST_bind_Done (S:=nvinfer1.INetworkDefinition) _ _ net net
               (TRT_TensorOrWeights.tensor_ x)) by done.
    intros (t & Ht & Hlive & -> & ->)%tensor_getDimensions_Done.
    split; [done|]. split; [|done]. intros _. by exists t.
  - rewrite (ST_bind_Done (S:=nvinfer1.INetworkDefinition) _ _ net net
               (TRT_TensorOrWeights.weights_ x)) by done.
    intros [= <- <-]. done.
Qed.

Lemma addLayer_accepted (net : nvinfer1.INetworkDefinition) (l : nvinfer1.Layer) :
  add_returns_null net l = false ->
  addLayer l net = Done (Some (length (nvinfer1.layers net)), with_layer net l).
Proof. intros Hok. unfold addLayer. by rewrite Hok. Qed.

Lemma addLayer_refused (net : nvinfer1.INetworkDefinition) (l : nvinfer1.Layer) :
  add_returns_null net l = true -> addLayer l net = Done (None, net).
Proof. intros Hnull. unfold addLayer. by rewrite Hnull. Qed.

Lemma with_layer_configured (net : nvinfer1.INetworkDefinition)
    (l : nvinfer1.Layer) :
  with_layer net l = with_configured_layer net l l.
Proof. done. Qed.

Lemma setLayer_last (net : nvinfer1.INetworkDefinition)
    (added configured : nvinfer1.Layer)
    (f : nvinfer1.Layer -> nvinfer1.Layer) :
  setLayer (length (nvinfer1.layers net)) f
    (with_configured_layer net added configured)
  = Done (tt, with_configured_layer net added (f configured)).
Proof.
  unfold setLayer, with_configured_layer. cbn [nvinfer1.layers].
  rewrite lookup_app_r, Nat.sub_diag by done. cbn [lookup list_lookup].
  unfold nvinfer1.tensor_names at 3, nvinfer1.network_inputs at 2,
    nvinfer1.marked_outputs at 2.
  do 3 f_equal.
  rewrite insert_app_r_alt, Nat.sub_diag by done. done.
Qed.

Lemma getOutput_last (net : nvinfer1.INetworkDefinition)
    (added configured : nvinfer1.Layer) :
  getOutput (length (nvinfer1.layers net))
    (with_configured_layer net added configured)
  = Done (Some (length (nvinfer1.tensor_names net)),
          with_configured_layer net added configured).
Proof.
  unfold getOutput, with_configured_layer. cbn [nvinfer1.layers].
  by rewrite lookup_app_r, Nat.sub_diag by done.
Qed.

Lemma can_check_shapes_from_true (a : list Z) (n : nat) :
  forall i : nat,
  can_check_shapes_from a (Z.of_nat i) n = true
  <-> forall j, (i <= j < i + n)%nat -> nth j a 0 <> -1.
Proof.
  induction n as [|n IH]; intros i; simpl.
  - split; [intros _ j Hj; lia | done].
  - rewrite idx_nat. case_bool_decide as Hminus.
    + split; [done|]. intros Hall. exfalso. apply (Hall i); [lia | done].
    + replace (Z.of_nat i + 1) with (Z.of_nat (S i)) by lia. rewrite IH.
      split.
      * intros Hall j Hj. destruct (decide (j = i)) as [->|]; [done|].
        apply Hall. lia.
      * intros Hall j Hj. apply Hall. lia.
Qed.

Lemma can_check_shapes_spec (dims : Dims) :
  (Z.to_nat (nbDims dims) <= length (d dims))%nat ->
  can_check_shapes_from (d dims) 0 (Z.to_nat (nbDims dims)) = true
  <-> -1 ∉ extents dims.
Proof.
  intros Hlen. rewrite (can_check_shapes_from_true _ _ 0%nat).
  split.
  - intros Hall Hin. apply list_elem_of_lookup in Hin as [j Hj].
    assert (Hlt : (j < Z.to_nat (nbDims dims))%nat).
    { apply lookup_lt_Some in Hj. by rewrite length_extents in Hj. }
    rewrite extents_lookup, idx_nat in Hj by done.
    inversion Hj as [Hnth]. apply (Hall j); [lia | done].
  - intros Hnot j Hj Hnth. apply Hnot.
    apply list_elem_of_lookup. exists j.
    rewrite extents_lookup, idx_nat by lia. by rewrite Hnth.
Qed.


(** [PrepareTensorForShape] compares the element counts only when the
    requested shape has no extent -1, and then rejects a different count
    with InvalidArgument before anything is touched.  Past that check, a
    tensor that already has the requested shape is returned as it is and
    no layer is added; a tensor of another shape gets one shuffle layer
    set to reshape to the requested dimensions; weights become one
    constant layer of the requested dimensions.  A layer the library
    refuses is an Internal error with the network as it was. *)
Theorem PrepareTensorForShape_spec (input : TRT_TensorOrWeights.t)
    (dims input_dims : Dims) (previous : nvinfer1.ITensorPtr)
    (net : nvinfer1.INetworkDefinition) :
  Dims_wf dims -> Dims_wf input_dims ->
  GetTrtDims input net = Done (input_dims, net) ->
  let compatible :=
    -1 ∈ extents dims
    \/ TrtDimsNumElements input_dims = TrtDimsNumElements dims in
  let same_shape :=
    nbDims input_dims = nbDims dims /\ extents input_dims = extents dims in
  let run := PrepareTensorForShape input dims previous net in
  (~ compatible ->
   run = Done ((errors.InvalidArgument "Reshape shapes are not compatible.",
                previous), net))
  /\ (compatible -> TRT_TensorOrWeights.is_tensor input = true -> same_shape ->
      run = Done ((Status_OK, TRT_TensorOrWeights.tensor_ input), net))
  /\ (compatible -> TRT_TensorOrWeights.is_tensor input = true ->
      ~ same_shape ->
      exists t,
        TRT_TensorOrWeights.tensor_ input = Some t
        /\ (add_returns_null net (nvinfer1.IShuffleLayer t None None) = false ->
            run = Done ((Status_OK, Some (length (nvinfer1.tensor_names net))),
                        with_configured_layer net
                          (nvinfer1.IShuffleLayer t None None)
                          (nvinfer1.IShuffleLayer t None (Some dims))))
        /\ (add_returns_null net (nvinfer1.IShuffleLayer t None None) = true ->
            exists msg, run = Done ((errors.Internal msg, previous), net)))
  /\ (compatible -> TRT_TensorOrWeights.is_weights input = true ->
      forall weights,
        TRT_ShapedWeights.GetTrtWeights (TRT_TensorOrWeights.weights_ input)
        = Done weights ->
        (add_returns_null net (nvinfer1.IConstantLayer dims weights) = false ->
         run = Done ((Status_OK, Some (length (nvinfer1.tensor_names net))),
                     with_layer net (nvinfer1.IConstantLayer dims weights)))
        /\ (add_returns_null net (nvinfer1.IConstantLayer dims weights) = true ->
            exists msg, run = Done ((errors.Internal msg, previous), net))).
Proof.
  intros Hdims Hinput Hget compatible same_shape run.
  assert (Hcheck :
    (if can_check_shapes_from (d dims) 0 (Z.to_nat (nbDims dims)) then
       input_dims ← GetTrtDims input;
       mret (bool_decide (TrtDimsNumElements input_dims
                          <> TrtDimsNumElements dims))
     else mret false) net
    = Done (bool_decide (~ compatible), net)).
  { destruct (can_check_shapes_from _ _ _) eqn:Hcan.
    - apply can_check_shapes_spec in Hcan; [|by destruct Hdims].
      rewrite (ST_bind_Done _ _ _ _ _ Hget).
      unfold mret, ST_ret. do 2 f_equal. apply bool_decide_ext.
      unfold compatible. tauto.
    - unfold mret, ST_ret. do 2 f_equal. symmetry.
      apply bool_decide_eq_false_2. intros Hnot. apply Hnot. left.
      destruct (decide (-1 ∈ extents dims)) as [|Hnotin]; [done|].
      apply can_check_shapes_spec in Hnotin; [congruence | by destruct Hdims]. }
  destruct (GetTrtDims_Done _ _ _ _ Hget) as (_ & Htensor & Hweights).
  unfold run, PrepareTensorForShape.
  rewrite (ST_bind_Done _ _ _ _ _ Hcheck).
  split; [|split; [|split]].
  - intros Hnot. by rewrite bool_decide_eq_true_2.
  - intros Hcompat His Hsame.
    rewrite (bool_decide_eq_false_2 (~ compatible)) by tauto.
    rewrite His, (ST_bind_Done _ _ _ _ _ Hget).
    rewrite (proj2 (DimsEqual_same_extents _ _ Hinput Hdims) Hsame).
    unfold TRT_TensorOrWeights.tensor. rewrite His.
    by rewrite (ST_bind_Done (S:=nvinfer1.INetworkDefinition) _ _ net net
                  (TRT_TensorOrWeights.tensor_ input)).
  - intros Hcompat His Hdiff.
    destruct (Htensor His) as (t & Ht & Hlive & _). exists t.
    split; [done|].
    assert (Hne : DimsEqual input_dims dims = false).
    { destruct (DimsEqual input_dims dims) eqn:Heq; [|done].
      by apply DimsEqual_same_extents in Heq. }
    rewrite (bool_decide_eq_false_2 (~ compatible)) by tauto.
    rewrite His, (ST_bind_Done _ _ _ _ _ Hget), Hne.
    unfold TRT_TensorOrWeights.tensor. rewrite His, Ht.
    rewrite (ST_bind_Done (S:=nvinfer1.INetworkDefinition) _ _ net net (Some t))
      by done.
    rewrite (ST_bind_Done _ _ _ _ _ (deref_valid net t Hlive)).
    split; intros Hadd.
    + rewrite (ST_bind_Done _ _ _ _ _ (addLayer_accepted _ _ Hadd)).
      rewrite with_layer_configured.
      rewrite (ST_bind_Done _ _ _ _ _ (setLayer_last _ _ _ _)).
      by rewrite (ST_bind_Done _ _ _ _ _ (getOutput_last _ _ _)).
    + rewrite (ST_bind_Done _ _ _ _ _ (addLayer_refused _ _ Hadd)).
      by eexists.
  - intros Hcompat His weights Hw.
    rewrite (bool_decide_eq_false_2 (~ compatible)) by tauto.
    assert (Hnot : TRT_TensorOrWeights.is_tensor input = false).
    { unfold TRT_TensorOrWeights.is_weights in His.
      by apply negb_true_iff in His. }
    rewrite Hnot. unfold TRT_TensorOrWeights.weights. rewrite His.
    rewrite (ST_bind_Done (S:=nvinfer1.INetworkDefinition) _ _ net net
               (TRT_TensorOrWeights.weights_ input)) by done.
    rewrite (ST_bind_Done (S:=nvinfer1.INetworkDefinition) _ _ net net weights)
      by (by apply lift_Done).
    split; intros Hadd.
    + rewrite (ST_bind_Done _ _ _ _ _ (addLayer_accepted _ _ Hadd)).
      rewrite with_layer_configured.
      by rewrite (ST_bind_Done _ _ _ _ _ (getOutput_last _ _ _)).
    + rewrite (ST_bind_Done _ _ _ _ _ (addLayer_refused _ _ Hadd)).
      by eexists.
Qed.


End LayerProperties.

(** ** Unary operators *)

Lemma bind_the_params {B} (k : OpConverterParams -> M B) (w : World) :
  (the_params ≫= k) w = k (params w) w.
Proof. done. Qed.

Section UnaryProperties.
Context `{TensorRT}.

Lemma PrepareTensorForShape_own_dims (input : TRT_TensorOrWeights.t) (t : nat)
    (previous : nvinfer1.ITensorPtr) (net : nvinfer1.INetworkDefinition) :
  TRT_TensorOrWeights.is_tensor input = true ->
  TRT_TensorOrWeights.tensor_ input = Some t ->
  (t < length (nvinfer1.tensor_names net))%nat ->
  Dims_wf (getDimensions net t) ->
  GetTrtDims input net = Done (getDimensions net t, net)
  /\ PrepareTensorForShape input (getDimensions net t) previous net
     = Done ((Status_OK, Some t), net).
Proof.
  intros His Ht Hlive Hwf.
  assert (Hget : GetTrtDims input net = Done (getDimensions net t, net)).
  { unfold GetTrtDims, TRT_TensorOrWeights.tensor. rewrite His, Ht.
    rewrite (ST_bind_Done (S:=nvinfer1.INetworkDefinition) _ _ net net (Some t))
      by done.
    by apply tensor_getDimensions_valid. }
  split; [done|]. unfold PrepareTensorForShape.
  assert (Hcheck :
    (if can_check_shapes_from (d (getDimensions net t)) 0
          (Z.to_nat (nbDims (getDimensions net t))) then
       input_dims ← GetTrtDims input;
       mret (bool_decide (TrtDimsNumElements input_dims
                          <> TrtDimsNumElements (getDimensions net t)))
     else mret false) net
    = Done (false, net)).
  { destruct (can_check_shapes_from _ _ _); [|done].
    rewrite (ST_bind_Done _ _ _ _ _ Hget).
    by rewrite bool_decide_eq_false_2 by (intros Hne; by apply Hne). }
  rewrite (ST_bind_Done _ _ _ _ _ Hcheck).
  rewrite His, (ST_bind_Done _ _ _ _ _ Hget).
  rewrite (proj2 (DimsEqual_same_extents _ _ Hwf Hwf)) by done.
  unfold TRT_TensorOrWeights.tensor. rewrite His, Ht.
  by rewrite (ST_bind_Done (S:=nvinfer1.INetworkDefinition) _ _ net net (Some t)).
Qed.

Lemma in_network_Done {A} (a : NetM A) (p : OpConverterParams)
    (net net' : nvinfer1.INetworkDefinition) (x : A) :
  a net = Done (x, net') ->
  in_network a (mkWorld p net) = Done (x, mkWorld p net').
Proof. intros Ha. unfold in_network. cbn [network params]. by rewrite Ha. Qed.

Lemma addUnary_accepted (p : OpConverterParams)
    (net : nvinfer1.INetworkDefinition) (c : Converter) (t : nat)
    (operation : nvinfer1.UnaryOperation) :
  converter p = Some c ->
  (t < length (nvinfer1.tensor_names net))%nat ->
  add_returns_null net (nvinfer1.IUnaryLayer t operation) = false ->
  addUnary (Some t) operation (mkWorld p net)
  = Done (Some (length (nvinfer1.layers net)),
          mkWorld p (with_layer net (nvinfer1.IUnaryLayer t operation))).
Proof.
  intros Hc Hlive Hadd. unfold addUnary.
  rewrite (ST_bind_Done (S:=World) _ _ _ _ _ (require_converter_some p net c Hc)).
  rewrite (ST_bind_Done (S:=World) _ _ _ _ _ (in_network_deref p net t Hlive)).
  by apply via_converter_addLayer with (c := c).
Qed.

Lemma PrepareTensorForShape_own_shape (input : TRT_TensorOrWeights.t)
    (weights : nvinfer1.Weights) (previous : nvinfer1.ITensorPtr)
    (net : nvinfer1.INetworkDefinition) :
  let shape := TRT_ShapedWeights.shape_ (TRT_TensorOrWeights.weights_ input) in
  TRT_TensorOrWeights.is_weights input = true ->
  TRT_ShapedWeights.GetTrtWeights (TRT_TensorOrWeights.weights_ input)
  = Done weights ->
  add_returns_null net (nvinfer1.IConstantLayer shape weights) = false ->
  GetTrtDims input net = Done (shape, net)
  /\ PrepareTensorForShape input shape previous net
     = Done ((Status_OK, Some (length (nvinfer1.tensor_names net))),
             with_layer net (nvinfer1.IConstantLayer shape weights)).
Proof.
  intros shape His Hweights Hadd.
  assert (Hnot : TRT_TensorOrWeights.is_tensor input = false).
  { unfold TRT_TensorOrWeights.is_weights in His.
    by apply negb_true_iff in His. }
  assert (Hget : GetTrtDims input net = Done (shape, net)).
  { unfold GetTrtDims, TRT_TensorOrWeights.weights. rewrite Hnot, His.
    by rewrite (ST_bind_Done (S:=nvinfer1.INetworkDefinition) _ _ net net
                  (TRT_TensorOrWeights.weights_ input)). }
  split; [done|]. unfold PrepareTensorForShape.
  assert (Hcheck :
    (if can_check_shapes_from (d shape) 0 (Z.to_nat (nbDims shape)) then
       input_dims ← GetTrtDims input;
       mret (bool_decide (TrtDimsNumElements input_dims
                          <> TrtDimsNumElements shape))
     else mret false) net
    = Done (false, net)).
  { destruct (can_check_shapes_from _ _ _); [|done].
    rewrite (ST_bind_Done _ _ _ _ _ Hget).
    by rewrite bool_decide_eq_false_2 by (intros Hne; by apply Hne). }
  rewrite (ST_bind_Done _ _ _ _ _ Hcheck).
  rewrite Hnot. unfold TRT_TensorOrWeights.weights. rewrite His.
  rewrite (ST_bind_Done (S:=nvinfer1.INetworkDefinition) _ _ net net
             (TRT_TensorOrWeights.weights_ input)) by done.
  rewrite (ST_bind_Done (S:=nvinfer1.INetworkDefinition) _ _ net net weights)
    by (by apply lift_Done).
  rewrite (ST_bind_Done _ _ _ _ _ (addLayer_accepted _ _ Hadd)).
  rewrite with_layer_configured.
  by rewrite (ST_bind_Done _ _ _ _ _ (getOutput_last _ _ _)).
Qed.

(** [ConvertUnary] once its input is prepared as the tensor [t] of the
    network [net1]. *)
Lemma ConvertUnary_prepared (p : OpConverterParams)
    (net0 net1 : nvinfer1.INetworkDefinition) (input0 : TRT_TensorOrWeights.t)
    (dims : Dims) (c : Converter) (outs : list TRT_TensorOrWeights.t)
    (t : nat) :
  converter p = Some c ->
  outputs p = Some outs ->
  inputs p = [input0] ->
  GetTrtDims input0 net0 = Done (dims, net0) ->
  PrepareTensorForShape input0 dims None net0 = Done ((Status_OK, Some t), net1) ->
  (t < length (nvinfer1.tensor_names net1))%nat ->
  (forall net i operation,
     add_returns_null net (nvinfer1.IUnaryLayer i operation) = false) ->
  let new_tensor (n : nat) :=
    TRT_TensorOrWeights.of_tensor (Some n)
      TRT_TensorOrWeights.unknown_batch_size in
  (op (node_def p) <> "Rsqrt" -> unary_ops (op (node_def p)) = None ->
   exists msg,
     ConvertUnary (mkWorld p net0)
     = Done (errors.InvalidArgument msg, mkWorld p net1))
  /\ (forall operation,
        op (node_def p) <> "Rsqrt" ->
        unary_ops (op (node_def p)) = Some operation ->
        ConvertUnary (mkWorld p net0)
        = Done (Status_OK,
                with_output p outs
                  (new_tensor (length (nvinfer1.tensor_names net1)))
                  (with_layer net1 (nvinfer1.IUnaryLayer t operation))))
  /\ (op (node_def p) = "Rsqrt" ->
      ConvertUnary (mkWorld p net0)
      = Done (Status_OK,
              with_output p outs
                (new_tensor (S (length (nvinfer1.tensor_names net1))))
                (with_layer
                   (with_layer net1 (nvinfer1.IUnaryLayer t nvinfer1.kSQRT))
                   (nvinfer1.IUnaryLayer
                      (length (nvinfer1.tensor_names net1))
                      nvinfer1.kRECIP)))).
Proof.
  intros Hc Houts Hinputs Hget Hprepare Hlive Haccept new_tensor.
  assert (Hhead : forall k : nvinfer1.ITensorPtr -> M Status,
    ConvertUnary (mkWorld p net0)
    = ((chosen ←
          (if bool_decide (op (node_def p) = "Rsqrt") then
             layer ← addUnary (Some t) nvinfer1.kSQRT;
             match layer with
             | None =>
                 mret (inl (TFTRT_INTERNAL_ERROR_AT_NODE "ConvertUnary"
                              (name (node_def p))))
             | Some layer =>
                 tensor ← in_network (getOutput layer);
                 layer ← addUnary tensor nvinfer1.kRECIP;
                 mret (inr layer)
             end
           else
             match unary_ops (op (node_def p)) with
             | Some operation =>
                 layer ← addUnary (Some t) operation;
                 mret (inr layer)
             | None =>
                 mret (inl (errors.InvalidArgument
                              (StrCat ["Binary op: "; op (node_def p);
                                       " not supported, at ";
                                       name (node_def p)])))
             end);
        match chosen with
        | inl status => mret status
        | inr None =>
            mret (TFTRT_INTERNAL_ERROR_AT_NODE "ConvertUnary"
                    (name (node_def p)))
        | inr (Some layer) =>
            output_tensor ← in_network (getOutput layer);
            outputs_push_back
              (TRT_TensorOrWeights.of_tensor output_tensor
                 TRT_TensorOrWeights.unknown_batch_size);;
            mret Status_OK
        end) : M Status) (mkWorld p net1)).
  { intros _. unfold ConvertUnary. rewrite bind_the_params. cbn [params].
    rewrite Hinputs. rewrite bool_decide_eq_false_2
      by (intros Hne; by apply Hne).
    unfold inputs_at. cbn [lookup list_lookup].
    rewrite (ST_bind_Done (S:=World) _ _ _ _ _ (ST_ret_Done _ _)).
    rewrite (ST_bind_Done (S:=World) _ _ _ _ _
               (in_network_Done _ p _ _ _ Hget)).
    unfold TF_RETURN_IF_ERROR_out.
    rewrite (ST_bind_Done (S:=World) _ _ (mkWorld p net0) (mkWorld p net1)
               (Status_OK, Some t)).
    2: { rewrite (via_converter_some _ p net0 c Hc).
         by apply in_network_Done. }
    done. }
  rewrite (Hhead (fun _ => mret Status_OK)). clear Hhead.
  split; [|split].
  - intros Hnot Hnone.
    rewrite bool_decide_eq_false_2 by done. rewrite Hnone.
    rewrite (ST_bind_Done (S:=World) _ _ _ _ _ (ST_ret_Done _ _)).
    by eexists.
  - intros operation Hnot Hsome.
    rewrite bool_decide_eq_false_2 by done. rewrite Hsome.
    rewrite (ST_bind_Done (S:=World) _ _ (mkWorld p net1)
               (mkWorld p (with_layer net1 (nvinfer1.IUnaryLayer t operation)))
               (inr (Some (length (nvinfer1.layers net1))))).
    2: { rewrite (ST_bind_Done (S:=World) _ _ _ _ _
                    (addUnary_accepted p net1 c t operation Hc Hlive
                       (Haccept _ _ _))).
         done. }
    rewrite (ST_bind_Done (S:=World) _ _ _ _ _
               (in_network_getOutput_new p net1 _)).
    rewrite (ST_bind_Done (S:=World) _ _ _ _ _
               (outputs_push_back_some p _ outs _ Houts)).
    done.
  - intros Hrsqrt.
    rewrite bool_decide_eq_true_2 by done.
    set (net2 := with_layer net1 (nvinfer1.IUnaryLayer t nvinfer1.kSQRT)).
    set (n := length (nvinfer1.tensor_names net1)).
    assert (Hn : (n < length (nvinfer1.tensor_names net2))%nat).
    { unfold net2, with_layer. cbn [nvinfer1.tensor_names].
      rewrite length_app. simpl. unfold n. lia. }
    rewrite (ST_bind_Done (S:=World) _ _ (mkWorld p net1)
               (mkWorld p (with_layer net2
                             (nvinfer1.IUnaryLayer n nvinfer1.kRECIP)))
               (inr (Some (length (nvinfer1.layers net2))))).
    2: { rewrite (ST_bind_Done (S:=World) _ _ _ _ _
                    (addUnary_accepted p net1 c t nvinfer1.kSQRT Hc Hlive
                       (Haccept _ _ _))).
         rewrite (ST_bind_Done (S:=World) _ _ _ _ _
                    (in_network_getOutput_new p net1 _)).
         fold n. fold net2.
         rewrite (ST_bind_Done (S:=World) _ _ _ _ _
                    (addUnary_accepted p net2 c n nvinfer1.kRECIP Hc Hn
                       (Haccept _ _ _))).
         done. }
    rewrite (ST_bind_Done (S:=World) _ _ _ _ _
               (in_network_getOutput_new p net2 _)).
    rewrite (ST_bind_Done (S:=World) _ _ _ _ _
               (outputs_push_back_some p _ outs _ Houts)).
    assert (Hlen : length (nvinfer1.tensor_names net2) = S n).
    { unfold net2, with_layer. cbn [nvinfer1.tensor_names].
      rewrite length_app. simpl. unfold n. lia. }
    by rewrite Hlen.
Qed.

(** [ConvertUnary] rejects a node that does not have exactly one input
    with FailedPrecondition before anything is touched.  The one input
    is prepared first: a live tensor is taken as it is, and weights
    become one constant layer of their own shape, added to the network
    before the operator is looked at.  Then, with the library accepting
    unary layers: an operator outside of the table (and other than
    Rsqrt) is rejected with InvalidArgument, the network being as it was
    for a tensor input and holding the new constant layer for a weights
    input; an operator of the table adds one unary layer with the
    operation of the table on the prepared tensor; Rsqrt adds a
    square-root layer and, on its output, a reciprocal layer.  The
    output of the last layer is the only output of the node.  A result
    is the world made of the parameters of the node and the network
    reached, which for a rejected tensor input is the world of the
    call. *)
Theorem ConvertUnary_spec (w : World) (input0 : TRT_TensorOrWeights.t)
    (c : Converter) (outs : list TRT_TensorOrWeights.t) :
  converter (params w) = Some c ->
  outputs (params w) = Some outs ->
  (forall net i operation,
     add_returns_null net (nvinfer1.IUnaryLayer i operation) = false) ->
  let op_name := op (node_def (params w)) in
  let new_tensor (n : nat) :=
    TRT_TensorOrWeights.of_tensor (Some n)
      TRT_TensorOrWeights.unknown_batch_size in
  let converts (t : nat) (net : nvinfer1.INetworkDefinition) :=
    (op_name <> "Rsqrt" -> unary_ops op_name = None ->
     exists msg,
       ConvertUnary w
       = Done (errors.InvalidArgument msg, mkWorld (params w) net))
    /\ (forall operation,
          op_name <> "Rsqrt" -> unary_ops op_name = Some operation ->
          ConvertUnary w
          = Done (Status_OK,
                  with_output (params w) outs
                    (new_tensor (length (nvinfer1.tensor_names net)))
                    (with_layer net (nvinfer1.IUnaryLayer t operation))))
    /\ (op_name = "Rsqrt" ->
        ConvertUnary w
        = Done (Status_OK,
                with_output (params w) outs
                  (new_tensor (S (length (nvinfer1.tensor_names net))))
                  (with_layer
                     (with_layer net (nvinfer1.IUnaryLayer t nvinfer1.kSQRT))
                     (nvinfer1.IUnaryLayer
                        (length (nvinfer1.tensor_names net))
                        nvinfer1.kRECIP)))) in
  (length (inputs (params w)) <> 1%nat ->
   exists msg, ConvertUnary w = Done (errors.FailedPrecondition msg, w))
  /\ (inputs (params w) = [input0] ->
      (forall t,
         TRT_TensorOrWeights.is_tensor input0 = true ->
         TRT_TensorOrWeights.tensor_ input0 = Some t ->
         (t < length (nvinfer1.tensor_names (network w)))%nat ->
         Dims_wf (getDimensions (network w) t) ->
         converts t (network w))
      /\ (forall weights,
            let shape :=
              TRT_ShapedWeights.shape_ (TRT_TensorOrWeights.weights_ input0) in
            TRT_TensorOrWeights.is_weights input0 = true ->
            TRT_ShapedWeights.GetTrtWeights
              (TRT_TensorOrWeights.weights_ input0) = Done weights ->
            add_returns_null (network w)
              (nvinfer1.IConstantLayer shape weights) = false ->
            converts (length (nvinfer1.tensor_names (network w)))
              (with_layer (network w)
                 (nvinfer1.IConstantLayer shape weights)))).
Proof.
  intros Hc Houts Haccept op_name new_tensor converts.
  destruct w as [p net0]. cbn [params network] in *.
  split.
  { intros Hcount. unfold ConvertUnary. rewrite bind_the_params.
    cbn [params]. rewrite bool_decide_eq_true_2 by done. by eexists. }
  intros Hinputs. split.
  - intros t His Ht Hlive Hwf.
    destruct (PrepareTensorForShape_own_dims input0 t None net0 His Ht Hlive Hwf)
      as [Hget Hprepare].
    exact (ConvertUnary_prepared p net0 net0 input0 _ c outs t Hc Houts
             Hinputs Hget Hprepare Hlive Haccept).
  - intros weights His Hweights Hadd.
    destruct (PrepareTensorForShape_own_shape input0 weights None net0 His
                Hweights Hadd) as [Hget Hprepare].
    apply (ConvertUnary_prepared p net0 _ input0 _ c outs _ Hc Houts
             Hinputs Hget Hprepare); [|done].
    unfold with_layer. cbn [nvinfer1.tensor_names].
    rewrite length_app. simpl. lia.
Qed.

End UnaryProperties.

(** ** Reshape in construction mode *)

Section ReshapeConstruction.
Context `{TensorRT} `{ScalarOps}.



End ReshapeConstruction.

(** ** Output tensors *)

Section OutputProperties.
Context `{TensorRT}.

Lemma with_outputs_nil (net : nvinfer1.INetworkDefinition) :
  with_outputs net [] = net.
Proof.
  unfold with_outputs. simpl. rewrite app_nil_r. by destruct net.
Qed.

Lemma with_outputs_cons (net : nvinfer1.INetworkDefinition)
    (r : nat * string) (renamed : list (nat * string)) :
  with_outputs (with_outputs net [r]) renamed = with_outputs net (r :: renamed).
Proof.
  unfold with_outputs. simpl. by rewrite <- app_assoc.
Qed.

Lemma length_names_with_outputs (net : nvinfer1.INetworkDefinition)
    (renamed : list (nat * string)) :
  length (nvinfer1.tensor_names (with_outputs net renamed))
  = length (nvinfer1.tensor_names net).
Proof.
  unfold with_outputs. cbn [nvinfer1.tensor_names].
  generalize (nvinfer1.tensor_names net).
  induction renamed as [|r renamed IH]; intros names; simpl; [done|].
  by rewrite IH, length_insert.
Qed.

Lemma mark_one (this : Converter) (net : nvinfer1.INetworkDefinition)
    (t : nat) (external : string) (k : CM Status) :
  (t < length (nvinfer1.tensor_names net))%nat ->
  (on_network (tensor_setName (Some t) external);;
   on_network (markOutput (Some t));; k) (this, net)
  = k (this, with_outputs net [(t, external)]).
Proof.
  intros Hlive.
  rewrite (ST_bind_Done (S:=Converter * nvinfer1.INetworkDefinition) _ _
             _ _ _ (on_network_setName this net t external Hlive)).
  assert (Hlive' : (t < length (nvinfer1.tensor_names (with_name net t external)))%nat).
  { unfold with_name. cbn [nvinfer1.tensor_names]. by rewrite length_insert. }
  rewrite (ST_bind_Done (S:=Converter * nvinfer1.INetworkDefinition) _ _
             (this, with_name net t external)
             (this, with_outputs net [(t, external)]) tt); [done|].
  unfold on_network, markOutput.
  rewrite (ST_bind_Done _ _ _ _ _ (deref_valid _ t Hlive')).
  done.
Qed.

Lemma RenameAndMarkOutputTensors_run (this : Converter) :
  forall output_tensors renamed net,
  Forall2 (output_resolves this net) output_tensors renamed ->
  forall rest,
  RenameAndMarkOutputTensors (output_tensors ++ rest) (this, net)
  = RenameAndMarkOutputTensors rest (this, with_outputs net renamed).
Proof.
  induction output_tensors as [|output output_tensors IH];
    intros renamed net Hall rest.
  - inversion Hall; subst. by rewrite with_outputs_nil.
  - inversion Hall as [|? r ? renamed' Hr Hrest]; subst.
    destruct Hr as (v & Hv & His & Ht & Hlive & Hname).
    cbn [app RenameAndMarkOutputTensors].
    rewrite (ST_bind_Done (S:=Converter * nvinfer1.INetworkDefinition) _ _
               (this, net) (this, net) (Status_OK, v))
      by (unfold on_converter, GetTensorOrWeights; by rewrite Hv).
    cbn [fst snd]. change (negb (ok Status_OK)) with false. cbv iota.
    rewrite His. cbn [negb]. cbv iota.
    unfold TRT_TensorOrWeights.tensor. rewrite His, Ht.
    rewrite (ST_bind_Done (S:=Converter * nvinfer1.INetworkDefinition) _ _
               (this, net) (this, net) (Some r.1)) by done.
    rewrite <- Hname, mark_one by done.
    rewrite (IH renamed' (with_outputs net [(r.1, r.2)])).
    + rewrite with_outputs_cons. by destruct r.
    + eapply Forall2_impl; [exact Hrest|].
      intros o r' (v' & ? & ? & ? & ? & ?). exists v'.
      by rewrite length_names_with_outputs.
Qed.

(** [RenameAndMarkOutputTensors] treats the list in its order.  When
    every internal name is bound to a live tensor, each tensor is given
    its external name and the tensors are marked as outputs in the order
    of the list, after those already marked.  At the first entry that is
    unbound (NotFound), bound to weights (InvalidArgument) or to a null
    tensor (NotFound) it stops with the entries before it already renamed
    and marked.  The converter is never changed. *)
Theorem RenameAndMarkOutputTensors_spec (this : Converter)
    (net : nvinfer1.INetworkDefinition)
    (output_tensors : list (string * string)) (renamed : list (nat * string)) :
  Forall2 (output_resolves this net) output_tensors renamed ->
  RenameAndMarkOutputTensors output_tensors (this, net)
  = Done (Status_OK, (this, with_outputs net renamed))
  /\ (forall bad rest,
        trt_tensors_ this !! bad.1 = None ->
        exists msg,
          RenameAndMarkOutputTensors (output_tensors ++ bad :: rest) (this, net)
          = Done (errors.NotFound msg, (this, with_outputs net renamed)))
  /\ (forall bad rest v,
        trt_tensors_ this !! bad.1 = Some v ->
        TRT_TensorOrWeights.is_weights v = true ->
        exists msg,
          RenameAndMarkOutputTensors (output_tensors ++ bad :: rest) (this, net)
          = Done (errors.InvalidArgument msg, (this, with_outputs net renamed)))
  /\ (forall bad rest v,
        trt_tensors_ this !! bad.1 = Some v ->
        TRT_TensorOrWeights.is_tensor v = true ->
        TRT_TensorOrWeights.tensor_ v = None ->
        exists msg,
          RenameAndMarkOutputTensors (output_tensors ++ bad :: rest) (this, net)
          = Done (errors.NotFound msg, (this, with_outputs net renamed))).
Proof.
  intros Hall.
  pose proof (RenameAndMarkOutputTensors_run this _ _ _ Hall) as Hrun.
  split; [|split; [|split]].
  - specialize (Hrun []). by rewrite app_nil_r in Hrun.
  - intros bad rest Hbad. rewrite Hrun. cbn [RenameAndMarkOutputTensors].
    rewrite (ST_bind_Done (S:=Converter * nvinfer1.INetworkDefinition) _ _
               _ (this, with_outputs net renamed)
               (errors.NotFound
                  (StrCat ["Tensor or weights with name "; bad.1;
                           " could not be found."]),
                TRT_TensorOrWeights_default))
      by (unfold on_converter, GetTensorOrWeights; by rewrite Hbad).
    by eexists.
  - intros bad rest v Hv Hweights. rewrite Hrun.
    cbn [RenameAndMarkOutputTensors].
    rewrite (ST_bind_Done (S:=Converter * nvinfer1.INetworkDefinition) _ _
               _ (this, with_outputs net renamed) (Status_OK, v))
      by (unfold on_converter, GetTensorOrWeights; by rewrite Hv).
    cbn [fst snd]. change (negb (ok Status_OK)) with false. cbv iota.
    change (negb (TRT_TensorOrWeights.is_tensor v))
      with (TRT_TensorOrWeights.is_weights v).
    rewrite Hweights. by eexists.
  - intros bad rest v Hv His Hnull. rewrite Hrun.
    cbn [RenameAndMarkOutputTensors].
    rewrite (ST_bind_Done (S:=Converter * nvinfer1.INetworkDefinition) _ _
               _ (this, with_outputs net renamed) (Status_OK, v))
      by (unfold on_converter, GetTensorOrWeights; by rewrite Hv).
    cbn [fst snd]. change (negb (ok Status_OK)) with false. cbv iota.
    rewrite His. cbn [negb]. cbv iota.
    unfold TRT_TensorOrWeights.tensor. rewrite His, Hnull.
    rewrite (ST_bind_Done (S:=Converter * nvinfer1.INetworkDefinition) _ _
               _ (this, with_outputs net renamed) None) by done.
    by eexists.
Qed.

End OutputProperties.

(** ** Conversion of a node: rejections and pass-through *)

Section ConvertNodeProperties.
Context `{TensorRT} `{ScalarOps} `{TensorFlow} `{OtherConverters}.

(** [ConvertNode] turns a node down with the converter and the network
    untouched, and without calling any converter function, in two cases:
    with InvalidArgument when an input that is not a control input is not
    bound in the symbol table, and with Unimplemented when all inputs are
    bound but the operator is neither a plugin nor in the registry. *)
Theorem ConvertNode_rejections (this : Converter)
    (net : nvinfer1.INetworkDefinition) (node_def : NodeDef) :
  let data :=
    filter (fun n => String.get 0 n <> Some "^"%char) (input node_def) in
  let bound n v := trt_tensors_ this !! normalized_input_name n = Some v in
  (forall found missing rest values,
     data = found ++ missing :: rest -> Forall2 bound found values ->
     trt_tensors_ this !! normalized_input_name missing = None ->
     exists msg,
       ConvertNode node_def (this, net)
       = Done (errors.InvalidArgument msg, (this, net)))
  /\ (forall values,
        Forall2 bound data values ->
        IsPlugin (op node_def) = false ->
        RegisterOpConverters !! op node_def = None ->
        ConvertNode node_def (this, net)
        = Done (errors.Unimplemented
                  ("No converter registered for op: " +:+ op node_def),
                (this, net))).
Proof.
  intros data bound. split.
  - intros found missing rest values Hdata Hfound Hmissing.
    unfold ConvertNode.
    rewrite (ST_bind_Done (S:=Converter * nvinfer1.INetworkDefinition) _ _
               (this, net) (this, net)
               (errors.InvalidArgument
                  (StrCat ["Node "; name node_def;
                           " should have an input named '";
                           normalized_input_name missing;
                           "' but it is not available"]),
                [] ++ values)).
    2: { unfold on_converter, GetInputs.
         by rewrite (GetInputs_loop_missing _ _ _ _ found missing rest Hdata
                       Hmissing values Hfound). }
    by eexists.
  - intros values Hall Hplugin Hnone. unfold ConvertNode.
    rewrite (ST_bind_Done (S:=Converter * nvinfer1.INetworkDefinition) _ _
               (this, net) (this, net) (Status_OK, [] ++ values)).
    2: { unfold on_converter, GetInputs.
         by rewrite (GetInputs_loop_found _ _ _ _ values Hall). }
    cbn [fst snd]. change (negb (ok Status_OK)) with false. cbv iota.
    rewrite Hplugin, Hnone.
    by rewrite (ST_bind_Done (S:=Converter * nvinfer1.INetworkDefinition) _ _
                  _ _ _ (ST_ret_Done _ _)).
Qed.

Lemma op_registry_Identity :
  RegisterOpConverters !! "Identity" = Some fn.ConvertIdentity
  /\ RegisterOpConverters !! "Snapshot" = Some fn.ConvertIdentity.
Proof. split; vm_compute; reflexivity. Qed.

(** An Identity or Snapshot node whose input resolves to a live tensor
    adds no layer: its name is bound to that same tensor, with the
    converter's batch size.  The tensor is given the name of the node
    only if it has no name yet, so that a tensor that is an input of the
    engine keeps the name it is bound under. *)
Theorem ConvertNode_Identity (this : Converter)
    (net : nvinfer1.INetworkDefinition) (node : NodeDef)
    (x : TRT_TensorOrWeights.t) (t : nat) :
  op node = "Identity" \/ op node = "Snapshot" ->
  IsPlugin (op node) = false ->
  GetInputs node [] this = Done ((Status_OK, [x]), this) ->
  TRT_TensorOrWeights.is_tensor x = true ->
  TRT_TensorOrWeights.tensor_ x = Some t ->
  (t < length (nvinfer1.tensor_names net))%nat ->
  trt_tensors_ this !! name node = None ->
  let current := default "" (nvinfer1.tensor_names net !! t) in
  ConvertNode node (this, net)
  = Done (Status_OK,
          (mkConverter (is_fp16_ this) (batch_size_ this)
             (<[name node :=
                  TRT_TensorOrWeights.set_batch_size x (batch_size_ this)]>
                (trt_tensors_ this))
             (weight_store_ this),
           if bool_decide (current = "") then with_name net t (name node)
           else net)).
Proof.
  intros Hop Hplugin Hinputs His Ht Hlive Hfresh current.
  unfold ConvertNode.
  assert (Hget : on_converter (GetInputs node []) (this, net)
                 = Done ((Status_OK, [x]), (this, net))).
  { unfold on_converter. by rewrite Hinputs. }
  rewrite (ST_bind_Done _ _ _ _ _ Hget). cbn [fst snd].
  change (negb (ok Status_OK)) with false. cbv iota.
  rewrite Hplugin.
  assert (Hreg : RegisterOpConverters !! op node = Some fn.ConvertIdentity).
  { destruct op_registry_Identity. by destruct Hop as [-> | ->]. }
  rewrite Hreg.
  assert (Hcall : call_op_converter fn.ConvertIdentity node [x] (this, net)
                  = Done ((Status_OK, [x]), (this, net))).
  { unfold call_op_converter. cbn [call]. by destruct this. }
  rewrite (ST_bind_Done _ _ _ _ _ Hcall). cbn [fst snd].
  change (negb (ok Status_OK)) with false. cbv iota.
  cbn [add_outputs].
  rewrite (bool_decide_eq_false_2 (0%nat <> 0%nat)) by (intros Hne; by apply Hne).
  rewrite His. unfold TRT_TensorOrWeights.tensor. rewrite His, Ht.
  set (net2 := if bool_decide (current = "") then with_name net t (name node)
               else net).
  rewrite (ST_bind_Done (S:=Converter * nvinfer1.INetworkDefinition) _ _
             (this, net) (this, net2) tt).
  2: { rewrite (ST_bind_Done (S:=Converter * nvinfer1.INetworkDefinition)
                  _ _ _ _ _ (lift_Done _ _ _ eq_refl)).
       rewrite (ST_bind_Done (S:=Converter * nvinfer1.INetworkDefinition)
                  _ _ _ _ _ (on_network_getName this net t Hlive)).
       fold current. unfold net2.
       destruct (bool_decide (current = "")); [|reflexivity].
       by rewrite (on_network_setName this net t _ Hlive). }
  rewrite (ST_bind_Done (S:=Converter * nvinfer1.INetworkDefinition) _ _
             (this, net2)
             (mkConverter (is_fp16_ this) (batch_size_ this)
                (<[name node :=
                     TRT_TensorOrWeights.set_batch_size x (batch_size_ this)]>
                   (trt_tensors_ this))
                (weight_store_ this), net2) Status_OK).
  2: { unfold on_converter, AddTensorOrWeights. by rewrite Hfresh, His. }
  done.
Qed.

End ConvertNodeProperties.

(** ** The scale-layer attempt of a binary node *)

Section ScalePathProperties.
Context `{TensorRT} `{ScalarOps}.

Lemma BinaryTensorOpWeight_gives_up (w : World) (t : nat)
    (weights : TRT_ShapedWeights.t) (swapped_inputs : bool) :
  (t < length (nvinfer1.tensor_names (network w)))%nat ->
  scale_path_closed w t weights ->
  exists status,
    BinaryTensorOpWeight (Some t) weights swapped_inputs w = Done (status, w)
    /\ ok status = false.
Proof.
  intros Hlive Hclosed. destruct w as [p net]. cbn [network params] in *.
  unfold BinaryTensorOpWeight. rewrite bind_the_params. cbn [params].
  unfold scale_path_closed in Hclosed. cbn [network params] in Hclosed.
  set (known := bool_decide (op (node_def p) <> "Sub")
                && bool_decide (op (node_def p) <> "Add")
                && bool_decide (op (node_def p) <> "Mul")
                && bool_decide (op (node_def p) <> "Div")
                && bool_decide (op (node_def p) <> "RealDiv")).
  destruct known eqn:Hknown; [by eexists|].
  assert (Hop : op (node_def p) ∈ ["Sub"; "Add"; "Mul"; "Div"; "RealDiv"]).
  { unfold known in Hknown.
    repeat (apply andb_false_iff in Hknown as [Hknown | Hknown]);
      apply bool_decide_eq_false_1 in Hknown;
      apply dec_stable in Hknown; rewrite Hknown;
      apply list_elem_of_In; simpl; tauto. }
  destruct Hclosed as [Hnot | [Htype | Hrank]]; [done| |].
  - unfold TF_RETURN_IF_ERROR.
    rewrite (ST_bind_Done (S:=World) _ _ _ _ _ (ST_ret_Done _ _)).
    assert (Hbad : ok (ConvertDType (TRT_ShapedWeights.type_ weights)
                         nvinfer1.kFLOAT).1 = false).
    { destruct (TRT_ShapedWeights.type_ weights); try done;
        exfalso; apply Htype; apply list_elem_of_In; simpl; tauto. }
    rewrite Hbad. by eexists.
  - unfold TF_RETURN_IF_ERROR.
    rewrite (ST_bind_Done (S:=World) _ _ _ _ _ (ST_ret_Done _ _)).
    destruct (ok (ConvertDType (TRT_ShapedWeights.type_ weights)
                    nvinfer1.kFLOAT).1) eqn:Hok; [|by eexists].
    rewrite (ST_bind_Done (S:=World) _ _ _ _ _
               (in_network_getDimensions p net t Hlive)).
    rewrite bool_decide_eq_true_2 by done. by eexists.
Qed.

(** When the operator of a binary node is not one of Sub, Add, Mul, Div
    and RealDiv (so for Maximum and Minimum), when the element type of
    the weights is not supported, or when the tensor does not have three
    dimensions, the scale-layer attempt gives up without having added
    anything, and [ConvertBinary] of a tensor and weights, in either
    order, is exactly the elementwise path. *)
Theorem ConvertBinary_falls_back (w : World)
    (input0 input1 : TRT_TensorOrWeights.t) (t : nat) :
  inputs (params w) = [input0; input1] ->
  (t < length (nvinfer1.tensor_names (network w)))%nat ->
  (TRT_TensorOrWeights.is_tensor input0 = true ->
   TRT_TensorOrWeights.is_weights input1 = true ->
   TRT_TensorOrWeights.tensor_ input0 = Some t ->
   scale_path_closed w t (TRT_TensorOrWeights.weights_ input1) ->
   ConvertBinary w = BinaryTensorOpTensor input0 input1 w)
  /\ (TRT_TensorOrWeights.is_weights input0 = true ->
      TRT_TensorOrWeights.is_tensor input1 = true ->
      TRT_TensorOrWeights.tensor_ input1 = Some t ->
      scale_path_closed w t (TRT_TensorOrWeights.weights_ input0) ->
      ConvertBinary w = BinaryTensorOpTensor input0 input1 w).
Proof.
  intros Hin Hlive. split.
  - intros His0 His1 Ht Hclosed.
    rewrite (ConvertBinary_tensor_weights w input0 input1 Hin His0 His1), Ht.
    destruct (BinaryTensorOpWeight_gives_up w t _ false Hlive Hclosed)
      as (status & Hrun & Hbad).
    rewrite (ST_bind_Done _ _ _ _ _ Hrun). by rewrite Hbad.
  - intros His0 His1 Ht Hclosed.
    destruct (BinaryTensorOpWeight_gives_up w t _ true Hlive Hclosed)
      as (status & Hrun & Hbad).
    unfold ConvertBinary. rewrite bind_the_params, Hin.
    rewrite bool_decide_eq_false_2 by (intros Hne; by apply Hne).
    unfold inputs_at. cbn [lookup list_lookup].
    rewrite !(ST_bind_Done (S:=World) _ _ _ _ _ (ST_ret_Done _ _)).
    assert (Hnot0 : TRT_TensorOrWeights.is_tensor input0 = false).
    { unfold TRT_TensorOrWeights.is_weights in His0.
      by apply negb_true_iff in His0. }
    assert (Hnot1 : TRT_TensorOrWeights.is_weights input1 = false).
    { unfold TRT_TensorOrWeights.is_weights.
      change (TRT_TensorOrWeights.is_tensor_ input1)
        with (TRT_TensorOrWeights.is_tensor input1).
      by rewrite His1. }
    rewrite His0, His1, Hnot0, Hnot1. cbn [andb orb]. cbv iota.
    unfold TRT_TensorOrWeights.tensor, TRT_TensorOrWeights.weights.
    rewrite His0, His1, Ht.
    rewrite (ST_bind_Done (S:=World) _ _ w w status).
    2: { rewrite (ST_bind_Done (S:=World) _ _ _ _ _ (lift_Done _ _ _ eq_refl)).
         rewrite (ST_bind_Done (S:=World) _ _ _ _ _ (lift_Done _ _ _ eq_refl)).
         exact Hrun. }
    by rewrite Hbad.
Qed.

End ScalePathProperties.

(** ** Graph segment extraction: statuses, connections, closure *)






Section ExtractionProperties.
Context `{TensorFlow}.





End ExtractionProperties.

(** ** Validation against construction *)

Section ValidationSoundness.
Context `{TensorRT}.
Variables wv wc : World.
Hypothesis same_network : network wv = network wc.

Lemma reads_alike_ret {A} (a : A) : reads_alike wv wc (mret a).
Proof. done. Qed.

Lemma reads_alike_lift {A} (o : Outcome A) : reads_alike wv wc (lift o).
Proof. unfold reads_alike, lift. by destruct o. Qed.

Lemma reads_alike_inputs_at (l : list TRT_TensorOrWeights.t) (i : nat) :
  reads_alike wv wc (inputs_at l i).
Proof. unfold inputs_at. by destruct (l !! i). Qed.

Lemma reads_alike_getDimensions (tensor : nvinfer1.ITensorPtr) :
  reads_alike wv wc (in_network (tensor_getDimensions tensor)).
Proof.
  unfold reads_alike, in_network, tensor_getDimensions, deref, mbind, ST_bind,
    get_state, mret, ST_ret.
  rewrite same_network. destruct tensor as [i|]; [|done].
  destruct (bool_decide _); [|done].
  split; [done|]. rewrite <- same_network at 1. by destruct wv, wc.
Qed.

Lemma reads_alike_GetTrtDims (x : TRT_TensorOrWeights.t) :
  reads_alike wv wc (in_network (GetTrtDims x)).
Proof.
  unfold reads_alike, in_network, GetTrtDims, tensor_getDimensions, deref,
    TRT_TensorOrWeights.tensor, TRT_TensorOrWeights.weights,
    TRT_TensorOrWeights.is_weights, TRT_TensorOrWeights.is_tensor,
    lift, mbind, ST_bind, get_state, mret, ST_ret.
  rewrite same_network.
  destruct (TRT_TensorOrWeights.is_tensor_ x); simpl.
  - destruct (TRT_TensorOrWeights.tensor_ x) as [i|]; [|done].
    destruct (bool_decide _); [|done].
    split; [done|]. rewrite <- same_network at 1. by destruct wv, wc.
  - split; [done|]. rewrite <- same_network at 1. by destruct wv, wc.
Qed.

Lemma rejects_alike_bind {A} (m : M A) (k1 k2 : A -> M Status) :
  reads_alike wv wc m ->
  (forall a, rejects_alike wv wc (k1 a) (k2 a)) ->
  rejects_alike wv wc (m ≫= k1) (m ≫= k2).
Proof.
  unfold reads_alike, rejects_alike, mbind, ST_bind.
  intros Hm Hk status w'.
  destruct (m wv) as [[a1 w1]|f1], (m wc) as [[a2 w2]|f2]; try done.
  destruct Hm as (-> & -> & ->). apply Hk.
Qed.

Lemma rejects_alike_ret (status : Status) :
  rejects_alike wv wc (mret status) (mret status).
Proof. intros s w' [= <- <-] _. done. Qed.

Lemma rejects_alike_crash (f : Fault) (m : M Status) :
  rejects_alike wv wc (crash f) m.
Proof. by intros s w'. Qed.

Lemma rejects_alike_accepts (m : M Status) :
  rejects_alike wv wc (mret Status_OK) m.
Proof. intros s w' [= <- <-] Hbad. done. Qed.

Ltac rejects_step :=
  lazymatch goal with
  | |- rejects_alike _ _ (mret Status_OK) _ => apply rejects_alike_accepts
  | |- rejects_alike _ _ (mret _) (mret _) => apply rejects_alike_ret
  | |- rejects_alike _ _ (crash _) _ => apply rejects_alike_crash
  | |- rejects_alike _ _ (inputs_at _ _ ≫= _) _ =>
      apply rejects_alike_bind; [apply reads_alike_inputs_at | intros ?]
  | |- rejects_alike _ _ (lift _ ≫= _) _ =>
      apply rejects_alike_bind; [apply reads_alike_lift | intros ?]
  | |- rejects_alike _ _ (in_network (tensor_getDimensions _) ≫= _) _ =>
      apply rejects_alike_bind; [apply reads_alike_getDimensions | intros ?]
  | |- rejects_alike _ _ (in_network (GetTrtDims _) ≫= _) _ =>
      apply rejects_alike_bind; [apply reads_alike_GetTrtDims | intros ?]
  | |- rejects_alike _ _ (if true then ?a else _) (if false then _ else ?b) =>
      change (rejects_alike wv wc a b)
  | |- rejects_alike _ _ (if ?b then _ else _) _ => destruct b
  | |- rejects_alike _ _ (match ?x with _ => _ end) _ => destruct x
  end.

Lemma rejects_alike_the_params (k1 k2 : OpConverterParams -> M Status) :
  rejects_alike wv wc (k1 (params wv)) (k2 (params wc)) ->
  rejects_alike wv wc (the_params ≫= k1) (the_params ≫= k2).
Proof. intros Hk status w'. rewrite !bind_the_params. apply Hk. Qed.

(** The verdict of validation carries over to construction: for the same
    node, the same inputs and the same network, every status other than
    OK that [ConvertTranspose] or [ConvertReshape] returns in
    validation-only mode is what it returns in construction mode, with
    nothing touched. *)
Theorem validation_rejections_carry_over (status : Status) (w' : World) :
  validation_only (params wv) = true ->
  validation_only (params wc) = false ->
  inputs (params wv) = inputs (params wc) ->
  node_def (params wv) = node_def (params wc) ->
  ok status = false ->
  (ConvertTranspose wv = Done (status, w') ->
   ConvertTranspose wc = Done (status, wc))
  /\ (ConvertReshape wv = Done (status, w') ->
      ConvertReshape wc = Done (status, wc)).
Proof.
  intros Hv Hc Hin Hnode Hbad.
  assert (Htranspose : rejects_alike wv wc ConvertTranspose ConvertTranspose).
  { unfold ConvertTranspose. apply rejects_alike_the_params. cbv zeta.
    rewrite Hv, Hc, <- Hin, <- Hnode. repeat rejects_step. }
  assert (Hreshape : rejects_alike wv wc ConvertReshape ConvertReshape).
  { unfold ConvertReshape. apply rejects_alike_the_params. cbv zeta.
    rewrite Hv, Hc, <- Hin, <- Hnode. repeat rejects_step. }
  split; intros Hrun; [by apply (Htranspose status w') | by apply (Hreshape status w')].
Qed.

End ValidationSoundness.

(** ** Weight buffers *)

Lemma idx_upd_ne (a : list Z) (i j v : Z) :
  i <> j -> idx (upd a i v) j = idx a j.
Proof.
  intros Hne. unfold idx, upd.
  destruct (decide (0 <= j)); [|done]. destruct (decide (0 <= i)); [|done].
  rewrite !nth_lookup, list_lookup_insert_ne; [done | lia].
Qed.

Lemma idx_upd_eq (a : list Z) (i v : Z) :
  0 <= i < Z.of_nat (length a) -> idx (upd a i v) i = v.
Proof.
  intros Hi. unfold idx, upd. destruct (decide (0 <= i)); [|lia].
  rewrite nth_lookup, list_lookup_insert_eq; [done | lia].
Qed.

Lemma length_store_le (size : nat) :
  forall buf pos v, length (store_le buf pos size v) = length buf.
Proof.
  induction size as [|n IH]; intros buf pos v; simpl; [done|].
  by rewrite IH, length_upd.
Qed.

Lemma idx_store_le_outside (size : nat) :
  forall buf pos v j,
  j < pos \/ pos + Z.of_nat size <= j ->
  idx (store_le buf pos size v) j = idx buf j.
Proof.
  induction size as [|n IH]; intros buf pos v j Hj; simpl; [done|].
  rewrite IH by lia. apply idx_upd_ne. lia.
Qed.

Lemma load_store_le_same (size : nat) :
  forall buf pos v,
  0 <= pos -> pos + Z.of_nat size <= Z.of_nat (length buf) ->
  load_le (store_le buf pos size v) pos size = v mod 256 ^ Z.of_nat size.
Proof.
  induction size as [|n IH]; intros buf pos v Hpos Hlen.
  - simpl. by rewrite Z.mod_1_r.
  - cbn [load_le store_le].
    rewrite idx_store_le_outside by lia.
    rewrite idx_upd_eq by lia.
    rewrite IH by (rewrite ?length_upd; lia).
    rewrite Nat2Z.inj_succ, Z.pow_succ_r by lia.
    rewrite Z.rem_mul_r by lia. done.
Qed.

Lemma load_store_le_other (size' : nat) :
  forall size buf pos v pos',
  pos' + Z.of_nat size' <= pos \/ pos + Z.of_nat size <= pos' ->
  load_le (store_le buf pos size v) pos' size' = load_le buf pos' size'.
Proof.
  induction size' as [|n IH]; intros size buf pos v pos' Hdisjoint; simpl;
    [done|].
  rewrite idx_store_le_outside by lia. by rewrite IH by lia.
Qed.

Lemma length_store_elem (size : nat) (buf : list Z) (i v : Z) :
  length (store_elem size buf i v) = length buf.
Proof. apply length_store_le. Qed.

Lemma byte_power (size : nat) : 256 ^ Z.of_nat size = 2 ^ (8 * Z.of_nat size).
Proof. by rewrite Z.pow_mul_r by lia. Qed.

Lemma load_store_elem_same (size : nat) (buf : list Z) (i v : Z) :
  0 <= i -> (i + 1) * Z.of_nat size <= Z.of_nat (length buf) ->
  load_unsigned size (store_elem size buf i v) i = v mod 2 ^ (8 * Z.of_nat size).
Proof.
  intros Hi Hlen. unfold load_unsigned, store_elem.
  rewrite load_store_le_same by nia.
  rewrite byte_power. apply Z.mod_mod. apply Z.pow_nonzero; lia.
Qed.

Lemma load_store_elem_other (size : nat) (buf : list Z) (i j v : Z) :
  i <> j ->
  load_unsigned size (store_elem size buf i v) j = load_unsigned size buf j.
Proof.
  intros Hne. unfold load_unsigned, store_elem.
  apply load_store_le_other. nia.
Qed.

Lemma length_apply_writes (size : nat) (writes : list (Z * Z)) :
  forall buf, length (apply_writes size buf writes) = length buf.
Proof.
  induction writes as [|w writes IH]; intros buf; [done|].
  unfold apply_writes in *. simpl. by rewrite IH, length_store_elem.
Qed.

Lemma load_apply_writes_other (size : nat) (writes : list (Z * Z)) (j : Z) :
  forall buf,
  j ∉ writes.*1 ->
  load_unsigned size (apply_writes size buf writes) j = load_unsigned size buf j.
Proof.
  induction writes as [|w writes IH]; intros buf Hnot; [done|].
  apply not_elem_of_cons in Hnot as [Hne Hnot].
  unfold apply_writes in *. simpl. rewrite IH by done.
  by apply load_store_elem_other.
Qed.

Lemma load_apply_writes_written (size : nat) (writes : list (Z * Z)) :
  forall buf i v,
  NoDup writes.*1 -> (i, v) ∈ writes ->
  Forall (fun w => 0 <= w.1
                   /\ (w.1 + 1) * Z.of_nat size <= Z.of_nat (length buf))
         writes ->
  load_unsigned size (apply_writes size buf writes) i
  = v mod 2 ^ (8 * Z.of_nat size).
Proof.
  induction writes as [|w writes IH]; intros buf i v Hnodup Hin Hrange.
  - by apply elem_of_nil in Hin.
  - simpl in Hnodup. apply NoDup_cons in Hnodup as [Hfresh Hnodup].
    apply Forall_cons in Hrange as [[Hw0 Hw1] Hrange].
    change (apply_writes size buf (w :: writes))
      with (apply_writes size (store_elem size buf w.1 w.2) writes).
    apply elem_of_cons in Hin as [<- | Hin].
    + rewrite load_apply_writes_other by done.
      by apply load_store_elem_same.
    + apply IH; [done | done|].
      eapply Forall_impl; [exact Hrange|]. intros w'. simpl.
      by rewrite length_store_elem.
Qed.

Lemma transform_writes (src_size dst_size : nat) (f : Z -> Z)
    (src dst : list Z) (n : Z) :
  transform src_size dst_size f src dst n
  = apply_writes dst_size dst
      ((fun i : nat => (Z.of_nat i, f (load_unsigned src_size src (Z.of_nat i))))
       <$> seq 0 (Z.to_nat n)).
Proof. unfold transform, apply_writes. by rewrite foldl_fmap. Qed.

Lemma load_transform (src_size dst_size : nat) (f : Z -> Z)
    (src dst : list Z) (n i : Z) :
  0 <= i < n -> n * Z.of_nat dst_size <= Z.of_nat (length dst) ->
  load_unsigned dst_size (transform src_size dst_size f src dst n) i
  = f (load_unsigned src_size src i) mod 2 ^ (8 * Z.of_nat dst_size).
Proof.
  intros Hi Hlen. rewrite transform_writes.
  apply load_apply_writes_written.
  - rewrite <- list_fmap_compose.
    apply NoDup_fmap_2_strong; [|apply NoDup_seq].
    intros x y _ _. simpl. lia.
  - apply list_elem_of_fmap. exists (Z.to_nat i).
    rewrite Z2Nat.id by lia. split; [done|]. apply elem_of_seq. lia.
  - apply Forall_fmap, Forall_forall. intros x Hx. apply elem_of_seq in Hx.
    simpl. nia.
Qed.

Lemma idx_byte (buf : list Z) (j : Z) :
  Forall (fun b => 0 <= b < 256) buf -> 0 <= idx buf j < 256.
Proof.
  intros Hbytes. unfold idx. destruct (decide (0 <= j)); [|lia].
  destruct (nth_lookup_or_length buf (Z.to_nat j) 0) as [Hx | Hlen].
  - rewrite Forall_lookup in Hbytes. by apply (Hbytes _ _ Hx).
  - rewrite nth_overflow by lia. lia.
Qed.

Lemma load_le_range (buf : list Z) (size : nat) :
  Forall (fun b => 0 <= b < 256) buf ->
  forall pos, 0 <= load_le buf pos size < 256 ^ Z.of_nat size.
Proof.
  intros Hbytes. induction size as [|n IH]; intros pos.
  - simpl. lia.
  - cbn [load_le]. rewrite Nat2Z.inj_succ, Z.pow_succ_r by lia.
    pose proof (idx_byte buf pos Hbytes). pose proof (IH (pos + 1)). nia.
Qed.

Lemma load_unsigned_range (size : nat) (buf : list Z) (i : Z) :
  Forall (fun b => 0 <= b < 256) buf ->
  0 <= load_unsigned size buf i < 2 ^ (8 * Z.of_nat size).
Proof.
  intros Hbytes. unfold load_unsigned. rewrite <- byte_power.
  by apply load_le_range.
Qed.

Lemma Reorder2_writes (size : nat) (shape istrides ostrides : Z * Z)
    (idata odata : list Z) :
  Reorder2 size shape idata istrides odata ostrides
  = apply_writes size odata
      (h ← seq 0 (Z.to_nat shape.1);
       (fun w : nat =>
          (Z.of_nat h * ostrides.1 + Z.of_nat w * ostrides.2,
           load_unsigned size idata
             (Z.of_nat h * istrides.1 + Z.of_nat w * istrides.2)))
       <$> seq 0 (Z.to_nat shape.2)).
Proof.
  unfold Reorder2, apply_writes.
  generalize (seq 0 (Z.to_nat shape.1)) as hs. intros hs. revert odata.
  induction hs as [|h hs IH]; intros odata; [done|].
  rewrite bind_cons, foldl_app. cbn [foldl]. rewrite IH.
  by rewrite foldl_fmap.
Qed.

Lemma fmap_bind_list {A B C : Type} (f : B -> C) (g : A -> list B)
    (l : list A) :
  f <$> (l ≫= g) = l ≫= (fun x => f <$> g x).
Proof.
  induction l as [|x l IH]; [done|].
  by rewrite !bind_cons, fmap_app, IH.
Qed.

Lemma row_major_injective (c h1 w1 h2 w2 : Z) :
  0 <= w1 < c -> 0 <= w2 < c -> h1 * c + w1 = h2 * c + w2 ->
  h1 = h2 /\ w1 = w2.
Proof.
  intros Hw1 Hw2 Heq.
  assert (Hh : h1 = h2).
  { assert (H1 : (h1 * c + w1) / c = h1).
    { rewrite Z.div_add_l, Z.div_small by lia. lia. }
    assert (H2 : (h2 * c + w2) / c = h2).
    { rewrite Z.div_add_l, Z.div_small by lia. lia. }
    congruence. }
  subst h2. split; [done | lia].
Qed.

Lemma load_Reorder2_transposed (size : nat) (k c : Z) (idata odata : list Z)
    (h w : Z) :
  0 <= h < k -> 0 <= w < c ->
  k * c * Z.of_nat size <= Z.of_nat (length odata) ->
  load_unsigned size (Reorder2 size (k, c) idata (1, k) odata (c, 1)) (h * c + w)
  = load_unsigned size idata (h + w * k) mod 2 ^ (8 * Z.of_nat size).
Proof.
  intros Hh Hw Hlen. rewrite Reorder2_writes. cbn [fst snd].
  replace (h + w * k) with (Z.of_nat (Z.to_nat h) * 1 + Z.of_nat (Z.to_nat w) * k)
    by (rewrite !Z2Nat.id by lia; lia).
  apply load_apply_writes_written.
  - rewrite fmap_bind_list.
    apply NoDup_bind; [| |apply NoDup_seq].
    + intros h1 h2 y _ _ Hy1 Hy2.
      apply list_elem_of_fmap in Hy1 as (p1 & -> & Hp1).
      apply list_elem_of_fmap in Hp1 as (w1 & -> & Hw1).
      apply list_elem_of_fmap in Hy2 as (p2 & Heq & Hp2).
      apply list_elem_of_fmap in Hp2 as (w2 & -> & Hw2).
      apply elem_of_seq in Hw1, Hw2. simpl in Heq.
      rewrite !Z.mul_1_r in Heq.
      apply row_major_injective in Heq; lia.
    + intros h1 _. rewrite <- list_fmap_compose.
      apply NoDup_fmap_2_strong; [|apply NoDup_seq].
      intros x y _ _. simpl. lia.
  - apply list_elem_of_bind. exists (Z.to_nat h). split.
    + apply list_elem_of_fmap. exists (Z.to_nat w). split.
      * rewrite !Z2Nat.id by lia. by rewrite !Z.mul_1_r.
      * apply elem_of_seq. lia.
    + apply elem_of_seq. lia.
  - apply Forall_forall. intros p Hp.
    apply list_elem_of_bind in Hp as (h1 & Hp & Hh1).
    apply list_elem_of_fmap in Hp as (w1 & -> & Hw1).
    apply elem_of_seq in Hh1. apply elem_of_seq in Hw1. cbn [fst].
    assert (Hcell : Z.of_nat h1 * c + Z.of_nat w1 * 1 + 1 <= k * c) by nia.
    split; [nia|].
    apply Z.le_trans with (k * c * Z.of_nat size); [|done].
    apply Z.mul_le_mono_nonneg_r; lia.
Qed.

(** [ReorderCKtoKC] transposes: for weights of type float or half it swaps
    the first two extents of the output shape to (k, c) and makes element
    [h * c + w] of the output buffer equal element [h + w * k] of the input
    buffer, for every row [h < k] and column [w < c]; the type of the
    output is untouched.  For every other type it aborts. *)
Theorem ReorderCKtoKC_spec (iweights oweights : TRT_ShapedWeights.t) :
  let c := idx (d (TRT_ShapedWeights.shape_ iweights)) 0 in
  let k := idx (d (TRT_ShapedWeights.shape_ iweights)) 1 in
  (forall size : nat,
     TRT_ShapedWeights.type_ iweights = DT_FLOAT /\ size = 4%nat
     \/ TRT_ShapedWeights.type_ iweights = DT_HALF /\ size = 2%nat ->
     Forall (fun b => 0 <= b < 256) (TRT_ShapedWeights.values iweights) ->
     (2 <= length (d (TRT_ShapedWeights.shape_ oweights)))%nat ->
     k * c * Z.of_nat size
     <= Z.of_nat (length (TRT_ShapedWeights.values oweights)) ->
     exists result,
       ReorderCKtoKC iweights oweights = Done result
       /\ TRT_ShapedWeights.type_ result = TRT_ShapedWeights.type_ oweights
       /\ nbDims (TRT_ShapedWeights.shape_ result)
          = nbDims (TRT_ShapedWeights.shape_ oweights)
       /\ idx (d (TRT_ShapedWeights.shape_ result)) 0 = k
       /\ idx (d (TRT_ShapedWeights.shape_ result)) 1 = c
       /\ length (TRT_ShapedWeights.values result)
          = length (TRT_ShapedWeights.values oweights)
       /\ forall h w, 0 <= h < k -> 0 <= w < c ->
          load_unsigned size (TRT_ShapedWeights.values result) (h * c + w)
          = load_unsigned size (TRT_ShapedWeights.values iweights) (h + w * k))
  /\ (TRT_ShapedWeights.type_ iweights <> DT_FLOAT ->
      TRT_ShapedWeights.type_ iweights <> DT_HALF ->
      ReorderCKtoKC iweights oweights = Crash CheckFailed).
Proof.
  intros c k. split.
  - intros size Htype Hbytes Hrank Hlen.
    assert (Hrun : ReorderCKtoKC iweights oweights
      = Done (TRT_ShapedWeights.mk
                (mkDims (nbDims (TRT_ShapedWeights.shape_ oweights))
                   (upd (upd (d (TRT_ShapedWeights.shape_ oweights)) 0 k) 1 c))
                (TRT_ShapedWeights.type_ oweights)
                (Reorder2 size (k, c) (TRT_ShapedWeights.values iweights) (1, k)
                   (TRT_ShapedWeights.values oweights) (c, 1)))).
    { unfold ReorderCKtoKC. fold c k.
      by destruct Htype as [[-> ->] | [-> ->]]. }
    eexists. split; [exact Hrun|]. cbn [TRT_ShapedWeights.type_
      TRT_ShapedWeights.shape_ TRT_ShapedWeights.values nbDims d].
    split; [done|]. split; [done|]. split; [|split; [|split]].
    + rewrite idx_upd_ne by lia. apply idx_upd_eq. lia.
    + apply idx_upd_eq. rewrite length_upd. lia.
    + rewrite Reorder2_writes. apply length_apply_writes.
    + intros h w Hh Hw. rewrite load_Reorder2_transposed by done.
      apply Z.mod_small. by apply load_unsigned_range.
  - intros Hfloat Hhalf. unfold ReorderCKtoKC.
    by destruct (TRT_ShapedWeights.type_ iweights).
Qed.

Lemma TrtDimsNumElements_le_product (dims : Dims) :
  Dims_wf dims -> Forall (fun x => 0 <= x) (extents dims) ->
  foldr Z.mul 1 (extents dims) < 2 ^ 63 ->
  0 <= TrtDimsNumElements dims <= foldr Z.mul 1 (extents dims).
Proof.
  intros [Hrank Hlen] Hpos Hfit.
  assert (Hprod : 0 <= foldr Z.mul 1 (extents dims)).
  { clear -Hpos. induction Hpos; simpl; nia. }
  unfold TrtDimsNumElements. case_bool_decide as Hzero; [lia|].
  rewrite (TrtDimsNumElements_from_foldl _ _ 0%nat) by (simpl; lia).
  rewrite drop_0. fold (extents dims).
  destruct (decide (0 ∈ extents dims)) as [Hin | Hnot].
  - rewrite running_product_hits_zero by done. lia.
  - rewrite running_product_exact; [lia | lia | | lia].
    rewrite Forall_forall in Hpos. apply Forall_forall. intros x Hx.
    destruct (decide (x = 0)) as [-> | Hne]; [done|].
    specialize (Hpos x Hx). simpl in Hpos. lia.
Qed.

Section HalfPrecisionProperties.
Context `{TensorRT} `{ScalarOps}.

(** [ConvertFP32ToFP16] allocates from the weight store a half-precision
    buffer of the shape of its argument and fills it element by element:
    element [i] of the result is [float_to_half_rtne] of element [i] of the
    source, for every [i] below the element count.  The network and the
    other parameters are left as they were.  A negative extent in the
    shape aborts the allocation. *)
Theorem ConvertFP32ToFP16_spec (p : OpConverterParams)
    (net : nvinfer1.INetworkDefinition) (weights_src : TRT_ShapedWeights.t) :
  let shape := TRT_ShapedWeights.shape_ weights_src in
  (Dims_wf shape -> Forall (fun x => 0 <= x) (extents shape) ->
   foldr Z.mul 1 (extents shape) < 2 ^ 63 ->
   exists weights,
     ConvertFP32ToFP16 weights_src (mkWorld p net)
     = Done (weights,
             mkWorld (mkParams (converter p) (node_def p) (inputs p)
                        (outputs p) (validation_only p)
                        (TrtWeightStore.mk
                           (TrtWeightStore.store_ (weight_store p)
                            ++ [(DT_HALF, extents shape)])))
                     net)
     /\ TRT_ShapedWeights.type_ weights = DT_HALF
     /\ TRT_ShapedWeights.shape_ weights = shape
     /\ Z.of_nat (length (TRT_ShapedWeights.values weights))
        = 2 * foldr Z.mul 1 (extents shape)
     /\ forall i, 0 <= i < TRT_ShapedWeights.count weights_src ->
        load_unsigned 2 (TRT_ShapedWeights.values weights) i
        = float_to_half_rtne
            (load_unsigned 4 (TRT_ShapedWeights.values weights_src) i)
          mod 2 ^ 16)
  /\ (~ Forall (fun x => 0 <= x) (extents shape) ->
      ConvertFP32ToFP16 weights_src (mkWorld p net) = Crash CheckFailed).
Proof.
  intros shape. split.
  - intros Hwf Hpos Hfit.
    pose proof (TrtDimsNumElements_le_product shape Hwf Hpos Hfit) as Hcount.
    unfold ConvertFP32ToFP16, in_weight_store, TrtWeightStore.GetTempWeights,
      mbind, ST_bind. cbn [params network]. fold shape.
    rewrite bool_decide_eq_true_2 by done.
    eexists. split; [reflexivity|].
    cbn [TRT_ShapedWeights.type_ TRT_ShapedWeights.shape_
         TRT_ShapedWeights.values].
    split; [done|]. split; [done|].
    assert (Hbuf : Z.of_nat (length (replicate
                     (Z.to_nat (foldr Z.mul 1 (extents shape)
                                * DataTypeSize DT_HALF)) 0))
                   = 2 * foldr Z.mul 1 (extents shape)).
    { rewrite length_replicate. change (DataTypeSize DT_HALF) with 2. lia. }
    split.
    + rewrite transform_writes, length_apply_writes. exact Hbuf.
    + intros i Hi. rewrite load_transform; [done | done|].
      unfold TRT_ShapedWeights.count. fold shape. lia.
  - intros Hneg.
    unfold ConvertFP32ToFP16, in_weight_store, TrtWeightStore.GetTempWeights,
      mbind, ST_bind. cbn [params network]. fold shape.
    by rewrite bool_decide_eq_false_2 by done.
Qed.

End HalfPrecisionProperties.

(** ** Conversion of a graph to an engine *)

Section EngineProperties.
Context `{TensorRT} `{ScalarOps} `{TensorFlow} `{OtherConverters}
        `{HostText} `{EngineBuilder}.

Lemma convert_graph_nodes_app (input_shapes : list PartialTensorShape)
    (pre post : list NodeDef) :
  forall outs s status outs' s',
  convert_graph_nodes input_shapes pre outs s = Done ((status, outs'), s') ->
  ok status = true ->
  convert_graph_nodes input_shapes (pre ++ post) outs s
  = convert_graph_nodes input_shapes post outs' s'.
Proof.
  induction pre as [|n pre IH]; intros outs s status outs' s' Hrun Hok.
  - simpl in Hrun. injection Hrun as _ <- <-. done.
  - cbn [convert_graph_nodes app] in *. unfold mbind, ST_bind in *.
    destruct (convert_graph_node input_shapes n outs s)
      as [[[st o] s1]|f]; [|done].
    cbn [fst snd] in *. destruct (ok st) eqn:Hst; cbn [negb] in *.
    + by apply (IH _ _ _ _ _ Hrun).
    + injection Hrun as -> _ _. congruence.
Qed.

Lemma convert_graph_nodes_stops (input_shapes : list PartialTensorShape)
    (pre post : list NodeDef) :
  forall outs s status outs' s',
  convert_graph_nodes input_shapes pre outs s = Done ((status, outs'), s') ->
  ok status = false ->
  convert_graph_nodes input_shapes (pre ++ post) outs s
  = Done ((status, outs'), s').
Proof.
  induction pre as [|n pre IH]; intros outs s status outs' s' Hrun Hok.
  - simpl in Hrun. injection Hrun as <- _ _. done.
  - cbn [convert_graph_nodes app] in *. unfold mbind, ST_bind in *.
    destruct (convert_graph_node input_shapes n outs s)
      as [[[st o] s1]|f]; [|done].
    cbn [fst snd] in *. destruct (ok st) eqn:Hst; cbn [negb] in *.
    + by apply (IH _ _ _ _ _ Hrun).
    + done.
Qed.

Lemma convert_graph_nodes_crashes (input_shapes : list PartialTensorShape)
    (pre post : list NodeDef) :
  forall outs s f,
  convert_graph_nodes input_shapes pre outs s = Crash f ->
  convert_graph_nodes input_shapes (pre ++ post) outs s = Crash f.
Proof.
  induction pre as [|n pre IH]; intros outs s f Hrun; [done|].
  cbn [convert_graph_nodes app] in *. unfold mbind, ST_bind in *.
  destruct (convert_graph_node input_shapes n outs s)
    as [[[st o] s1]|f']; [|done].
  cbn [fst snd] in *. destruct (ok st) eqn:Hst; cbn [negb] in *.
  - by apply IH.
  - done.
Qed.

Lemma RenameAndMarkOutputTensors_ok (output_tensors : list (string * string)) :
  forall s status s',
  RenameAndMarkOutputTensors output_tensors s = Done (status, s') ->
  ok status = true -> status = Status_OK.
Proof.
  induction output_tensors as [|output rest IH]; intros s status s' Hrun Hok.
  - by injection Hrun as <- _.
  - cbn [RenameAndMarkOutputTensors] in Hrun. unfold mbind, ST_bind in Hrun.
    destruct (on_converter _ s) as [[r s1]|f]; [|done].
    destruct (ok r.1) eqn:Hr; cbn [negb] in Hrun.
    2:{ injection Hrun as <- _. congruence. }
    destruct (TRT_TensorOrWeights.is_tensor r.2); cbn [negb] in Hrun.
    2:{ by injection Hrun as <- _. }
    destruct (lift _ s1) as [[tensor s2]|f]; [|done].
    destruct tensor as [t|].
    2:{ by injection Hrun as <- _. }
    destruct (on_network (tensor_setName (Some t) output.2) s2)
      as [[[] s3]|f]; [|done].
    destruct (on_network (markOutput (Some t)) s3) as [[[] s4]|f]; [|done].
    by apply (IH _ _ _ Hrun).
Qed.

(** [ConvertGraphDefToEngine] stops at the first node that is turned
    down: when the nodes before it are handled with status OK and the
    node itself gives another status, that status is returned whatever
    follows the node, no engine is built and the flag, if there is one,
    is false.  A network the builder does not create is an Internal
    error.  Whenever the function returns, there is an engine exactly
    when the status is OK, the engine is built by the configured builder
    from the network the nodes and the output list gave, and the flag is
    true only when the status is OK or the builder failed to build the
    engine from the finished network. *)
Theorem ConvertGraphDefToEngine_outcome (gdef : list NodeDef)
    (precision_mode max_batch_size max_workspace_size_bytes : Z)
    (input_shapes : list PartialTensorShape)
    (allocator calibrator : Z) (builder : IBuilder)
    (convert_successfully : option bool) :
  let run :=
    ConvertGraphDefToEngine gdef precision_mode max_batch_size
      max_workspace_size_bytes input_shapes allocator calibrator builder
      convert_successfully in
  let configured :=
    configured_builder builder precision_mode max_batch_size
      max_workspace_size_bytes allocator calibrator in
  let start :=
    (Converter_new (bool_decide (precision_mode = FP16MODE)),
     nvinfer1.empty_network) in
  (createNetwork_returns_null configured = true ->
   run = Done (errors.Internal "Failed to create TensorRT network object",
               None, (fun _ => false) <$> convert_successfully))
  /\ (createNetwork_returns_null configured = false ->
      forall pre node post ok_status outs s status outs' s',
        gdef = pre ++ node :: post ->
        convert_graph_nodes input_shapes pre [] start
        = Done ((ok_status, outs), s) ->
        ok ok_status = true ->
        convert_graph_node input_shapes node outs s
        = Done ((status, outs'), s') ->
        ok status = false ->
        run = Done (status, None, (fun _ => false) <$> convert_successfully))
  /\ (forall status engine flag,
        run = Done (status, engine, flag) ->
        (is_Some engine <-> code status = error.OK)
        /\ (forall e, engine = Some e ->
              engine_builder e = configured
              /\ exists ok_status outs built converter,
                   convert_graph_nodes input_shapes gdef [] start
                   = Done ((ok_status, outs), built)
                   /\ RenameAndMarkOutputTensors outs built
                      = Done (Status_OK, (converter, engine_network e)))
        /\ (flag = Some true ->
            status = Status_OK
            \/ status = errors.Internal "Failed to build TensorRT engine")
        /\ (code status = error.OK ->
            flag = (fun _ => true) <$> convert_successfully)).
Proof.
  intros run configured start. subst run.
  unfold ConvertGraphDefToEngine. fold configured. fold start.
  split; [by intros ->|]. split.
  - intros -> pre node post ok_status outs s status outs' s' -> Hpre Hok
      Hnode Hbad.
    rewrite (convert_graph_nodes_app _ _ _ _ _ _ _ _ Hpre Hok).
    cbn [convert_graph_nodes]. unfold mbind, ST_bind. rewrite Hnode.
    cbn [fst snd]. rewrite Hbad. cbn [negb]. unfold mret, ST_ret.
    by rewrite Hbad.
  - intros status engine flag.
    destruct (createNetwork_returns_null configured).
    { intros [= <- <- <-]. split; [|split; [done|split]].
      - split; [by intros [? ?]|done].
      - by destruct convert_successfully.
      - done. }
    destruct (convert_graph_nodes input_shapes gdef [] start)
      as [[[st outs] built]|f] eqn:Hloop; [|done].
    destruct (ok st) eqn:Hst; cbn [negb].
    2:{ intros [= <- <- <-]. split; [|split; [done|split]].
        - split; [by intros [? ?]|].
          intros Hcode. unfold ok in Hst.
          by rewrite bool_decide_eq_true_2 in Hst.
        - by destruct convert_successfully.
        - intros Hcode. unfold ok in Hst.
          by rewrite bool_decide_eq_true_2 in Hst. }
    destruct (RenameAndMarkOutputTensors outs built)
      as [[st' [converter network]]|f] eqn:Hmark; [|done].
    destruct (ok st') eqn:Hst'; cbn [negb].
    2:{ intros [= <- <- <-]. split; [|split; [done|split]].
        - split; [by intros [? ?]|].
          intros Hcode. unfold ok in Hst'.
          by rewrite bool_decide_eq_true_2 in Hst'.
        - by destruct convert_successfully.
        - intros Hcode. unfold ok in Hst'.
          by rewrite bool_decide_eq_true_2 in Hst'. }
    destruct (buildCudaEngine_returns_null configured network) eqn:Hbuild.
    + intros [= <- <- <-]. split; [|split; [done|split]].
      * split; [by intros [? ?]|done].
      * by right.
      * done.
    + intros [= <- <- <-]. split; [|split; [|split]].
      * split; [done | by eexists].
      * intros e [= <-]. split; [done|].
        exists st, outs, built, converter. split; [done|].
        rewrite Hmark. do 2 f_equal.
        by apply (RenameAndMarkOutputTensors_ok _ _ _ _ Hmark).
      * by left.
      * by destruct convert_successfully.
Qed.

Lemma StartsWith_inv (prefix : string) :
  forall s, StartsWith s prefix = true -> exists rest, s = prefix +:+ rest.
Proof.
  induction prefix as [|p prefix IH]; intros s Hs.
  - by exists s.
  - destruct s as [|c s]; [done|]. cbn [StartsWith] in Hs.
    case_bool_decide as Hc; [|done]. subst c.
    destruct (IH _ Hs) as [rest ->]. by exists rest.
Qed.

Lemma output_name_not_input (s : string) :
  StartsWith s kOutputPHName = true -> StartsWith s kInputPHName = false.
Proof.
  intros Hs. apply StartsWith_inv in Hs as [rest ->]. reflexivity.
Qed.

Lemma output_bindings_skip (nodes : list NodeDef) (n : NodeDef)
    (outs : list (string * string)) :
  output_bindings nodes outs -> is_output_placeholder n = false ->
  output_bindings (nodes ++ [n]) outs.
Proof.
  intros (Hlen & Hslots & Hentries) Hn. split; [done|]. split.
  - intros m slot Hm Hout Hslot.
    apply elem_of_app in Hm as [Hm | Hm]; [by apply (Hslots m)|].
    apply list_elem_of_singleton in Hm. subst m. congruence.
  - intros slot entry Hentry.
    destruct (Hentries slot entry Hentry) as [[-> Hunused] | Hwritten].
    + left. split; [done|]. intros m Hm Hout.
      apply elem_of_app in Hm as [Hm | Hm]; [by apply Hunused|].
      apply list_elem_of_singleton in Hm. subst m. congruence.
    + right.
      destruct Hwritten
        as (pre & m & post & input0 & rest & -> & Hout & Hslot & Hin & -> & Hpost).
      exists pre, m, (post ++ [n]), input0, rest.
      split; [by rewrite <- app_assoc|]. do 4 (split; [done|]).
      intros m' Hm' Hout'.
      apply elem_of_app in Hm' as [Hm' | Hm']; [by apply Hpost|].
      apply list_elem_of_singleton in Hm'. subst m'. congruence.
Qed.

Lemma record_output_placeholder_ok (n : NodeDef)
    (outs o : list (string * string)) (status : Status) :
  Z.of_nat (length outs) <= 2 ^ 31 ->
  record_output_placeholder n outs = Done (status, o) -> ok status = true ->
  exists (slot : nat) input0 rest,
    output_slot n = Some (Z.of_nat slot)
    /\ input n = input0 :: rest
    /\ Z.of_nat slot < 2 ^ 31
    /\ ((length outs <= slot)%nat -> Z.of_nat slot < 2 ^ 31 - 1)
    /\ o = <[slot := (input0, name n)]>
             (outs ++ replicate (S slot - length outs) ("", "")).
Proof.
  intros Hlen Hrun Hok. unfold record_output_placeholder in Hrun.
  unfold output_slot.
  destruct (safe_strto32 _) as [k|] eqn:Hparse.
  2:{ by injection Hrun as <- _. }
  pose proof (safe_strto32_range _ _ Hparse) as Hk.
  assert (Hpow : 2 ^ 64 = 2 ^ 31 * 2 ^ 33) by done.
  assert (Hpow' : 2 ^ 63 = 2 ^ 31 * 2 ^ 32) by done.
  assert (Hp31 : 0 < 2 ^ 31) by done.
  destruct (decide (k < 0)) as [Hneg | Hpos].
  { exfalso.
    assert (Hsize : to_size_t k = 2 ^ 64 + k).
    { unfold to_size_t. symmetry. apply (Z.mod_unique _ _ (-1)); lia. }
    rewrite Hsize in Hrun.
    rewrite bool_decide_eq_true_2 in Hrun by lia.
    unfold vector_resize in Hrun.
    destruct (decide (k = -1)) as [-> | Hk1].
    - change (to_size_t (to_int (-1 + 1))) with 0 in Hrun.
      rewrite bool_decide_eq_false_2 in Hrun by lia.
      change (Z.to_nat 0) with 0%nat in Hrun. rewrite take_0 in Hrun.
      cbn [app] in Hrun. destruct (input n); [done|].
      unfold vector_at in Hrun. by destruct (to_size_t (-1)).
    - assert (Hnext : to_size_t (to_int (k + 1)) = 2 ^ 64 + (k + 1)).
      { unfold to_int. rewrite wrap_small by lia.
        unfold to_size_t. symmetry. apply (Z.mod_unique _ _ (-1)); lia. }
      rewrite Hnext in Hrun.
      by rewrite bool_decide_eq_true_2 in Hrun by lia. }
  assert (Hsize : to_size_t k = k).
  { unfold to_size_t. apply Z.mod_small. lia. }
  rewrite Hsize in Hrun.
  exists (Z.to_nat k). rewrite Z2Nat.id by lia.
  case_bool_decide as Hshort.
  - unfold vector_resize in Hrun.
    destruct (decide (k = 2 ^ 31 - 1)) as [-> | Hmax].
    { exfalso.
      change (to_size_t (to_int (2 ^ 31 - 1 + 1))) with (2 ^ 64 - 2 ^ 31) in Hrun.
      by rewrite bool_decide_eq_true_2 in Hrun by lia. }
    assert (Hnext : to_size_t (to_int (k + 1)) = k + 1).
    { unfold to_int. rewrite wrap_small by lia.
      unfold to_size_t. apply Z.mod_small. lia. }
    rewrite Hnext in Hrun.
    rewrite bool_decide_eq_false_2 in Hrun by lia.
    destruct (input n) as [|input0 rest]; [done|].
    destruct (vector_at _ k); [|done].
    injection Hrun as _ <-. exists input0, rest.
    split; [done|]. split; [done|]. split; [lia|]. split; [lia|].
    rewrite take_ge by lia.
    by replace (Z.to_nat (k + 1) - length outs)%nat
      with (S (Z.to_nat k) - length outs)%nat by lia.
  - destruct (input n) as [|input0 rest]; [done|].
    destruct (vector_at _ k); [|done].
    injection Hrun as _ <-. exists input0, rest.
    split; [done|]. split; [done|]. split; [lia|]. split; [lia|].
    replace (S (Z.to_nat k) - length outs)%nat with 0%nat by lia.
    by rewrite app_nil_r.
Qed.

Lemma output_bindings_record (nodes : list NodeDef) (n : NodeDef)
    (outs : list (string * string)) (slot : nat) (input0 : string)
    (rest : list string) :
  output_bindings nodes outs ->
  is_output_placeholder n = true ->
  output_slot n = Some (Z.of_nat slot) ->
  input n = input0 :: rest ->
  Z.of_nat slot < 2 ^ 31 ->
  ((length outs <= slot)%nat -> Z.of_nat slot < 2 ^ 31 - 1) ->
  output_bindings (nodes ++ [n])
    (<[slot := (input0, name n)]>
       (outs ++ replicate (S slot - length outs) ("", ""))).
Proof.
  intros (Hlen & Hslots & Hentries) Hout Hslot Hin Hrange Hgrow.
  set (resized := outs ++ replicate (S slot - length outs) ("", "")).
  assert (Hresized : (slot < length resized)%nat).
  { unfold resized. rewrite length_app, length_replicate. lia. }
  assert (Hlonger : (length outs <= length resized)%nat).
  { unfold resized. rewrite length_app. lia. }
  split; [|split].
  - rewrite length_insert. unfold resized.
    rewrite length_app, length_replicate.
    destruct (decide (length outs <= slot)%nat) as [Hshort|Hlong]; [|lia].
    specialize (Hgrow Hshort). lia.
  - intros m k Hm Hmout Hmslot. rewrite length_insert.
    apply elem_of_app in Hm as [Hm | Hm].
    + specialize (Hslots m k Hm Hmout Hmslot). lia.
    + apply list_elem_of_singleton in Hm. subst m.
      rewrite Hslot in Hmslot. injection Hmslot as <-. lia.
  - intros j entry Hentry.
    destruct (decide (j = slot)) as [-> | Hne].
    + rewrite list_lookup_insert_eq in Hentry by done.
      injection Hentry as <-. right.
      exists nodes, n, [], input0, rest. do 5 (split; [done|]).
      intros m Hm. by apply elem_of_nil in Hm.
    + rewrite list_lookup_insert_ne in Hentry by done.
      assert (Hn : output_slot n <> Some (Z.of_nat j)).
      { rewrite Hslot. intros [= Heq]. lia. }
      destruct (decide (j < length outs)%nat) as [Hj | Hj].
      * unfold resized in Hentry. rewrite lookup_app_l in Hentry by done.
        destruct (Hentries j entry Hentry) as [[-> Hunused] | Hwritten].
        -- left. split; [done|]. intros m Hm Hmout.
           apply elem_of_app in Hm as [Hm | Hm]; [by apply Hunused|].
           apply list_elem_of_singleton in Hm. by subst m.
        -- right.
           destruct Hwritten
             as (pre & m & post & i0 & r & -> & Hmout & Hmslot & Hmin & ->
                 & Hpost).
           exists pre, m, (post ++ [n]), i0, r.
           split; [by rewrite <- app_assoc|]. do 4 (split; [done|]).
           intros m' Hm' Hout'.
           apply elem_of_app in Hm' as [Hm' | Hm']; [by apply Hpost|].
           apply list_elem_of_singleton in Hm'. by subst m'.
      * unfold resized in Hentry. rewrite lookup_app_r in Hentry by lia.
        apply lookup_replicate in Hentry as [-> _].
        left. split; [done|]. intros m Hm Hmout Hmslot.
        apply elem_of_app in Hm as [Hm | Hm].
        -- specialize (Hslots m _ Hm Hmout Hmslot). lia.
        -- apply list_elem_of_singleton in Hm. by subst m.
Qed.

Lemma convert_graph_node_bindings (input_shapes : list PartialTensorShape)
    (nodes : list NodeDef) (n : NodeDef) (outs o : list (string * string))
    (s s' : Converter * nvinfer1.INetworkDefinition) (status : Status) :
  output_bindings nodes outs ->
  convert_graph_node input_shapes n outs s = Done ((status, o), s') ->
  ok status = true ->
  output_bindings (nodes ++ [n]) o.
Proof.
  intros Hinv Hrun Hok. unfold convert_graph_node in Hrun.
  destruct (StartsWith (name n) kInputPHName
            && bool_decide (op n = "Placeholder")) eqn:Hinput.
  - unfold mbind, ST_bind in Hrun.
    destruct (convert_input_placeholder input_shapes n s)
      as [[st s1]|f]; [|done].
    injection Hrun as _ <- _. apply output_bindings_skip; [done|].
    unfold is_output_placeholder.
    apply andb_true_iff in Hinput as [Hprefix _].
    destruct (StartsWith (name n) kOutputPHName) eqn:Hout; [|done].
    apply output_name_not_input in Hout. congruence.
  - destruct (StartsWith (name n) kOutputPHName
              && bool_decide (op n = "Identity")) eqn:Houtput.
    + unfold lift in Hrun.
      destruct (record_output_placeholder n outs) as [[st o']|f] eqn:Hrecord;
        [|done].
      injection Hrun as -> -> _.
      pose proof Hinv as (Hlen & _).
      destruct (record_output_placeholder_ok _ _ _ _ Hlen Hrecord Hok)
        as (slot & input0 & rest & Hslot & Hin & Hrange & Hgrow & ->).
      by apply (output_bindings_record _ _ _ _ _ rest).
    + unfold mbind, ST_bind in Hrun.
      destruct (ConvertNode n s) as [[st s1]|f]; [|done].
      injection Hrun as _ <- _. by apply output_bindings_skip.
Qed.

Lemma convert_graph_nodes_bindings (input_shapes : list PartialTensorShape)
    (nodes : list NodeDef) :
  forall handled outs s status table s',
  output_bindings handled outs ->
  convert_graph_nodes input_shapes nodes outs s = Done ((status, table), s') ->
  ok status = true ->
  output_bindings (handled ++ nodes) table.
Proof.
  induction nodes as [|n nodes IH];
    intros handled outs s status table s' Hinv Hrun Hok.
  - injection Hrun as _ <- _. by rewrite app_nil_r.
  - cbn [convert_graph_nodes] in Hrun. unfold mbind, ST_bind in Hrun.
    destruct (convert_graph_node input_shapes n outs s)
      as [[[st o] s1]|f] eqn:Hnode; [|done].
    cbn [fst snd] in Hrun. destruct (ok st) eqn:Hst; cbn [negb] in Hrun.
    2:{ injection Hrun as -> _ _. congruence. }
    replace (handled ++ n :: nodes) with ((handled ++ [n]) ++ nodes)
      by by rewrite <- app_assoc.
    apply (IH _ _ _ _ _ _ (convert_graph_node_bindings _ _ _ _ _ _ _ _
                             Hinv Hnode Hst) Hrun Hok).
Qed.

Lemma output_bindings_start : output_bindings [] [].
Proof.
  split; [done|]. split.
  - intros n slot Hn. by apply elem_of_nil in Hn.
  - intros slot entry Hentry. done.
Qed.

(** The list of outputs a successful pass over the nodes of the graph
    leaves is indexed by slot number, not by the order of the nodes: the
    slot number of every output placeholder is within the list; a slot
    that no output placeholder names holds a pair of empty names; every
    other slot holds the first input and the name of the last output
    placeholder with this slot number, an earlier one being
    overwritten. *)
Theorem output_slots_spec (input_shapes : list PartialTensorShape)
    (nodes : list NodeDef) (s s' : Converter * nvinfer1.INetworkDefinition)
    (status : Status) (output_tensors : list (string * string)) :
  convert_graph_nodes input_shapes nodes [] s
  = Done ((status, output_tensors), s') ->
  ok status = true ->
  (forall n slot, n ∈ nodes -> is_output_placeholder n = true ->
     output_slot n = Some slot ->
     0 <= slot < Z.of_nat (length output_tensors))
  /\ (forall slot entry, output_tensors !! slot = Some entry ->
        (entry = ("", "") /\ slot_unused nodes slot)
        \/ slot_written nodes slot entry).
Proof.
  intros Hrun Hok.
  by destruct (convert_graph_nodes_bindings _ _ _ _ _ _ _ _
                 output_bindings_start Hrun Hok) as (_ & ? & ?).
Qed.

Lemma RenameAndMarkOutputTensors_accepts (this : Converter) :
  forall output_tensors net status this' net',
  RenameAndMarkOutputTensors output_tensors (this, net)
  = Done (status, (this', net')) ->
  ok status = true ->
  exists renamed,
    Forall2 (output_resolves this net) output_tensors renamed
    /\ this' = this /\ net' = with_outputs net renamed.
Proof.
  induction output_tensors as [|output output_tensors IH];
    intros net status this' net' Hrun Hok.
  - injection Hrun as _ <- <-. exists []. split; [constructor|].
    by rewrite with_outputs_nil.
  - cbn [RenameAndMarkOutputTensors] in Hrun.
    unfold mbind at 1, ST_bind at 1 in Hrun.
    unfold on_converter at 1, GetTensorOrWeights in Hrun.
    destruct (trt_tensors_ this !! output.1) as [v|] eqn:Hv.
    2:{ cbn [fst snd] in Hrun. injection Hrun as <- _ _. done. }
    cbn [fst snd] in Hrun. change (negb (ok Status_OK)) with false in Hrun.
    cbv iota in Hrun.
    destruct (TRT_TensorOrWeights.is_tensor v) eqn:His; cbn [negb] in Hrun.
    2:{ injection Hrun as <- _ _. done. }
    unfold TRT_TensorOrWeights.tensor in Hrun. rewrite His in Hrun.
    rewrite (ST_bind_Done (S:=Converter * nvinfer1.INetworkDefinition) _ _
               (this, net) (this, net) (TRT_TensorOrWeights.tensor_ v))
      in Hrun by done.
    destruct (TRT_TensorOrWeights.tensor_ v) as [t|] eqn:Ht.
    2:{ injection Hrun as <- _ _. done. }
    destruct (decide (t < length (nvinfer1.tensor_names net))%nat)
      as [Hlive | Hdead].
    + rewrite mark_one in Hrun by done.
      destruct (IH _ _ _ _ Hrun Hok) as (renamed & Hall & -> & ->).
      exists ((t, output.2) :: renamed). split; [|split; [done|]].
      * constructor.
        -- exists v. by repeat split.
        -- eapply Forall2_impl; [exact Hall|].
           intros o r' (v' & ? & ? & ? & Hlive' & ?). exists v'.
           by rewrite length_names_with_outputs in Hlive'.
      * by rewrite with_outputs_cons.
    + exfalso. unfold mbind at 1, ST_bind at 1 in Hrun.
      unfold on_network at 1, tensor_setName in Hrun.
      unfold mbind at 1, ST_bind at 1, deref in Hrun.
      by rewrite bool_decide_eq_false_2 in Hrun by done.
Qed.

(** When [ConvertGraphDefToEngine] returns OK, the pass over the nodes
    has succeeded and every slot of the list of outputs resolves to a
    live tensor of the symbol table: the engine is built from the
    network of that pass with these tensors given the names of the
    placeholders and marked as outputs in the order of the slots.  A
    slot that no output placeholder names resolves the empty name, so
    that a graph whose slot numbers leave a gap is converted only when a
    tensor is bound under the empty name. *)
Theorem ConvertGraphDefToEngine_success (gdef : list NodeDef)
    (precision_mode max_batch_size max_workspace_size_bytes : Z)
    (input_shapes : list PartialTensorShape)
    (allocator calibrator : Z) (builder : IBuilder)
    (convert_successfully : option bool)
    (status : Status) (engine : option ICudaEngine) (flag : option bool) :
  ConvertGraphDefToEngine gdef precision_mode max_batch_size
    max_workspace_size_bytes input_shapes allocator calibrator builder
    convert_successfully
  = Done (status, engine, flag) ->
  code status = error.OK ->
  exists e ok_status output_tensors converter net renamed,
    engine = Some e
    /\ convert_graph_nodes input_shapes gdef []
         (Converter_new (bool_decide (precision_mode = FP16MODE)),
          nvinfer1.empty_network)
       = Done ((ok_status, output_tensors), (converter, net))
    /\ Forall2 (output_resolves converter net) output_tensors renamed
    /\ engine_network e = with_outputs net renamed
    /\ (forall slot, (slot < length output_tensors)%nat ->
          slot_unused gdef slot ->
          exists v, trt_tensors_ converter !! "" = Some v).
Proof.
  unfold ConvertGraphDefToEngine. intros Hrun Hcode.
  destruct (createNetwork_returns_null _).
  { injection Hrun as <- _ _. done. }
  destruct (convert_graph_nodes input_shapes gdef [] _)
    as [[[st outs] [converter net]]|f] eqn:Hloop; [|done].
  destruct (ok st) eqn:Hst; cbn [negb] in Hrun.
  2:{ injection Hrun as <- _ _. unfold ok in Hst.
      by rewrite bool_decide_eq_true_2 in Hst. }
  destruct (RenameAndMarkOutputTensors outs (converter, net))
    as [[st' [converter' net']]|f] eqn:Hmark; [|done].
  destruct (ok st') eqn:Hst'; cbn [negb] in Hrun.
  2:{ injection Hrun as <- _ _. unfold ok in Hst'.
      by rewrite bool_decide_eq_true_2 in Hst'. }
  destruct (buildCudaEngine_returns_null _ net').
  { injection Hrun as <- _ _. done. }
  injection Hrun as _ <- _.
  destruct (RenameAndMarkOutputTensors_accepts _ _ _ _ _ _ Hmark Hst')
    as (renamed & Hall & -> & ->).
  eexists _, st, outs, converter, net, renamed.
  split; [done|]. split; [done|]. split; [done|]. split; [done|].
  intros slot Hslot Hunused.
  destruct (lookup_lt_is_Some_2 outs slot Hslot) as [entry Hentry].
  destruct (Forall2_lookup_l _ _ _ _ _ Hall Hentry)
    as (r & _ & v & Hv & _).
  destruct (convert_graph_nodes_bindings _ _ [] _ _ _ _ _
              output_bindings_start Hloop Hst) as (_ & _ & Hentries).
  cbn [app] in Hentries.
  destruct (Hentries slot entry Hentry) as [[-> _] | Hwritten].
  - by exists v.
  - exfalso.
    destruct Hwritten as (pre & n & post & input0 & rest & Heq & Hout & Hn & _).
    subst gdef. apply (Hunused n); [|done..].
    apply elem_of_app. right. apply list_elem_of_here.
Qed.

Lemma ValidateInputProperties_rank (shape : PartialTensorShape)
    (dtype : DataType) (trt_dtype : nvinfer1.DataType) :
  ok (ValidateInputProperties shape dtype trt_dtype).1 = true ->
  0 <= PartialTensorShape_dims shape <= 9.
Proof.
  unfold ValidateInputProperties.
  destruct (ConvertDType dtype trt_dtype) as [status t].
  destruct (ok status) eqn:Hok; cbn [negb fst]; [|congruence].
  case_bool_decide; [done|]. case_bool_decide; [done|]. lia.
Qed.

Lemma copied_extents (shape : list Z) (a0 : list Z) (n : nat) :
  (n < length shape)%nat -> (n <= length a0)%nat ->
  let filled :=
    foldl (fun a i =>
             upd a (Z.of_nat i - 1)
                 (to_int (PartialTensorShape_dim_size (Some shape) (Z.of_nat i))))
          a0 (seq 1 n) in
  length filled = length a0
  /\ take n filled = to_int <$> take n (drop 1 shape).
Proof.
  induction n as [|n IH]; intros Hshape Hlen; [done|].
  destruct IH as [IHlen IHtake]; [lia..|].
  cbv zeta. rewrite seq_S, foldl_app. cbn [foldl].
  set (filled := foldl _ a0 (seq 1 n)) in *.
  replace (Z.of_nat (1 + n) - 1) with (Z.of_nat n) by lia.
  unfold upd. destruct (decide (0 <= Z.of_nat n)); [|lia].
  rewrite Nat2Z.id. split; [by rewrite length_insert|].
  destruct (lookup_lt_is_Some_2 shape (S n)) as [x Hx]; [lia|].
  assert (Hsize : PartialTensorShape_dim_size (Some shape) (Z.of_nat (1 + n)) = x).
  { unfold PartialTensorShape_dim_size. cbn [default]. by apply idx_lookup. }
  rewrite Hsize.
  rewrite (take_S_r _ _ (to_int x)) by (apply list_lookup_insert_eq; lia).
  rewrite take_insert_ge, IHtake by lia.
  rewrite (take_S_r (drop 1 shape) n x) by (by rewrite lookup_drop).
  by rewrite fmap_app.
Qed.

(** An input placeholder is registered under its own name with the
    element type of its attribute, the extents of its shape past the
    batch dimension and the batch extent as batch size, which may be
    unknown.  A suffix that is no number is an InvalidArgument; a slot
    number outside of the list of shapes and a node without the
    attribute abort; a shape or type the validation rejects ends with
    the code of the validation, and nothing is added to the network. *)
Theorem convert_input_placeholder_spec (input_shapes : list PartialTensorShape)
    (node_def : NodeDef) (s : Converter * nvinfer1.INetworkDefinition) :
  Z.of_nat (length input_shapes) < 2 ^ 63 ->
  let text := c_str_from (name node_def) (String.length kInputPHName) in
  let run := convert_input_placeholder input_shapes node_def s in
  (safe_strto32 text = None ->
   exists msg, run = Done (errors.InvalidArgument msg, s))
  /\ (forall slot, safe_strto32 text = Some slot ->
      (slot < 0 \/ Z.of_nat (length input_shapes) <= slot ->
       run = Crash OutOfBounds)
      /\ (forall shape,
            0 <= slot -> input_shapes !! Z.to_nat slot = Some shape ->
            (attr node_def !! "dtype" = None -> run = Crash CheckFailed)
            /\ (forall a, attr node_def !! "dtype" = Some a ->
                let tf_dtype :=
                  match a with attr_type ty => ty | _ => DT_INVALID end in
                let validation :=
                  ValidateInputProperties shape tf_dtype nvinfer1.kFLOAT in
                (ok validation.1 = false ->
                 exists msg,
                   run = Done (mkStatus (code validation.1) msg, s))
                /\ (ok validation.1 = true ->
                    forall batch dims, shape = Some (batch :: dims) ->
                    exists input_dim,
                      nbDims input_dim = Z.of_nat (length dims)
                      /\ extents input_dim = to_int <$> dims
                      /\ run = AddInputTensor (name node_def) validation.2
                                 input_dim (to_int batch) s)))).
Proof.
  intros Hshapes text run. subst run. unfold convert_input_placeholder.
  fold text. split.
  { intros ->. by eexists. }
  intros slot Hparse. rewrite Hparse.
  pose proof (safe_strto32_range _ _ Hparse) as Hrange.
  assert (Hpow : 2 ^ 64 = 2 ^ 31 * 2 ^ 33) by done.
  assert (Hp31 : 0 < 2 ^ 31) by done.
  unfold mbind, ST_bind, lift, vector_at.
  split.
  - intros Hout.
    rewrite lookup_ge_None_2; [done|].
    destruct Hout as [Hneg | Hbig].
    + assert (Hsize : to_size_t slot = 2 ^ 64 + slot).
      { unfold to_size_t. symmetry. apply (Z.mod_unique _ _ (-1)); lia. }
      rewrite Hsize. lia.
    + assert (Hsize : to_size_t slot = slot).
      { unfold to_size_t. apply Z.mod_small. lia. }
      rewrite Hsize. lia.
  - intros shape Hpos Hshape.
    assert (Hsize : to_size_t slot = slot).
    { unfold to_size_t. apply Z.mod_small. lia. }
    rewrite Hsize, Hshape.
    split.
    { intros ->. done. }
    intros a Ha. cbv zeta. rewrite Ha.
    set (tf_dtype := match a with attr_type ty => ty | _ => DT_INVALID end).
    replace (match a with
             | attr_type ty => Done ty
             | _ => Done DT_INVALID
             end) with (Done tf_dtype) by (by destruct a).
    destruct (ValidateInputProperties shape tf_dtype nvinfer1.kFLOAT)
      as [status dtype] eqn:Hvalidation.
    cbn [fst snd]. split.
    + intros ->. cbn [negb]. by eexists.
    + intros Hok batch dims ->. rewrite Hok. cbn [negb].
      rewrite bool_decide_eq_false_2
        by (unfold PartialTensorShape_dims; simpl; lia).
      eexists. split; [|split; [|reflexivity]].
      * cbn [nbDims]. unfold PartialTensorShape_dims. simpl. lia.
      * unfold extents. cbn [nbDims d].
        assert (Hrank : (length dims <= 8)%nat).
        { pose proof (ValidateInputProperties_rank (Some (batch :: dims))
                        tf_dtype nvinfer1.kFLOAT) as Hrank.
          rewrite Hvalidation in Hrank. specialize (Hrank Hok).
          unfold PartialTensorShape_dims in Hrank. simpl in Hrank. lia. }
        replace (Z.to_nat (PartialTensorShape_dims (Some (batch :: dims)) - 1))
          with (length dims)
          by (unfold PartialTensorShape_dims; simpl; lia).
        replace (Z.to_nat (PartialTensorShape_dims (Some (batch :: dims))) - 1)%nat
          with (length dims)
          by (unfold PartialTensorShape_dims; simpl; lia).
        destruct (copied_extents (batch :: dims) (d Dims_fresh) (length dims))
          as [_ Htake];
          [simpl; lia | change (length (d Dims_fresh)) with 8%nat; lia |].
        rewrite Htake. cbn [drop]. rewrite drop_0. by rewrite take_ge by lia.
Qed.

End EngineProperties.

(** ** What validation accepts, construction builds *)

Section TransposeProperties.
Context `{TensorRT}.

Lemma TransposeTensor_past_checks (t : nat) (rest : list Z)
    (previous : nvinfer1.ITensorPtr) (net : nvinfer1.INetworkDefinition) :
  (t < length (nvinfer1.tensor_names net))%nat ->
  to_size_t (Z.of_nat (length (0 :: rest)) - 1)
  = to_size_t (nbDims (getDimensions net t)) ->
  let rank := nbDims (getDimensions net t) in
  let added := nvinfer1.IShuffleLayer t None None in
  (add_returns_null net added = false ->
   TransposeTensor (Some t) (0 :: rest) previous net
   = Done ((Status_OK, Some (length (nvinfer1.tensor_names net))),
           with_configured_layer net added
             (nvinfer1.IShuffleLayer t
                (Some (batch_adjusted_order (0 :: rest) rank))
                (Some (zero_reshape_dims rank)))))
  /\ (add_returns_null net added = true ->
      TransposeTensor (Some t) (0 :: rest) previous net
      = Done ((TFTRT_INTERNAL_ERROR_AT_NODE "TransposeTensor"
                 "TF-TRT Internal Transpose", previous), net)).
Proof.
  intros Hlive Hsize rank added. unfold TransposeTensor.
  rewrite (ST_bind_Done _ _ _ _ _ (tensor_getDimensions_valid net t Hlive)).
  rewrite bool_decide_eq_false_2 by tauto.
  rewrite bool_decide_eq_false_2 by tauto.
  rewrite (ST_bind_Done _ _ _ _ _ (deref_valid net t Hlive)).
  split; intros Hadd.
  - rewrite (ST_bind_Done _ _ _ _ _ (addLayer_accepted _ _ Hadd)).
    rewrite with_layer_configured.
    rewrite (ST_bind_Done _ _ _ _ _ (setLayer_last _ _ _ _)).
    rewrite (ST_bind_Done _ _ _ _ _ (setLayer_last _ _ _ _)).
    by rewrite (ST_bind_Done _ _ _ _ _ (getOutput_last _ _ _)).
  - by rewrite (ST_bind_Done _ _ _ _ _ (addLayer_refused _ _ Hadd)).
Qed.

Lemma ConvertTranspose_checks (p : OpConverterParams)
    (net : nvinfer1.INetworkDefinition) (status : Status) (w' : World) :
  ConvertTranspose (mkWorld p net) = Done (status, w') -> ok status = true ->
  exists input0 input1 t rest,
    inputs p = [input0; input1]
    /\ TRT_TensorOrWeights.is_tensor input0 = true
    /\ TRT_TensorOrWeights.is_weights input1 = true
    /\ TRT_TensorOrWeights.tensor_ input0 = Some t
    /\ (t < length (nvinfer1.tensor_names net))%nat
    /\ transpose_perm (TRT_TensorOrWeights.weights_ input1) = 0 :: rest
    /\ to_size_t (Z.of_nat (length (0 :: rest)) - 1)
       = to_size_t (nbDims (getDimensions net t)).
Proof.
  intros Hrun Hok. unfold ConvertTranspose in Hrun.
  rewrite bind_the_params in Hrun. cbn [params] in Hrun.
  case_bool_decide as Hlen.
  { injection Hrun as <- _. done. }
  destruct (inputs p) as [|input0 [|input1 [|? ?]]] eqn:Hinputs;
    try discriminate Hlen. clear Hlen.
  unfold inputs_at in Hrun. cbn [lookup list_lookup] in Hrun.
  rewrite (ST_bind_Done (S:=World) _ _ _ _ _ (ST_ret_Done _ _)) in Hrun.
  destruct (TRT_TensorOrWeights.is_tensor input0) eqn:His0; cbn [negb] in Hrun.
  2:{ injection Hrun as <- _. done. }
  rewrite (ST_bind_Done (S:=World) _ _ _ _ _ (ST_ret_Done _ _)) in Hrun.
  destruct (TRT_TensorOrWeights.is_weights input1) eqn:His1; cbn [negb] in Hrun.
  2:{ injection Hrun as <- _. done. }
  unfold TRT_TensorOrWeights.weights, TRT_TensorOrWeights.tensor in Hrun.
  rewrite His0, His1 in Hrun.
  rewrite (ST_bind_Done (S:=World) _ _ _ _ _ (lift_Done _ _ _ eq_refl)) in Hrun.
  rewrite (ST_bind_Done (S:=World) _ _ _ _ _ (lift_Done _ _ _ eq_refl)) in Hrun.
  fold (transpose_perm (TRT_TensorOrWeights.weights_ input1)) in Hrun.
  unfold mbind at 1, ST_bind at 1, in_network at 1 in Hrun.
  cbn [network params] in Hrun.
  destruct (tensor_getDimensions (TRT_TensorOrWeights.tensor_ input0) net)
    as [[dims net']|f] eqn:Hdims; [|done].
  apply tensor_getDimensions_Done in Hdims as (t & Ht & Hlive & -> & ->).
  case_bool_decide as Hsize.
  { injection Hrun as <- _. done. }
  destruct (transpose_perm (TRT_TensorOrWeights.weights_ input1))
    as [|first rest] eqn:Hperm; [done|].
  case_bool_decide as Hfirst.
  { injection Hrun as <- _. done. }
  subst first. exists input0, input1, t, rest. by repeat split.
Qed.

(** What the validation of a Transpose node accepts, its construction
    builds: when [ConvertTranspose] returns OK in validation-only mode,
    it has changed nothing, and in construction mode, for the same node,
    the same inputs and the same network, it adds one shuffle layer set
    to the permutation without the batch dimension and returns its
    output as the only output of the node; the one way left to fail is
    the library refusing the layer, an Internal error with nothing
    changed. *)
Theorem ConvertTranspose_accepted_is_built (pv pc : OpConverterParams)
    (net : nvinfer1.INetworkDefinition) (c : Converter)
    (outs : list TRT_TensorOrWeights.t) (status : Status) (w' : World) :
  validation_only pv = true -> validation_only pc = false ->
  inputs pv = inputs pc ->
  converter pc = Some c -> outputs pc = Some outs ->
  ConvertTranspose (mkWorld pv net) = Done (status, w') ->
  ok status = true ->
  status = Status_OK /\ w' = mkWorld pv net
  /\ exists input0 input1 t,
       inputs pc = [input0; input1]
       /\ TRT_TensorOrWeights.tensor_ input0 = Some t
       /\ let perm := transpose_perm (TRT_TensorOrWeights.weights_ input1) in
          let rank := nbDims (getDimensions net t) in
          let added := nvinfer1.IShuffleLayer t None None in
          (add_returns_null net added = false ->
           ConvertTranspose (mkWorld pc net)
           = Done (Status_OK,
                   with_output pc outs
                     (TRT_TensorOrWeights.of_tensor
                        (Some (length (nvinfer1.tensor_names net)))
                        TRT_TensorOrWeights.unknown_batch_size)
                     (with_configured_layer net added
                        (nvinfer1.IShuffleLayer t
                           (Some (batch_adjusted_order perm rank))
                           (Some (zero_reshape_dims rank))))))
          /\ (add_returns_null net added = true ->
              exists msg,
                ConvertTranspose (mkWorld pc net)
                = Done (errors.Internal msg, mkWorld pc net)).
Proof.
  intros Hv Hc Hinputs Hconv Houts Hrun Hok.
  destruct (ConvertTranspose_checks _ _ _ _ Hrun Hok)
    as (input0 & input1 & t & rest & Hin & His0 & His1 & Ht & Hlive & Hperm
        & Hsize).
  assert (Hprefix : forall p, inputs p = [input0; input1] ->
            ConvertTranspose (mkWorld p net)
            = (if validation_only p then mret Status_OK
               else
                 TF_RETURN_IF_ERROR_out
                   (via_converter (TransposeTensor (Some t) (0 :: rest) None))
                   (fun output_tensor =>
                      outputs_push_back
                        (TRT_TensorOrWeights.of_tensor output_tensor
                           TRT_TensorOrWeights.unknown_batch_size);;
                      mret Status_OK)) (mkWorld p net)).
  { intros p Hp. unfold ConvertTranspose.
    rewrite bind_the_params. cbn [params]. rewrite Hp.
    rewrite bool_decide_eq_false_2 by (simpl; lia).
    unfold inputs_at. cbn [lookup list_lookup].
    rewrite (ST_bind_Done (S:=World) _ _ _ _ _ (ST_ret_Done _ _)).
    rewrite His0. cbn [negb].
    rewrite (ST_bind_Done (S:=World) _ _ _ _ _ (ST_ret_Done _ _)).
    rewrite His1. cbn [negb].
    unfold TRT_TensorOrWeights.weights, TRT_TensorOrWeights.tensor.
    rewrite His0, His1.
    rewrite (ST_bind_Done (S:=World) _ _ _ _ _ (lift_Done _ _ _ eq_refl)).
    rewrite (ST_bind_Done (S:=World) _ _ _ _ _ (lift_Done _ _ _ eq_refl)).
    fold (transpose_perm (TRT_TensorOrWeights.weights_ input1)).
    rewrite Ht, Hperm.
    rewrite (ST_bind_Done (S:=World) _ _ _ _ _
               (in_network_getDimensions p net t Hlive)).
    rewrite bool_decide_eq_false_2 by tauto.
    by rewrite bool_decide_eq_false_2 by tauto. }
  rewrite (Hprefix pv Hin), Hv in Hrun. injection Hrun as <- <-.
  split; [done|]. split; [done|].
  rewrite Hinputs in Hin.
  exists input0, input1, t. split; [done|]. split; [done|]. cbv zeta.
  rewrite (Hprefix pc Hin), Hc, Hperm.
  destruct (TransposeTensor_past_checks t rest None net Hlive Hsize)
    as [Haccepted Hrefused].
  unfold TF_RETURN_IF_ERROR_out.
  split; intros Hadd.
  - rewrite (ST_bind_Done (S:=World) _ _ _ _ _
               (eq_trans (via_converter_some _ pc net c Hconv)
                         (in_network_Done _ pc _ _ _ (Haccepted Hadd)))).
    cbn [fst snd]. change (ok Status_OK) with true. cbv iota.
    by rewrite (ST_bind_Done (S:=World) _ _ _ _ _
                  (outputs_push_back_some pc _ outs _ Houts)).
  - rewrite (ST_bind_Done (S:=World) _ _ _ _ _
               (eq_trans (via_converter_some _ pc net c Hconv)
                         (in_network_Done _ pc _ _ _ (Hrefused Hadd)))).
    by eexists.
Qed.

End TransposeProperties.

(** ** Constants given by one value *)

Lemma GetTrtDimsForTensor_filled (shape a0 : list Z) (n : nat) :
  (n <= length shape)%nat -> (n <= length a0)%nat ->
  let filled :=
    foldl (fun a i => upd a (Z.of_nat i) (to_int (nth i shape 0)))
          a0 (seq 0 n) in
  length filled = length a0 /\ take n filled = to_int <$> take n shape.
Proof.
  induction n as [|n IH]; intros Hshape Hlen; [done|].
  destruct IH as [IHlen IHtake]; [lia..|].
  cbv zeta. rewrite seq_S, foldl_app. cbn [foldl].
  set (filled := foldl _ a0 (seq 0 n)) in *.
  change (0 + n)%nat with n.
  unfold upd. destruct (decide (0 <= Z.of_nat n)); [|lia].
  rewrite Nat2Z.id. split; [by rewrite length_insert|].
  destruct (lookup_lt_is_Some_2 shape n) as [x Hx]; [lia|].
  rewrite (nth_lookup_Some _ _ 0 _ Hx).
  rewrite (take_S_r _ _ (to_int x)) by (apply list_lookup_insert_eq; lia).
  rewrite take_insert_ge, IHtake by lia.
  rewrite (take_S_r shape n x) by done.
  by rewrite fmap_app.
Qed.

Lemma GetTrtDimsForTensor_extents (shape : list Z) :
  (length shape <= 8)%nat ->
  Forall (fun x => - 2 ^ 31 <= x < 2 ^ 31) shape ->
  Dims_wf (GetTrtDimsForTensor shape)
  /\ extents (GetTrtDimsForTensor shape) = shape.
Proof.
  intros Hrank Hfit.
  destruct (GetTrtDimsForTensor_filled shape (d Dims_fresh) (length shape))
    as [Hlen Htake]; [lia | change (length (d Dims_fresh)) with 8%nat; lia|].
  unfold GetTrtDimsForTensor, Dims_wf, extents. cbn [nbDims d].
  rewrite Nat2Z.id. split.
  - split; [unfold MAX_DIMS; lia|]. rewrite Hlen.
    change (length (d Dims_fresh)) with 8%nat. lia.
  - rewrite Htake, take_ge by lia.
    rewrite <- (list_fmap_id shape) at 2. apply Forall_fmap_ext_1.
    eapply Forall_impl; [exact Hfit|]. intros x Hx. simpl.
    by apply to_int_small.
Qed.

Section ConstProperties.
Context `{TensorRT} `{ScalarOps} `{TensorFlow}.

Lemma positive_product (l : list Z) :
  Forall (fun x => 1 <= x) l -> 1 <= foldr Z.mul 1 l.
Proof. intros Hl. induction Hl; simpl; nia. Qed.

Lemma extent_below_product (l : list Z) :
  Forall (fun x => 1 <= x) l -> Forall (fun x => x <= foldr Z.mul 1 l) l.
Proof.
  intros Hl. induction Hl as [|x l Hx Hl IH]; [constructor|].
  pose proof (positive_product l Hl). simpl. constructor; [nia|].
  eapply Forall_impl; [exact IH|]. intros y Hy. simpl in Hy. nia.
Qed.

Lemma TfTensorToTrtWeights_single (p : OpConverterParams)
    (net : nvinfer1.INetworkDefinition) (dtype : DataType) (shape : list Z)
    (v : Z) (previous : TRT_ShapedWeights.t) :
  DataTypeSize dtype = 4 ->
  (1 <= length shape <= 8)%nat ->
  Forall (fun x => 1 <= x) shape ->
  foldr Z.mul 1 shape < 2 ^ 31 ->
  exists weights,
    TfTensorToTrtWeights dtype shape [v] 1 previous (mkWorld p net)
    = Done ((Status_OK, weights),
            mkWorld (mkParams (converter p) (node_def p) (inputs p)
                       (outputs p) (validation_only p)
                       (TrtWeightStore.mk
                          (TrtWeightStore.store_ (weight_store p)
                           ++ [(dtype, shape)])))
                    net)
    /\ TRT_ShapedWeights.type_ weights = dtype
    /\ TRT_ShapedWeights.shape_ weights = GetTrtDimsForTensor shape
    /\ forall i, 0 <= i < foldr Z.mul 1 shape ->
       load_unsigned 4 (TRT_ShapedWeights.values weights) i = v mod 2 ^ 32.
Proof.
  intros Hsize Hrank Hpos Hfit.
  pose proof (positive_product shape Hpos) as Hprod.
  assert (Hrange : Forall (fun x => - 2 ^ 31 <= x < 2 ^ 31) shape).
  { pose proof (extent_below_product shape Hpos) as Hbelow.
    rewrite Forall_forall in Hpos, Hbelow. apply Forall_forall.
    intros x Hx. specialize (Hpos x Hx). specialize (Hbelow x Hx).
    simpl in *. lia. }
  destruct (GetTrtDimsForTensor_extents shape ltac:(lia) Hrange)
    as [Hwf Hextents].
  assert (Hcount : TrtDimsNumElements (GetTrtDimsForTensor shape)
                   = foldr Z.mul 1 shape).
  { unfold TrtDimsNumElements.
    rewrite bool_decide_eq_false_2
      by (unfold GetTrtDimsForTensor; cbn [nbDims]; lia).
    destruct Hwf as [_ Hlen].
    rewrite (TrtDimsNumElements_from_foldl _ _ 0%nat) by exact Hlen.
    rewrite drop_0. fold (extents (GetTrtDimsForTensor shape)).
    rewrite Hextents, running_product_exact; [lia | lia | done | lia]. }
  unfold TfTensorToTrtWeights, GetTensorDimsWithProtoShape.
  rewrite bool_decide_eq_true_2 by lia.
  rewrite (bool_decide_eq_false_2 (1 <> 1)) by tauto.
  rewrite andb_false_r. change (negb (ok Status_OK)) with false. cbv iota.
  unfold mbind, ST_bind, in_weight_store, TrtWeightStore.GetTempWeights.
  cbn [params network]. rewrite Hextents.
  rewrite bool_decide_eq_true_2
    by (eapply Forall_impl; [exact Hpos|]; intros x Hx; simpl in *; lia).
  cbn [TRT_ShapedWeights.values TRT_ShapedWeights.shape_
       TRT_ShapedWeights.type_].
  rewrite bool_decide_eq_true_2 by done. rewrite Hcount, Hsize.
  eexists. split; [reflexivity|].
  cbn [TRT_ShapedWeights.values TRT_ShapedWeights.shape_
       TRT_ShapedWeights.type_].
  split; [done|]. split; [done|]. intros i Hi.
  change (idx [v] 0) with v.
  change (foldl (fun acc i => store_elem 4 acc (Z.of_nat i) v) ?dst
                (seq 0 (Z.to_nat ?n)))
    with (transform 4 4 (fun _ => v) [] dst n).
  rewrite load_transform; [done | done|].
  rewrite length_replicate. lia.
Qed.

(** A constant that is given by one value is broadcast over its
    declared shape.  For a Const node of type float, int32, int16, int8
    or uint8 whose tensor holds a single float or integer value and has
    a shape of one to eight positive extents, [ConvertConst] returns OK
    with one output: weights of the declared shape whose every element
    is that value, of type float for a float constant and int32 for
    every integer type.  The buffer comes from the weight store, and the
    network is left as it was. *)
Theorem ConvertConst_single_value (w : World) (dtype : DataType)
    (tensor_proto : TensorProto) (shape : list Z) (v : Z)
    (outs : list TRT_TensorOrWeights.t) :
  let p := params w in
  inputs p = [] ->
  attr (node_def p) !! "dtype" = Some (attr_type dtype) ->
  dtype ∈ [DT_FLOAT; DT_INT32; DT_INT16; DT_INT8; DT_UINT8] ->
  attr (node_def p) !! "value" = Some (attr_tensor tensor_proto) ->
  Tensor_FromProto tensor_proto = Some shape ->
  (1 <= length shape <= 8)%nat ->
  Forall (fun x => 1 <= x) shape ->
  foldr Z.mul 1 shape < 2 ^ 31 ->
  float_val tensor_proto = [v]
  \/ (float_val tensor_proto = [] /\ int_val tensor_proto = [v]) ->
  validation_only p = false ->
  outputs p = Some outs ->
  exists weights,
    ConvertConst w
    = Done (Status_OK,
            mkWorld (mkParams (converter p) (node_def p) (inputs p)
                       (Some (outs ++ [TRT_TensorOrWeights.of_weights weights]))
                       (validation_only p)
                       (TrtWeightStore.mk
                          (TrtWeightStore.store_ (weight_store p)
                           ++ [(TRT_ShapedWeights.type_ weights, shape)])))
                    (network w))
    /\ TRT_ShapedWeights.type_ weights
       = (if bool_decide (dtype = DT_FLOAT) then DT_FLOAT else DT_INT32)
    /\ nbDims (TRT_ShapedWeights.shape_ weights) = Z.of_nat (length shape)
    /\ extents (TRT_ShapedWeights.shape_ weights) = shape
    /\ forall i, 0 <= i < foldr Z.mul 1 shape ->
       load_unsigned 4 (TRT_ShapedWeights.values weights) i = v mod 2 ^ 32.
Proof.
  intros p Hinputs Hdtype Hsupported Hvalue Hparsed Hrank Hpos Hfit Hgiven
    Hmode Houts.
  pose proof (positive_product shape Hpos) as Hprod.
  set (converted :=
         if bool_decide (dtype = DT_FLOAT) then DT_FLOAT else DT_INT32).
  assert (Hconverted :
            (if bool_decide (dtype = DT_INT16) || bool_decide (dtype = DT_INT8)
                || bool_decide (dtype = DT_UINT8)
             then DT_INT32 else dtype) = converted
            /\ DataTypeSize converted = 4
            /\ ok (ConvertDType converted nvinfer1.kFLOAT).1 = true).
  { unfold converted. apply list_elem_of_In in Hsupported.
    simpl in Hsupported.
    destruct Hsupported as [<-|[<-|[<-|[<-|[<-|[]]]]]]; by repeat split. }
  destruct Hconverted as (Hconv & Hsize & Htype).
  assert (Hrange : Forall (fun x => - 2 ^ 31 <= x < 2 ^ 31) shape).
  { pose proof (extent_below_product shape Hpos) as Hbelow.
    rewrite Forall_forall in Hpos, Hbelow. apply Forall_forall.
    intros x Hx. specialize (Hpos x Hx). specialize (Hbelow x Hx).
    simpl in *. lia. }
  destruct (GetTrtDimsForTensor_extents shape ltac:(lia) Hrange)
    as [_ Hextents].
  destruct w as [p0 net]. cbn [params] in p. subst p.
  assert (Hselected : exists given,
            given mod 2 ^ 32 = v mod 2 ^ 32
            /\ forall other : M (Status * TRT_ShapedWeights.t),
               (if negb (bool_decide (float_val tensor_proto = []))
                then TfTensorToTrtWeights converted shape
                       (float_val tensor_proto)
                       (Z.of_nat (length (float_val tensor_proto)))
                       (TRT_ShapedWeights.of_type converted)
                else if negb (bool_decide (int_val tensor_proto = []))
                then TfTensorToTrtWeights converted shape
                       (map (fun v => v mod 2 ^ 32) (int_val tensor_proto))
                       (Z.of_nat (length (int_val tensor_proto)))
                       (TRT_ShapedWeights.of_type converted)
                else other)
               = TfTensorToTrtWeights converted shape [given] 1
                   (TRT_ShapedWeights.of_type converted)).
  { destruct Hgiven as [-> | [-> ->]].
    - exists v. split; [done|]. intros other.
      by rewrite bool_decide_eq_false_2 by done.
    - exists (v mod 2 ^ 32). split; [by apply Z.mod_mod|]. intros other.
      rewrite bool_decide_eq_true_2 by done.
      by rewrite bool_decide_eq_false_2 by done. }
  destruct Hselected as (given & Hmod & Hselected).
  destruct (TfTensorToTrtWeights_single p0 net converted shape given
              (TRT_ShapedWeights.of_type converted) Hsize Hrank Hpos Hfit)
    as (weights & Hweights & Hwtype & Hwshape & Hload).
  exists weights. rewrite Hwtype. split; [|split; [done|split; [|split]]].
  - unfold ConvertConst. rewrite bind_the_params. cbn [params network].
    rewrite bool_decide_eq_true_2 by done. cbn [negb].
    unfold TFAttrs.get_DataType, TFAttrs.at_. rewrite Hdtype, Hvalue.
    rewrite (ST_bind_Done (S:=World) _ _ _ _ _ (lift_Done _ _ _ eq_refl)).
    rewrite Hconv. unfold TF_RETURN_IF_ERROR.
    rewrite (ST_bind_Done (S:=World) _ _ _ _ _ (ST_ret_Done _ _)).
    rewrite Htype.
    rewrite (ST_bind_Done (S:=World) _ _ _ _ _ (lift_Done _ _ _ eq_refl)).
    cbn [attr_value_tensor]. rewrite Hparsed.
    rewrite to_int64_small by lia.
    rewrite bool_decide_eq_false_2 by lia.
    unfold TF_RETURN_IF_ERROR_out.
    rewrite Hselected.
    rewrite (ST_bind_Done (S:=World) _ _ _ _ _ Hweights).
    cbn [fst snd]. change (ok Status_OK) with true. cbv iota.
    rewrite Hmode. cbn [negb].
    rewrite (ST_bind_Done (S:=World) _ _ _ _ _
               (outputs_push_back_some (mkParams _ _ _ _ _ _) net outs _
                  Houts)).
    cbn [converter node_def inputs outputs validation_only weight_store].
    by rewrite Hinputs.
  - by rewrite Hwshape.
  - by rewrite Hwshape.
  - intros i Hi. by rewrite (Hload i Hi).
Qed.

End ConstProperties.

(** ** Elementwise operations on two tensors *)

Lemma TrtDimsNumElements_extents (a b : Dims) :
  Dims_wf a -> Dims_wf b -> nbDims a = nbDims b -> extents a = extents b ->
  TrtDimsNumElements a = TrtDimsNumElements b.
Proof.
  intros [_ Ha] [_ Hb] Hrank Hextents. unfold TrtDimsNumElements.
  rewrite <- Hrank. case_bool_decide; [done|].
  rewrite !(TrtDimsNumElements_from_foldl _ _ 0%nat), !drop_0;
    [|by rewrite Hrank | done].
  rewrite Hrank at 2. fold (extents a). fold (extents b). by rewrite Hextents.
Qed.

Lemma broadcast_feasible_same (s : list Z) (n : nat) :
  broadcast_feasible s s n = true.
Proof.
  induction n as [|n IH]; [done|]. cbn [broadcast_feasible].
  by rewrite (bool_decide_eq_false_2 (idx s (Z.of_nat n) <> idx s (Z.of_nat n)))
    by (intros Hne; by apply Hne).
Qed.

Lemma TensorRTGetBroadcastShape_same (dl dr : Dims) :
  Dims_wf dl -> Dims_wf dr ->
  nbDims dl = nbDims dr -> extents dl = extents dr ->
  exists new_l new_r,
    TensorRTGetBroadcastShape dl true dr true Dims_fresh Dims_fresh
    = (true, new_l, new_r)
    /\ Dims_wf new_l /\ nbDims new_l = nbDims dl /\ extents new_l = extents dl
    /\ Dims_wf new_r /\ nbDims new_r = nbDims dr /\ extents new_r = extents dr.
Proof.
  intros Hl Hr Hrank Hextents.
  pose proof Hl as [Hnl Hlenl]. pose proof Hr as [Hnr Hlenr].
  unfold MAX_DIMS in *.
  unfold TensorRTGetBroadcastShape. rewrite <- Hrank.
  rewrite Z.max_id. rewrite bool_decide_eq_true_2 by done. cbn [andb negb].
  assert (Hmax : nbDims dl <= nbDims dl + 1 <= max_nb_dims)
    by (unfold max_nb_dims, MAX_DIMS; lia).
  assert (Hmax' : nbDims dr <= nbDims dl + 1 <= max_nb_dims)
    by (unfold max_nb_dims, MAX_DIMS; lia).
  pose proof (work_array_aligned dl true (nbDims dl + 1) Hl Hmax ltac:(lia))
    as Hwl.
  pose proof (work_array_aligned dr true (nbDims dl + 1) Hr Hmax' ltac:(lia))
    as Hwr.
  cbv iota in Hwl, Hwr. rewrite Hwl, Hwr.
  assert (Hal : aligned dr true (nbDims dl + 1)
                = aligned dl true (nbDims dl + 1)).
  { unfold aligned. by rewrite Hrank, Hextents. }
  rewrite Hal, broadcast_feasible_same.
  replace (nbDims dl + 1 - 1) with (nbDims dl) by lia.
  assert (Hlen : length (aligned dl true (nbDims dl + 1))
                 = Z.to_nat (nbDims dl + 1)) by (apply length_aligned; [done|lia]).
  assert (Hstripped : drop 1 (aligned dl true (nbDims dl + 1)) = extents dl).
  { unfold aligned. replace (nbDims dl + 1 - nbDims dl) with 1 by lia.
    change (Z.to_nat 1) with 1%nat. cbn [replicate app].
    unfold upd. by rewrite decide_True by lia. }
  pose proof (stripped_extents (aligned dl true (nbDims dl + 1))
                (replicate (Z.to_nat (max_nb_dims - (nbDims dl + 1))) 1)
                (d Dims_fresh) (nbDims dl + 1) Hlen ltac:(lia)) as Hnew.
  replace (nbDims dl + 1 - 1) with (nbDims dl) in Hnew by lia.
  rewrite Hstripped in Hnew.
  assert (Hwf : Dims_wf
            (mkDims (nbDims dl)
               (memcpy (d Dims_fresh) 0
                  (drop 1 (aligned dl true (nbDims dl + 1)
                           ++ replicate
                                (Z.to_nat (max_nb_dims - (nbDims dl + 1))) 1))
                  (nbDims dl)))).
  { split; [unfold MAX_DIMS; cbn [nbDims]; lia|]. cbn [nbDims d].
    unfold memcpy. rewrite !length_app, !length_take, length_drop.
    rewrite length_drop, length_app, length_replicate, Hlen.
    change (length (d Dims_fresh)) with 8%nat.
    unfold max_nb_dims, MAX_DIMS. lia. }
  eexists _, _. split; [reflexivity|].
  split; [exact Hwf|]. split; [done|]. split; [exact Hnew|].
  split; [exact Hwf|]. split; [done|]. by rewrite <- Hextents.
Qed.

Section ElementWiseProperties.
Context `{TensorRT}.

Lemma PrepareTensorForShape_same_shape (input : TRT_TensorOrWeights.t)
    (t : nat) (dims : Dims) (previous : nvinfer1.ITensorPtr)
    (net : nvinfer1.INetworkDefinition) :
  TRT_TensorOrWeights.is_tensor input = true ->
  TRT_TensorOrWeights.tensor_ input = Some t ->
  (t < length (nvinfer1.tensor_names net))%nat ->
  Dims_wf (getDimensions net t) -> Dims_wf dims ->
  nbDims dims = nbDims (getDimensions net t) ->
  extents dims = extents (getDimensions net t) ->
  PrepareTensorForShape input dims previous net = Done ((Status_OK, Some t), net).
Proof.
  intros His Ht Hlive Hwf Hdims Hrank Hextents.
  assert (Hget : GetTrtDims input net = Done (getDimensions net t, net)).
  { unfold GetTrtDims, TRT_TensorOrWeights.tensor. rewrite His, Ht.
    rewrite (ST_bind_Done (S:=nvinfer1.INetworkDefinition) _ _ net net (Some t))
      by done.
    by apply tensor_getDimensions_valid. }
  unfold PrepareTensorForShape.
  assert (Hcheck :
    (if can_check_shapes_from (d dims) 0 (Z.to_nat (nbDims dims)) then
       input_dims ← GetTrtDims input;
       mret (bool_decide (TrtDimsNumElements input_dims
                          <> TrtDimsNumElements dims))
     else mret false) net
    = Done (false, net)).
  { destruct (can_check_shapes_from _ _ _); [|done].
    rewrite (ST_bind_Done _ _ _ _ _ Hget).
    rewrite bool_decide_eq_false_2; [done|].
    intros Hne. apply Hne. by apply TrtDimsNumElements_extents. }
  rewrite (ST_bind_Done _ _ _ _ _ Hcheck).
  rewrite His, (ST_bind_Done _ _ _ _ _ Hget).
  rewrite (proj2 (DimsEqual_same_extents _ _ Hwf Hdims)) by done.
  unfold TRT_TensorOrWeights.tensor. rewrite His, Ht.
  by rewrite (ST_bind_Done (S:=nvinfer1.INetworkDefinition) _ _ net net (Some t)).
Qed.

(** [BinaryTensorOpTensor] on two live tensors of the same shape and of
    the element type the node declares needs no reshape: for an operator
    of its table (Add, Mul, Sub, Div, RealDiv, Minimum, Maximum) it adds
    exactly one elementwise layer on the two tensors, with the operation
    of the table, and returns the output of that layer as the only
    output of the node; a layer the library refuses is an Internal
    error, and an operator outside of the table is Unimplemented, both
    with the network as it was. *)
Theorem BinaryTensorOpTensor_same_shape (w : World)
    (operand_l operand_r : TRT_TensorOrWeights.t) (l r : nat)
    (c : Converter) (outs : list TRT_TensorOrWeights.t)
    (dtype : nvinfer1.DataType) :
  let p := params w in
  let net := network w in
  converter p = Some c -> outputs p = Some outs ->
  TRT_TensorOrWeights.is_tensor operand_l = true ->
  TRT_TensorOrWeights.tensor_ operand_l = Some l ->
  TRT_TensorOrWeights.is_tensor operand_r = true ->
  TRT_TensorOrWeights.tensor_ operand_r = Some r ->
  (l < length (nvinfer1.tensor_names net))%nat ->
  (r < length (nvinfer1.tensor_names net))%nat ->
  Dims_wf (getDimensions net l) -> Dims_wf (getDimensions net r) ->
  nbDims (getDimensions net l) = nbDims (getDimensions net r) ->
  extents (getDimensions net l) = extents (getDimensions net r) ->
  TFAttrs.get_trt_DataType (node_def p) "T" = Done dtype ->
  getType net l = dtype -> getType net r = dtype ->
  (binary_ops (op (node_def p)) = None ->
   exists msg,
     BinaryTensorOpTensor operand_l operand_r w
     = Done (errors.Unimplemented msg, w))
  /\ (forall operation,
        binary_ops (op (node_def p)) = Some operation ->
        let added := nvinfer1.IElementWiseLayer l r operation in
        (add_returns_null net added = false ->
         BinaryTensorOpTensor operand_l operand_r w
         = Done (Status_OK,
                 with_output p outs
                   (TRT_TensorOrWeights.of_tensor
                      (Some (length (nvinfer1.tensor_names net)))
                      TRT_TensorOrWeights.unknown_batch_size)
                   (with_layer net added)))
        /\ (add_returns_null net added = true ->
            exists msg,
              BinaryTensorOpTensor operand_l operand_r w
              = Done (errors.Internal msg, w))).
Proof.
  intros p net Hconv Houts Hisl Htl Hisr Htr Hlivel Hliver Hwfl Hwfr Hrank
    Hextents Hattr Htypel Htyper.
  destruct w as [p0 net0]. cbn [params network] in p, net. subst p net.
  destruct (TensorRTGetBroadcastShape_same _ _ Hwfl Hwfr Hrank Hextents)
    as (dim_l & dim_r & Hbroadcast & Hwl & Hnl & Hel & Hwr & Hnr & Her).
  assert (Hprefix :
            BinaryTensorOpTensor operand_l operand_r (mkWorld p0 net0)
            = match binary_ops (op (node_def p0)) with
              | None =>
                  mret (errors.Unimplemented
                          (StrCat ["binary op: "; op (node_def p0);
                                   " not supported at: "; name (node_def p0)]))
              | Some operation =>
                  require_converter;;
                  l ← in_network (deref (Some l));
                  r ← in_network (deref (Some r));
                  layer ← via_converter
                    (addLayer (nvinfer1.IElementWiseLayer l r operation));
                  match layer with
                  | None =>
                      mret (TFTRT_INTERNAL_ERROR_AT_NODE "BinaryTensorOpTensor"
                              (name (node_def p0)))
                  | Some layer =>
                      output_tensor ← in_network (getOutput layer);
                      outputs_push_back
                        (TRT_TensorOrWeights.of_tensor output_tensor
                           TRT_TensorOrWeights.unknown_batch_size);;
                      mret Status_OK
                  end
              end (mkWorld p0 net0)).
  { unfold BinaryTensorOpTensor.
    rewrite bind_the_params. cbn [params].
    rewrite (ST_bind_Done (S:=World) _ _ _ _ _
               (in_network_Done _ p0 _ _ _
                  (proj1 (PrepareTensorForShape_own_dims operand_l l None net0
                            Hisl Htl Hlivel Hwfl)))).
    rewrite (ST_bind_Done (S:=World) _ _ _ _ _
               (in_network_Done _ p0 _ _ _
                  (proj1 (PrepareTensorForShape_own_dims operand_r r None net0
                            Hisr Htr Hliver Hwfr)))).
    rewrite Hisl, Hisr, Hbroadcast. cbn [negb].
    unfold TF_RETURN_IF_ERROR_out.
    rewrite (ST_bind_Done (S:=World) _ _ _ _ _
               (eq_trans (via_converter_some _ p0 net0 c Hconv)
                  (in_network_Done _ p0 _ _ _
                     (PrepareTensorForShape_same_shape operand_l l dim_l None
                        net0 Hisl Htl Hlivel Hwfl Hwl Hnl Hel)))).
    cbn [fst snd]. change (ok Status_OK) with true. cbv iota.
    rewrite (ST_bind_Done (S:=World) _ _ _ _ _
               (eq_trans (via_converter_some _ p0 net0 c Hconv)
                  (in_network_Done _ p0 _ _ _
                     (PrepareTensorForShape_same_shape operand_r r dim_r None
                        net0 Hisr Htr Hliver Hwfr Hwr Hnr Her)))).
    cbn [fst snd]. change (ok Status_OK) with true. cbv iota.
    rewrite (ST_bind_Done (S:=World) _ _ _ _ _ (lift_Done _ _ _ Hattr)).
    assert (Htype : forall t, (t < length (nvinfer1.tensor_names net0))%nat ->
              in_network (tensor_getType (Some t)) (mkWorld p0 net0)
              = Done (getType net0 t, mkWorld p0 net0)).
    { intros t Ht. apply in_network_Done. unfold tensor_getType.
      by rewrite (ST_bind_Done _ _ _ _ _ (deref_valid net0 t Ht)). }
    rewrite (ST_bind_Done (S:=World) _ _ _ _ _ (Htype l Hlivel)).
    rewrite bool_decide_eq_false_2 by (intros Hne; by apply Hne).
    rewrite (ST_bind_Done (S:=World) _ _ _ _ _ (Htype r Hliver)).
    by rewrite bool_decide_eq_false_2 by (intros Hne; by apply Hne). }
  rewrite Hprefix. clear Hprefix.
  split.
  - intros ->. by eexists.
  - intros operation ->. cbv zeta.
    rewrite (ST_bind_Done (S:=World) _ _ _ _ _
               (require_converter_some p0 net0 c Hconv)).
    rewrite (ST_bind_Done (S:=World) _ _ _ _ _
               (in_network_deref p0 net0 l Hlivel)).
    rewrite (ST_bind_Done (S:=World) _ _ _ _ _
               (in_network_deref p0 net0 r Hliver)).
    split; intros Hadd.
    + rewrite (ST_bind_Done (S:=World) _ _ _ _ _
                 (via_converter_addLayer p0 net0 c _ Hconv Hadd)).
      rewrite (ST_bind_Done (S:=World) _ _ _ _ _
                 (in_network_getOutput_new p0 net0 _)).
      by rewrite (ST_bind_Done (S:=World) _ _ _ _ _
                    (outputs_push_back_some p0 _ outs _ Houts)).
    + rewrite (ST_bind_Done (S:=World) _ _ _ _ _
                 (eq_trans (via_converter_some _ p0 net0 c Hconv)
                    (in_network_Done _ p0 _ _ _ (addLayer_refused _ _ Hadd)))).
      by eexists.
Qed.

End ElementWiseProperties.

(** ** Examples *)

Section Examples.
#[local] Existing Instance example_TensorRT.
#[local] Existing Instance example_ScalarOps.
#[local] Existing Instance example_TensorFlow.
#[local] Existing Instance example_OtherConverters.
#[local] Existing Instance example_HostText.
#[local] Existing Instance example_EngineBuilder.

Lemma ConvertReshape_empty_shape_witness :
  let shape := example_weights DT_INT32 [0] [] in
  let w validation :=
    mkWorld (mkParams None (mkNodeDef "r" "Reshape" ["x"; "s"] ∅)
               [example_tensor; TRT_TensorOrWeights.of_weights shape]
               None validation TrtWeightStore.empty)
            example_network in
  TRT_ShapedWeights.count shape = 0
  /\ ConvertReshape (w true) =
       Done (errors.Unimplemented "Reshape to shape=[] is not supported, at r",
             w true)
  /\ ConvertReshape (w false) =
       Done (errors.Unimplemented "Reshape to shape=[] is not supported, at r",
             w false).
Proof.
  intros shape w. split; [reflexivity|].
  split.
  - exact (ConvertReshape_empty_shape (w true) example_tensor
             (TRT_TensorOrWeights.of_weights shape) shape
             eq_refl eq_refl eq_refl).
  - exact (ConvertReshape_empty_shape (w false) example_tensor
             (TRT_TensorOrWeights.of_weights shape) shape
             eq_refl eq_refl eq_refl).
Defined.

Lemma ConvertBinary_dispatch_witness :
  let scalar := TRT_TensorOrWeights.of_weights (example_weights DT_FLOAT [1] [0]) in
  let w :=
    mkWorld (mkParams (Some (mkConverter false 4 ∅ TrtWeightStore.empty))
               (mkNodeDef "sum" "Add" ["a"; "b"] ∅)
               [scalar; scalar] (Some []) false TrtWeightStore.empty)
            example_network in
  inputs (params w) = [scalar; scalar]
  /\ exists msg, ConvertBinary w = Done (errors.Unimplemented msg, w).
Proof.
  intros scalar w. split; [reflexivity|].
  apply (proj1 (ConvertBinary_dispatch w scalar scalar eq_refl)); reflexivity.
Defined.

Lemma ConvertNode_Add_uniform_witness :
  let scalar := TRT_TensorOrWeights.of_weights (example_weights DT_FLOAT [1] [0]) in
  let this :=
    mkConverter false 4 (<["w" := scalar]> {["x" := example_tensor]})
                TrtWeightStore.empty in
  let node := mkNodeDef "sum" "Add" ["x"; "w"] ∅ in
  nbDims (getDimensions example_network 0) = 3
  /\ TRT_ShapedWeights.count (example_weights DT_FLOAT [1] [0]) = 1
  /\ exists this' net',
       ConvertNode node (this, example_network) = Done (Status_OK, (this', net'))
       /\ (exists shift scale power,
             nvinfer1.layers net'
             = [(nvinfer1.IScaleLayer 0 nvinfer1.kUNIFORM shift scale power,
                 2%nat)])
       /\ trt_tensors_ this'
          = <["sum" := TRT_TensorOrWeights.of_tensor (Some 2%nat) 4]>
              (trt_tensors_ this).
Proof.
  intros scalar this node.
  split; [reflexivity|]. split; [reflexivity|].
  destruct (ConvertNode_Add_uniform this example_network node
              example_tensor scalar 0%nat)
    as (_ & shift & scale & power & this' & net' & Hrun & Hlayers & Htable & _);
    try reflexivity.
  - simpl. lia.
  - by repeat constructor.
  - exists this', net'. split; [exact Hrun|]. split; [|exact Htable].
    exists shift, scale, power. exact Hlayers.
Defined.

Lemma ValidateNode_MatMul_null_converter_witness :
  let kernel :=
    TRT_TensorOrWeights.of_weights
      (example_weights DT_FLOAT [5; 2] [0; 0; 0; 0; 0; 0; 0; 0; 0; 0]) in
  let node :=
    mkNodeDef "fc" "MatMul" ["y"; "k"]
      (<["T" := attr_type DT_FLOAT]>
         (<["transpose_a" := attr_b false]>
            (<["transpose_b" := attr_b false]> ∅))) in
  nbDims (getDimensions example_network 1) = 1
  /\ ValidateNode node [example_matrix; kernel]
       (mkValidator RegisterOpValidators TrtWeightStore.empty, example_network)
     = Crash NullConverter.
Proof.
  intros kernel node. split; [reflexivity|].
  refine (proj1 (ValidateNode_MatMul_null_converter
                   (mkValidator RegisterOpValidators TrtWeightStore.empty)
                   example_network node example_matrix kernel 1%nat false
                   _ _ _ _ _ _ _ _ _ _ _ _)); try reflexivity.
  - simpl. lia.
  - simpl. lia.
  - by repeat constructor.
Defined.

Lemma ConvertSegmentToGraphDef_boundary_witness :
  (exists connections' fragment,
     ConvertSegmentToGraphDef (example_graph "^init") example_properties
       example_segment [2; 3] example_connections [] ""
     = Done (Status_OK, connections', fragment, "seg/")
     /\ heads fragment
        = [("TensorRTInputPH_0", "Placeholder");
           ("TensorRTOutputPH_0", "Identity");
           ("seg/b", "Relu"); ("seg/c", "AddN")]
     /\ map input fragment
        = [[]; ["seg/c"]; ["TensorRTInputPH_0"];
           ["seg/b"; "TensorRTInputPH_0"]])
  /\ (exists msg connections' fragment,
        ConvertSegmentToGraphDef (example_graph "stray") example_properties
          example_segment [2; 3] example_connections [] ""
        = Done (errors.InvalidArgument msg, connections', fragment, "")).
Proof.
  assert (Hunreserved : forall extra (id : Z) (node : Node),
            id ∈ [2; 3] -> FindNodeId (example_graph extra) id = Some node ->
            StartsWith (name (def node)) kInputPHName = false).
  { intros extra id node Hid Hfind.
    apply elem_of_cons in Hid as [-> | Hid];
      [|apply list_elem_of_singleton in Hid as ->];
      inversion Hfind; reflexivity. }
  split.
  - edestruct (ConvertSegmentToGraphDef_boundary (example_graph "^init")
                 example_properties example_segment [2; 3]
                 example_connections [] "")
      as (status & fragment & scope & Hrun & _ & Hclean & _).
    + intros n Hn. by apply elem_of_nil in Hn.
    + apply Hunreserved.
    + vm_compute. reflexivity.
    + reflexivity.
    + reflexivity.
    + vm_compute. reflexivity.
    + vm_compute. reflexivity.
    + destruct Hclean as (-> & -> & ->).
      { intros n r Hn Hr [Hout Hslot].
        repeat (apply elem_of_cons in Hn as [-> | Hn]);
          [..|by apply elem_of_nil in Hn]; cbn [input] in Hr;
          repeat (apply elem_of_cons in Hr as [-> | Hr]);
          try (by apply elem_of_nil in Hr);
          vm_compute in Hout; try discriminate;
          vm_compute in Hslot; congruence. }
      eexists _, _. split; [exact Hrun|]. split; reflexivity.
  - edestruct (ConvertSegmentToGraphDef_boundary (example_graph "stray")
                 example_properties example_segment [2; 3]
                 example_connections [] "")
      as (status & fragment & scope & Hrun & _ & _ & Hstray).
    + intros n Hn. by apply elem_of_nil in Hn.
    + apply Hunreserved.
    + vm_compute. reflexivity.
    + reflexivity.
    + reflexivity.
    + vm_compute. reflexivity.
    + vm_compute. reflexivity.
    + destruct Hstray as (msg & -> & ->).
      { eexists _, "stray". split; [|split].
        - do 3 apply list_elem_of_further. apply list_elem_of_here.
        - cbn [input]. do 2 apply list_elem_of_further. apply list_elem_of_here.
        - split; vm_compute; congruence. }
      eexists _, _, _. exact Hrun.
Defined.

Lemma validators_stay_offline_witness :
  let w :=
    mkWorld (mkParams None (mkNodeDef "r" "Reshape" ["x"; "s"] ∅)
               [example_tensor;
                TRT_TensorOrWeights.of_weights
                  (example_weights DT_INT32 [3] [4; 7; 9])]
               None true TrtWeightStore.empty)
            example_network in
  offline_at ConvertConst w /\ offline_at ConvertTranspose w
  /\ offline_at ConvertReshape w.
Proof. intros w. apply (validators_stay_offline w). reflexivity. Defined.

Ltac example_wf := split; [split; by vm_compute | vm_compute; lia].

Lemma DimsEqual_spec_witness :
  DimsEqual (Dims_of [3; 4]) (mkDims 2 [3; 4; 9; 9; 9; 9; 9; 9]) = true
  /\ DimsEqual (Dims_of [3; 4]) (Dims_of [3; 5]) <> true.
Proof.
  assert (Hl : Dims_wf (Dims_of [3; 4])) by example_wf.
  assert (Hr : Dims_wf (mkDims 2 [3; 4; 9; 9; 9; 9; 9; 9]))
    by example_wf.
  assert (Hr' : Dims_wf (Dims_of [3; 5])) by example_wf.
  split.
  - apply (DimsEqual_spec _ _ Hl Hr). split; reflexivity.
  - intros Heq. apply (DimsEqual_spec _ _ Hl Hr') in Heq as [_ Heq].
    discriminate Heq.
Defined.

Lemma HasStaticShape_spec_witness :
  HasStaticShape (Dims_of [3; 0; 4]) = true
  /\ HasStaticShape (Dims_of [3; -1; 4]) <> true.
Proof.
  split.
  - apply (HasStaticShape_spec (Dims_of [3; 0; 4])); [simpl; lia|].
    split; [simpl; lia|]. repeat constructor; lia.
  - intros Heq.
    apply (HasStaticShape_spec (Dims_of [3; -1; 4])) in Heq as [_ Heq];
      [|simpl; lia].
    inversion Heq as [|? ? _ Hrest]. inversion Hrest. lia.
Defined.

Lemma TrtDimsNumElements_spec_witness :
  TrtDimsNumElements (Dims_of []) = 0
  /\ TrtDimsNumElements (Dims_of [3; 0; 4]) = 0
  /\ TrtDimsNumElements (Dims_of [3; 4; 4]) = 48.
Proof.
  split; [|split].
  - apply (proj1 (TrtDimsNumElements_spec (Dims_of []) ltac:(example_wf))).
    reflexivity.
  - apply (proj1 (proj2 (TrtDimsNumElements_spec (Dims_of [3; 0; 4])
                           ltac:(example_wf)))).
    apply list_elem_of_In. simpl. tauto.
  - apply (proj2 (proj2 (TrtDimsNumElements_spec (Dims_of [3; 4; 4])
                           ltac:(example_wf)))).
    + simpl. lia.
    + repeat constructor; lia.
    + reflexivity.
Defined.

Lemma AddTensorOrWeights_then_Get_witness :
  let this := mkConverter false 4 ∅ TrtWeightStore.empty in
  exists this',
    AddTensorOrWeights "x" (TRT_TensorOrWeights.of_tensor (Some 0%nat) (-1)) this
    = Done (Status_OK, this')
    /\ GetTensorOrWeights "x" example_matrix this'
       = Done ((Status_OK, example_tensor), this').
Proof.
  intros this.
  destruct (AddTensorOrWeights_then_Get this "x"
              (TRT_TensorOrWeights.of_tensor (Some 0%nat) (-1)) example_matrix
              eq_refl)
    as (this' & bound & Hadd & Hget & Htensor & _).
  exists this'. split; [exact Hadd|]. rewrite Hget.
  by rewrite (Htensor eq_refl).
Defined.

Lemma PrepareTensorForShape_spec_witness :
  PrepareTensorForShape example_tensor (Dims_of [48]) None example_network
  = Done ((Status_OK, Some 2%nat),
          with_configured_layer example_network
            (nvinfer1.IShuffleLayer 0 None None)
            (nvinfer1.IShuffleLayer 0 None (Some (Dims_of [48]))))
  /\ PrepareTensorForShape example_tensor (Dims_of [7]) None example_network
     = Done ((errors.InvalidArgument "Reshape shapes are not compatible.",
              None), example_network).
Proof.
  split.
  - destruct (PrepareTensorForShape_spec example_tensor (Dims_of [48])
                (Dims_of [3; 4; 4]) None example_network
                ltac:(example_wf) ltac:(example_wf) eq_refl)
      as (_ & _ & Hshuffle & _).
    destruct Hshuffle as (t & Ht & Hadded & _).
    + right. reflexivity.
    + reflexivity.
    + intros [Hrank _]. discriminate Hrank.
    + injection Ht as <-. apply Hadded. reflexivity.
  - apply (PrepareTensorForShape_spec example_tensor (Dims_of [7])
             (Dims_of [3; 4; 4]) None example_network
             ltac:(example_wf) ltac:(example_wf) eq_refl).
    intros [Hminus | Hcount].
    + apply list_elem_of_In in Hminus. simpl in Hminus.
      destruct Hminus as [? | []]. discriminate.
    + discriminate Hcount.
Defined.


Lemma ConvertUnary_spec_witness :
  let this := mkConverter false 4 ∅ TrtWeightStore.empty in
  let w op_name input :=
    mkWorld (mkParams (Some this) (mkNodeDef "u" op_name ["x"] ∅)
               [input] (Some []) false TrtWeightStore.empty) in
  let new_tensor (n : nat) :=
    TRT_TensorOrWeights.of_tensor (Some n)
      TRT_TensorOrWeights.unknown_batch_size in
  let values := example_weights DT_FLOAT [2] [7; 9] in
  let constant :=
    nvinfer1.IConstantLayer (Dims_of [2])
      (nvinfer1.mkWeights nvinfer1.kFLOAT (TRT_ShapedWeights.values values) 2) in
  ConvertUnary (w "Rsqrt" example_tensor example_network)
  = Done (Status_OK,
          with_output (params (w "Rsqrt" example_tensor example_network)) []
            (new_tensor 3%nat)
            (with_layer
               (with_layer example_network
                  (nvinfer1.IUnaryLayer 0%nat nvinfer1.kSQRT))
               (nvinfer1.IUnaryLayer 2%nat nvinfer1.kRECIP)))
  /\ (exists msg,
        ConvertUnary (w "Sin" example_tensor example_network)
        = Done (errors.InvalidArgument msg,
                w "Sin" example_tensor example_network))
  /\ (exists msg,
        ConvertUnary
          (w "Sin" (TRT_TensorOrWeights.of_weights values) example_network)
        = Done (errors.InvalidArgument msg,
                w "Sin" (TRT_TensorOrWeights.of_weights values)
                  (with_layer example_network constant)))
  /\ ConvertUnary
       (w "Neg" (TRT_TensorOrWeights.of_weights values) example_network)
     = Done (Status_OK,
             with_output
               (params (w "Neg" (TRT_TensorOrWeights.of_weights values)
                          example_network)) []
               (new_tensor 3%nat)
               (with_layer (with_layer example_network constant)
                  (nvinfer1.IUnaryLayer 2%nat nvinfer1.kNEG))).
Proof.
  intros this w new_tensor values constant.
  assert (Hlib : forall net i operation,
            add_returns_null net (nvinfer1.IUnaryLayer i operation) = false)
    by reflexivity.
  split; [|split; [|split]].
  - destruct (ConvertUnary_spec (w "Rsqrt" example_tensor example_network)
                example_tensor this [] eq_refl eq_refl Hlib) as (_ & Hone).
    destruct (Hone eq_refl) as (Htensor & _).
    destruct (Htensor 0%nat eq_refl eq_refl ltac:(simpl; lia)
                ltac:(example_wf)) as (_ & _ & Hrsqrt).
    apply Hrsqrt. reflexivity.
  - destruct (ConvertUnary_spec (w "Sin" example_tensor example_network)
                example_tensor this [] eq_refl eq_refl Hlib) as (_ & Hone).
    destruct (Hone eq_refl) as (Htensor & _).
    destruct (Htensor 0%nat eq_refl eq_refl ltac:(simpl; lia)
                ltac:(example_wf)) as (Hunknown & _).
    apply Hunknown; [|reflexivity]. intros Hname. discriminate Hname.
  - destruct (ConvertUnary_spec
                (w "Sin" (TRT_TensorOrWeights.of_weights values)
                   example_network)
                (TRT_TensorOrWeights.of_weights values) this []
                eq_refl eq_refl Hlib) as (_ & Hone).
    destruct (Hone eq_refl) as (_ & Hweights).
    destruct (Hweights _ eq_refl eq_refl eq_refl) as (Hunknown & _).
    apply Hunknown; [|reflexivity]. intros Hname. discriminate Hname.
  - destruct (ConvertUnary_spec
                (w "Neg" (TRT_TensorOrWeights.of_weights values)
                   example_network)
                (TRT_TensorOrWeights.of_weights values) this []
                eq_refl eq_refl Hlib) as (_ & Hone).
    destruct (Hone eq_refl) as (_ & Hweights).
    destruct (Hweights _ eq_refl eq_refl eq_refl) as (_ & Hknown & _).
    apply (Hknown nvinfer1.kNEG); [|reflexivity].
    intros Hname. discriminate Hname.
Defined.

Lemma RenameAndMarkOutputTensors_spec_witness :
  let this :=
    mkConverter false 4 {["a" := example_tensor]} TrtWeightStore.empty in
  RenameAndMarkOutputTensors [("a", "out0")] (this, example_network)
  = Done (Status_OK, (this, with_outputs example_network [(0%nat, "out0")]))
  /\ exists msg,
       RenameAndMarkOutputTensors [("a", "out0"); ("b", "out1")]
         (this, example_network)
       = Done (errors.NotFound msg,
               (this, with_outputs example_network [(0%nat, "out0")])).
Proof.
  intros this.
  assert (Hall : Forall2 (output_resolves this example_network)
                   [("a", "out0")] [(0%nat, "out0")]).
  { constructor; [|constructor]. exists example_tensor.
    repeat split. simpl. lia. }
  destruct (RenameAndMarkOutputTensors_spec this example_network _ _ Hall)
    as (Hok & Hunbound & _).
  split; [exact Hok|].
  apply (Hunbound ("b", "out1") []). reflexivity.
Defined.

Lemma ConvertNode_Identity_witness :
  let this :=
    mkConverter false 4 {["x" := example_tensor]} TrtWeightStore.empty in
  ConvertNode (mkNodeDef "id" "Identity" ["x"] ∅) (this, example_network)
  = Done (Status_OK,
          (mkConverter false 4
             (<["id" := example_tensor]> {["x" := example_tensor]})
             TrtWeightStore.empty,
           example_network)).
Proof.
  intros this.
  apply (ConvertNode_Identity this example_network
           (mkNodeDef "id" "Identity" ["x"] ∅) example_tensor 0);
    [by left | reflexivity | reflexivity | reflexivity | reflexivity
    | simpl; lia | reflexivity].
Defined.

Lemma ConvertBinary_falls_back_witness :
  let weights :=
    TRT_TensorOrWeights.of_weights (example_weights DT_FLOAT [1] [7]) in
  let w :=
    mkWorld (mkParams (Some (mkConverter false 4 ∅ TrtWeightStore.empty))
               (mkNodeDef "m" "Maximum" ["x"; "c"] ∅)
               [example_tensor; weights] (Some []) false
               TrtWeightStore.empty)
            example_network in
  ConvertBinary w = BinaryTensorOpTensor example_tensor weights w.
Proof.
  intros weights w.
  destruct (ConvertBinary_falls_back w example_tensor weights 0 eq_refl
              ltac:(simpl; lia)) as (Hleft & _).
  apply Hleft; [reflexivity..|]. left. intros Hin.
  apply list_elem_of_In in Hin. simpl in Hin.
  repeat (destruct Hin as [Hin | Hin]; [discriminate Hin|]). destruct Hin.
Defined.



Lemma validation_rejections_carry_over_witness :
  let w validation :=
    mkWorld (mkParams None (mkNodeDef "t" "Transpose" ["x"] ∅)
               [example_tensor] None validation TrtWeightStore.empty)
            example_network in
  exists status,
    ConvertTranspose (w true) = Done (status, w true)
    /\ ok status = false
    /\ ConvertTranspose (w false) = Done (status, w false).
Proof.
  intros w.
  assert (Hrejected : exists status,
            ConvertTranspose (w true) = Done (status, w true)
            /\ ok status = false)
    by (vm_compute; eexists; split; reflexivity).
  destruct Hrejected as (status & Hrun & Hbad).
  exists status. split; [exact Hrun|]. split; [exact Hbad|].
  exact (proj1 (validation_rejections_carry_over (w true) (w false) eq_refl
                  status (w true) eq_refl eq_refl eq_refl eq_refl Hbad) Hrun).
Defined.

Lemma output_slots_spec_witness :
  let nodes := [mkNodeDef "TensorRTOutputPH_1" "Identity" ["x"] ∅] in
  let s := (Converter_new false, nvinfer1.empty_network) in
  let output_tensors := [("", ""); ("x", "TensorRTOutputPH_1")] in
  convert_graph_nodes [] nodes [] s = Done ((Status_OK, output_tensors), s)
  /\ (forall n slot, n ∈ nodes -> is_output_placeholder n = true ->
        output_slot n = Some slot ->
        0 <= slot < Z.of_nat (length output_tensors))
  /\ (forall slot entry, output_tensors !! slot = Some entry ->
        (entry = ("", "") /\ slot_unused nodes slot)
        \/ slot_written nodes slot entry).
Proof.
  intros nodes s output_tensors.
  assert (Hrun : convert_graph_nodes [] nodes [] s
                 = Done ((Status_OK, output_tensors), s))
    by (vm_compute; reflexivity).
  split; [exact Hrun|].
  apply (output_slots_spec [] nodes s s Status_OK output_tensors Hrun eq_refl).
Defined.

Lemma ConvertGraphDefToEngine_success_witness :
  let gdef :=
    [mkNodeDef "TensorRTInputPH_0" "Placeholder" []
       {["dtype" := attr_type DT_FLOAT]};
     mkNodeDef "TensorRTOutputPH_0" "Identity" ["TensorRTInputPH_0"] ∅] in
  let builder := mkBuilder 0 0 0 false false 0 in
  exists e converter net renamed,
    ConvertGraphDefToEngine gdef 0 8 1024 [Some [4; 3; 4; 4]] 0 0 builder
      (Some false)
    = Done (Status_OK, Some e, Some true)
    /\ Forall2 (output_resolves converter net)
         [("TensorRTInputPH_0", "TensorRTOutputPH_0")] renamed
    /\ engine_network e = with_outputs net renamed.
Proof.
  intros gdef builder.
  assert (Hrun : exists e,
            ConvertGraphDefToEngine gdef 0 8 1024 [Some [4; 3; 4; 4]] 0 0
              builder (Some false)
            = Done (Status_OK, Some e, Some true))
    by (vm_compute; by eexists).
  destruct Hrun as (e & Hrun).
  destruct (ConvertGraphDefToEngine_success _ _ _ _ _ _ _ _ _ _ _ _ Hrun
              eq_refl)
    as (e' & ok_status & outs & converter & net & renamed & [= <-] & Hloop
        & Hall & Hnet & _).
  assert (Houts : outs = [("TensorRTInputPH_0", "TensorRTOutputPH_0")]).
  { vm_compute in Hloop. by injection Hloop as _ <- _ _. }
  subst outs. by exists e, converter, net, renamed.
Defined.

Lemma convert_input_placeholder_spec_witness :
  let node_def :=
    mkNodeDef "TensorRTInputPH_1" "Placeholder" []
      {["dtype" := attr_type DT_FLOAT]} in
  let s := (Converter_new false, nvinfer1.empty_network) in
  (exists msg,
     convert_input_placeholder [Some [4; 3]; None] node_def s
     = Done (errors.InvalidArgument msg, s))
  /\ convert_input_placeholder [Some [4; 3]] node_def s = Crash OutOfBounds.
Proof.
  intros node_def s. split.
  - destruct (convert_input_placeholder_spec [Some [4; 3]; None] node_def s
                ltac:(by vm_compute)) as (_ & Hslot).
    destruct (Hslot 1 eq_refl) as (_ & Hshape).
    destruct (Hshape None ltac:(lia) eq_refl) as (_ & Hattr).
    destruct (Hattr (attr_type DT_FLOAT) eq_refl) as (Hrejected & _).
    apply Hrejected. reflexivity.
  - destruct (convert_input_placeholder_spec [Some [4; 3]] node_def s
                ltac:(by vm_compute)) as (_ & Hslot).
    destruct (Hslot 1 eq_refl) as (Hout & _).
    apply Hout. right. simpl. lia.
Defined.

Lemma ReorderCKtoKC_spec_witness :
  let iweights := example_weights DT_FLOAT [2; 3] [1; 2; 3; 4; 5; 6] in
  let oweights := example_weights DT_FLOAT [2; 3] [0; 0; 0; 0; 0; 0] in
  exists result,
    ReorderCKtoKC iweights oweights = Done result
    /\ extents (TRT_ShapedWeights.shape_ result) = [3; 2]
    /\ load_unsigned 4 (TRT_ShapedWeights.values result) 2 = 2
    /\ load_unsigned 4 (TRT_ShapedWeights.values result) 3 = 5.
Proof.
  intros iweights oweights.
  destruct (ReorderCKtoKC_spec iweights oweights) as (Hrun & _).
  destruct (Hrun 4%nat) as (result & Hresult & _ & _ & _ & _ & _ & Hload).
  - left. by split.
  - apply (bool_decide_unpack _). vm_compute. exact I.
  - simpl. lia.
  - by vm_compute.
  - exists result. split; [exact Hresult|]. split.
    + vm_compute in Hresult. by injection Hresult as <-.
    + split.
      * exact (Hload 1 0 ltac:(vm_compute; intuition congruence)
                 ltac:(vm_compute; intuition congruence)).
      * exact (Hload 1 1 ltac:(vm_compute; intuition congruence)
                 ltac:(vm_compute; intuition congruence)).
Defined.

Lemma ConvertFP32ToFP16_spec_witness :
  let p :=
    mkParams None (mkNodeDef "c" "Const" [] ∅) [] None false
             TrtWeightStore.empty in
  let weights_src := example_weights DT_FLOAT [2] [5; 6] in
  (exists weights w,
     ConvertFP32ToFP16 weights_src (mkWorld p example_network)
     = Done (weights, w)
     /\ TRT_ShapedWeights.type_ weights = DT_HALF
     /\ load_unsigned 2 (TRT_ShapedWeights.values weights) 1 = 6)
  /\ ConvertFP32ToFP16 (example_weights DT_FLOAT [2; -1] [])
       (mkWorld p example_network)
     = Crash CheckFailed.
Proof.
  intros p weights_src. split.
  - destruct (ConvertFP32ToFP16_spec p example_network weights_src)
      as (Hrun & _).
    destruct Hrun as (weights & Hrun & Htype & _ & _ & Hload).
    + example_wf.
    + repeat constructor; lia.
    + by vm_compute.
    + eexists weights, _. split; [exact Hrun|]. split; [exact Htype|].
      exact (Hload 1 ltac:(vm_compute; intuition congruence)).
  - apply (ConvertFP32ToFP16_spec p example_network
             (example_weights DT_FLOAT [2; -1] [])).
    intros Hall. inversion Hall as [|? ? _ Hrest].
    inversion Hrest as [|? ? Hneg _]. lia.
Defined.

Lemma ConvertGraphDefToEngine_outcome_witness :
  let gdef :=
    [mkNodeDef "n" "Unknown" [] ∅;
     mkNodeDef "TensorRTOutputPH_x" "Identity" [] ∅] in
  ConvertGraphDefToEngine gdef 0 8 1024 [] 0 0
    (mkBuilder 0 0 0 false false 0) (Some true)
  = Done (errors.Unimplemented "No converter registered for op: Unknown",
          None, Some false).
Proof.
  intros gdef.
  destruct (ConvertGraphDefToEngine_outcome gdef 0 8 1024 [] 0 0
              (mkBuilder 0 0 0 false false 0) (Some true))
    as (_ & Hstops & _).
  set (start := (Converter_new false, nvinfer1.empty_network)).
  apply (Hstops eq_refl [] (mkNodeDef "n" "Unknown" [] ∅)
           [mkNodeDef "TensorRTOutputPH_x" "Identity" [] ∅]
           Status_OK [] start
           (errors.Unimplemented "No converter registered for op: Unknown")
           [] start eq_refl eq_refl eq_refl);
    [vm_compute; reflexivity | reflexivity].
Defined.

Lemma GetInputs_spec_witness :
  let this :=
    mkConverter false 4 {["x" := example_tensor]} TrtWeightStore.empty in
  GetInputs (mkNodeDef "n" "Relu" ["x:0"; "^init"] ∅) [] this
  = Done ((Status_OK, [example_tensor]), this)
  /\ exists msg,
       GetInputs (mkNodeDef "n" "AddN" ["x"; "y"; "x"] ∅) [] this
       = Done ((errors.InvalidArgument msg, [example_tensor]), this).
Proof.
  intros this. split.
  - apply (proj1 (GetInputs_spec this
                    (mkNodeDef "n" "Relu" ["x:0"; "^init"] ∅) [])
             [example_tensor]).
    repeat constructor.
  - apply (proj2 (GetInputs_spec this
                    (mkNodeDef "n" "AddN" ["x"; "y"; "x"] ∅) [])
             ["x"] "y" ["x"] [example_tensor]);
      [reflexivity | repeat constructor | reflexivity].
Defined.

Lemma ConvertNode_rejections_witness :
  let this :=
    mkConverter false 4 {["x" := example_tensor]} TrtWeightStore.empty in
  (exists msg,
     ConvertNode (mkNodeDef "n" "Relu" ["y"] ∅) (this, example_network)
     = Done (errors.InvalidArgument msg, (this, example_network)))
  /\ ConvertNode (mkNodeDef "n" "Unknown" ["x"] ∅) (this, example_network)
     = Done (errors.Unimplemented "No converter registered for op: Unknown",
             (this, example_network)).
Proof.
  intros this. split.
  - apply (proj1 (ConvertNode_rejections this example_network
                    (mkNodeDef "n" "Relu" ["y"] ∅))
             [] "y" [] []); [reflexivity | constructor | reflexivity].
  - apply (proj2 (ConvertNode_rejections this example_network
                    (mkNodeDef "n" "Unknown" ["x"] ∅))
             [example_tensor]); [repeat constructor | reflexivity..].
Defined.

Lemma ConvertTranspose_accepted_is_built_witness :
  let inputs :=
    [example_tensor;
     TRT_TensorOrWeights.of_weights
       (example_weights DT_INT32 [4] [0; 2; 1; 3])] in
  let node := mkNodeDef "t" "Transpose" ["x"; "perm"] ∅ in
  let pv := mkParams None node inputs None true TrtWeightStore.empty in
  let pc :=
    mkParams (Some (mkConverter false 4 ∅ TrtWeightStore.empty)) node inputs
             (Some []) false TrtWeightStore.empty in
  ConvertTranspose (mkWorld pv example_network)
  = Done (Status_OK, mkWorld pv example_network)
  /\ ConvertTranspose (mkWorld pc example_network)
     = Done (Status_OK,
             with_output pc []
               (TRT_TensorOrWeights.of_tensor (Some 2%nat)
                  TRT_TensorOrWeights.unknown_batch_size)
               (with_configured_layer example_network
                  (nvinfer1.IShuffleLayer 0 None None)
                  (nvinfer1.IShuffleLayer 0 (Some [1; 0; 2])
                     (Some (zero_reshape_dims 3))))).
Proof.
  intros inputs node pv pc.
  assert (Hv : ConvertTranspose (mkWorld pv example_network)
               = Done (Status_OK, mkWorld pv example_network))
    by (vm_compute; reflexivity).
  split; [exact Hv|].
  destruct (ConvertTranspose_accepted_is_built pv pc example_network
              (mkConverter false 4 ∅ TrtWeightStore.empty) [] Status_OK
              (mkWorld pv example_network)
              eq_refl eq_refl eq_refl eq_refl eq_refl Hv eq_refl)
    as (_ & _ & input0 & input1 & t & Hin & Ht & Hbuilt & _).
  injection Hin as <- <-. injection Ht as <-.
  exact (Hbuilt eq_refl).
Defined.

Lemma ConvertConst_single_value_witness :
  let proto := mkTensorProto DT_INT8 [2; 3] [] [7] [] [] in
  let node :=
    mkNodeDef "c" "Const" []
      (<["dtype" := attr_type DT_INT8]> {["value" := attr_tensor proto]}) in
  let w :=
    mkWorld (mkParams None node [] (Some []) false TrtWeightStore.empty)
            example_network in
  exists weights w',
    ConvertConst w = Done (Status_OK, w')
    /\ outputs (params w') = Some [TRT_TensorOrWeights.of_weights weights]
    /\ network w' = example_network
    /\ TRT_ShapedWeights.type_ weights = DT_INT32
    /\ extents (TRT_ShapedWeights.shape_ weights) = [2; 3]
    /\ load_unsigned 4 (TRT_ShapedWeights.values weights) 5 = 7.
Proof.
  intros proto node w.
  destruct (ConvertConst_single_value w DT_INT8 proto [2; 3] 7 []
              eq_refl eq_refl
              ltac:(apply list_elem_of_In; simpl; tauto)
              eq_refl eq_refl ltac:(simpl; lia)
              ltac:(repeat constructor; lia) eq_refl
              (or_intror (conj eq_refl eq_refl)) eq_refl eq_refl)
    as (weights & Hrun & Htype & _ & Hextents & Hload).
  eexists weights, _. split; [exact Hrun|].
  split; [reflexivity|]. split; [reflexivity|].
  split; [exact Htype|]. split; [exact Hextents|].
  exact (Hload 5 ltac:(vm_compute; intuition congruence)).
Defined.

Lemma BinaryTensorOpTensor_same_shape_witness :
  let p :=
    mkParams (Some (mkConverter false 4 ∅ TrtWeightStore.empty))
      (mkNodeDef "sum" "Add" ["x"; "x"] {["T" := attr_type DT_FLOAT]})
      [example_tensor; example_tensor] (Some []) false
      TrtWeightStore.empty in
  BinaryTensorOpTensor example_tensor example_tensor
    (mkWorld p example_network)
  = Done (Status_OK,
          with_output p []
            (TRT_TensorOrWeights.of_tensor (Some 2%nat)
               TRT_TensorOrWeights.unknown_batch_size)
            (with_layer example_network
               (nvinfer1.IElementWiseLayer 0 0 nvinfer1.kSUM))).
Proof.
  intros p.
  destruct (BinaryTensorOpTensor_same_shape (mkWorld p example_network)
              example_tensor example_tensor 0 0
              (mkConverter false 4 ∅ TrtWeightStore.empty) []
              nvinfer1.kFLOAT
              eq_refl eq_refl eq_refl eq_refl eq_refl eq_refl
              ltac:(simpl; lia) ltac:(simpl; lia)
              ltac:(example_wf) ltac:(example_wf)
              eq_refl eq_refl eq_refl eq_refl eq_refl)
    as (_ & Hop).
  destruct (Hop nvinfer1.kSUM eq_refl) as (Hadded & _).
  exact (Hadded eq_refl).
Defined.



End Examples.
